(** * Chat-Sphere: the realtime conversation core

    A shallow embedding of the storage layer ([MemStorage] and
    [DatabaseStorage] behind the [IStorage] interface), of the
    friend-request route and of the typing-indicator protocol of the
    socket gateway, with the properties of the specification stated and
    proved over it.

    Conventions of the embedding.
    - Identifiers ([varchar] ids, uuids) are [string]s.
    - A [Date] is its number of milliseconds since the epoch, a [Z];
      comparing two dates compares these numbers.
    - [new Date()] and [crypto.randomUUID()] read the environment.  Every
      operation that uses them takes an [Env]: the clock reading [now] and
      the sequence [uuid] of the identifiers drawn during the call; all
      clock readings taken during one storage call are the single instant
      [now].
    - A JavaScript [Map] iterates in insertion order and the code relies on
      it ([find] over [values()]), so a [Map] is an association list kept
      in insertion order.
    - A table of the relational backend is the list of its rows in
      insertion order; a [select] filters it, [limit(1)] keeps the first
      row found.  PostgreSQL promises no order for a [select] without
      [ORDER BY] (an updated row may be returned after the others); the
      order of the list is the model's.  Constraint violations raised by
      the database itself (primary and foreign keys) make the storage
      call throw; they are outside the model, and where a property
      depends on them they appear as hypotheses on the state.
    - The columns of the schema are [timestamp] without time zone.
      drizzle writes a [Date] into them as its UTC wall clock and reads
      it back the same way, and the session of the database is taken to
      run in UTC, so a stored date is the instant it was taken at.  A
      [Date] that reaches the driver as a raw query parameter is written
      by node-postgres in the local time of the process instead: see
      [PgDriver]. *)

From Stdlib Require Import Ascii String List ZArith Bool Arith Lia Permutation
  Sorted.
Import ListNotations.
Local Open Scope string_scope.
Local Open Scope list_scope.
Local Open Scope Z_scope.

Set Implicit Arguments.

(** ** Data model (shared/schema.ts) *)

Definition Date := Z.

Inductive RequestStatus := pending | accepted | rejected.

Definition RequestStatus_eqb (a b : RequestStatus) : bool :=
  match a, b with
  | pending, pending | accepted, accepted | rejected, rejected => true
  | _, _ => false
  end.

(** The argument type ["accepted" | "rejected"] of
    [updateFriendRequestStatus]. *)
Inductive UpdateStatus := to_accepted | to_rejected.

Definition status_of (s : UpdateStatus) : RequestStatus :=
  match s with to_accepted => accepted | to_rejected => rejected end.

Module User.
Record t := mk {
  id : string;
  username : string;
  password : string;
  displayName : string;
  avatarColor : string;
  isOnline : bool;
  lastSeen : option Date;
  createdAt : Date
}.
(** [user.isOnline = isOnline; user.lastSeen = new Date()] *)
Definition with_presence (online : bool) (seen : option Date) (u : t) : t :=
  mk (id u) (username u) (password u) (displayName u) (avatarColor u) online
    seen (createdAt u).
End User.

Module Conversation.
Record t := mk {
  id : string;
  name : option string;
  isGroup : bool;
  createdAt : Date;
  lastMessageAt : option Date
}.
Definition with_lastMessageAt (d : option Date) (c : t) : t :=
  mk (id c) (name c) (isGroup c) (createdAt c) d.
End Conversation.

Module ConversationParticipant.
Record t := mk {
  id : string;
  conversationId : string;
  userId : string;
  joinedAt : Date;
  lastReadAt : option Date
}.
Definition with_lastReadAt (d : option Date) (p : t) : t :=
  mk (id p) (conversationId p) (userId p) (joinedAt p) d.
End ConversationParticipant.

Module Message.
Record t := mk {
  id : string;
  conversationId : string;
  senderId : option string;
  content : string;
  isSystem : bool;
  createdAt : Date
}.
End Message.

Module FriendRequest.
Record t := mk {
  id : string;
  senderId : string;
  receiverId : string;
  status : RequestStatus;
  createdAt : Date
}.
Definition with_status (s : RequestStatus) (r : t) : t :=
  mk (id r) (senderId r) (receiverId r) s (createdAt r).
(** [{ status: "pending", senderId, receiverId, createdAt: new Date() }]
    written over a record: every field but [id]. *)
Definition reopened (sender receiver : string) (d : Date) (r : t) : t :=
  mk (id r) sender receiver pending d.
End FriendRequest.

(** [InsertMessage]: what [createMessage] receives.  A field the caller
    leaves out ([senderId] of a system message, [isSystem] of an ordinary
    one) is [None], respectively [false]. *)
Module InsertMessage.
Record t := mk {
  conversationId : string;
  senderId : option string;
  content : string;
  isSystem : bool
}.
End InsertMessage.

Module CreateConversationRequest.
Record t := mk {
  participantIds : list string;
  isGroup : bool;
  name : option string
}.
End CreateConversationRequest.

(** [MessageWithSender]: [sender] is [undefined] for a system message. *)
Module MessageWithSender.
Record t := mk {
  message : Message.t;
  sender : option User.t
}.
End MessageWithSender.

(** [FriendRequestWithSender] *)
Module FriendRequestWithSender.
Record t := mk {
  request : FriendRequest.t;
  sender : User.t
}.
End FriendRequestWithSender.

(** [ConversationWithDetails]: the conversation, its participants, its
    last message if it has one to show, and the caller's unread count. *)
Module ConversationWithDetails.
Record t := mk {
  conversation : Conversation.t;
  participants : list User.t;
  lastMessage : option MessageWithSender.t;
  unreadCount : nat
}.
End ConversationWithDetails.

(** The environment one call reads: [new Date()] and the successive
    results of [crypto.randomUUID()]. *)
Record Env := mkEnv {
  now : Date;
  uuid : nat -> string
}.

(** A JavaScript string is truthy unless it is empty. *)
Definition truthy (s : string) : bool := negb (String.eqb s EmptyString).

(** ** JavaScript arrays and maps *)

Module JsArray.

Section Ops.
Variable A : Type.

(** [l.slice(start)] for an integer [start]: a negative [start] counts
    from the end, and the result is clamped to the array. *)
Definition slice (start : Z) (l : list A) : list A :=
  let len := Z.of_nat (length l) in
  let k := if start <? 0 then Z.max (len + start) 0 else Z.min start len in
  skipn (Z.to_nat k) l.

(** Assignment to a field of the object that [l.find(p)] returns: the
    first element satisfying [p] is changed in place. *)
Fixpoint update_first (p : A -> bool) (f : A -> A) (l : list A) : list A :=
  match l with
  | [] => []
  | x :: r => if p x then f x :: r else x :: update_first p f r
  end.

(** [l.map(f).filter(x => !!x)] where [f] may give [undefined]. *)
Fixpoint defined (l : list (option A)) : list A :=
  match l with
  | [] => []
  | Some x :: r => x :: defined r
  | None :: r => defined r
  end.

End Ops.

(** [l.includes(x)] on an array of strings. *)
Definition includes (x : string) (l : list string) : bool :=
  existsb (String.eqb x) l.

(** [[...new Set(l)]]: the distinct elements in order of first
    occurrence. *)
Fixpoint unique_from (seen l : list string) : list string :=
  match l with
  | [] => []
  | x :: r =>
      if includes x seen then unique_from seen r
      else x :: unique_from (x :: seen) r
  end.

Definition unique (l : list string) : list string := unique_from [] l.

Section Sorting.
Variable A : Type.

(** [before m x]: [m] is to stand before [x] when the two meet. *)
Variable before : A -> A -> bool.

Fixpoint insertBy (m : A) (l : list A) : list A :=
  match l with
  | [] => [m]
  | x :: r => if before m x then m :: x :: r else x :: insertBy m r
  end.

(** [l.sort(compare)] and [orderBy]: a stable sort, elements that compare
    equal keep the order they have in [l]. *)
Fixpoint sortBy (l : list A) : list A :=
  match l with
  | [] => []
  | m :: r => insertBy m (sortBy r)
  end.

(** [l[l.length - 1]] *)
Fixpoint lastOf (l : list A) : option A :=
  match l with
  | [] => None
  | [x] => Some x
  | _ :: r => lastOf r
  end.

End Sorting.

End JsArray.

Module JsMap.

Definition t (V : Type) := list (string * V).

Section Ops.
Variable V : Type.

Definition empty : t V := [].

Fixpoint get (k : string) (m : t V) : option V :=
  match m with
  | [] => None
  | (k', v) :: r => if String.eqb k k' then Some v else get k r
  end.

Definition has (k : string) (m : t V) : bool :=
  match get k m with Some _ => true | None => false end.

(** [m.set(k, v)]: an existing key keeps its place, a new key goes to
    the end. *)
Fixpoint set (k : string) (v : V) (m : t V) : t V :=
  match m with
  | [] => [(k, v)]
  | (k', v') :: r =>
      if String.eqb k k' then (k', v) :: r else (k', v') :: set k v r
  end.

Fixpoint delete (k : string) (m : t V) : t V :=
  match m with
  | [] => []
  | (k', v') :: r =>
      if String.eqb k k' then r else (k', v') :: delete k r
  end.

Definition keys (m : t V) : list string := map fst m.
Definition values (m : t V) : list V := map snd m.

(** Assignment to fields of the object stored under [k] (the object that
    [m.get(k)] returns is changed in place); nothing happens when [k] is
    absent. *)
Fixpoint mutate (k : string) (f : V -> V) (m : t V) : t V :=
  match m with
  | [] => []
  | (k', v) :: r =>
      if String.eqb k k' then (k', f v) :: r else (k', v) :: mutate k f r
  end.

(** Assignment to fields of the object that
    [Array.from(m.values()).find(p)] returns. *)
Fixpoint mutate_found (p : V -> bool) (f : V -> V) (m : t V) : t V :=
  match m with
  | [] => []
  | (k, v) :: r =>
      if p v then (k, f v) :: r else (k, v) :: mutate_found p f r
  end.

End Ops.

(** [m.get(k) || []] *)
Definition get_or_nil (A : Type) (k : string) (m : t (list A)) : list A :=
  match get k m with Some l => l | None => [] end.

End JsMap.

(** The loop shared by both [getMessagesByConversationId]: a system
    message is kept without sender, another message is kept only when its
    sender resolves to a user. *)
Fixpoint attachSenders (getUserById : string -> option User.t)
    (l : list Message.t) : list MessageWithSender.t :=
  match l with
  | [] => []
  | m :: r =>
      if Message.isSystem m then
        MessageWithSender.mk m None :: attachSenders getUserById r
      else
        match
          match Message.senderId m with
          | Some s => getUserById s
          | None => None
          end
        with
        | Some sender =>
            MessageWithSender.mk m (Some sender) :: attachSenders getUserById r
        | None => attachSenders getUserById r
        end
  end.

(** The sender returned by [createMessage]. *)
Definition createdSender (getUserById : string -> option User.t)
    (m : Message.t) : option User.t :=
  if Message.isSystem m then None
  else match Message.senderId m with
       | Some s => if truthy s then getUserById s else None
       | None => None
       end.

(** The predicate of [sendFriendRequest]: a record between the two users,
    in either direction. *)
Definition betweenPair (senderId receiverId : string)
    (r : FriendRequest.t) : bool :=
  (String.eqb (FriendRequest.senderId r) senderId
     && String.eqb (FriendRequest.receiverId r) receiverId)
  || (String.eqb (FriendRequest.senderId r) receiverId
     && String.eqb (FriendRequest.receiverId r) senderId).

(** ** MemStorage (server/storage.ts) *)

Module MemStorage.

Record State := mkState {
  users : JsMap.t User.t;
  conversations : JsMap.t Conversation.t;
  conversationParticipants : JsMap.t (list ConversationParticipant.t);
  messages : JsMap.t (list Message.t);
  friendRequests : JsMap.t FriendRequest.t
}.

Definition empty : State := mkState [] [] [] [] [].

Definition with_conversations (x : JsMap.t Conversation.t) (st : State) :=
  mkState (users st) x (conversationParticipants st) (messages st)
    (friendRequests st).

Definition with_conversationParticipants
    (x : JsMap.t (list ConversationParticipant.t)) (st : State) :=
  mkState (users st) (conversations st) x (messages st) (friendRequests st).

Definition with_messages (x : JsMap.t (list Message.t)) (st : State) :=
  mkState (users st) (conversations st) (conversationParticipants st) x
    (friendRequests st).

Definition with_friendRequests (x : JsMap.t FriendRequest.t) (st : State) :=
  mkState (users st) (conversations st) (conversationParticipants st)
    (messages st) x.

Definition getUserById (st : State) (id : string) : option User.t :=
  JsMap.get id (users st).

Definition getConversationById (st : State) (id : string)
    : option Conversation.t :=
  JsMap.get id (conversations st).

Definition addParticipant (st : State) (conversationId userId : string)
    (rowId : string) (now : Date) : State :=
  let participants :=
    JsMap.get_or_nil conversationId (conversationParticipants st) in
  let row :=
    ConversationParticipant.mk rowId conversationId userId now (Some now) in
  with_conversationParticipants
    (JsMap.set conversationId (participants ++ [row])
       (conversationParticipants st))
    st.

(** The loop [for (const userId of data.participantIds)] of
    [createConversation]; [k] counts the uuids already drawn. *)
Fixpoint addParticipants (st : State) (conversationId : string)
    (userIds : list string) (e : Env) (k : nat) : State :=
  match userIds with
  | [] => st
  | userId :: rest =>
      addParticipants
        (addParticipant st conversationId userId (uuid e k) (now e))
        conversationId rest e (S k)
  end.

Definition createConversation (st : State)
    (data : CreateConversationRequest.t) (creatorId : string) (e : Env)
    : Conversation.t * State :=
  let conv :=
    Conversation.mk (uuid e 0%nat)
      (match CreateConversationRequest.name data with
       | Some n => if truthy n then Some n else None
       | None => None
       end)
      (CreateConversationRequest.isGroup data) (now e) (Some (now e)) in
  let st1 :=
    with_conversations
      (JsMap.set (Conversation.id conv) conv (conversations st)) st in
  let st2 :=
    addParticipant st1 (Conversation.id conv) creatorId (uuid e 1%nat)
      (now e) in
  (conv,
   addParticipants st2 (Conversation.id conv)
     (CreateConversationRequest.participantIds data) e 2%nat).

Definition getConversationParticipants (st : State) (conversationId : string)
    : list User.t :=
  let participants :=
    JsMap.get_or_nil conversationId (conversationParticipants st) in
  JsArray.defined
    (map (fun p => JsMap.get (ConversationParticipant.userId p) (users st))
       participants).

Definition isUserInConversation (st : State) (userId conversationId : string)
    : bool :=
  let participants :=
    JsMap.get_or_nil conversationId (conversationParticipants st) in
  existsb (fun p => String.eqb (ConversationParticipant.userId p) userId)
    participants.

Definition markConversationAsRead (st : State)
    (userId conversationId : string) (now : Date) : State :=
  with_conversationParticipants
    (JsMap.mutate conversationId
       (JsArray.update_first
          (fun p => String.eqb (ConversationParticipant.userId p) userId)
          (ConversationParticipant.with_lastReadAt (Some now)))
       (conversationParticipants st))
    st.

Definition getUnreadCount (st : State) (userId conversationId : string)
    : nat :=
  let participants :=
    JsMap.get_or_nil conversationId (conversationParticipants st) in
  match
    find (fun p => String.eqb (ConversationParticipant.userId p) userId)
      participants
  with
  | None => 0%nat
  | Some p =>
      let convMessages := JsMap.get_or_nil conversationId (messages st) in
      let lastReadAt :=
        match ConversationParticipant.lastReadAt p with
        | Some d => d
        | None => 0
        end in
      length
        (filter (fun m => lastReadAt <? Message.createdAt m) convMessages)
  end.

Definition updateConversationLastMessage (st : State)
    (conversationId : string) (now : Date) : State :=
  with_conversations
    (JsMap.mutate conversationId
       (Conversation.with_lastMessageAt (Some now)) (conversations st))
    st.

Definition getMessagesByConversationId (st : State) (conversationId : string)
    (limit : Z) : list MessageWithSender.t :=
  let convMessages := JsMap.get_or_nil conversationId (messages st) in
  let limitedMessages := JsArray.slice (- limit) convMessages in
  attachSenders (getUserById st) limitedMessages.

Definition createMessage (st : State) (data : InsertMessage.t) (e : Env)
    : MessageWithSender.t * State :=
  let message :=
    Message.mk (uuid e 0%nat) (InsertMessage.conversationId data)
      (InsertMessage.senderId data) (InsertMessage.content data)
      (InsertMessage.isSystem data) (now e) in
  let convMessages :=
    JsMap.get_or_nil (InsertMessage.conversationId data) (messages st) in
  let st1 :=
    with_messages
      (JsMap.set (InsertMessage.conversationId data)
         (convMessages ++ [message]) (messages st))
      st in
  let st2 :=
    updateConversationLastMessage st1 (InsertMessage.conversationId data)
      (now e) in
  (MessageWithSender.mk message (createdSender (getUserById st2) message),
   st2).

(** The test of the loop of [findOrCreatePrivateConversation]. *)
Definition isPrivateOf (st : State) (userId1 userId2 : string)
    (conv : Conversation.t) : bool :=
  negb (Conversation.isGroup conv)
  && (let participants :=
        JsMap.get_or_nil (Conversation.id conv)
          (conversationParticipants st) in
      let userIds := map ConversationParticipant.userId participants in
      Nat.eqb (length userIds) 2
      && JsArray.includes userId1 userIds
      && JsArray.includes userId2 userIds).

Definition findOrCreatePrivateConversation (st : State)
    (userId1 userId2 : string) (e : Env) : Conversation.t * State :=
  let allConvs := JsMap.values (conversations st) in
  match find (isPrivateOf st userId1 userId2) allConvs with
  | Some conv => (conv, st)
  | None =>
      createConversation st
        (CreateConversationRequest.mk [userId2] false None) userId1 e
  end.

Definition sendFriendRequest (st : State) (senderId receiverId : string)
    (e : Env) : FriendRequest.t * State :=
  match
    find (betweenPair senderId receiverId)
      (JsMap.values (friendRequests st))
  with
  | Some existing =>
      match FriendRequest.status existing with
      | rejected =>
          let reopen :=
            FriendRequest.reopened senderId receiverId (now e) in
          let updated := reopen existing in
          let requests :=
            JsMap.mutate_found (betweenPair senderId receiverId) reopen
              (friendRequests st) in
          (updated,
           with_friendRequests
             (JsMap.set (FriendRequest.id updated) updated requests) st)
      | _ => (existing, st)
      end
  | None =>
      let request :=
        FriendRequest.mk (uuid e 0%nat) senderId receiverId pending (now e) in
      (request,
       with_friendRequests
         (JsMap.set (FriendRequest.id request) request (friendRequests st))
         st)
  end.

Definition updateFriendRequestStatus (st : State) (requestId : string)
    (status : UpdateStatus) : State :=
  with_friendRequests
    (JsMap.mutate requestId (FriendRequest.with_status (status_of status))
       (friendRequests st))
    st.

Definition getFriendRequestById (st : State) (requestId : string)
    : option FriendRequest.t :=
  JsMap.get requestId (friendRequests st).

(** *** Users *)

Definition with_users (x : JsMap.t User.t) (st : State) :=
  mkState x (conversations st) (conversationParticipants st) (messages st)
    (friendRequests st).

Definition getUserByUsername (st : State) (username : string)
    : option User.t :=
  find (fun u => String.eqb (User.username u) username)
    (JsMap.values (users st)).

Definition createUser (st : State)
    (username hashedPassword displayName avatarColor : string) (e : Env)
    : User.t * State :=
  let user :=
    User.mk (uuid e 0%nat) username hashedPassword displayName avatarColor
      false (Some (now e)) (now e) in
  (user, with_users (JsMap.set (User.id user) user (users st)) st).

Definition updateUserOnlineStatus (st : State) (userId : string)
    (isOnline : bool) (now : Date) : State :=
  with_users
    (JsMap.mutate userId (User.with_presence isOnline (Some now)) (users st))
    st.

Definition getAllUsers (st : State) : list User.t := JsMap.values (users st).

(** [trim] is [String.prototype.trim]. *)
Definition searchUsers (trim : string -> string) (st : State)
    (query excludeUserId : string) : list User.t :=
  let trimmedQuery := trim query in
  if negb (truthy trimmedQuery) then []
  else
    match
      find
        (fun u =>
           negb (String.eqb (User.id u) excludeUserId)
           && String.eqb (User.username u) trimmedQuery)
        (JsMap.values (users st))
    with
    | Some user => [user]
    | None => []
    end.

(** *** Friend requests *)

Definition getFriendRequests (st : State) (userId : string)
    : list FriendRequestWithSender.t :=
  let requests :=
    JsArray.sortBy
      (fun a b => FriendRequest.createdAt b <=? FriendRequest.createdAt a)
      (filter
         (fun r =>
            String.eqb (FriendRequest.receiverId r) userId
            && RequestStatus_eqb (FriendRequest.status r) pending)
         (JsMap.values (friendRequests st))) in
  JsArray.defined
    (map
       (fun req =>
          match getUserById st (FriendRequest.senderId req) with
          | Some sender => Some (FriendRequestWithSender.mk req sender)
          | None => None
          end)
       requests).

Definition getSentFriendRequests (st : State) (userId : string)
    : list FriendRequest.t :=
  filter (fun r => String.eqb (FriendRequest.senderId r) userId)
    (JsMap.values (friendRequests st)).

Definition areFriends (st : State) (userId1 userId2 : string) : bool :=
  existsb
    (fun r =>
       RequestStatus_eqb (FriendRequest.status r) accepted
       && ((String.eqb (FriendRequest.senderId r) userId1
            && String.eqb (FriendRequest.receiverId r) userId2)
           || (String.eqb (FriendRequest.senderId r) userId2
               && String.eqb (FriendRequest.receiverId r) userId1)))
    (JsMap.values (friendRequests st)).

(** *** The conversation list *)

(** [lastMessageWithSender] of [getConversationsByUserId]. *)
Definition lastMessageWithSender (st : State) (convMessages : list Message.t)
    : option MessageWithSender.t :=
  match JsArray.lastOf convMessages with
  | None => None
  | Some lastMessage =>
      if Message.isSystem lastMessage then
        Some (MessageWithSender.mk lastMessage None)
      else
        match Message.senderId lastMessage with
        | Some s =>
            if truthy s then
              match getUserById st s with
              | Some sender =>
                  Some (MessageWithSender.mk lastMessage (Some sender))
              | None => None
              end
            else None
        | None => None
        end
  end.

(** [(b.lastMessageAt?.getTime() || 0) - (a.lastMessageAt?.getTime() || 0)] *)
Definition lastActivity (c : Conversation.t) : Z :=
  match Conversation.lastMessageAt c with Some d => d | None => 0 end.

Definition getConversationsByUserId (st : State) (userId : string)
    : list ConversationWithDetails.t :=
  let convIds :=
    map fst
      (filter
         (fun entry =>
            existsb
              (fun p => String.eqb (ConversationParticipant.userId p) userId)
              (snd entry))
         (conversationParticipants st)) in
  let result :=
    flat_map
      (fun id =>
         match JsMap.get id (conversations st) with
         | Some conv =>
             [ConversationWithDetails.mk conv
                (getConversationParticipants st id)
                (lastMessageWithSender st (JsMap.get_or_nil id (messages st)))
                (getUnreadCount st userId id)]
         | None => []
         end)
      convIds in
  JsArray.sortBy
    (fun a b =>
       lastActivity (ConversationWithDetails.conversation b)
       <=? lastActivity (ConversationWithDetails.conversation a))
    result.

End MemStorage.

(** ** DatabaseStorage (server/storage.ts) *)

(** [orderBy(desc(messages.createdAt))]: rows by decreasing timestamp.
    SQL leaves the order of rows with equal timestamps open; the model
    keeps them in table order. *)
Fixpoint insertDesc (m : Message.t) (l : list Message.t) : list Message.t :=
  match l with
  | [] => [m]
  | x :: r =>
      if Message.createdAt x <=? Message.createdAt m then m :: x :: r
      else x :: insertDesc m r
  end.

Fixpoint orderByDesc (l : list Message.t) : list Message.t :=
  match l with
  | [] => []
  | m :: r => insertDesc m (orderByDesc r)
  end.

(** node-postgres writes a [Date] parameter with the local getters of the
    process and appends the offset ([dateToString] of pg/lib/utils.js):
    ["1970-01-01T01:00:02.000+01:00"].  Compared with, or cast to, a
    [timestamp] without time zone, PostgreSQL drops the offset of such a
    literal, and what is left is the local wall clock.  [utcOffset d] is
    what local time is ahead of UTC at [d], in milliseconds
    ([-d.getTimezoneOffset()] minutes); it is 0 at every date when the
    process runs in UTC. *)
Module PgDriver.

Definition utc : Date -> Z := fun _ => 0.

(** The zone that is [minutes] ahead of UTC all year. *)
Definition fixedZone (minutes : Z) : Date -> Z := fun _ => minutes * 60000.

(** The [timestamp] a raw [Date] parameter is read as. *)
Definition timestampOfParam (utcOffset : Date -> Z) (d : Date) : Date :=
  d + utcOffset d.

End PgDriver.

Module DatabaseStorage.

Record State := mkState {
  users : list User.t;
  conversations : list Conversation.t;
  conversationParticipants : list ConversationParticipant.t;
  messages : list Message.t;
  friendRequests : list FriendRequest.t
}.

Definition empty : State := mkState [] [] [] [] [].

Definition with_conversations (x : list Conversation.t) (st : State) :=
  mkState (users st) x (conversationParticipants st) (messages st)
    (friendRequests st).

Definition with_conversationParticipants
    (x : list ConversationParticipant.t) (st : State) :=
  mkState (users st) (conversations st) x (messages st) (friendRequests st).

Definition with_messages (x : list Message.t) (st : State) :=
  mkState (users st) (conversations st) (conversationParticipants st) x
    (friendRequests st).

Definition with_friendRequests (x : list FriendRequest.t) (st : State) :=
  mkState (users st) (conversations st) (conversationParticipants st)
    (messages st) x.

(** The [where] clause [and(eq(userId, u), eq(conversationId, c))]. *)
Definition membershipOf (userId conversationId : string)
    (p : ConversationParticipant.t) : bool :=
  String.eqb (ConversationParticipant.userId p) userId
  && String.eqb (ConversationParticipant.conversationId p) conversationId.

Definition getUserById (st : State) (id : string) : option User.t :=
  find (fun u => String.eqb (User.id u) id) (users st).

Definition getConversationById (st : State) (id : string)
    : option Conversation.t :=
  find (fun c => String.eqb (Conversation.id c) id) (conversations st).

(** The [insert] of a membership row, for a [userId] that is the id of a
    stored user; for another [userId] the foreign key of the column makes
    the real call throw. *)
Definition addParticipant (st : State) (conversationId userId : string)
    (rowId : string) (now : Date) : State :=
  with_conversationParticipants
    (conversationParticipants st
       ++ [ConversationParticipant.mk rowId conversationId userId now
             (Some now)])
    st.

(** The loop [for (const participantId of uniqueParticipantIds)]. *)
Fixpoint addParticipants (st : State) (conversationId : string)
    (userIds : list string) (e : Env) (k : nat) : State :=
  match userIds with
  | [] => st
  | userId :: rest =>
      addParticipants
        (addParticipant st conversationId userId (uuid e k) (now e))
        conversationId rest e (S k)
  end.

(** [createConversation] when the creator and the listed ids are ids of
    stored users.  With an id that is not, the real call throws in the
    loop, after the conversation and the rows before that id are
    written. *)
Definition createConversation (st : State)
    (data : CreateConversationRequest.t) (creatorId : string) (e : Env)
    : Conversation.t * State :=
  let conversation :=
    Conversation.mk (uuid e 0%nat) (CreateConversationRequest.name data)
      (CreateConversationRequest.isGroup data) (now e) (Some (now e)) in
  let st1 := with_conversations (conversations st ++ [conversation]) st in
  let allParticipantIds :=
    CreateConversationRequest.participantIds data ++ [creatorId] in
  let uniqueParticipantIds := JsArray.unique allParticipantIds in
  (conversation,
   addParticipants st1 (Conversation.id conversation) uniqueParticipantIds
     e 1%nat).

Definition getConversationParticipants (st : State) (conversationId : string)
    : list User.t :=
  let participants :=
    filter
      (fun p =>
         String.eqb (ConversationParticipant.conversationId p) conversationId)
      (conversationParticipants st) in
  let userIds := map ConversationParticipant.userId participants in
  match userIds with
  | [] => []
  | _ => filter (fun u => JsArray.includes (User.id u) userIds) (users st)
  end.

Definition isUserInConversation (st : State) (userId conversationId : string)
    : bool :=
  match
    find (membershipOf userId conversationId) (conversationParticipants st)
  with
  | Some _ => true
  | None => false
  end.

Definition markConversationAsRead (st : State)
    (userId conversationId : string) (now : Date) : State :=
  with_conversationParticipants
    (map
       (fun p =>
          if membershipOf userId conversationId p
          then ConversationParticipant.with_lastReadAt (Some now) p
          else p)
       (conversationParticipants st))
    st.

(** [sql`${messages.createdAt} > ${participant.lastReadAt}`]: the
    watermark is a raw parameter of the query, so the column is compared
    with the local wall clock of the watermark; the comparison with a
    NULL watermark is not true of any row. *)
Definition newerThan (utcOffset : Date -> Z) (lastReadAt : option Date)
    (m : Message.t) : bool :=
  match lastReadAt with
  | Some d => PgDriver.timestampOfParam utcOffset d <? Message.createdAt m
  | None => false
  end.

(** [utcOffset] is the time zone of the process, see [PgDriver]. *)
Definition getUnreadCount (utcOffset : Date -> Z) (st : State)
    (userId conversationId : string) : nat :=
  match
    find (membershipOf userId conversationId) (conversationParticipants st)
  with
  | None => 0%nat
  | Some participant =>
      length
        (filter
           (fun m =>
              String.eqb (Message.conversationId m) conversationId
              && newerThan utcOffset
                   (ConversationParticipant.lastReadAt participant) m)
           (messages st))
  end.

Definition updateConversationLastMessage (st : State)
    (conversationId : string) (now : Date) : State :=
  with_conversations
    (map
       (fun c =>
          if String.eqb (Conversation.id c) conversationId
          then Conversation.with_lastMessageAt (Some now) c
          else c)
       (conversations st))
    st.

(** drizzle writes the [LIMIT] clause for a number that is not negative
    and leaves it out otherwise: with a negative [limit] every message of
    the conversation is selected.  The call does not throw: the answer is
    always [Some]. *)
Definition getMessagesByConversationId (st : State) (conversationId : string)
    (limit : Z) : option (list MessageWithSender.t) :=
  let ordered :=
    orderByDesc
      (filter (fun m => String.eqb (Message.conversationId m) conversationId)
         (messages st)) in
  let messagesList :=
    if limit <? 0 then ordered else firstn (Z.to_nat limit) ordered in
  Some (attachSenders (getUserById st) (rev messagesList)).

Definition createMessage (st : State) (data : InsertMessage.t) (e : Env)
    : MessageWithSender.t * State :=
  let message :=
    Message.mk (uuid e 0%nat) (InsertMessage.conversationId data)
      (InsertMessage.senderId data) (InsertMessage.content data)
      (InsertMessage.isSystem data) (now e) in
  let st1 := with_messages (messages st ++ [message]) st in
  let st2 :=
    updateConversationLastMessage st1 (InsertMessage.conversationId data)
      (now e) in
  (MessageWithSender.mk message (createdSender (getUserById st2) message),
   st2).

(** The loop [for (const convId of commonConvIds)] of
    [findOrCreatePrivateConversation]. *)
Fixpoint firstPrivate (st : State) (commonConvIds : list string)
    : option Conversation.t :=
  match commonConvIds with
  | [] => None
  | convId :: rest =>
      match getConversationById st convId with
      | Some conversation =>
          if negb (Conversation.isGroup conversation)
             && Nat.eqb (length (getConversationParticipants st convId)) 2
          then Some conversation
          else firstPrivate st rest
      | None => firstPrivate st rest
      end
  end.

Definition commonConvIds (st : State) (userId1 userId2 : string)
    : list string :=
  let user1Conversations :=
    filter (fun p => String.eqb (ConversationParticipant.userId p) userId1)
      (conversationParticipants st) in
  let user2Conversations :=
    filter (fun p => String.eqb (ConversationParticipant.userId p) userId2)
      (conversationParticipants st) in
  let user1ConvIds :=
    map ConversationParticipant.conversationId user1Conversations in
  filter (fun id => JsArray.includes id user1ConvIds)
    (map ConversationParticipant.conversationId user2Conversations).

Definition findOrCreatePrivateConversation (st : State)
    (userId1 userId2 : string) (e : Env) : Conversation.t * State :=
  match firstPrivate st (commonConvIds st userId1 userId2) with
  | Some conversation => (conversation, st)
  | None =>
      createConversation st
        (CreateConversationRequest.mk [userId2] false None) userId1 e
  end.

(** [update(friendRequests).set(...).where(eq(id, existingId)).returning()]:
    the new table and the rows it returns.  The table is written with the
    updated row where it was; a later [select] of PostgreSQL may return
    it after the others. *)
Definition reopenById (existingId senderId receiverId : string) (d : Date)
    (rows : list FriendRequest.t)
    : list FriendRequest.t * list FriendRequest.t :=
  let hit r := String.eqb (FriendRequest.id r) existingId in
  let reopen := FriendRequest.reopened senderId receiverId d in
  (map (fun r => if hit r then reopen r else r) rows,
   map reopen (filter hit rows)).

Definition sendFriendRequest (st : State) (senderId receiverId : string)
    (e : Env) : FriendRequest.t * State :=
  match find (betweenPair senderId receiverId) (friendRequests st) with
  | Some existing =>
      match FriendRequest.status existing with
      | rejected =>
          let '(rows, returned) :=
            reopenById (FriendRequest.id existing) senderId receiverId
              (now e) (friendRequests st) in
          (* [existing] is a row of the table, so [returned] is not
             empty; each row it holds is [existing] reopened *)
          (hd (FriendRequest.reopened senderId receiverId (now e) existing)
             returned,
           with_friendRequests rows st)
      | _ => (existing, st)
      end
  | None =>
      let request :=
        FriendRequest.mk (uuid e 0%nat) senderId receiverId pending (now e) in
      (request, with_friendRequests (friendRequests st ++ [request]) st)
  end.

Definition updateFriendRequestStatus (st : State) (requestId : string)
    (status : UpdateStatus) : State :=
  with_friendRequests
    (map
       (fun r =>
          if String.eqb (FriendRequest.id r) requestId
          then FriendRequest.with_status (status_of status) r
          else r)
       (friendRequests st))
    st.

Definition getFriendRequestById (st : State) (requestId : string)
    : option FriendRequest.t :=
  find (fun r => String.eqb (FriendRequest.id r) requestId)
    (friendRequests st).

(** *** Users *)

Definition with_users (x : list User.t) (st : State) :=
  mkState x (conversations st) (conversationParticipants st) (messages st)
    (friendRequests st).

Definition getUserByUsername (st : State) (username : string)
    : option User.t :=
  find (fun u => String.eqb (User.username u) username) (users st).

Definition createUser (st : State)
    (username hashedPassword displayName avatarColor : string) (e : Env)
    : User.t * State :=
  let user :=
    User.mk (uuid e 0%nat) username hashedPassword displayName avatarColor
      false (Some (now e)) (now e) in
  (user, with_users (users st ++ [user]) st).

(** The table is written with the updated row where it was; a later
    [select] of PostgreSQL may return it after the others. *)
Definition updateUserOnlineStatus (st : State) (userId : string)
    (isOnline : bool) (now : Date) : State :=
  with_users
    (map
       (fun u =>
          if String.eqb (User.id u) userId
          then User.with_presence isOnline (Some now) u
          else u)
       (users st))
    st.

Definition getAllUsers (st : State) : list User.t := users st.

(** [trim] is [String.prototype.trim]. *)
Definition searchUsers (trim : string -> string) (st : State)
    (query excludeUserId : string) : list User.t :=
  let trimmedQuery := trim query in
  if negb (truthy trimmedQuery) then []
  else
    firstn 1
      (filter
         (fun u =>
            negb (String.eqb (User.id u) excludeUserId)
            && String.eqb (User.username u) trimmedQuery)
         (users st)).

(** *** Friend requests *)

Definition getFriendRequests (st : State) (userId : string)
    : list FriendRequestWithSender.t :=
  let requests :=
    JsArray.sortBy
      (fun a b => FriendRequest.createdAt b <=? FriendRequest.createdAt a)
      (filter
         (fun r =>
            String.eqb (FriendRequest.receiverId r) userId
            && RequestStatus_eqb (FriendRequest.status r) pending)
         (friendRequests st)) in
  JsArray.defined
    (map
       (fun req =>
          match getUserById st (FriendRequest.senderId req) with
          | Some sender => Some (FriendRequestWithSender.mk req sender)
          | None => None
          end)
       requests).

Definition getSentFriendRequests (st : State) (userId : string)
    : list FriendRequest.t :=
  filter (fun r => String.eqb (FriendRequest.senderId r) userId)
    (friendRequests st).

Definition areFriends (st : State) (userId1 userId2 : string) : bool :=
  match
    find
      (fun r =>
         RequestStatus_eqb (FriendRequest.status r) accepted
         && ((String.eqb (FriendRequest.senderId r) userId1
              && String.eqb (FriendRequest.receiverId r) userId2)
             || (String.eqb (FriendRequest.senderId r) userId2
                 && String.eqb (FriendRequest.receiverId r) userId1)))
      (friendRequests st)
  with
  | Some _ => true
  | None => false
  end.

(** *** The conversation list *)

(** [orderBy(desc(conversations.lastMessageAt))]: in descending order the
    database puts the rows without a [lastMessageAt] first. *)
Definition moreRecent (a b : Conversation.t) : bool :=
  match Conversation.lastMessageAt a, Conversation.lastMessageAt b with
  | None, _ => true
  | Some _, None => false
  | Some x, Some y => y <=? x
  end.

(** [lastMessage] of [getConversationsByUserId]: the first row of the
    messages by decreasing timestamp, with its sender when it names one. *)
Definition lastMessageOf (st : State) (conversationId : string)
    : option MessageWithSender.t :=
  match
    firstn 1
      (orderByDesc
         (filter
            (fun m => String.eqb (Message.conversationId m) conversationId)
            (messages st)))
  with
  | lastMsg :: _ =>
      Some
        (MessageWithSender.mk lastMsg
           match Message.senderId lastMsg with
           | Some s => if truthy s then getUserById st s else None
           | None => None
           end)
  | [] => None
  end.

Definition getConversationsByUserId (utcOffset : Date -> Z) (st : State)
    (userId : string) : list ConversationWithDetails.t :=
  let participantConversations :=
    filter (fun p => String.eqb (ConversationParticipant.userId p) userId)
      (conversationParticipants st) in
  let conversationIds :=
    map ConversationParticipant.conversationId participantConversations in
  match conversationIds with
  | [] => []
  | _ =>
      let conversationsList :=
        JsArray.sortBy moreRecent
          (filter
             (fun c => JsArray.includes (Conversation.id c) conversationIds)
             (conversations st)) in
      map
        (fun conv =>
           ConversationWithDetails.mk conv
             (getConversationParticipants st (Conversation.id conv))
             (lastMessageOf st (Conversation.id conv))
             (getUnreadCount utcOffset st userId (Conversation.id conv)))
        conversationsList
  end.

End DatabaseStorage.

(** ** The storage interface (IStorage) and its two implementations *)

Module IStorage.

(** The methods of [IStorage] the route and the gateway below call, over
    a state of type [S]. *)
Class t (S : Type) := mk {
  getUserById : S -> string -> option User.t;
  isUserInConversation : S -> string -> string -> bool;
  createMessage : S -> InsertMessage.t -> Env -> MessageWithSender.t * S;
  findOrCreatePrivateConversation :
    S -> string -> string -> Env -> Conversation.t * S;
  updateFriendRequestStatus : S -> string -> UpdateStatus -> S;
  getFriendRequestById : S -> string -> option FriendRequest.t
}.

End IStorage.

#[export] Instance MemStorage_IStorage : IStorage.t MemStorage.State :=
  IStorage.mk
    MemStorage.getUserById
    MemStorage.isUserInConversation
    MemStorage.createMessage
    MemStorage.findOrCreatePrivateConversation
    MemStorage.updateFriendRequestStatus
    MemStorage.getFriendRequestById.

#[export] Instance DatabaseStorage_IStorage
  : IStorage.t DatabaseStorage.State :=
  IStorage.mk
    DatabaseStorage.getUserById
    DatabaseStorage.isUserInConversation
    DatabaseStorage.createMessage
    DatabaseStorage.findOrCreatePrivateConversation
    DatabaseStorage.updateFriendRequestStatus
    DatabaseStorage.getFriendRequestById.

(** ** The friend-request route (server/routes.ts) *)

Module Routes.

Inductive Body :=
| message (text : string)
| success.

Record Response := mkResponse {
  status : Z;
  body : Body
}.

(** [updatePayload] and the event [io.emit] sends it on. *)
Record FriendRequestUpdate := mkUpdate {
  event : string;
  requestId : string;
  newStatus : UpdateStatus;
  senderId : string;
  receiverId : string
}.

Definition friendRequestUpdateEvent (userId : string) : string :=
  String.append "user:" (String.append userId ":friendRequestUpdate").

Definition friendsNow : string := "You both are friends now".

Section Handlers.
Context {S : Type} {storage : IStorage.t S}.

(** [app.patch(api.friends.updateRequest.path, verifyToken, ...)] after
    the body has been parsed: [userId] is the authenticated caller,
    [e1] and [e2] the environments of the two storage calls of the
    accepted branch.  The result is the response, the storage afterwards
    and the socket events emitted. *)
Definition updateRequest (st : S) (userId requestId : string)
    (status : UpdateStatus) (e1 e2 : Env)
    : Response * S * list FriendRequestUpdate :=
  match IStorage.getFriendRequestById st requestId with
  | None => (mkResponse 404 (message "Friend request not found"), st, [])
  | Some request =>
      if negb (String.eqb (FriendRequest.receiverId request) userId) then
        (mkResponse 403 (message "Not authorized to update this request"),
         st, [])
      else
        let st1 := IStorage.updateFriendRequestStatus st requestId status in
        let st2 :=
          match status with
          | to_accepted =>
              let '(conversation, st') :=
                IStorage.findOrCreatePrivateConversation st1
                  (FriendRequest.receiverId request)
                  (FriendRequest.senderId request) e1 in
              snd
                (IStorage.createMessage st'
                   (InsertMessage.mk (Conversation.id conversation) None
                      friendsNow true)
                   e2)
          | to_rejected => st1
          end in
        let updatePayload channel :=
          mkUpdate channel requestId status (FriendRequest.senderId request)
            (FriendRequest.receiverId request) in
        (mkResponse 200 success, st2,
         [updatePayload
            (friendRequestUpdateEvent (FriendRequest.senderId request));
          updatePayload
            (friendRequestUpdateEvent (FriendRequest.receiverId request))])
  end.

End Handlers.

End Routes.

(** ** The typing indicator of the socket gateway (server/sockets.ts) *)

Module TypingData.
Record t := mk {
  conversationId : string;
  isTyping : bool
}.
End TypingData.

Module TypingStatus.
Record t := mk {
  conversationId : string;
  userId : string;
  username : string;
  displayName : string;
  isTyping : bool
}.
End TypingStatus.

Module Sockets.

(** What the callback handed to [setTimeout] closes over, and when it is
    due. *)
Record Timeout := mkTimeout {
  due : Date;
  socketId : string;
  conversationId : string;
  user : User.t;
  timeoutKey : string
}.

(** An emission [socket.to(room).emit("typing", payload)]: it reaches the
    sockets of [room] other than [fromSocket].  [origin] records which
    line of the handler emitted it: the relay of the client's event, or
    the callback of the timer armed under a key. *)
Inductive Origin :=
| relayed
| expired (timeoutKey : string).

Record Emission := mkEmission {
  origin : Origin;
  fromSocket : string;
  room : string;
  payload : TypingStatus.t
}.

(** The gateway: the timers of the runtime that are armed and have not
    fired (each with the handle [setTimeout] returned, in the order they
    were armed), the next handle, and the map [typingTimeouts]. *)
Record State := mkState {
  pending : list (nat * Timeout);
  nextHandle : nat;
  typingTimeouts : JsMap.t nat
}.

Definition init : State := mkState [] 0%nat [].

Definition setTimeout (tm : Timeout) (g : State) : nat * State :=
  (nextHandle g,
   mkState (pending g ++ [(nextHandle g, tm)]) (S (nextHandle g))
     (typingTimeouts g)).

Definition clearTimeout (h : nat) (g : State) : State :=
  mkState (filter (fun x => negb (Nat.eqb (fst x) h)) (pending g))
    (nextHandle g) (typingTimeouts g).

Definition with_typingTimeouts (m : JsMap.t nat) (g : State) : State :=
  mkState (pending g) (nextHandle g) m.

Definition roomOf (conversationId : string) : string :=
  String.append "conversation:" conversationId.

Definition timeoutKeyOf (userId conversationId : string) : string :=
  String.append userId (String.append ":" conversationId).

Definition statusOf (conversationId : string) (user : User.t)
    (isTyping : bool) : TypingStatus.t :=
  TypingStatus.mk conversationId (User.id user) (User.username user)
    (User.displayName user) isTyping.

(** What the callback of the timer emits: [isTyping: false] for the user
    and conversation it closed over. *)
Definition expiry (tm : Timeout) : Emission :=
  mkEmission (expired (timeoutKey tm)) (socketId tm)
    (roomOf (conversationId tm))
    (statusOf (conversationId tm) (user tm) false).

(** The callback of the timer: emit, forget the key. *)
Definition callback (tm : Timeout) (g : State) : State * list Emission :=
  (with_typingTimeouts (JsMap.delete (timeoutKey tm) (typingTimeouts g)) g,
   [expiry tm]).

Fixpoint callbacks (tms : list (nat * Timeout)) (g : State)
    : State * list Emission :=
  match tms with
  | [] => (g, [])
  | (_, tm) :: r =>
      let '(g1, out1) := callback tm g in
      let '(g2, out2) := callbacks r g1 in
      (g2, out1 ++ out2)
  end.

(** The runtime at time [t]: every armed timer that is due fires, in the
    order the timers were armed (all have the same delay). *)
Definition advance (t : Date) (g : State) : State * list Emission :=
  let isDue (x : nat * Timeout) := due (snd x) <=? t in
  callbacks (filter isDue (pending g))
    (mkState (filter (fun x => negb (isDue x)) (pending g)) (nextHandle g)
       (typingTimeouts g)).

(** [if (typingTimeouts.has(timeoutKey)) { clearTimeout(...); delete }] *)
Definition cancel (timeoutKey : string) (g : State) : State :=
  match JsMap.get timeoutKey (typingTimeouts g) with
  | Some h =>
      let g' := clearTimeout h g in
      with_typingTimeouts (JsMap.delete timeoutKey (typingTimeouts g')) g'
  | None => g
  end.

(** [const timeout = setTimeout(...); typingTimeouts.set(timeoutKey, timeout)] *)
Definition arm (tm : Timeout) (g : State) : State :=
  let '(timeout, g') := setTimeout tm g in
  with_typingTimeouts
    (JsMap.set (timeoutKey tm) timeout (typingTimeouts g')) g'.

Section Handlers.
Context {S : Type} {storage : IStorage.t S}.

(** [socket.on("typing", ...)] on the socket [socketId] of the user
    [userId], run at time [t] against the storage [st]. *)
Definition onTyping (st : S) (socketId userId : string)
    (data : TypingData.t) (t : Date) (g : State) : State * list Emission :=
  let conversationId := TypingData.conversationId data in
  let isTyping := TypingData.isTyping data in
  if negb (IStorage.isUserInConversation st userId conversationId) then
    (g, [])
  else
    match IStorage.getUserById st userId with
    | None => (g, [])
    | Some user =>
        let timeoutKey := timeoutKeyOf userId conversationId in
        let g1 := cancel timeoutKey g in
        let emitted :=
          mkEmission relayed socketId (roomOf conversationId)
            (statusOf conversationId user isTyping) in
        if isTyping then
          (arm (mkTimeout (t + 3000) socketId conversationId user timeoutKey)
             g1,
           [emitted])
        else (g1, [emitted])
    end.

(** What reaches the gateway: a [typing] event of a client, together with
    the storage the handler reads, or nothing (time passes). *)
Inductive Input :=
| typing (st : S) (socketId userId : string) (data : TypingData.t)
| idle.

Definition handle (i : Input) (t : Date) (g : State)
    : State * list Emission :=
  match i with
  | typing st socketId userId data => onTyping st socketId userId data t g
  | idle => (g, [])
  end.

(** The gateway run over timed inputs: before an input of time [t] is
    handled, the timers due at [t] have fired. *)
Fixpoint run (g : State) (trace : list (Date * Input))
    : State * list Emission :=
  match trace with
  | [] => (g, [])
  | (t, i) :: rest =>
      let '(g1, out1) := advance t g in
      let '(g2, out2) := handle i t g1 in
      let '(g3, out3) := run g2 rest in
      (g3, out1 ++ out2 ++ out3)
  end.

(** The timer key an input is handled under, if it is a typing event. *)
Definition keyOfInput (i : Input) : option string :=
  match i with
  | typing _ _ userId data =>
      Some (timeoutKeyOf userId (TypingData.conversationId data))
  | idle => None
  end.

End Handlers.

(** The emissions of the timer callback armed under [key]. *)
Definition isExpiry (key : string) (e : Emission) : bool :=
  match origin e with
  | expired k => String.eqb k key
  | relayed => false
  end.

Definition expiredCount (key : string) (out : list Emission) : nat :=
  length (filter (isExpiry key) out).

(** [typingTimeouts] once each key of [keys] has been deleted in turn. *)
Definition deleteKeys (keys : list string) (m : JsMap.t nat) : JsMap.t nat :=
  fold_left (fun m k => JsMap.delete k m) keys m.

(** The armed timers whose callback was armed under [key]. *)
Definition pendingFor (key : string) (g : State) : list (nat * Timeout) :=
  filter (fun x => String.eqb (timeoutKey (snd x)) key) (pending g).

(** What holds of the gateway between two events: every armed timer is
    registered in [typingTimeouts] under its key, with its handle; the
    handles in the map are distinct and below [nextHandle]; no handle is
    armed twice. *)
Record Inv (g : State) : Prop := mkInv {
  inv_registered :
    forall h tm, In (h, tm) (pending g) ->
      JsMap.get (timeoutKey tm) (typingTimeouts g) = Some h;
  inv_below :
    forall k h, JsMap.get k (typingTimeouts g) = Some h ->
      (h < nextHandle g)%nat;
  inv_injective :
    forall k1 k2 h,
      JsMap.get k1 (typingTimeouts g) = Some h ->
      JsMap.get k2 (typingTimeouts g) = Some h -> k1 = k2;
  inv_keys : NoDup (JsMap.keys (typingTimeouts g));
  inv_handles : NoDup (map fst (pending g))
}.

End Sockets.

(** ** What the statements observe *)

(** The rows and messages the operations read, named for the statements
    below. *)
Module MemView.

(** [this.conversationParticipants.get(conversationId) || []] *)
Definition participantsOf (st : MemStorage.State) (conversationId : string)
    : list ConversationParticipant.t :=
  JsMap.get_or_nil conversationId (MemStorage.conversationParticipants st).

(** [participants.find(p => p.userId === userId)]: the membership row
    [getUnreadCount] and [markConversationAsRead] work on. *)
Definition membership (st : MemStorage.State) (userId conversationId : string)
    : option ConversationParticipant.t :=
  find (fun p => String.eqb (ConversationParticipant.userId p) userId)
    (participantsOf st conversationId).

(** Every membership row of the user in the conversation. *)
Definition memberships (st : MemStorage.State)
    (userId conversationId : string) : list ConversationParticipant.t :=
  filter (fun p => String.eqb (ConversationParticipant.userId p) userId)
    (participantsOf st conversationId).

(** [this.messages.get(conversationId) || []] *)
Definition messagesOf (st : MemStorage.State) (conversationId : string)
    : list Message.t :=
  JsMap.get_or_nil conversationId (MemStorage.messages st).

End MemView.

Module DbView.

(** The row the [select ... limit(1)] of [getUnreadCount] returns. *)
Definition membership (st : DatabaseStorage.State)
    (userId conversationId : string) : option ConversationParticipant.t :=
  find (DatabaseStorage.membershipOf userId conversationId)
    (DatabaseStorage.conversationParticipants st).

(** Every membership row of the user in the conversation. *)
Definition memberships (st : DatabaseStorage.State)
    (userId conversationId : string) : list ConversationParticipant.t :=
  filter (DatabaseStorage.membershipOf userId conversationId)
    (DatabaseStorage.conversationParticipants st).

(** The rows [where(eq(messages.conversationId, conversationId))]
    selects. *)
Definition messagesOf (st : DatabaseStorage.State) (conversationId : string)
    : list Message.t :=
  filter (fun m => String.eqb (Message.conversationId m) conversationId)
    (DatabaseStorage.messages st).

End DbView.

(** ** The specification's notions *)

Module Spec.

(** The unread count in the words of the specification: the number of
    messages whose creation timestamp is strictly greater than the
    watermark. *)
Fixpoint unreadAfter (watermark : Date) (msgs : list Message.t) : nat :=
  match msgs with
  | [] => 0%nat
  | m :: r =>
      if watermark <? Message.createdAt m
      then S (unreadAfter watermark r)
      else unreadAfter watermark r
  end.

(** Messages by increasing timestamp, messages of equal timestamp in the
    order they have in the list (insertion sort). *)
Fixpoint insertAsc (m : Message.t) (l : list Message.t) : list Message.t :=
  match l with
  | [] => [m]
  | x :: r =>
      if Message.createdAt m <=? Message.createdAt x then m :: x :: r
      else x :: insertAsc m r
  end.

Fixpoint timestampOrder (l : list Message.t) : list Message.t :=
  match l with
  | [] => []
  | m :: r => insertAsc m (timestampOrder r)
  end.

(** "The oldest messages of the conversation (the first [limit] in
    timestamp order)". *)
Definition oldest (limit : Z) (msgs : list Message.t) : list Message.t :=
  firstn (Z.to_nat limit) (timestampOrder msgs).

(** [earlier a b]: [a] is not newer than [b]. *)
Definition earlier (a b : Message.t) : Prop :=
  Message.createdAt a <= Message.createdAt b.

(** [later a b]: [a] is not older than [b]. *)
Definition later (a b : Message.t) : Prop :=
  Message.createdAt b <= Message.createdAt a.

(** [window] holds the [limit] newest messages of [msgs], oldest first:
    with the messages left out it makes up [msgs], it is in timestamp
    order, and no message left out is newer than one it holds. *)
Definition newestWindow (limit : Z) (msgs window : list Message.t) : Prop :=
  Z.of_nat (length window) = limit
  /\ StronglySorted earlier window
  /\ exists older,
       Permutation (older ++ window) msgs
       /\ forall a b, In a older -> In b window -> earlier a b.

End Spec.


(** ** A scenario

    alice and bob are registered; bob accepts alice's friend request,
    which opens their direct conversation; alice then writes twice.  The
    states below are computed by the operations themselves. *)

Module Scenario.

Definition alice : User.t :=
  User.mk "alice" "alice" "$2b$10$a" "Alice Johnson" "#3b82f6" false
    (Some 100) 100.

Definition bob : User.t :=
  User.mk "bob" "bob" "$2b$10$b" "Bob Smith" "#8b5cf6" false (Some 200) 200.

Definition carol : User.t :=
  User.mk "carol" "carol" "$2b$10$c" "Carol Davis" "#ec4899" false
    (Some 300) 300.

(** The uuids [prefix-0], [prefix-1], ... *)
Definition uuids (prefix : string) (k : nat) : string :=
  String.append prefix
    (String (Ascii.ascii_of_nat (48 + Nat.modulo k 10)) EmptyString).

Definition env (t : Date) (prefix : string) : Env := mkEnv t (uuids prefix).

Definition hi (sender : string) (text : string) : InsertMessage.t :=
  InsertMessage.mk "c-0" (Some sender) text false.

Module Mem.

Definition registered : MemStorage.State :=
  MemStorage.mkState
    [("alice", alice); ("bob", bob); ("carol", carol)] [] [] [] [].

Definition requested : MemStorage.State :=
  snd (MemStorage.sendFriendRequest registered "alice" "bob" (env 1000 "r-")).

Definition befriended : MemStorage.State :=
  snd
    (fst
       (Routes.updateRequest requested "bob" "r-0" to_accepted
          (env 2000 "c-") (env 2001 "m-"))).

Definition chatting : MemStorage.State :=
  snd
    (MemStorage.createMessage
       (snd
          (MemStorage.createMessage befriended (hi "alice" "hi")
             (env 3000 "n-")))
       (hi "alice" "are you there?") (env 4000 "o-")).

Definition turnedDown : MemStorage.State :=
  MemStorage.updateFriendRequestStatus requested "r-0" to_rejected.

End Mem.

Module Db.

Definition registered : DatabaseStorage.State :=
  DatabaseStorage.mkState [alice; bob; carol] [] [] [] [].

Definition requested : DatabaseStorage.State :=
  snd
    (DatabaseStorage.sendFriendRequest registered "alice" "bob"
       (env 1000 "r-")).

Definition befriended : DatabaseStorage.State :=
  snd
    (fst
       (Routes.updateRequest requested "bob" "r-0" to_accepted
          (env 2000 "c-") (env 2001 "m-"))).

Definition chatting : DatabaseStorage.State :=
  snd
    (DatabaseStorage.createMessage
       (snd
          (DatabaseStorage.createMessage befriended (hi "alice" "hi")
             (env 3000 "n-")))
       (hi "alice" "are you there?") (env 4000 "o-")).

Definition turnedDown : DatabaseStorage.State :=
  DatabaseStorage.updateFriendRequestStatus requested "r-0" to_rejected.

End Db.

End Scenario.

(** ** Well-formed stores *)

(** Every [Map] of [MemStorage] is filled by [m.set(x.id, x)]: an entry is
    stored under the id of its value. *)
Definition keyedById (V : Type) (id : V -> string) (m : JsMap.t V) : Prop :=
  Forall (fun kv => fst kv = id (snd kv)) m.

(** The messages [attachSenders] keeps: system messages, and messages
    whose sender is a stored user. *)
Definition senderResolves (getUserById : string -> option User.t)
    (m : Message.t) : bool :=
  Message.isSystem m
  || match Message.senderId m with
     | Some s =>
         match getUserById s with Some _ => true | None => false end
     | None => false
     end.

(** [id] is not in use in the store: no conversation is stored under it
    or carries it, and no membership list is stored under it.  This is
    what is expected of a [crypto.randomUUID()]. *)
Definition memUnused (st : MemStorage.State) (id : string) : Prop :=
  ~ In id (JsMap.keys (MemStorage.conversations st))
  /\ ~ In id (map Conversation.id (JsMap.values (MemStorage.conversations st)))
  /\ ~ In id (JsMap.keys (MemStorage.conversationParticipants st)).

(** The constraints the schema puts on the tables that
    [findOrCreatePrivateConversation] relies on: [users.id] is a primary
    key, [conversation_participants.user_id] references it. *)
Definition dbConstraints (st : DatabaseStorage.State) : Prop :=
  NoDup (map User.id (DatabaseStorage.users st))
  /\ Forall
       (fun p =>
          In (ConversationParticipant.userId p)
            (map User.id (DatabaseStorage.users st)))
       (DatabaseStorage.conversationParticipants st).

(** [id] is not in use in the tables: no conversation carries it and no
    membership row refers to it. *)
Definition dbUnused (st : DatabaseStorage.State) (id : string) : Prop :=
  ~ In id (map Conversation.id (DatabaseStorage.conversations st))
  /\ ~ In id
         (map ConversationParticipant.conversationId
            (DatabaseStorage.conversationParticipants st)).

(** [noColon s]: the character [":"] does not occur in [s] (it does not
    occur in a uuid). *)
Fixpoint noColon (s : string) : bool :=
  match s with
  | EmptyString => true
  | String c r => negb (Ascii.eqb c ":"%char) && noColon r
  end.

(** ** The rest of the storage interface *)

Module IStorageRest.

(** The methods of [IStorage] that the routes and gateway handlers below
    call and [IStorage.t] does not list.  A call that the storage makes
    throw gives [None]. *)
Class t (S : Type) := mk {
  getUserByUsername : S -> string -> option User.t;
  createUser : S -> string -> string -> string -> string -> Env -> User.t * S;
  updateUserOnlineStatus : S -> string -> bool -> Date -> S;
  createConversation :
    S -> CreateConversationRequest.t -> string -> Env -> Conversation.t * S;
  getConversationParticipants : S -> string -> list User.t;
  markConversationAsRead : S -> string -> string -> Date -> S;
  getMessagesByConversationId :
    S -> string -> Z -> option (list MessageWithSender.t);
  getFriendRequests : S -> string -> list FriendRequestWithSender.t;
  getSentFriendRequests : S -> string -> list FriendRequest.t;
  sendFriendRequest : S -> string -> string -> Env -> FriendRequest.t * S;
  areFriends : S -> string -> string -> bool
}.

End IStorageRest.

#[export] Instance MemStorage_IStorageRest
  : IStorageRest.t MemStorage.State :=
  IStorageRest.mk
    MemStorage.getUserByUsername
    MemStorage.createUser
    MemStorage.updateUserOnlineStatus
    MemStorage.createConversation
    MemStorage.getConversationParticipants
    MemStorage.markConversationAsRead
    (fun st c limit =>
       Some (MemStorage.getMessagesByConversationId st c limit))
    MemStorage.getFriendRequests
    MemStorage.getSentFriendRequests
    MemStorage.sendFriendRequest
    MemStorage.areFriends.

#[export] Instance DatabaseStorage_IStorageRest
  : IStorageRest.t DatabaseStorage.State :=
  IStorageRest.mk
    DatabaseStorage.getUserByUsername
    DatabaseStorage.createUser
    DatabaseStorage.updateUserOnlineStatus
    DatabaseStorage.createConversation
    DatabaseStorage.getConversationParticipants
    DatabaseStorage.markConversationAsRead
    DatabaseStorage.getMessagesByConversationId
    DatabaseStorage.getFriendRequests
    DatabaseStorage.getSentFriendRequests
    DatabaseStorage.sendFriendRequest
    DatabaseStorage.areFriends.

(** ** The other routes (server/routes.ts) *)

Module RegisterRequest.
Record t := mk {
  username : string;
  password : string;
  displayName : string
}.
End RegisterRequest.

Module LoginRequest.
Record t := mk {
  username : string;
  password : string
}.
End LoginRequest.

Module AuthResponse.
Record t := mk {
  token : string;
  id : string;
  username : string;
  displayName : string;
  avatarColor : string
}.
End AuthResponse.

Module SendMessageRequest.
Record t := mk {
  conversationId : string;
  content : string
}.
End SendMessageRequest.

(** ** The request schemas (shared/routes.ts, printed in README.md) *)

(** An issue of the [ZodError] that [schema.parse(req.body)] throws: its
    message and its path joined with dots. *)
Module ZodIssue.
Record t := mk {
  message : string;
  path : string
}.
End ZodIssue.

(** The checks of [z.string()], with the messages of zod's default error
    map.  The length of a string is the number of its characters. *)
Module Zod.

Definition min (n : nat) (message path value : string) : list ZodIssue.t :=
  if (String.length value <? n)%nat then [ZodIssue.mk message path] else [].

Definition max (n : nat) (message path value : string) : list ZodIssue.t :=
  if (n <? String.length value)%nat then [ZodIssue.mk message path] else [].

End Zod.

(** The issues [input.parse] reports for a request body, in zod's order:
    the keys as the schema lists them, and for one key the checks as
    they are chained; no issue means that the body is accepted.  The
    bodies are those with the fields and types of the request records;
    the schemas of the other routes ask for nothing more. *)
Module ApiInput.

(** [api.auth.register.input] *)
Definition register (input : RegisterRequest.t) : list ZodIssue.t :=
  Zod.min 3 "String must contain at least 3 character(s)" "username"
    (RegisterRequest.username input)
  ++ Zod.max 30 "String must contain at most 30 character(s)" "username"
       (RegisterRequest.username input)
  ++ Zod.min 6 "String must contain at least 6 character(s)" "password"
       (RegisterRequest.password input)
  ++ Zod.min 1 "String must contain at least 1 character(s)" "displayName"
       (RegisterRequest.displayName input)
  ++ Zod.max 50 "String must contain at most 50 character(s)" "displayName"
       (RegisterRequest.displayName input).

(** [api.messages.send.input] *)
Definition sendMessage (input : SendMessageRequest.t) : list ZodIssue.t :=
  Zod.min 1 "String must contain at least 1 character(s)" "content"
    (SendMessageRequest.content input).

End ApiInput.

Module Api.

(** What a handler answers: [res.status(code).json(body)], or an error
    [res.status(code).json({ message, field })]. *)
Inductive Reply (A : Type) :=
| reply (code : Z) (body : A)
| failure (code : Z) (message : string) (field : option string).

Arguments reply {A} code body.
Arguments failure {A} code message field.

(** The events the handlers emit: [io.emit] on the event named after a
    user (it is sent to every socket), and [io.to(room).emit]. *)
Inductive Event :=
| friendRequestEvent (receiverId : string) (request : FriendRequest.t)
    (sender : option User.t)
| conversationEvent (userId : string) (details : ConversationWithDetails.t)
| conversationUpdateEvent (userId : string)
| messageEvent (room : string) (message : MessageWithSender.t).

Inductive FriendStatus := statusAccepted | statusPending | statusReceived
| statusNone.

Record StatusBody := mkStatus {
  status : FriendStatus;
  requestId : option string
}.

Definition authResponse (token : string) (user : User.t) : AuthResponse.t :=
  AuthResponse.mk token (User.id user) (User.username user)
    (User.displayName user) (User.avatarColor user).

(** The answer of the [catch] of a handler to a [ZodError]:
    [{ message: err.errors[0].message, field: err.errors[0].path.join('.') }]
    with status 400. *)
Definition invalid (A : Type) (issue : ZodIssue.t) : Reply A :=
  failure 400 (ZodIssue.message issue) (Some (ZodIssue.path issue)).

(** The storage calls of the handlers below are taken not to throw (see
    the conventions at the head of the file): the [catch] of a handler
    that answers 500 is left out, but for [getMessages], which answers
    500 when the storage gives [None]. *)
Section Handlers.
Context {S : Type} {storage : IStorage.t S} {rest : IStorageRest.t S}.

(** [bcrypt.hash(password, SALT_ROUNDS)], [bcrypt.compare] and
    [generateToken] are the libraries' and the middleware's. *)
Variable bcryptHash : string -> string.
Variable bcryptCompare : string -> string -> bool.
Variable generateToken : string -> string.

(** [app.post(api.auth.register.path, ...)]; [avatarColor] is what
    [getRandomAvatarColor()] returned. *)
Definition register (st : S) (input : RegisterRequest.t)
    (avatarColor : string) (e : Env) : Reply AuthResponse.t * S :=
  match ApiInput.register input with
  | issue :: _ => (invalid _ issue, st)
  | [] =>
      match
        IStorageRest.getUserByUsername st (RegisterRequest.username input)
      with
      | Some _ =>
          (failure 400 "Username already exists" (Some "username"), st)
      | None =>
          let hashedPassword :=
            bcryptHash (RegisterRequest.password input) in
          let '(user, st') :=
            IStorageRest.createUser st (RegisterRequest.username input)
              hashedPassword (RegisterRequest.displayName input) avatarColor
              e in
          (reply 201 (authResponse (generateToken (User.id user)) user), st')
      end
  end.

(** [app.post(api.auth.login.path, ...)] *)
Definition login (st : S) (input : LoginRequest.t) : Reply AuthResponse.t :=
  match IStorageRest.getUserByUsername st (LoginRequest.username input) with
  | None => failure 401 "Invalid username or password" None
  | Some user =>
      if negb (bcryptCompare (LoginRequest.password input)
                 (User.password user))
      then failure 401 "Invalid username or password" None
      else reply 200 (authResponse (generateToken (User.id user)) user)
  end.

(** [app.post(api.friends.sendRequest.path, ...)] *)
Definition sendRequest (st : S) (userId receiverId : string) (e : Env)
    : Reply FriendRequest.t * S * list Event :=
  if String.eqb receiverId userId then
    (failure 400 "Cannot send friend request to yourself" None, st, [])
  else
    let '(request, st') :=
      IStorageRest.sendFriendRequest st userId receiverId e in
    (reply 201 request, st',
     [friendRequestEvent receiverId request
        (IStorage.getUserById st' userId)]).

(** [app.get(api.friends.status.path, ...)] *)
Definition friendStatus (st : S) (userId otherUserId : string)
    : Reply StatusBody :=
  if IStorageRest.areFriends st userId otherUserId then
    reply 200 (mkStatus statusAccepted None)
  else
    let sentRequests := IStorageRest.getSentFriendRequests st userId in
    let allRequests := IStorageRest.getFriendRequests st userId in
    let sent :=
      find (fun r => String.eqb (FriendRequest.receiverId r) otherUserId)
        sentRequests in
    let received :=
      find
        (fun r =>
           String.eqb
             (FriendRequest.senderId (FriendRequestWithSender.request r))
             otherUserId
           && RequestStatus_eqb
                (FriendRequest.status (FriendRequestWithSender.request r))
                pending)
        allRequests in
    let afterSent :=
      match received with
      | Some r =>
          reply 200
            (mkStatus statusReceived
               (Some (FriendRequest.id (FriendRequestWithSender.request r))))
      | None => reply 200 (mkStatus statusNone None)
      end in
    match sent with
    | Some s =>
        match FriendRequest.status s with
        | pending =>
            reply 200 (mkStatus statusPending (Some (FriendRequest.id s)))
        | rejected => reply 200 (mkStatus statusNone None)
        | accepted => afterSent
        end
    | None => afterSent
    end.

(** [app.post(api.conversations.create.path, ...)] *)
Definition createConversation (st : S) (userId : string)
    (input : CreateConversationRequest.t) (e : Env)
    : Reply ConversationWithDetails.t * S * list Event :=
  match
    CreateConversationRequest.isGroup input,
    CreateConversationRequest.participantIds input
  with
  | false, [otherUserId] =>
      if negb (IStorageRest.areFriends st userId otherUserId) then
        (failure 403 "You can only chat with friends" None, st, [])
      else
        let '(conversation, st') :=
          IStorage.findOrCreatePrivateConversation st userId otherUserId e in
        let participants :=
          IStorageRest.getConversationParticipants st'
            (Conversation.id conversation) in
        (reply 201
           (ConversationWithDetails.mk conversation participants None 0%nat),
         st', [])
  | _, _ =>
      let '(conversation, st') :=
        IStorageRest.createConversation st input userId e in
      let participants :=
        IStorageRest.getConversationParticipants st'
          (Conversation.id conversation) in
      let conversationWithDetails :=
        ConversationWithDetails.mk conversation participants None 0%nat in
      (reply 201 conversationWithDetails, st',
       map (fun participantId =>
              conversationEvent participantId conversationWithDetails)
         (CreateConversationRequest.participantIds input ++ [userId]))
  end.

(** [app.get(api.conversations.messages.path, ...)] *)
Definition getMessages (st : S) (userId conversationId : string)
    : Reply (list MessageWithSender.t) :=
  if negb (IStorage.isUserInConversation st userId conversationId) then
    failure 403 "Not a participant in this conversation" None
  else
    match IStorageRest.getMessagesByConversationId st conversationId 100 with
    | Some messages => reply 200 messages
    | None => failure 500 "Internal server error" None
    end.

(** [app.post(api.conversations.markRead.path, ...)] *)
Definition markRead (st : S) (userId conversationId : string) (now : Date)
    : Reply bool * S :=
  if negb (IStorage.isUserInConversation st userId conversationId) then
    (failure 403 "Not a participant in this conversation" None, st)
  else
    (reply 200 true,
     IStorageRest.markConversationAsRead st userId conversationId now).

(** [app.post(api.messages.send.path, ...)] *)
Definition sendMessage (st : S) (userId : string)
    (input : SendMessageRequest.t) (e : Env)
    : Reply MessageWithSender.t * S * list Event :=
  let conversationId := SendMessageRequest.conversationId input in
  match ApiInput.sendMessage input with
  | issue :: _ => (invalid _ issue, st, [])
  | [] =>
      if negb (IStorage.isUserInConversation st userId conversationId) then
        (failure 403 "Not a participant in this conversation" None, st, [])
      else
        let '(message, st') :=
          IStorage.createMessage st
            (InsertMessage.mk conversationId (Some userId)
               (SendMessageRequest.content input) false)
            e in
        let participants :=
          IStorageRest.getConversationParticipants st' conversationId in
        (reply 201 message, st',
         messageEvent (String.append "conversation:" conversationId) message
         :: map
              (fun participant => conversationUpdateEvent (User.id participant))
              participants)
  end.

End Handlers.

End Api.

(** ** Presence and rooms of the socket gateway (server/sockets.ts) *)

(** A JavaScript [Set] of strings: the elements in insertion order. *)
Module JsSet.

Definition add (x : string) (s : list string) : list string :=
  if JsArray.includes x s then s else s ++ [x].

Definition delete (x : string) (s : list string) : list string :=
  filter (fun y => negb (String.eqb y x)) s.

End JsSet.

Module PresenceUpdate.
Record t := mk {
  userId : string;
  isOnline : bool;
  lastSeen : option Date
}.
End PresenceUpdate.

Module Presence.

Section Handlers.
Context {S : Type} {rest : IStorageRest.t S}.

(** [io.on("connection", ...)], up to the registration of the handlers:
    the map [userSockets], the storage, and the [presence] broadcast. *)
Definition onConnection (st : S) (userId socketId : string) (now : Date)
    (userSockets : JsMap.t (list string))
    : JsMap.t (list string) * S * list PresenceUpdate.t :=
  let userSockets1 :=
    if negb (JsMap.has userId userSockets)
    then JsMap.set userId [] userSockets
    else userSockets in
  (JsMap.mutate userId (JsSet.add socketId) userSockets1,
   IStorageRest.updateUserOnlineStatus st userId true now,
   [PresenceUpdate.mk userId true None]).

(** [socket.on("disconnect", ...)] *)
Definition onDisconnect (st : S) (userId socketId : string) (now : Date)
    (userSockets : JsMap.t (list string))
    : JsMap.t (list string) * S * list PresenceUpdate.t :=
  match JsMap.get userId userSockets with
  | None => (userSockets, st, [])
  | Some userSocketSet =>
      let userSockets1 :=
        JsMap.mutate userId (JsSet.delete socketId) userSockets in
      if Nat.eqb (length (JsSet.delete socketId userSocketSet)) 0 then
        (JsMap.delete userId userSockets1,
         IStorageRest.updateUserOnlineStatus st userId false now,
         [PresenceUpdate.mk userId false (Some now)])
      else (userSockets1, st, [])
  end.

(** The connections and disconnections that reach the gateway, each with
    the user of the socket and the time it is handled. *)
Inductive Input :=
| connection (userId socketId : string) (now : Date)
| disconnect (userId socketId : string) (now : Date).

Definition handle (i : Input)
    (g : JsMap.t (list string) * S * list PresenceUpdate.t)
    : JsMap.t (list string) * S * list PresenceUpdate.t :=
  let '(userSockets, st, out) := g in
  let '(userSockets', st', out') :=
    match i with
    | connection userId socketId now =>
        onConnection st userId socketId now userSockets
    | disconnect userId socketId now =>
        onDisconnect st userId socketId now userSockets
    end in
  (userSockets', st', out ++ out').

(** The gateway over a sequence of inputs, from the empty [userSockets]. *)
Definition run (st : S) (trace : list Input)
    : JsMap.t (list string) * S * list PresenceUpdate.t :=
  fold_left (fun g i => handle i g) trace ([], st, []).

End Handlers.

End Presence.

Module Rooms.

(** [socket.join(room)]: the adapter's map from a room to its sockets. *)
Definition join (room socketId : string) (rooms : JsMap.t (list string))
    : JsMap.t (list string) :=
  JsMap.set room (JsSet.add socketId (JsMap.get_or_nil room rooms)) rooms.

Section Handlers.
Context {S : Type} {storage : IStorage.t S}.

(** [socket.on("join", ...)] on the socket [socketId] of [userId]. *)
Definition onJoin (st : S) (socketId userId conversationId : string)
    (rooms : JsMap.t (list string)) : JsMap.t (list string) :=
  if IStorage.isUserInConversation st userId conversationId
  then join (Sockets.roomOf conversationId) socketId rooms
  else rooms.

(** A sequence of [join] events: the socket, its user, the conversation
    asked for. *)
Definition run (st : S) (joins : list (string * string * string))
    : JsMap.t (list string) :=
  fold_left
    (fun rooms j =>
       let '(socketId, userId, conversationId) := j in
       onJoin st socketId userId conversationId rooms)
    joins [].

End Handlers.

End Rooms.

(** ** Well-formed friend requests *)

(** At most one record between any two users, whatever its direction:
    what the lookup at the head of [sendFriendRequest] is there to
    keep. *)
Definition onePerPair (requests : list FriendRequest.t) : Prop :=
  forall a b, (length (filter (betweenPair a b) requests) <= 1)%nat.

(** The [friendRequests] map of [MemStorage]: a [Map] holds a key once,
    the entries are stored under their ids, and at most one record per
    pair. *)
Definition memRequestsWellFormed (st : MemStorage.State) : Prop :=
  keyedById FriendRequest.id (MemStorage.friendRequests st)
  /\ NoDup (JsMap.keys (MemStorage.friendRequests st))
  /\ onePerPair (JsMap.values (MemStorage.friendRequests st)).

(** The [friend_requests] table: [id] is its primary key, and at most one
    record per pair. *)
Definition dbRequestsWellFormed (st : DatabaseStorage.State) : Prop :=
  NoDup (map FriendRequest.id (DatabaseStorage.friendRequests st))
  /\ onePerPair (DatabaseStorage.friendRequests st).

(** What the two users of a pair are told by the friend-status route,
    read off the first record between them: nothing to see without a
    record or with a rejected one, friends with an accepted one, and with
    a pending one its sender is told [pending] and its receiver
    [received], both with the id of the record. *)
Definition statusViews
    (friendStatus : string -> string -> Api.Reply Api.StatusBody)
    (requests : list FriendRequest.t) (a b : string) : Prop :=
  match filter (betweenPair a b) requests with
  | [] =>
      friendStatus a b = Api.reply 200 (Api.mkStatus Api.statusNone None)
      /\ friendStatus b a = Api.reply 200 (Api.mkStatus Api.statusNone None)
  | x :: _ =>
      match FriendRequest.status x with
      | pending =>
          friendStatus (FriendRequest.senderId x) (FriendRequest.receiverId x)
          = Api.reply 200
              (Api.mkStatus Api.statusPending (Some (FriendRequest.id x)))
          /\ friendStatus (FriendRequest.receiverId x)
               (FriendRequest.senderId x)
             = Api.reply 200
                 (Api.mkStatus Api.statusReceived (Some (FriendRequest.id x)))
      | accepted =>
          friendStatus a b
          = Api.reply 200 (Api.mkStatus Api.statusAccepted None)
          /\ friendStatus b a
             = Api.reply 200 (Api.mkStatus Api.statusAccepted None)
      | rejected =>
          friendStatus a b = Api.reply 200 (Api.mkStatus Api.statusNone None)
          /\ friendStatus b a
             = Api.reply 200 (Api.mkStatus Api.statusNone None)
      end
  end.

(** ** Consistent presence *)

(** The gateway's [userSockets] and the users' online flags tell the same
    story: the map holds a key once and no empty set, and a stored user
    is flagged online exactly when the map has sockets for that user. *)
Definition presenceConsistent (S : Type)
    (getUserById : S -> string -> option User.t)
    (userSockets : JsMap.t (list string)) (st : S) : Prop :=
  NoDup (JsMap.keys userSockets)
  /\ (forall userId sockets,
        JsMap.get userId userSockets = Some sockets -> sockets <> [])
  /\ (forall userId user,
        getUserById st userId = Some user ->
        (User.isOnline user = true <-> JsMap.has userId userSockets = true)).

(** ** Senders and participants *)

(** Every stored message that is not a system message names a sender,
    and that sender is a participant of the conversation the message is
    in. *)
Definition memSendersParticipate (st : MemStorage.State) : Prop :=
  forall c msg,
    In msg (MemView.messagesOf st c) -> Message.isSystem msg = false ->
    exists s,
      Message.senderId msg = Some s
      /\ MemStorage.isUserInConversation st s c = true.

Definition dbSendersParticipate (st : DatabaseStorage.State) : Prop :=
  forall msg,
    In msg (DatabaseStorage.messages st) -> Message.isSystem msg = false ->
    exists s,
      Message.senderId msg = Some s
      /\ DatabaseStorage.isUserInConversation st s
           (Message.conversationId msg)
         = true.

(** ** The storage file of MemStorage (server/storage.ts) *)

(** The own properties of a JavaScript object are listed with the keys
    that are array indices first, in ascending order, and the other keys
    after them in the order they were added ([OrdinaryOwnPropertyKeys]);
    [JSON.stringify], [JSON.parse] and [Object.entries] follow that
    order.  An object is the list of its entries in that order. *)
Module JsObject.

Definition digit (c : ascii) : option N :=
  let n := N_of_ascii c in
  if ((48 <=? n) && (n <=? 57))%N then Some (n - 48)%N else None.

Fixpoint decimal (acc : N) (s : string) : option N :=
  match s with
  | EmptyString => Some acc
  | String c rest =>
      match digit c with
      | Some d => decimal (10 * acc + d)%N rest
      | None => None
      end
  end.

(** The array index a key stands for: the key is the decimal writing,
    without sign or leading zero, of an integer below [2^32 - 1]. *)
Definition arrayIndex (key : string) : option N :=
  match key with
  | EmptyString => None
  | String c rest =>
      if Ascii.eqb c "0"%char && negb (String.eqb rest EmptyString) then None
      else
        match decimal 0 key with
        | Some n => if (n <? 4294967295)%N then Some n else None
        | None => None
        end
  end.

Definition isArrayIndex (key : string) : bool :=
  match arrayIndex key with Some _ => true | None => false end.

Definition indexOr0 (key : string) : N :=
  match arrayIndex key with Some n => n | None => 0%N end.

Section Entries.
Variable V : Type.

(** The entries of an object whose properties were added in the order of
    [added]. *)
Definition ordered (added : list (string * V)) : list (string * V) :=
  JsArray.sortBy (fun a b => (indexOr0 (fst a) <=? indexOr0 (fst b))%N)
    (filter (fun kv => isArrayIndex (fst kv)) added)
  ++ filter (fun kv => negb (isArrayIndex (fst kv))) added.

(** [Object.entries(Object.fromEntries(m))] for a [Map] [m]: a key that
    comes again overwrites the value and keeps the place. *)
Definition fromEntries (m : JsMap.t V) : list (string * V) :=
  ordered (fold_left (fun o kv => JsMap.set (fst kv) (snd kv) o) m []).

End Entries.

End JsObject.

(** [MemStorage] writes its maps to [storage.json] and reads them back
    when it is constructed.  In the file a date is the ISO string of its
    milliseconds, which [new Date(string)] reads back exactly; the model
    keeps the number.  The two maps keyed by conversation are written as
    objects, whose keys come back in the order of [JsObject]. *)
Module StorageFile.

Record t := mk {
  users : list User.t;
  conversations : list Conversation.t;
  conversationParticipants : list (string * list ConversationParticipant.t);
  messages : list (string * list Message.t);
  friendRequests : list FriendRequest.t
}.

(** [new Date(x)] for a field of the parsed file: [null] gives the
    epoch. *)
Definition newDate (x : option Date) : Date :=
  match x with Some d => d | None => 0 end.

(** [x ? new Date(x) : null] *)
Definition dateOrNull (x : option Date) : option Date :=
  match x with Some d => Some d | None => None end.

(** [u.lastSeen = new Date(u.lastSeen)] and
    [u.createdAt = new Date(u.createdAt)] *)
Definition reviveUser (u : User.t) : User.t :=
  User.mk (User.id u) (User.username u) (User.password u)
    (User.displayName u) (User.avatarColor u) (User.isOnline u)
    (Some (newDate (User.lastSeen u))) (User.createdAt u).

Definition reviveConversation (c : Conversation.t) : Conversation.t :=
  Conversation.mk (Conversation.id c) (Conversation.name c)
    (Conversation.isGroup c) (Conversation.createdAt c)
    (dateOrNull (Conversation.lastMessageAt c)).

Definition reviveParticipant (p : ConversationParticipant.t)
    : ConversationParticipant.t :=
  ConversationParticipant.mk (ConversationParticipant.id p)
    (ConversationParticipant.conversationId p)
    (ConversationParticipant.userId p) (ConversationParticipant.joinedAt p)
    (dateOrNull (ConversationParticipant.lastReadAt p)).

(** [private save()] *)
Definition save (st : MemStorage.State) : t :=
  mk (JsMap.values (MemStorage.users st))
    (JsMap.values (MemStorage.conversations st))
    (JsObject.fromEntries (MemStorage.conversationParticipants st))
    (JsObject.fromEntries (MemStorage.messages st))
    (JsMap.values (MemStorage.friendRequests st)).

(** [private load()] on a file that parses, into the empty maps of a new
    [MemStorage]. *)
Definition load (data : t) : MemStorage.State :=
  MemStorage.mkState
    (fold_left (fun m u => JsMap.set (User.id u) (reviveUser u) m)
       (users data) [])
    (fold_left
       (fun m c => JsMap.set (Conversation.id c) (reviveConversation c) m)
       (conversations data) [])
    (fold_left
       (fun m entry =>
          JsMap.set (fst entry) (map reviveParticipant (snd entry)) m)
       (conversationParticipants data) [])
    (fold_left (fun m entry => JsMap.set (fst entry) (snd entry) m)
       (messages data) [])
    (fold_left (fun m r => JsMap.set (FriendRequest.id r) r m)
       (friendRequests data) []).

End StorageFile.

(** A [Map] that holds a key once and stores its values under their
    ids. *)
Definition keyedOnce (V : Type) (id : V -> string) (m : JsMap.t V) : Prop :=
  keyedById id m /\ NoDup (JsMap.keys m).

(** ** Seeding (server/routes.ts) *)

Module Seed.

Section Seeding.
Context {S : Type} {storage : IStorage.t S} {rest : IStorageRest.t S}.

(** [storage.getAllUsers] and [bcrypt.hash(password, SALT_ROUNDS)]. *)
Variable getAllUsers : S -> list User.t.
Variable bcryptHash : string -> string.

(** [seedDatabase()]; [es k] is the environment of its [k]-th storage
    call that draws ids or reads the clock. *)
Definition seedDatabase (st : S) (es : nat -> Env) : S :=
  match getAllUsers st with
  | _ :: _ => st
  | [] =>
      let hashedPassword := bcryptHash "demo123" in
      let '(alice, st1) :=
        IStorageRest.createUser st "alice" hashedPassword "Alice Johnson"
          "#3b82f6" (es 0%nat) in
      let '(bob, st2) :=
        IStorageRest.createUser st1 "bob" hashedPassword "Bob Smith"
          "#8b5cf6" (es 1%nat) in
      let '(charlie, st3) :=
        IStorageRest.createUser st2 "charlie" hashedPassword "Charlie Davis"
          "#ec4899" (es 2%nat) in
      let '(conversation1, st4) :=
        IStorage.findOrCreatePrivateConversation st3 (User.id alice)
          (User.id bob) (es 3%nat) in
      let '(_, st5) :=
        IStorage.createMessage st4
          (InsertMessage.mk (Conversation.id conversation1)
             (Some (User.id alice)) "Hey Bob! How are you doing?" false)
          (es 4%nat) in
      let '(_, st6) :=
        IStorage.createMessage st5
          (InsertMessage.mk (Conversation.id conversation1)
             (Some (User.id bob))
             "Hi Alice! I'm doing great, thanks for asking!" false)
          (es 5%nat) in
      let '(groupConversation, st7) :=
        IStorageRest.createConversation st6
          (CreateConversationRequest.mk [User.id bob; User.id charlie] true
             (Some "Team Chat"))
          (User.id alice) (es 6%nat) in
      let '(_, st8) :=
        IStorage.createMessage st7
          (InsertMessage.mk (Conversation.id groupConversation)
             (Some (User.id alice)) "Welcome to the team chat everyone!"
             false)
          (es 7%nat) in
      st8
  end.

End Seeding.

End Seed.
(** * Properties *)

(** ** Arrays and maps *)

Section ListFacts.
Context {A : Type}.

Lemma find_none_existsb (p : A -> bool) (l : list A) :
  existsb p l = false -> find p l = None.
Proof.
  induction l as [|x r IH]; simpl; [reflexivity|].
  destruct (p x); simpl; [discriminate | exact IH].
Qed.

Lemma find_some_existsb (p : A -> bool) (l : list A) :
  existsb p l = true -> exists x, find p l = Some x.
Proof.
  induction l as [|x r IH]; simpl; [discriminate|].
  destruct (p x); simpl; eauto.
Qed.

Lemma find_app (p : A -> bool) (l1 l2 : list A) :
  find p (l1 ++ l2) =
  match find p l1 with Some x => Some x | None => find p l2 end.
Proof.
  induction l1 as [|x r IH]; simpl; [reflexivity|].
  destruct (p x); [reflexivity | exact IH].
Qed.

Lemma find_ext_in (p q : A -> bool) (l : list A) :
  (forall x, In x l -> p x = q x) -> find p l = find q l.
Proof.
  induction l as [|x r IH]; simpl; intros H; [reflexivity|].
  rewrite (H x (or_introl eq_refl)).
  destruct (q x); [reflexivity|]. apply IH. intros; apply H; now right.
Qed.

Lemma find_update_first (p : A -> bool) (f : A -> A) (l : list A) :
  (forall x, p (f x) = p x) ->
  find p (JsArray.update_first p f l) = option_map f (find p l).
Proof.
  intros Hp. induction l as [|x r IH]; simpl; [reflexivity|].
  destruct (p x) eqn:E; simpl.
  - now rewrite Hp, E.
  - now rewrite E.
Qed.

Lemma filter_update_first_other (p q : A -> bool) (f : A -> A) (l : list A) :
  (forall x, p x = true -> q x = false) ->
  (forall x, p x = true -> q (f x) = false) ->
  filter q (JsArray.update_first p f l) = filter q l.
Proof.
  intros H1 H2. induction l as [|x r IH]; simpl; [reflexivity|].
  destruct (p x) eqn:E; simpl.
  - now rewrite (H1 _ E), (H2 _ E).
  - now rewrite IH.
Qed.

Lemma filter_none (p : A -> bool) (l : list A) :
  (forall x, In x l -> p x = false) -> filter p l = [].
Proof.
  induction l as [|x r IH]; simpl; intros H; [reflexivity|].
  rewrite (H x (or_introl eq_refl)). apply IH. intros; apply H; now right.
Qed.

End ListFacts.

Section MapFacts.
Context {V : Type}.

Lemma get_mutate (k k' : string) (f : V -> V) (m : JsMap.t V) :
  JsMap.get k (JsMap.mutate k' f m) =
  if String.eqb k k' then option_map f (JsMap.get k m) else JsMap.get k m.
Proof.
  induction m as [|[k0 v] r IH]; simpl.
  - now destruct (String.eqb k k').
  - destruct (String.eqb k' k0) eqn:E0; simpl.
    + apply String.eqb_eq in E0. subst k0.
      destruct (String.eqb k k') eqn:E; simpl; reflexivity.
    + destruct (String.eqb k k0) eqn:E1; simpl.
      * apply String.eqb_eq in E1. subst k0.
        now rewrite String.eqb_sym, E0.
      * exact IH.
Qed.

Lemma get_set (k k' : string) (v : V) (m : JsMap.t V) :
  JsMap.get k (JsMap.set k' v m) =
  if String.eqb k k' then Some v else JsMap.get k m.
Proof.
  induction m as [|[k0 v0] r IH]; simpl.
  - reflexivity.
  - destruct (String.eqb k' k0) eqn:E0; simpl.
    + apply String.eqb_eq in E0. subst k0.
      now destruct (String.eqb k k').
    + destruct (String.eqb k k0) eqn:E1; simpl.
      * apply String.eqb_eq in E1. subst k0.
        now rewrite String.eqb_sym, E0.
      * exact IH.
Qed.

Lemma get_none_not_key (k : string) (m : JsMap.t V) :
  JsMap.get k m = None <-> ~ In k (JsMap.keys m).
Proof.
  unfold JsMap.keys.
  induction m as [|[k0 v0] r IH]; simpl.
  - tauto.
  - destruct (String.eqb k k0) eqn:E.
    + apply String.eqb_eq in E. subst. split; [discriminate | tauto].
    + apply String.eqb_neq in E. rewrite IH. split.
      * intros H [H'|H']; [congruence | tauto].
      * tauto.
Qed.

Lemma set_fresh (k : string) (v : V) (m : JsMap.t V) :
  ~ In k (JsMap.keys m) -> JsMap.set k v m = m ++ [(k, v)].
Proof.
  unfold JsMap.keys.
  induction m as [|[k0 v0] r IH]; simpl; intros H; [reflexivity|].
  destruct (String.eqb k k0) eqn:E.
  - apply String.eqb_eq in E. subst. tauto.
  - rewrite IH; tauto.
Qed.

End MapFacts.

Lemma get_or_nil_mutate (A : Type) (k k' : string)
    (f : list A -> list A) (m : JsMap.t (list A)) :
  f [] = [] ->
  JsMap.get_or_nil k (JsMap.mutate k' f m) =
  if String.eqb k k' then f (JsMap.get_or_nil k m) else JsMap.get_or_nil k m.
Proof.
  intros Hf. unfold JsMap.get_or_nil. rewrite get_mutate.
  destruct (String.eqb k k'); [|reflexivity].
  destruct (JsMap.get k m); simpl; congruence.
Qed.

Lemma get_or_nil_set (A : Type) (k k' : string) (v : list A)
    (m : JsMap.t (list A)) :
  JsMap.get_or_nil k (JsMap.set k' v m) =
  if String.eqb k k' then v else JsMap.get_or_nil k m.
Proof.
  unfold JsMap.get_or_nil. rewrite get_set.
  now destruct (String.eqb k k').
Qed.

Lemma update_first_nil (A : Type) (p : A -> bool) (f : A -> A) :
  JsArray.update_first p f [] = [].
Proof. reflexivity. Qed.

(** ** Unread counts (C10, C1) *)

Lemma mem_not_participant (st : MemStorage.State) (u c : string) :
  MemStorage.isUserInConversation st u c = false ->
  MemView.membership st u c = None.
Proof. intros H. apply find_none_existsb. exact H. Qed.

Lemma db_not_participant (st : DatabaseStorage.State) (u c : string) :
  DatabaseStorage.isUserInConversation st u c = false ->
  DbView.membership st u c = None.
Proof.
  unfold DatabaseStorage.isUserInConversation, DbView.membership.
  now destruct (find _ _).
Qed.

(** C10. For a user who is not a participant of the conversation,
    [getUnreadCount] returns 0 in both storage implementations: no
    membership row is found and each takes its early [return 0],
    whatever the time zone of the process. *)
Theorem unread_count_of_non_participant
    (m : MemStorage.State) (d : DatabaseStorage.State)
    (utcOffset : Date -> Z) (u c : string) :
  MemStorage.isUserInConversation m u c = false ->
  DatabaseStorage.isUserInConversation d u c = false ->
  MemStorage.getUnreadCount m u c = 0%nat
  /\ DatabaseStorage.getUnreadCount utcOffset d u c = 0%nat.
Proof.
  intros Hm Hd. split.
  - apply mem_not_participant in Hm.
    unfold MemStorage.getUnreadCount.
    unfold MemView.membership, MemView.participantsOf in Hm.
    now rewrite Hm.
  - apply db_not_participant in Hd.
    unfold DatabaseStorage.getUnreadCount.
    unfold DbView.membership in Hd. now rewrite Hd.
Qed.

Lemma unread_count_of_non_participant_witness :
  MemStorage.getUnreadCount Scenario.Mem.chatting "carol" "c-0" = 0%nat
  /\ DatabaseStorage.getUnreadCount (PgDriver.fixedZone 60)
       Scenario.Db.chatting "carol" "c-0"
     = 0%nat.
Proof.
  apply (@unread_count_of_non_participant Scenario.Mem.chatting
           Scenario.Db.chatting (PgDriver.fixedZone 60) "carol" "c-0");
    reflexivity.
Defined.

Lemma length_filter_unreadAfter (w : Date) (msgs : list Message.t) :
  length (filter (fun m => w <? Message.createdAt m) msgs)
  = Spec.unreadAfter w msgs.
Proof.
  induction msgs as [|m r IH]; simpl; [reflexivity|].
  destruct (w <? Message.createdAt m); simpl; now rewrite IH.
Qed.

Lemma filter_filter_and (A : Type) (p q : A -> bool) (l : list A) :
  filter (fun x => p x && q x) l = filter q (filter p l).
Proof.
  induction l as [|x r IH]; simpl; [reflexivity|].
  destruct (p x); simpl; [destruct (q x)|]; now rewrite IH.
Qed.

(** System and ordinary messages weigh the same in the count. *)
Lemma unreadAfter_system_split (w : Date) (msgs : list Message.t) :
  Spec.unreadAfter w msgs
  = (Spec.unreadAfter w (filter Message.isSystem msgs)
     + Spec.unreadAfter w (filter (fun m => negb (Message.isSystem m)) msgs))%nat.
Proof.
  induction msgs as [|m r IH]; simpl; [reflexivity|].
  destruct (Message.isSystem m); simpl;
    destruct (w <? Message.createdAt m); simpl; lia.
Qed.

(** What [MemStorage.getUnreadCount] counts for a membership row with
    the watermark [w]: the messages of the conversation that are newer
    than [w]. *)
Lemma mem_unread_count_newer (m : MemStorage.State) (u c : string)
    (p : ConversationParticipant.t) (w : Date) :
  MemView.membership m u c = Some p ->
  ConversationParticipant.lastReadAt p = Some w ->
  MemStorage.getUnreadCount m u c
  = Spec.unreadAfter w (MemView.messagesOf m c).
Proof.
  intros Hm Hw. unfold MemStorage.getUnreadCount.
  unfold MemView.membership, MemView.participantsOf in Hm.
  rewrite Hm, Hw. apply length_filter_unreadAfter.
Qed.

(** What [DatabaseStorage.getUnreadCount] counts for a membership row
    with the watermark [w]: the messages of the conversation that are
    newer than the local wall clock of [w]. *)
Lemma db_unread_count_newer (utcOffset : Date -> Z)
    (d : DatabaseStorage.State) (u c : string)
    (p : ConversationParticipant.t) (w : Date) :
  DbView.membership d u c = Some p ->
  ConversationParticipant.lastReadAt p = Some w ->
  DatabaseStorage.getUnreadCount utcOffset d u c
  = Spec.unreadAfter (PgDriver.timestampOfParam utcOffset w)
      (DbView.messagesOf d c).
Proof.
  intros Hd Hw. unfold DatabaseStorage.getUnreadCount.
  unfold DbView.membership in Hd. rewrite Hd, Hw.
  unfold DatabaseStorage.newerThan.
  rewrite (filter_filter_and
             (fun x => String.eqb (Message.conversationId x) c)
             (fun x =>
                PgDriver.timestampOfParam utcOffset w
                <? Message.createdAt x)).
  apply length_filter_unreadAfter.
Qed.

(** In UTC the two implementations count the same messages. *)
Lemma db_unread_count_newer_utc (d : DatabaseStorage.State) (u c : string)
    (p : ConversationParticipant.t) (w : Date) :
  DbView.membership d u c = Some p ->
  ConversationParticipant.lastReadAt p = Some w ->
  DatabaseStorage.getUnreadCount PgDriver.utc d u c
  = Spec.unreadAfter w (DbView.messagesOf d c).
Proof.
  intros Hd Hw. rewrite (db_unread_count_newer PgDriver.utc _ _ _ Hd Hw).
  unfold PgDriver.timestampOfParam, PgDriver.utc. now rewrite Z.add_0_r.
Qed.

(** C1. The count of [DatabaseStorage.getUnreadCount] depends on the time
    zone of the process.  In the conversation "c-0" the watermark of bob
    is 2000 and the three messages, a system message and two ordinary
    ones, are newer (2001, 3000 and 4000), so the claim asks for 3.
    [MemStorage.getUnreadCount] answers 3, and so does
    [DatabaseStorage.getUnreadCount] in a process that runs in UTC; in a
    process one hour ahead of UTC it answers 0, the watermark being
    compared as 3602000. *)
Theorem unread_count_shifted_by_time_zone :
  option_map ConversationParticipant.lastReadAt
    (DbView.membership Scenario.Db.chatting "bob" "c-0")
  = Some (Some 2000)
  /\ map (fun x => (Message.isSystem x, Message.createdAt x))
       (DbView.messagesOf Scenario.Db.chatting "c-0")
     = [(true, 2001); (false, 3000); (false, 4000)]
  /\ Spec.unreadAfter 2000 (DbView.messagesOf Scenario.Db.chatting "c-0")
     = 3%nat
  /\ MemStorage.getUnreadCount Scenario.Mem.chatting "bob" "c-0" = 3%nat
  /\ DatabaseStorage.getUnreadCount PgDriver.utc Scenario.Db.chatting "bob"
       "c-0"
     = 3%nat
  /\ DatabaseStorage.getUnreadCount (PgDriver.fixedZone 60)
       Scenario.Db.chatting "bob" "c-0"
     = 0%nat.
Proof. repeat split. Qed.

(** ** Marking a conversation as read (C2) *)

Lemma mem_participants_after_markRead (st : MemStorage.State)
    (u c c' : string) (t : Date) :
  MemView.participantsOf (MemStorage.markConversationAsRead st u c t) c'
  = if String.eqb c' c
    then JsArray.update_first
           (fun p => String.eqb (ConversationParticipant.userId p) u)
           (ConversationParticipant.with_lastReadAt (Some t))
           (MemView.participantsOf st c')
    else MemView.participantsOf st c'.
Proof.
  unfold MemView.participantsOf, MemStorage.markConversationAsRead; simpl.
  now rewrite get_or_nil_mutate.
Qed.

Lemma mem_markRead_unread (st : MemStorage.State) (u c : string) (t : Date) :
  (forall x, In x (MemView.messagesOf st c) -> Message.createdAt x <= t) ->
  MemStorage.getUnreadCount (MemStorage.markConversationAsRead st u c t) u c
  = 0%nat.
Proof.
  intros Hle. unfold MemStorage.getUnreadCount.
  fold (MemView.participantsOf (MemStorage.markConversationAsRead st u c t) c).
  rewrite mem_participants_after_markRead, String.eqb_refl.
  rewrite find_update_first by reflexivity.
  destruct (find _ (MemView.participantsOf st c)) as [p|]; simpl;
    [|reflexivity].
  rewrite filter_none; [reflexivity|].
  intros x Hx. apply Z.ltb_ge. apply Hle. exact Hx.
Qed.

Lemma mem_markRead_frame (st : MemStorage.State) (u c u' c' : string)
    (t : Date) :
  u' <> u \/ c' <> c ->
  MemView.memberships (MemStorage.markConversationAsRead st u c t) u' c'
  = MemView.memberships st u' c'.
Proof.
  intros Hne. unfold MemView.memberships.
  rewrite mem_participants_after_markRead.
  destruct (String.eqb c' c) eqn:Ec; [|reflexivity].
  apply String.eqb_eq in Ec.
  assert (Hu : u' <> u) by (destruct Hne; congruence).
  apply filter_update_first_other; intros x Hx; simpl;
    apply String.eqb_eq in Hx; rewrite Hx; now apply String.eqb_neq.
Qed.

Lemma db_markRead_unread (utcOffset : Date -> Z)
    (st : DatabaseStorage.State) (u c : string) (t : Date) :
  (forall x,
     In x (DbView.messagesOf st c) ->
     Message.createdAt x <= PgDriver.timestampOfParam utcOffset t) ->
  DatabaseStorage.getUnreadCount utcOffset
    (DatabaseStorage.markConversationAsRead st u c t) u c
  = 0%nat.
Proof.
  intros Hle.
  unfold DatabaseStorage.getUnreadCount, DatabaseStorage.markConversationAsRead.
  simpl.
  destruct (find _ (map _ _)) as [p|] eqn:Ep; [|reflexivity].
  apply find_some in Ep. destruct Ep as [Hin Hmem].
  apply in_map_iff in Hin. destruct Hin as [q [Hq _]].
  assert (Hw : ConversationParticipant.lastReadAt p = Some t).
  { destruct (DatabaseStorage.membershipOf u c q) eqn:Eq.
    - now subst p.
    - subst p. congruence. }
  rewrite Hw. rewrite filter_none; [reflexivity|].
  intros x Hx. simpl.
  destruct (String.eqb (Message.conversationId x) c) eqn:Ec; [|reflexivity].
  simpl. apply Z.ltb_ge. apply Hle.
  unfold DbView.messagesOf. apply filter_In. now split.
Qed.

Lemma db_markRead_frame (st : DatabaseStorage.State) (u c u' c' : string)
    (t : Date) :
  u' <> u \/ c' <> c ->
  DbView.memberships (DatabaseStorage.markConversationAsRead st u c t) u' c'
  = DbView.memberships st u' c'.
Proof.
  intros Hne.
  unfold DbView.memberships, DatabaseStorage.markConversationAsRead; simpl.
  induction (DatabaseStorage.conversationParticipants st) as [|p r IH];
    simpl; [reflexivity|].
  rewrite IH.
  destruct (DatabaseStorage.membershipOf u c p) eqn:E; [|reflexivity].
  assert (Hp : DatabaseStorage.membershipOf u' c' p = false).
  { unfold DatabaseStorage.membershipOf in *.
    apply andb_true_iff in E. destruct E as [E1 E2].
    apply String.eqb_eq in E1, E2. rewrite E1, E2.
    apply andb_false_iff.
    destruct Hne as [H|H]; [left|right]; apply String.eqb_neq; congruence. }
  assert (Hp' : DatabaseStorage.membershipOf u' c'
                  (ConversationParticipant.with_lastReadAt (Some t) p)
                = false) by exact Hp.
  now rewrite Hp, Hp'.
Qed.

Lemma mem_markRead_watermark (st : MemStorage.State) (u c : string)
    (t : Date) :
  MemStorage.isUserInConversation st u c = true ->
  option_map ConversationParticipant.lastReadAt
    (MemView.membership (MemStorage.markConversationAsRead st u c t) u c)
  = Some (Some t).
Proof.
  intros Hin. unfold MemView.membership.
  rewrite mem_participants_after_markRead, String.eqb_refl.
  rewrite find_update_first by reflexivity.
  apply find_some_existsb in Hin. destruct Hin as [p Hp].
  unfold MemView.participantsOf. now rewrite Hp.
Qed.

Lemma db_markRead_watermark (st : DatabaseStorage.State) (u c : string)
    (t : Date) :
  DatabaseStorage.isUserInConversation st u c = true ->
  option_map ConversationParticipant.lastReadAt
    (DbView.membership (DatabaseStorage.markConversationAsRead st u c t) u c)
  = Some (Some t).
Proof.
  unfold DatabaseStorage.isUserInConversation, DbView.membership,
    DatabaseStorage.markConversationAsRead; simpl.
  induction (DatabaseStorage.conversationParticipants st) as [|p r IH];
    simpl; [discriminate|].
  destruct (DatabaseStorage.membershipOf u c p) eqn:E.
  - intros _.
    change (DatabaseStorage.membershipOf u c
              (ConversationParticipant.with_lastReadAt (Some t) p))
      with (DatabaseStorage.membershipOf u c p).
    now rewrite E.
  - rewrite E. exact IH.
Qed.

(** Marking as read in [MemStorage]: the count of the reader is 0 when no
    message is newer than the clock reading, the reader's watermark is
    that reading, and the other membership rows are what they were. *)
Lemma mem_markRead_clears_and_keeps (m : MemStorage.State) (u c : string)
    (t : Date) :
  MemStorage.isUserInConversation m u c = true ->
  (forall x, In x (MemView.messagesOf m c) -> Message.createdAt x <= t) ->
  MemStorage.getUnreadCount (MemStorage.markConversationAsRead m u c t) u c
  = 0%nat
  /\ option_map ConversationParticipant.lastReadAt
       (MemView.membership (MemStorage.markConversationAsRead m u c t) u c)
     = Some (Some t)
  /\ forall u' c', u' <> u \/ c' <> c ->
       MemView.memberships (MemStorage.markConversationAsRead m u c t) u' c'
       = MemView.memberships m u' c'.
Proof.
  intros Pm Hm. split; [|split].
  - now apply mem_markRead_unread.
  - now apply mem_markRead_watermark.
  - intros; now apply mem_markRead_frame.
Qed.

(** Marking as read in [DatabaseStorage]: the same, but the count of the
    reader is 0 when no message is newer than the local wall clock of
    the reading. *)
Lemma db_markRead_clears_and_keeps (utcOffset : Date -> Z)
    (d : DatabaseStorage.State) (u c : string) (t : Date) :
  DatabaseStorage.isUserInConversation d u c = true ->
  (forall x,
     In x (DbView.messagesOf d c) ->
     Message.createdAt x <= PgDriver.timestampOfParam utcOffset t) ->
  DatabaseStorage.getUnreadCount utcOffset
    (DatabaseStorage.markConversationAsRead d u c t) u c
  = 0%nat
  /\ option_map ConversationParticipant.lastReadAt
       (DbView.membership (DatabaseStorage.markConversationAsRead d u c t)
          u c)
     = Some (Some t)
  /\ forall u' c', u' <> u \/ c' <> c ->
       DbView.memberships (DatabaseStorage.markConversationAsRead d u c t)
         u' c'
       = DbView.memberships d u' c'.
Proof.
  intros Pd Hd. split; [|split].
  - now apply db_markRead_unread.
  - now apply db_markRead_watermark.
  - intros; now apply db_markRead_frame.
Qed.

(** C2. Right after [markConversationAsRead] the unread count of
    [DatabaseStorage] is not 0 in a process behind UTC.  The three
    messages of "c-0" are of 2001, 3000 and 4000 and bob marks the
    conversation as read at 5000.  His count is then 0 in [MemStorage],
    and in [DatabaseStorage] in a process that runs in UTC; in a process
    five hours behind UTC it is 3, the new watermark being compared as
    5000 - 18000000.  The watermark of alice is what it was, in both
    implementations. *)
Theorem mark_read_leaves_unread_behind_utc :
  let m := MemStorage.markConversationAsRead Scenario.Mem.chatting "bob"
             "c-0" 5000 in
  let d := DatabaseStorage.markConversationAsRead Scenario.Db.chatting "bob"
             "c-0" 5000 in
  map Message.createdAt (DbView.messagesOf Scenario.Db.chatting "c-0")
  = [2001; 3000; 4000]
  /\ MemStorage.getUnreadCount m "bob" "c-0" = 0%nat
  /\ DatabaseStorage.getUnreadCount PgDriver.utc d "bob" "c-0" = 0%nat
  /\ DatabaseStorage.getUnreadCount (PgDriver.fixedZone (-300)) d "bob" "c-0"
     = 3%nat
  /\ option_map ConversationParticipant.lastReadAt
       (DbView.membership d "bob" "c-0")
     = Some (Some 5000)
  /\ MemView.memberships m "alice" "c-0"
     = MemView.memberships Scenario.Mem.chatting "alice" "c-0"
  /\ DbView.memberships d "alice" "c-0"
     = DbView.memberships Scenario.Db.chatting "alice" "c-0".
Proof. repeat split. Qed.

(** ** Creating a conversation (C8) *)

Lemma mem_addParticipant_fields (st : MemStorage.State) (cid u rid : string)
    (t : Date) :
  MemStorage.users (MemStorage.addParticipant st cid u rid t)
  = MemStorage.users st
  /\ MemStorage.conversations (MemStorage.addParticipant st cid u rid t)
     = MemStorage.conversations st
  /\ MemStorage.messages (MemStorage.addParticipant st cid u rid t)
     = MemStorage.messages st
  /\ MemStorage.friendRequests (MemStorage.addParticipant st cid u rid t)
     = MemStorage.friendRequests st.
Proof. repeat split. Qed.

Lemma mem_addParticipant_participantsOf (st : MemStorage.State)
    (cid u rid c' : string) (t : Date) :
  MemView.participantsOf (MemStorage.addParticipant st cid u rid t) c'
  = if String.eqb c' cid
    then MemView.participantsOf st cid
         ++ [ConversationParticipant.mk rid cid u t (Some t)]
    else MemView.participantsOf st c'.
Proof.
  unfold MemView.participantsOf, MemStorage.addParticipant; simpl.
  apply get_or_nil_set.
Qed.

Lemma mem_addParticipants_fields (ids : list string) (st : MemStorage.State)
    (cid : string) (e : Env) (k : nat) :
  MemStorage.users (MemStorage.addParticipants st cid ids e k)
  = MemStorage.users st
  /\ MemStorage.conversations (MemStorage.addParticipants st cid ids e k)
     = MemStorage.conversations st
  /\ MemStorage.messages (MemStorage.addParticipants st cid ids e k)
     = MemStorage.messages st
  /\ MemStorage.friendRequests (MemStorage.addParticipants st cid ids e k)
     = MemStorage.friendRequests st.
Proof.
  revert st k. induction ids as [|u r IH]; intros st k; simpl.
  - repeat split.
  - destruct (IH (MemStorage.addParticipant st cid u (uuid e k) (now e))
                (S k)) as (H1 & H2 & H3 & H4).
    rewrite H1, H2, H3, H4. repeat split.
Qed.

Lemma mem_addParticipants_other (ids : list string) (st : MemStorage.State)
    (cid c' : string) (e : Env) (k : nat) :
  c' <> cid ->
  MemView.participantsOf (MemStorage.addParticipants st cid ids e k) c'
  = MemView.participantsOf st c'.
Proof.
  intros Hne. revert st k. induction ids as [|u r IH]; intros st k; simpl.
  - reflexivity.
  - rewrite IH, mem_addParticipant_participantsOf.
    apply String.eqb_neq in Hne. now rewrite Hne.
Qed.

Lemma mem_addParticipants_userIds (ids : list string) (st : MemStorage.State)
    (cid : string) (e : Env) (k : nat) :
  map ConversationParticipant.userId
    (MemView.participantsOf (MemStorage.addParticipants st cid ids e k) cid)
  = map ConversationParticipant.userId (MemView.participantsOf st cid) ++ ids.
Proof.
  revert st k. induction ids as [|u r IH]; intros st k; simpl.
  - now rewrite app_nil_r.
  - rewrite IH, mem_addParticipant_participantsOf, String.eqb_refl.
    rewrite map_app, <- app_assoc. reflexivity.
Qed.

(** The members [MemStorage.createConversation] adds: the creator, then
    every listed participant, one row each time an id is listed. *)
Lemma mem_createConversation_userIds (st : MemStorage.State)
    (data : CreateConversationRequest.t) (creator : string) (e : Env) :
  let '(conv, st') := MemStorage.createConversation st data creator e in
  map ConversationParticipant.userId
    (MemView.participantsOf st' (Conversation.id conv))
  = map ConversationParticipant.userId
      (MemView.participantsOf st (uuid e 0%nat))
    ++ creator :: CreateConversationRequest.participantIds data.
Proof.
  unfold MemStorage.createConversation; simpl.
  rewrite mem_addParticipants_userIds, mem_addParticipant_participantsOf.
  rewrite String.eqb_refl, map_app, <- app_assoc. reflexivity.
Qed.

Lemma db_addParticipants_rows (ids : list string) (st : DatabaseStorage.State)
    (cid : string) (e : Env) (k : nat) :
  exists rows,
    DatabaseStorage.addParticipants st cid ids e k
    = DatabaseStorage.with_conversationParticipants
        (DatabaseStorage.conversationParticipants st ++ rows) st
    /\ map ConversationParticipant.userId rows = ids
    /\ Forall (fun p => ConversationParticipant.conversationId p = cid) rows.
Proof.
  revert st k. induction ids as [|u r IH]; intros st k; simpl.
  - exists []. rewrite app_nil_r. destruct st; repeat split. constructor.
  - destruct (IH (DatabaseStorage.addParticipant st cid u (uuid e k) (now e))
                (S k)) as (rows & H1 & H2 & H3).
    exists (ConversationParticipant.mk (uuid e k) cid u (now e)
              (Some (now e)) :: rows).
    rewrite H1. simpl. rewrite <- app_assoc. simpl.
    repeat split.
    + now rewrite H2.
    + constructor; [reflexivity | exact H3].
Qed.

Lemma includes_In (x : string) (l : list string) :
  JsArray.includes x l = true <-> In x l.
Proof.
  unfold JsArray.includes. rewrite existsb_exists. split.
  - intros [y [Hy E]]. apply String.eqb_eq in E. now subst.
  - intros H. exists x. split; [exact H | apply String.eqb_refl].
Qed.

Lemma includes_not_In (x : string) (l : list string) :
  JsArray.includes x l = false <-> ~ In x l.
Proof.
  rewrite <- includes_In. destruct (JsArray.includes x l); split; intros;
    congruence.
Qed.

Lemma unique_from_spec (l seen : list string) :
  NoDup (JsArray.unique_from seen l)
  /\ forall x, In x (JsArray.unique_from seen l) <-> In x l /\ ~ In x seen.
Proof.
  revert seen. induction l as [|a r IH]; intros seen; simpl.
  - split; [constructor | tauto].
  - destruct (JsArray.includes a seen) eqn:E.
    + apply includes_In in E. destruct (IH seen) as [Hn Hi]. split; [exact Hn|].
      intros x. rewrite Hi. split; [tauto|].
      intros [[->|H] Hs]; tauto.
    + apply includes_not_In in E. destruct (IH (a :: seen)) as [Hn Hi].
      split.
      * constructor; [|exact Hn]. rewrite Hi. simpl. tauto.
      * intros x. simpl. rewrite Hi. simpl. split.
        -- intros [->|[H1 H2]]; tauto.
        -- intros [[->|H1] H2]; [tauto|].
           destruct (string_dec a x); [tauto|]. right. tauto.
Qed.

(** [[...new Set(l)]] holds every element of [l] once. *)
Lemma unique_spec (l : list string) :
  NoDup (JsArray.unique l) /\ forall x, In x (JsArray.unique l) <-> In x l.
Proof.
  destruct (unique_from_spec l []) as [H1 H2]. split; [exact H1|].
  intros x. unfold JsArray.unique. rewrite H2. simpl. tauto.
Qed.

(** The members [DatabaseStorage.createConversation] adds: the listed
    participants and the creator, each once. *)
Lemma db_createConversation_rows (st : DatabaseStorage.State)
    (data : CreateConversationRequest.t) (creator : string) (e : Env) :
  let '(conv, st') := DatabaseStorage.createConversation st data creator e in
  exists rows,
    DatabaseStorage.conversationParticipants st'
    = DatabaseStorage.conversationParticipants st ++ rows
    /\ map ConversationParticipant.userId rows
       = JsArray.unique
           (CreateConversationRequest.participantIds data ++ [creator])
    /\ Forall
         (fun p =>
            ConversationParticipant.conversationId p = Conversation.id conv)
         rows
    /\ DatabaseStorage.conversations st'
       = DatabaseStorage.conversations st ++ [conv]
    /\ DatabaseStorage.users st' = DatabaseStorage.users st
    /\ DatabaseStorage.messages st' = DatabaseStorage.messages st
    /\ DatabaseStorage.friendRequests st' = DatabaseStorage.friendRequests st.
Proof.
  unfold DatabaseStorage.createConversation.
  match goal with
  | |- context [DatabaseStorage.addParticipants ?s ?c ?i ?e ?k] =>
      destruct (db_addParticipants_rows i s c e k) as (rows & H1 & H2 & H3)
  end.
  exists rows. rewrite H1. simpl. repeat split; assumption.
Qed.

Lemma unique_from_NoDup (l seen : list string) :
  NoDup l -> (forall x, In x l -> ~ In x seen) ->
  JsArray.unique_from seen l = l.
Proof.
  revert seen. induction l as [|a r IH]; intros seen Hn Hs; simpl;
    [reflexivity|].
  inversion Hn as [|? ? Ha Hr]; subst.
  assert (E : JsArray.includes a seen = false).
  { apply includes_not_In. apply Hs. now left. }
  rewrite E. f_equal. apply IH; [exact Hr|].
  intros x Hx [<-|Hin]; [tauto|]. apply (Hs x); [now right | exact Hin].
Qed.

(** Where no user is listed twice and the creator is not listed, the two
    implementations add the same members (in a different order). *)
Lemma create_conversation_members_agree (m : MemStorage.State)
    (d : DatabaseStorage.State) (data : CreateConversationRequest.t)
    (creator : string) (e : Env) :
  NoDup (creator :: CreateConversationRequest.participantIds data) ->
  MemView.participantsOf m (uuid e 0%nat) = [] ->
  exists rows,
    DatabaseStorage.conversationParticipants
      (snd (DatabaseStorage.createConversation d data creator e))
    = DatabaseStorage.conversationParticipants d ++ rows
    /\ Permutation
         (map ConversationParticipant.userId
            (MemView.participantsOf
               (snd (MemStorage.createConversation m data creator e))
               (uuid e 0%nat)))
         (map ConversationParticipant.userId rows).
Proof.
  intros Hn Hempty.
  pose proof (mem_createConversation_userIds m data creator e) as Hm.
  pose proof (db_createConversation_rows d data creator e) as Hd.
  destruct (MemStorage.createConversation m data creator e) as [cm m'] eqn:Em.
  destruct (DatabaseStorage.createConversation d data creator e) as [cd d'].
  assert (Eid : Conversation.id cm = uuid e 0%nat).
  { unfold MemStorage.createConversation in Em. now injection Em as <- _. }
  destruct Hd as (rows & Hrows & Hids & _).
  exists rows. split; [exact Hrows|]. simpl.
  rewrite Eid, Hempty in Hm. simpl in Hm. rewrite Hm, Hids.
  unfold JsArray.unique. rewrite unique_from_NoDup.
  - change (creator :: CreateConversationRequest.participantIds data)
      with ([creator] ++ CreateConversationRequest.participantIds data).
    apply Permutation_app_comm.
  - apply NoDup_app; [now inversion Hn | repeat constructor; tauto|].
    intros x Hx [<-|[]]. now inversion Hn.
  - intros x _ [].
Qed.

(** C8, at the input the client's dialog sends when alice creates a
    group with bob and carol: [participantIds = [bob, carol, alice]] (the
    creator's own id is listed), [isGroup = true], [name = "Team"],
    creator alice.  [MemStorage.createConversation] gives alice two
    membership rows; [DatabaseStorage.createConversation] gives every
    user one. *)
Theorem create_conversation_members_differ :
  let data :=
    CreateConversationRequest.mk ["bob"; "carol"; "alice"] true
      (Some "Team") in
  let e := Scenario.env 5000 "g-" in
  map ConversationParticipant.userId
    (MemView.participantsOf
       (snd (MemStorage.createConversation Scenario.Mem.registered data
               "alice" e))
       "g-0")
  = ["alice"; "bob"; "carol"; "alice"]
  /\ map ConversationParticipant.userId
       (filter
          (fun p => String.eqb (ConversationParticipant.conversationId p) "g-0")
          (DatabaseStorage.conversationParticipants
             (snd (DatabaseStorage.createConversation Scenario.Db.registered
                     data "alice" e))))
     = ["bob"; "carol"; "alice"].
Proof. split; reflexivity. Qed.

(** ** Sending a friend request over an existing record (C5) *)

Section MapFacts2.
Context {V : Type}.

Lemma keys_mutate_found (p : V -> bool) (f : V -> V) (m : JsMap.t V) :
  JsMap.keys (JsMap.mutate_found p f m) = JsMap.keys m.
Proof.
  unfold JsMap.keys. induction m as [|[k v] r IH]; simpl; [reflexivity|].
  destruct (p v); simpl; [reflexivity | now rewrite IH].
Qed.

Lemma length_set_key (k : string) (v : V) (m : JsMap.t V) :
  In k (JsMap.keys m) -> length (JsMap.set k v m) = length m.
Proof.
  unfold JsMap.keys. induction m as [|[k0 v0] r IH]; simpl; [tauto|].
  intros H. destruct (String.eqb k k0) eqn:E; simpl; [reflexivity|].
  apply String.eqb_neq in E. rewrite IH; [reflexivity|].
  destruct H; congruence.
Qed.

Lemma found_value_key (id : V -> string) (p : V -> bool) (m : JsMap.t V)
    (x : V) :
  keyedById id m -> find p (JsMap.values m) = Some x ->
  In (id x) (JsMap.keys m).
Proof.
  intros Hk Hf. apply find_some in Hf. destruct Hf as [Hin _].
  unfold JsMap.values in Hin. apply in_map_iff in Hin.
  destruct Hin as [[k v] [E Hin]]. simpl in E. subst v.
  unfold keyedById in Hk. rewrite Forall_forall in Hk.
  specialize (Hk _ Hin). simpl in Hk. rewrite <- Hk.
  unfold JsMap.keys. apply in_map_iff. now exists (k, x).
Qed.

End MapFacts2.

Lemma db_reopen_length (i s r : string) (t : Date)
    (rows : list FriendRequest.t) :
  length (fst (DatabaseStorage.reopenById i s r t rows)) = length rows.
Proof. unfold DatabaseStorage.reopenById; simpl. apply length_map. Qed.

Lemma db_reopen_returned (s r : string) (t : Date)
    (rows : list FriendRequest.t) (x : FriendRequest.t) :
  hd (FriendRequest.reopened s r t x)
    (snd (DatabaseStorage.reopenById (FriendRequest.id x) s r t rows))
  = FriendRequest.reopened s r t x.
Proof.
  unfold DatabaseStorage.reopenById; simpl.
  induction rows as [|y l IH]; simpl; [reflexivity|].
  destruct (String.eqb (FriendRequest.id y) (FriendRequest.id x)) eqn:E;
    simpl; [|exact IH].
  apply String.eqb_eq in E. unfold FriendRequest.reopened. now rewrite E.
Qed.

Lemma db_reopen_lookup (s r : string) (t : Date)
    (rows : list FriendRequest.t) (x : FriendRequest.t) :
  In x rows ->
  find (fun y => String.eqb (FriendRequest.id y) (FriendRequest.id x))
    (fst (DatabaseStorage.reopenById (FriendRequest.id x) s r t rows))
  = Some (FriendRequest.reopened s r t x).
Proof.
  unfold DatabaseStorage.reopenById; simpl.
  induction rows as [|y l IH]; simpl; [tauto|].
  intros Hin.
  destruct (String.eqb (FriendRequest.id y) (FriendRequest.id x)) eqn:E;
    simpl.
  - rewrite E. apply String.eqb_eq in E.
    unfold FriendRequest.reopened. now rewrite E.
  - rewrite E. apply IH. destruct Hin as [->|H]; [|exact H].
    now rewrite String.eqb_refl in E.
Qed.

(** C5, as the code has it.  When the first record between the two users
    is rejected, [sendFriendRequest] re-opens that record under the id it
    already has: the record returned is pending, carries the new sender,
    receiver and creation time, is the one now stored under that id, and
    the number of records is unchanged.  When the record is pending or
    accepted, it is returned and the store is unchanged.  In both storage
    implementations. *)
Theorem send_friend_request_over_existing_record
    (m : MemStorage.State) (d : DatabaseStorage.State) (s r : string)
    (e : Env) (xm xd : FriendRequest.t) :
  keyedById FriendRequest.id (MemStorage.friendRequests m) ->
  find (betweenPair s r) (JsMap.values (MemStorage.friendRequests m))
  = Some xm ->
  find (betweenPair s r) (DatabaseStorage.friendRequests d) = Some xd ->
  match FriendRequest.status xm with
  | rejected =>
      let '(req, m') := MemStorage.sendFriendRequest m s r e in
      req = FriendRequest.mk (FriendRequest.id xm) s r pending (now e)
      /\ MemStorage.getFriendRequestById m' (FriendRequest.id xm) = Some req
      /\ length (MemStorage.friendRequests m')
         = length (MemStorage.friendRequests m)
  | _ => MemStorage.sendFriendRequest m s r e = (xm, m)
  end
  /\ match FriendRequest.status xd with
     | rejected =>
         let '(req, d') := DatabaseStorage.sendFriendRequest d s r e in
         req = FriendRequest.mk (FriendRequest.id xd) s r pending (now e)
         /\ DatabaseStorage.getFriendRequestById d' (FriendRequest.id xd)
            = Some req
         /\ length (DatabaseStorage.friendRequests d')
            = length (DatabaseStorage.friendRequests d)
     | _ => DatabaseStorage.sendFriendRequest d s r e = (xd, d)
     end.
Proof.
  intros Hk Hm Hd. split.
  - unfold MemStorage.sendFriendRequest. rewrite Hm.
    destruct (FriendRequest.status xm); try reflexivity.
    simpl. repeat split.
    + unfold MemStorage.getFriendRequestById; simpl.
      now rewrite get_set, String.eqb_refl.
    + rewrite length_set_key.
      * clear. induction (MemStorage.friendRequests m) as [|[k v] l IH];
          simpl; [reflexivity|].
        destruct (betweenPair s r v); simpl; [reflexivity | now rewrite IH].
      * rewrite keys_mutate_found.
        apply (found_value_key (id := FriendRequest.id) _ Hk Hm).
  - unfold DatabaseStorage.sendFriendRequest. rewrite Hd.
    destruct (FriendRequest.status xd); try reflexivity.
    pose proof (db_reopen_returned s r (now e)
                  (DatabaseStorage.friendRequests d) xd) as Hret.
    pose proof (db_reopen_lookup s r (now e)
                  (DatabaseStorage.friendRequests d) xd
                  (proj1 (find_some _ _ Hd))) as Hlook.
    pose proof (db_reopen_length (FriendRequest.id xd) s r (now e)
                  (DatabaseStorage.friendRequests d)) as Hlen.
    destruct (DatabaseStorage.reopenById _ _ _ _ _) as [rows returned].
    simpl in *. rewrite Hret. repeat split; assumption.
Qed.

Lemma send_friend_request_over_existing_record_witness :
  fst (MemStorage.sendFriendRequest Scenario.Mem.turnedDown "bob" "alice"
         (Scenario.env 6000 "s-"))
  = FriendRequest.mk "r-0" "bob" "alice" pending 6000
  /\ fst (DatabaseStorage.sendFriendRequest Scenario.Db.turnedDown "bob"
            "alice" (Scenario.env 6000 "s-"))
     = FriendRequest.mk "r-0" "bob" "alice" pending 6000.
Proof.
  assert (Hk : keyedById FriendRequest.id
                 (MemStorage.friendRequests Scenario.Mem.turnedDown))
    by (repeat constructor).
  destruct (@send_friend_request_over_existing_record
              Scenario.Mem.turnedDown Scenario.Db.turnedDown "bob" "alice"
              (Scenario.env 6000 "s-")
              (FriendRequest.mk "r-0" "alice" "bob" rejected 1000)
              (FriendRequest.mk "r-0" "alice" "bob" rejected 1000)
              Hk eq_refl eq_refl) as [Hm Hd].
  cbn in Hm, Hd. destruct Hm as [Hm _]. destruct Hd as [Hd _].
  split; [exact Hm | exact Hd].
Defined.

(** C5 as stated fails: after a rejection, [sendFriendRequest] does not
    return a record with a fresh id.  alice's request "r-0" to bob was
    rejected; sending again returns a record whose id is "r-0". *)
Lemma resend_after_rejection_reuses_id :
  ~ (forall (st : MemStorage.State) (s r : string) (e : Env)
       (x : FriendRequest.t),
       find (betweenPair s r) (JsMap.values (MemStorage.friendRequests st))
       = Some x ->
       FriendRequest.status x = rejected ->
       FriendRequest.id (fst (MemStorage.sendFriendRequest st s r e))
       <> FriendRequest.id x)
  /\ ~ (forall (st : DatabaseStorage.State) (s r : string) (e : Env)
          (x : FriendRequest.t),
          find (betweenPair s r) (DatabaseStorage.friendRequests st)
          = Some x ->
          FriendRequest.status x = rejected ->
          FriendRequest.id (fst (DatabaseStorage.sendFriendRequest st s r e))
          <> FriendRequest.id x).
Proof.
  split; intros H.
  - apply (H Scenario.Mem.turnedDown "alice" "bob" (Scenario.env 6000 "s-")
             (FriendRequest.mk "r-0" "alice" "bob" rejected 1000)
             eq_refl eq_refl).
    reflexivity.
  - apply (H Scenario.Db.turnedDown "alice" "bob" (Scenario.env 6000 "s-")
             (FriendRequest.mk "r-0" "alice" "bob" rejected 1000)
             eq_refl eq_refl).
    reflexivity.
Qed.

(** ** Answering a friend request (C7, C6) *)

(** C7. When the authenticated caller is not the receiver of the friend
    request, the update-request handler answers 403 (Forbidden) whether
    the caller asks to accept or to reject, over any storage: nothing is
    written (the storage, hence the status of the request, is unchanged)
    and no event is emitted.  So a request changes status through this
    route only when its receiver calls it. *)
Theorem update_request_forbidden_unless_receiver
    (S : Type) (storage : IStorage.t S) (st : S) (userId requestId : string)
    (status : UpdateStatus) (e1 e2 : Env) (request : FriendRequest.t) :
  IStorage.getFriendRequestById st requestId = Some request ->
  FriendRequest.receiverId request <> userId ->
  Routes.updateRequest st userId requestId status e1 e2
  = (Routes.mkResponse 403
       (Routes.message "Not authorized to update this request"),
     st, [])
  /\ IStorage.getFriendRequestById
       (snd (fst (Routes.updateRequest st userId requestId status e1 e2)))
       requestId
     = Some request.
Proof.
  intros Hget Hne.
  assert (E : Routes.updateRequest st userId requestId status e1 e2
              = (Routes.mkResponse 403
                   (Routes.message "Not authorized to update this request"),
                 st, [])).
  { unfold Routes.updateRequest. rewrite Hget.
    apply String.eqb_neq in Hne. now rewrite Hne. }
  split; [exact E|]. rewrite E. exact Hget.
Qed.

Lemma update_request_forbidden_unless_receiver_witness :
  Routes.updateRequest Scenario.Mem.requested "alice" "r-0" to_accepted
    (Scenario.env 2000 "c-") (Scenario.env 2001 "m-")
  = (Routes.mkResponse 403
       (Routes.message "Not authorized to update this request"),
     Scenario.Mem.requested, [])
  /\ Routes.updateRequest Scenario.Db.requested "carol" "r-0" to_rejected
       (Scenario.env 2000 "c-") (Scenario.env 2001 "m-")
     = (Routes.mkResponse 403
          (Routes.message "Not authorized to update this request"),
        Scenario.Db.requested, []).
Proof.
  split.
  - refine (proj1
              (@update_request_forbidden_unless_receiver MemStorage.State
                 MemStorage_IStorage Scenario.Mem.requested "alice" "r-0"
                 to_accepted (Scenario.env 2000 "c-") (Scenario.env 2001 "m-")
                 (FriendRequest.mk "r-0" "alice" "bob" pending 1000)
                 eq_refl _)).
    discriminate.
  - refine (proj1
              (@update_request_forbidden_unless_receiver DatabaseStorage.State
                 DatabaseStorage_IStorage Scenario.Db.requested "carol" "r-0"
                 to_rejected (Scenario.env 2000 "c-") (Scenario.env 2001 "m-")
                 (FriendRequest.mk "r-0" "alice" "bob" pending 1000)
                 eq_refl _)).
    discriminate.
Defined.

Lemma existsb_userId_includes (u : string)
    (l : list ConversationParticipant.t) :
  existsb (fun p => String.eqb (ConversationParticipant.userId p) u) l
  = JsArray.includes u (map ConversationParticipant.userId l).
Proof.
  unfold JsArray.includes. induction l as [|p r IH]; simpl; [reflexivity|].
  now rewrite IH, String.eqb_sym.
Qed.

Lemma mem_isUserInConversation_In (st : MemStorage.State) (u c : string) :
  MemStorage.isUserInConversation st u c = true
  <-> In u (map ConversationParticipant.userId (MemView.participantsOf st c)).
Proof.
  unfold MemStorage.isUserInConversation.
  fold (MemView.participantsOf st c).
  rewrite existsb_userId_includes. apply includes_In.
Qed.

Lemma in_values_set (V : Type) (k : string) (v : V) (m : JsMap.t V) :
  In v (JsMap.values (JsMap.set k v m)).
Proof.
  unfold JsMap.values. induction m as [|[k0 v0] r IH]; simpl; [now left|].
  destruct (String.eqb k k0); simpl; [now left | now right].
Qed.

Lemma in_values_mutate (V : Type) (k : string) (f : V -> V) (m : JsMap.t V)
    (v : V) :
  In v (JsMap.values m) ->
  In v (JsMap.values (JsMap.mutate k f m))
  \/ In (f v) (JsMap.values (JsMap.mutate k f m)).
Proof.
  unfold JsMap.values. induction m as [|[k0 v0] r IH]; simpl; [tauto|].
  intros [->|H].
  - destruct (String.eqb k k0); simpl; tauto.
  - destruct (String.eqb k k0); simpl; [tauto|].
    destruct (IH H); tauto.
Qed.

Lemma mem_isPrivateOf_true (st : MemStorage.State) (u1 u2 : string)
    (conv : Conversation.t) :
  MemStorage.isPrivateOf st u1 u2 conv = true ->
  Conversation.isGroup conv = false
  /\ length (MemView.participantsOf st (Conversation.id conv)) = 2%nat
  /\ In u1 (map ConversationParticipant.userId
              (MemView.participantsOf st (Conversation.id conv)))
  /\ In u2 (map ConversationParticipant.userId
              (MemView.participantsOf st (Conversation.id conv))).
Proof.
  unfold MemStorage.isPrivateOf.
  fold (MemView.participantsOf st (Conversation.id conv)).
  intros H. apply andb_true_iff in H. destruct H as [Hg H].
  apply andb_true_iff in H. destruct H as [H H2].
  apply andb_true_iff in H. destruct H as [Hl H1].
  apply negb_true_iff in Hg. apply Nat.eqb_eq in Hl.
  rewrite length_map in Hl. apply includes_In in H1, H2. tauto.
Qed.

(** What [MemStorage.findOrCreatePrivateConversation] returns is a
    stored, non-group conversation that both users belong to; only
    conversations and memberships may have changed. *)
Lemma mem_findOrCreate_result (st : MemStorage.State) (u1 u2 : string)
    (e : Env) :
  let '(conv, st') := MemStorage.findOrCreatePrivateConversation st u1 u2 e in
  Conversation.isGroup conv = false
  /\ In conv (JsMap.values (MemStorage.conversations st'))
  /\ MemStorage.isUserInConversation st' u1 (Conversation.id conv) = true
  /\ MemStorage.isUserInConversation st' u2 (Conversation.id conv) = true
  /\ MemStorage.messages st' = MemStorage.messages st
  /\ MemStorage.friendRequests st' = MemStorage.friendRequests st
  /\ MemStorage.users st' = MemStorage.users st.
Proof.
  unfold MemStorage.findOrCreatePrivateConversation.
  destruct (find _ _) as [conv|] eqn:Ef.
  - apply find_some in Ef. destruct Ef as [Hin Hp].
    apply mem_isPrivateOf_true in Hp. destruct Hp as (Hg & _ & H1 & H2).
    repeat split; try assumption; now apply mem_isUserInConversation_In.
  - pose proof (mem_createConversation_userIds st
                  (CreateConversationRequest.mk [u2] false None) u1 e) as Hu.
    destruct (MemStorage.createConversation st _ u1 e) as [conv st'] eqn:Ec.
    unfold MemStorage.createConversation in Ec. simpl in Ec.
    injection Ec as Econv Est. simpl in Hu.
    repeat split.
    + now subst conv.
    + subst conv st'. simpl. apply in_values_set.
    + apply mem_isUserInConversation_In. rewrite Hu.
      apply in_or_app. right. now left.
    + apply mem_isUserInConversation_In. rewrite Hu.
      apply in_or_app. right. right. now left.
    + now subst st'.
    + now subst st'.
    + now subst st'.
Qed.

(** [MemStorage.createMessage] appends one message to the list of its
    conversation and touches no other list, no membership and no friend
    request; stored conversations keep their id and kind. *)
Lemma mem_createMessage_result (st : MemStorage.State)
    (data : InsertMessage.t) (e : Env) :
  let '(sent, st') := MemStorage.createMessage st data e in
  let msg := MessageWithSender.message sent in
  msg = Message.mk (uuid e 0%nat) (InsertMessage.conversationId data)
          (InsertMessage.senderId data) (InsertMessage.content data)
          (InsertMessage.isSystem data) (now e)
  /\ MemView.messagesOf st' (InsertMessage.conversationId data)
     = MemView.messagesOf st (InsertMessage.conversationId data) ++ [msg]
  /\ (forall c, c <> InsertMessage.conversationId data ->
        MemView.messagesOf st' c = MemView.messagesOf st c)
  /\ MemStorage.conversationParticipants st'
     = MemStorage.conversationParticipants st
  /\ MemStorage.friendRequests st' = MemStorage.friendRequests st
  /\ (forall conv, In conv (JsMap.values (MemStorage.conversations st)) ->
        exists conv',
          In conv' (JsMap.values (MemStorage.conversations st'))
          /\ Conversation.id conv' = Conversation.id conv
          /\ Conversation.isGroup conv' = Conversation.isGroup conv).
Proof.
  unfold MemStorage.createMessage, MemView.messagesOf; simpl.
  repeat split.
  - now rewrite get_or_nil_set, String.eqb_refl.
  - intros c Hc. rewrite get_or_nil_set.
    apply String.eqb_neq in Hc. now rewrite Hc.
  - intros conv Hin.
    destruct (in_values_mutate (InsertMessage.conversationId data)
                (Conversation.with_lastMessageAt (Some (now e)))
                (MemStorage.conversations st) conv Hin) as [H|H].
    + exists conv. tauto.
    + exists (Conversation.with_lastMessageAt (Some (now e)) conv).
      repeat split. exact H.
Qed.

Lemma db_isUserInConversation_iff (st : DatabaseStorage.State)
    (u c : string) :
  DatabaseStorage.isUserInConversation st u c = true
  <-> exists p,
        In p (DatabaseStorage.conversationParticipants st)
        /\ ConversationParticipant.userId p = u
        /\ ConversationParticipant.conversationId p = c.
Proof.
  unfold DatabaseStorage.isUserInConversation. split.
  - destruct (find _ _) as [p|] eqn:E; [|discriminate]. intros _.
    apply find_some in E. destruct E as [Hin Hp].
    apply andb_true_iff in Hp. destruct Hp as [H1 H2].
    apply String.eqb_eq in H1, H2. now exists p.
  - intros (p & Hin & Hu & Hc).
    destruct (find _ _) as [q|] eqn:E; [reflexivity|].
    apply (find_none _ _ E) in Hin.
    unfold DatabaseStorage.membershipOf in Hin.
    now rewrite Hu, Hc, !String.eqb_refl in Hin.
Qed.

Lemma db_commonConvIds_In (st : DatabaseStorage.State) (u1 u2 c : string) :
  In c (DatabaseStorage.commonConvIds st u1 u2) ->
  DatabaseStorage.isUserInConversation st u1 c = true
  /\ DatabaseStorage.isUserInConversation st u2 c = true.
Proof.
  unfold DatabaseStorage.commonConvIds. intros H.
  apply filter_In in H. destruct H as [H2 H1].
  apply includes_In in H1.
  apply in_map_iff in H1. destruct H1 as (p1 & Hc1 & Hp1).
  apply in_map_iff in H2. destruct H2 as (p2 & Hc2 & Hp2).
  apply filter_In in Hp1, Hp2.
  destruct Hp1 as [Hin1 Hu1]. destruct Hp2 as [Hin2 Hu2].
  apply String.eqb_eq in Hu1, Hu2.
  split; apply db_isUserInConversation_iff; eauto.
Qed.

Lemma db_getConversationById_some (st : DatabaseStorage.State) (c : string)
    (conv : Conversation.t) :
  DatabaseStorage.getConversationById st c = Some conv ->
  In conv (DatabaseStorage.conversations st) /\ Conversation.id conv = c.
Proof.
  intros H. apply find_some in H. destruct H as [Hin E].
  apply String.eqb_eq in E. tauto.
Qed.

Lemma db_firstPrivate_some (st : DatabaseStorage.State) (ids : list string)
    (conv : Conversation.t) :
  DatabaseStorage.firstPrivate st ids = Some conv ->
  In (Conversation.id conv) ids
  /\ In conv (DatabaseStorage.conversations st)
  /\ Conversation.isGroup conv = false
  /\ length
       (DatabaseStorage.getConversationParticipants st (Conversation.id conv))
     = 2%nat.
Proof.
  induction ids as [|c r IH]; simpl; [discriminate|].
  destruct (DatabaseStorage.getConversationById st c) as [x|] eqn:E.
  - destruct (negb (Conversation.isGroup x)
              && Nat.eqb
                   (length (DatabaseStorage.getConversationParticipants st c))
                   2) eqn:T.
    + intros H. injection H as ->.
      apply db_getConversationById_some in E. destruct E as [Hin Hid].
      apply andb_true_iff in T. destruct T as [T1 T2].
      apply negb_true_iff in T1. apply Nat.eqb_eq in T2.
      subst c. tauto.
    + intros H. specialize (IH H). tauto.
  - intros H. specialize (IH H). tauto.
Qed.

(** What [DatabaseStorage.findOrCreatePrivateConversation] returns is a
    stored, non-group conversation that both users belong to; only
    conversations and memberships may have changed. *)
Lemma db_findOrCreate_result (st : DatabaseStorage.State) (u1 u2 : string)
    (e : Env) :
  let '(conv, st') :=
    DatabaseStorage.findOrCreatePrivateConversation st u1 u2 e in
  Conversation.isGroup conv = false
  /\ In conv (DatabaseStorage.conversations st')
  /\ DatabaseStorage.isUserInConversation st' u1 (Conversation.id conv) = true
  /\ DatabaseStorage.isUserInConversation st' u2 (Conversation.id conv) = true
  /\ DatabaseStorage.messages st' = DatabaseStorage.messages st
  /\ DatabaseStorage.friendRequests st' = DatabaseStorage.friendRequests st
  /\ DatabaseStorage.users st' = DatabaseStorage.users st.
Proof.
  unfold DatabaseStorage.findOrCreatePrivateConversation.
  destruct (DatabaseStorage.firstPrivate _ _) as [conv|] eqn:Ef.
  - apply db_firstPrivate_some in Ef. destruct Ef as (Hc & Hin & Hg & _).
    apply db_commonConvIds_In in Hc. tauto.
  - pose proof (db_createConversation_rows st
                  (CreateConversationRequest.mk [u2] false None) u1 e) as Hr.
    destruct (DatabaseStorage.createConversation st _ u1 e) as [conv st']
      eqn:Ec.
    destruct Hr as (rows & Hrows & Hids & Hconv & Hcs & Hus & Hms & Hfs).
    assert (Hg : Conversation.isGroup conv = false).
    { unfold DatabaseStorage.createConversation in Ec.
      injection Ec as Econv _. now subst conv. }
    assert (Hmem : forall u, In u [u2; u1] ->
              DatabaseStorage.isUserInConversation st' u (Conversation.id conv)
              = true).
    { intros u Hu. apply db_isUserInConversation_iff.
      assert (Hin : In u (map ConversationParticipant.userId rows)).
      { rewrite Hids. apply unique_spec. exact Hu. }
      apply in_map_iff in Hin. destruct Hin as (p & Hp & Hpin).
      exists p. rewrite Hrows. rewrite Forall_forall in Hconv.
      repeat split; [apply in_or_app; now right | exact Hp | now apply Hconv]. }
    repeat split; try assumption.
    + rewrite Hcs. apply in_or_app. right. now left.
    + apply Hmem. simpl. tauto.
    + apply Hmem. simpl. tauto.
Qed.


Lemma find_map_preserving (A : Type) (p : A -> bool) (g : A -> A)
    (l : list A) :
  (forall x, p (g x) = p x) ->
  find p (map g l) = option_map g (find p l).
Proof.
  intros Hp. induction l as [|x r IH]; simpl; [reflexivity|].
  rewrite Hp. destruct (p x); [reflexivity | exact IH].
Qed.

Lemma mem_accept_status (st : MemStorage.State) (requestId : string)
    (r : FriendRequest.t) :
  MemStorage.getFriendRequestById st requestId = Some r ->
  MemStorage.getFriendRequestById
    (MemStorage.updateFriendRequestStatus st requestId to_accepted) requestId
  = Some (FriendRequest.with_status accepted r).
Proof.
  unfold MemStorage.getFriendRequestById, MemStorage.updateFriendRequestStatus.
  simpl. intros H. now rewrite get_mutate, String.eqb_refl, H.
Qed.

Lemma db_accept_status (st : DatabaseStorage.State) (requestId : string)
    (r : FriendRequest.t) :
  DatabaseStorage.getFriendRequestById st requestId = Some r ->
  DatabaseStorage.getFriendRequestById
    (DatabaseStorage.updateFriendRequestStatus st requestId to_accepted)
    requestId
  = Some (FriendRequest.with_status accepted r).
Proof.
  unfold DatabaseStorage.getFriendRequestById,
    DatabaseStorage.updateFriendRequestStatus.
  simpl. intros H. rewrite find_map_preserving.
  - rewrite H. simpl. apply find_some in H. destruct H as [_ H].
    now rewrite H.
  - intros x.
    destruct (String.eqb (FriendRequest.id x) requestId) eqn:E; simpl;
      exact E.
Qed.



(** ** The message window (C4) *)

Lemma attachSenders_messages (g : string -> option User.t)
    (l : list Message.t) :
  map MessageWithSender.message (attachSenders g l)
  = filter (senderResolves g) l.
Proof.
  induction l as [|m r IH]; simpl; [reflexivity|].
  unfold senderResolves at 1.
  destruct (Message.isSystem m); simpl; [now rewrite IH|].
  destruct (Message.senderId m) as [s|]; [|exact IH].
  destruct (g s); simpl; [now rewrite IH | exact IH].
Qed.

Lemma insertDesc_perm (m : Message.t) (l : list Message.t) :
  Permutation (insertDesc m l) (m :: l).
Proof.
  induction l as [|x r IH]; simpl; [reflexivity|].
  destruct (Message.createdAt x <=? Message.createdAt m); [reflexivity|].
  rewrite IH. apply perm_swap.
Qed.

Lemma orderByDesc_perm (l : list Message.t) : Permutation (orderByDesc l) l.
Proof.
  induction l as [|m r IH]; simpl; [reflexivity|].
  rewrite insertDesc_perm. now constructor.
Qed.

Lemma insertDesc_sorted (m : Message.t) (l : list Message.t) :
  StronglySorted Spec.later l -> StronglySorted Spec.later (insertDesc m l).
Proof.
  induction l as [|x r IH]; simpl; intros Hs.
  - repeat constructor.
  - inversion Hs as [|? ? Hr Hx]; subst.
    destruct (Message.createdAt x <=? Message.createdAt m) eqn:E.
    + apply Z.leb_le in E. constructor; [exact Hs|].
      constructor; [exact E|].
      rewrite Forall_forall in *. intros y Hy. specialize (Hx y Hy).
      unfold Spec.later in *. lia.
    + apply Z.leb_gt in E. constructor; [now apply IH|].
      rewrite Forall_forall in *. intros y Hy.
      apply (Permutation_in _ (insertDesc_perm m r)) in Hy.
      destruct Hy as [<-|Hy]; [unfold Spec.later; lia | now apply Hx].
Qed.

Lemma orderByDesc_sorted (l : list Message.t) :
  StronglySorted Spec.later (orderByDesc l).
Proof.
  induction l as [|m r IH]; simpl; [constructor | now apply insertDesc_sorted].
Qed.

Section SortedFacts.
Context {A : Type} (R : A -> A -> Prop).

Lemma StronglySorted_app_inv (l1 l2 : list A) :
  StronglySorted R (l1 ++ l2) ->
  StronglySorted R l1 /\ StronglySorted R l2
  /\ forall a b, In a l1 -> In b l2 -> R a b.
Proof.
  induction l1 as [|x r IH]; simpl; intros Hs.
  - repeat split; [constructor | exact Hs | intros ? ? []].
  - inversion Hs as [|? ? Hr Hx]; subst.
    destruct (IH Hr) as (H1 & H2 & H3).
    rewrite Forall_forall in Hx. repeat split.
    + constructor; [exact H1|]. rewrite Forall_forall. intros y Hy.
      apply Hx. apply in_or_app. now left.
    + exact H2.
    + intros a b [<-|Ha] Hb; [|now apply H3].
      apply Hx. apply in_or_app. now right.
Qed.

Lemma StronglySorted_rev (l : list A) :
  StronglySorted R l -> StronglySorted (fun a b => R b a) (rev l).
Proof.
  induction l as [|x r IH]; simpl; intros Hs; [constructor|].
  inversion Hs as [|? ? Hr Hx]; subst.
  specialize (IH Hr). rewrite Forall_forall in Hx.
  revert IH. generalize (rev_involutive r).
  assert (Hin : forall y, In y (rev r) -> R x y)
    by (intros y Hy; apply Hx; now apply in_rev).
  clear Hx. intros _. induction (rev r) as [|y t IHt]; simpl; intros Hs'.
  - repeat constructor.
  - inversion Hs' as [|? ? Ht Hy]; subst.
    constructor.
    + apply IHt; [intros; apply Hin; now right | exact Ht].
    + rewrite Forall_forall in *. intros z Hz.
      apply in_app_or in Hz. destruct Hz as [Hz|[<-|[]]].
      * now apply Hy.
      * apply Hin. now left.
Qed.

End SortedFacts.

(** The suffix [slice(-limit)] takes, when [0 < limit < length]. *)
Lemma slice_last (A : Type) (limit : Z) (l : list A) :
  0 < limit < Z.of_nat (length l) ->
  JsArray.slice (- limit) l = skipn (length l - Z.to_nat limit) l.
Proof.
  intros H. unfold JsArray.slice.
  assert (E : (- limit <? 0) = true) by (apply Z.ltb_lt; lia).
  rewrite E. f_equal. lia.
Qed.

Lemma mem_window (limit : Z) (msgs : list Message.t) :
  StronglySorted Spec.earlier msgs ->
  0 < limit < Z.of_nat (length msgs) ->
  Spec.newestWindow limit msgs (JsArray.slice (- limit) msgs).
Proof.
  intros Hs Hl. rewrite slice_last by exact Hl.
  set (k := (length msgs - Z.to_nat limit)%nat).
  assert (Hsplit : firstn k msgs ++ skipn k msgs = msgs)
    by apply firstn_skipn.
  rewrite <- Hsplit in Hs.
  apply StronglySorted_app_inv in Hs. destruct Hs as (_ & H2 & H3).
  repeat split.
  - rewrite length_skipn. unfold k. lia.
  - exact H2.
  - exists (firstn k msgs). split; [now rewrite Hsplit | exact H3].
Qed.

Lemma db_window (limit : Z) (msgs : list Message.t) :
  0 < limit < Z.of_nat (length msgs) ->
  Spec.newestWindow limit msgs
    (rev (firstn (Z.to_nat limit) (orderByDesc msgs))).
Proof.
  intros Hl. set (k := Z.to_nat limit). set (s := orderByDesc msgs).
  assert (Hlen : length s = length msgs)
    by (apply Permutation_length, orderByDesc_perm).
  assert (Hsplit : firstn k s ++ skipn k s = s) by apply firstn_skipn.
  pose proof (orderByDesc_sorted msgs) as Hs. fold s in Hs.
  rewrite <- Hsplit in Hs.
  apply StronglySorted_app_inv in Hs. destruct Hs as (H1 & _ & H3).
  repeat split.
  - rewrite length_rev, length_firstn, Hlen. unfold k. lia.
  - apply (StronglySorted_rev (R := Spec.later)). exact H1.
  - exists (skipn k s). split.
    + transitivity s; [|apply orderByDesc_perm].
      transitivity (firstn k s ++ skipn k s); [|now rewrite Hsplit].
      rewrite Permutation_app_comm.
      apply Permutation_app_tail. symmetry. apply Permutation_rev.
    + intros a b Ha Hb. apply in_rev in Hb. exact (H3 b a Hb Ha).
Qed.

(** C4, as the code has it.  For a conversation holding strictly more
    than [limit] messages ([limit] positive), the messages
    [getMessagesByConversationId] returns are taken from the window of
    the [limit] newest messages, in order oldest to newest: the window
    has [limit] messages, is in timestamp order, and no message outside
    it is newer than one inside; of the window, the system messages and
    the messages whose sender is a stored user are returned.  For
    [MemStorage] the stored list is taken to be in timestamp order (it
    is appended to as messages arrive). *)
Theorem messages_window_is_newest
    (m : MemStorage.State) (d : DatabaseStorage.State) (c : string)
    (limit : Z) :
  StronglySorted Spec.earlier (MemView.messagesOf m c) ->
  0 < limit < Z.of_nat (length (MemView.messagesOf m c)) ->
  0 < limit < Z.of_nat (length (DbView.messagesOf d c)) ->
  (exists window,
     Spec.newestWindow limit (MemView.messagesOf m c) window
     /\ map MessageWithSender.message
          (MemStorage.getMessagesByConversationId m c limit)
        = filter (senderResolves (MemStorage.getUserById m)) window)
  /\ (exists window returned,
        Spec.newestWindow limit (DbView.messagesOf d c) window
        /\ DatabaseStorage.getMessagesByConversationId d c limit
           = Some returned
        /\ map MessageWithSender.message returned
           = filter (senderResolves (DatabaseStorage.getUserById d)) window).
Proof.
  intros Hs Hm Hd. split.
  - exists (JsArray.slice (- limit) (MemView.messagesOf m c)). split.
    + now apply mem_window.
    + unfold MemStorage.getMessagesByConversationId.
      apply attachSenders_messages.
  - exists (rev (firstn (Z.to_nat limit) (orderByDesc (DbView.messagesOf d c)))).
    eexists. split; [now apply db_window|].
    unfold DatabaseStorage.getMessagesByConversationId.
    assert (E : (limit <? 0) = false) by (apply Z.ltb_ge; lia).
    rewrite E. split; [reflexivity|]. apply attachSenders_messages.
Qed.

Lemma messages_window_is_newest_witness :
  (exists window,
     Spec.newestWindow 2 (MemView.messagesOf Scenario.Mem.chatting "c-0")
       window
     /\ map MessageWithSender.message
          (MemStorage.getMessagesByConversationId Scenario.Mem.chatting "c-0"
             2)
        = filter (senderResolves (MemStorage.getUserById Scenario.Mem.chatting))
            window)
  /\ (exists window returned,
        Spec.newestWindow 2 (DbView.messagesOf Scenario.Db.chatting "c-0")
          window
        /\ DatabaseStorage.getMessagesByConversationId Scenario.Db.chatting
             "c-0" 2
           = Some returned
        /\ map MessageWithSender.message returned
           = filter
               (senderResolves (DatabaseStorage.getUserById Scenario.Db.chatting))
               window).
Proof.
  apply (@messages_window_is_newest Scenario.Mem.chatting Scenario.Db.chatting
           "c-0" 2).
  - repeat constructor; unfold Spec.earlier; simpl; lia.
  - simpl; lia.
  - simpl; lia.
Defined.

(** C4 as stated fails: with more than [limit] messages the oldest ones
    are not what is returned.  The conversation "c-0" holds, in timestamp
    order, the messages "m-0", "n-0" and "o-0"; with [limit = 2] both
    implementations return "n-0" and "o-0", the two newest, while the two
    oldest are "m-0" and "n-0". *)
Lemma oldest_messages_not_returned :
  ~ (forall (st : MemStorage.State) (c : string) (limit : Z),
       0 < limit < Z.of_nat (length (MemView.messagesOf st c)) ->
       map MessageWithSender.message
         (MemStorage.getMessagesByConversationId st c limit)
       = Spec.oldest limit (MemView.messagesOf st c))
  /\ ~ (forall (st : DatabaseStorage.State) (c : string) (limit : Z),
          0 < limit < Z.of_nat (length (DbView.messagesOf st c)) ->
          option_map (map MessageWithSender.message)
            (DatabaseStorage.getMessagesByConversationId st c limit)
          = Some (Spec.oldest limit (DbView.messagesOf st c))).
Proof.
  split; intros H.
  - specialize (H Scenario.Mem.chatting "c-0" 2).
    assert (Hl : 0 < 2 < Z.of_nat
                   (length (MemView.messagesOf Scenario.Mem.chatting "c-0")))
      by (simpl; lia).
    specialize (H Hl). vm_compute in H. discriminate H.
  - specialize (H Scenario.Db.chatting "c-0" 2).
    assert (Hl : 0 < 2 < Z.of_nat
                   (length (DbView.messagesOf Scenario.Db.chatting "c-0")))
      by (simpl; lia).
    specialize (H Hl). vm_compute in H. discriminate H.
Qed.

Example messages_window_scenario :
  map Message.id
    (map MessageWithSender.message
       (MemStorage.getMessagesByConversationId Scenario.Mem.chatting "c-0" 2))
  = ["n-0"; "o-0"]
  /\ option_map (map (fun x => Message.id (MessageWithSender.message x)))
       (DatabaseStorage.getMessagesByConversationId Scenario.Db.chatting
          "c-0" 2)
     = Some ["n-0"; "o-0"]
  /\ map Message.id
       (Spec.oldest 2 (MemView.messagesOf Scenario.Mem.chatting "c-0"))
     = ["m-0"; "n-0"].
Proof. repeat split. Qed.

(** ** Finding or creating the direct conversation (C3) *)

Lemma two_members (l : list string) (a b : string) :
  length l = 2%nat -> In a l -> In b l -> a <> b ->
  forall u, In u l <-> u = a \/ u = b.
Proof.
  intros Hl Ha Hb Hab u.
  destruct l as [|x [|y [|z t]]]; simpl in Hl; try discriminate.
  simpl in *. intuition congruence.
Qed.

Lemma mem_createConversation_fresh (st : MemStorage.State)
    (data : CreateConversationRequest.t) (creator : string) (e : Env) :
  memUnused st (uuid e 0%nat) ->
  let '(conv, st') := MemStorage.createConversation st data creator e in
  Conversation.id conv = uuid e 0%nat
  /\ Conversation.isGroup conv = CreateConversationRequest.isGroup data
  /\ MemStorage.conversations st'
     = MemStorage.conversations st ++ [(uuid e 0%nat, conv)]
  /\ (forall c, c <> uuid e 0%nat ->
        MemView.participantsOf st' c = MemView.participantsOf st c)
  /\ map ConversationParticipant.userId
       (MemView.participantsOf st' (uuid e 0%nat))
     = creator :: CreateConversationRequest.participantIds data.
Proof.
  intros (Hk & _ & Hp).
  pose proof (mem_createConversation_userIds st data creator e) as Hu.
  unfold MemStorage.createConversation in *.
  match goal with
  | |- context [MemStorage.addParticipants ?s ?c ?i ?e ?k] =>
      destruct (mem_addParticipants_fields i s c e k) as (_ & F2 & _ & _);
      pose proof (fun c' => @mem_addParticipants_other i s c c' e k) as Ho
  end.
  cbv zeta in *. simpl Conversation.id in *. simpl Conversation.isGroup.
  repeat split.
  - rewrite F2. simpl. now rewrite set_fresh.
  - intros c Hc. rewrite (Ho c Hc).
    rewrite mem_addParticipant_participantsOf.
    apply String.eqb_neq in Hc. now rewrite Hc.
  - rewrite Hu.
    assert (E : MemView.participantsOf st (uuid e 0%nat) = []).
    { unfold MemView.participantsOf, JsMap.get_or_nil.
      apply get_none_not_key in Hp. now rewrite Hp. }
    now rewrite E.
Qed.

Lemma mem_isPrivateOf_ext (st st' : MemStorage.State) (u1 u2 : string)
    (conv : Conversation.t) :
  MemView.participantsOf st' (Conversation.id conv)
  = MemView.participantsOf st (Conversation.id conv) ->
  MemStorage.isPrivateOf st' u1 u2 conv = MemStorage.isPrivateOf st u1 u2 conv.
Proof.
  unfold MemStorage.isPrivateOf, MemView.participantsOf. intros E.
  now rewrite E.
Qed.

(** [MemStorage.findOrCreatePrivateConversation], called twice. *)
Lemma mem_findOrCreate_twice (st : MemStorage.State) (a b : string)
    (e1 e2 : Env) :
  a <> b ->
  memUnused st (uuid e1 0%nat) ->
  let '(c1, st1) := MemStorage.findOrCreatePrivateConversation st a b e1 in
  let '(c2, st2) := MemStorage.findOrCreatePrivateConversation st1 a b e2 in
  Conversation.id c2 = Conversation.id c1
  /\ st2 = st1
  /\ Conversation.isGroup c1 = false
  /\ forall u,
       MemStorage.isUserInConversation st1 u (Conversation.id c1) = true
       <-> u = a \/ u = b.
Proof.
  intros Hab Hfresh.
  unfold MemStorage.findOrCreatePrivateConversation at 1.
  destruct (find _ _) as [c1|] eqn:Ef.
  - unfold MemStorage.findOrCreatePrivateConversation. rewrite Ef.
    apply find_some in Ef. destruct Ef as [_ Hp].
    apply mem_isPrivateOf_true in Hp. destruct Hp as (Hg & Hl & Ha & Hb).
    repeat split; try assumption.
    + intros Hu. apply mem_isUserInConversation_In in Hu.
      rewrite <- length_map with (f := ConversationParticipant.userId) in Hl.
      now apply (two_members _ Hl Ha Hb Hab).
    + intros Hu. apply mem_isUserInConversation_In.
      rewrite <- length_map with (f := ConversationParticipant.userId) in Hl.
      now apply (two_members _ Hl Ha Hb Hab).
  - pose proof (@mem_createConversation_fresh st
                  (CreateConversationRequest.mk [b] false None) a e1 Hfresh)
      as Hc.
    destruct (MemStorage.createConversation st _ a e1) as [c1 st1].
    simpl in Hc. destruct Hc as (Hid & Hg & Hconvs & Hother & Hnew).
    assert (Hp1 : MemStorage.isPrivateOf st1 a b c1 = true).
    { unfold MemStorage.isPrivateOf.
      fold (MemView.participantsOf st1 (Conversation.id c1)).
      rewrite Hid, Hnew, Hg. simpl.
      rewrite !String.eqb_refl. simpl. now rewrite orb_true_r. }
    assert (Hfind : find (MemStorage.isPrivateOf st1 a b)
                      (JsMap.values (MemStorage.conversations st1))
                    = Some c1).
    { rewrite Hconvs. unfold JsMap.values. rewrite map_app, find_app.
      fold (JsMap.values (MemStorage.conversations st)).
      rewrite (find_ext_in (MemStorage.isPrivateOf st1 a b)
                 (MemStorage.isPrivateOf st a b)).
      - rewrite Ef. simpl. now rewrite Hp1.
      - intros x Hx. apply mem_isPrivateOf_ext. apply Hother.
        destruct Hfresh as (_ & Hv & _). intros E. apply Hv.
        rewrite <- E. now apply in_map. }
    unfold MemStorage.findOrCreatePrivateConversation. rewrite Hfind.
    repeat split; try assumption.
    + intros Hu. apply mem_isUserInConversation_In in Hu.
      rewrite Hid, Hnew in Hu. simpl in Hu. intuition congruence.
    + intros Hu. apply mem_isUserInConversation_In.
      rewrite Hid, Hnew. simpl. intuition congruence.
Qed.

Lemma filter_all (A : Type) (p : A -> bool) (l : list A) :
  (forall x, In x l -> p x = true) -> filter p l = l.
Proof.
  induction l as [|x r IH]; simpl; intros H; [reflexivity|].
  rewrite (H x (or_introl eq_refl)). f_equal. apply IH.
  intros; apply H; now right.
Qed.

Section DbCreated.
(** The tables before ([st]) and after ([st1]) a conversation [conv] with
    an unused id was inserted together with the membership rows [rows] of
    two distinct users [a] and [b]. *)
Variables (st st1 : DatabaseStorage.State) (conv : Conversation.t).
Variables (rows : list ConversationParticipant.t) (a b : string).
Hypothesis Hab : a <> b.
Hypothesis Hunused : dbUnused st (Conversation.id conv).
Hypothesis Hgroup : Conversation.isGroup conv = false.
Hypothesis Husers : DatabaseStorage.users st1 = DatabaseStorage.users st.
Hypothesis Hconvs :
  DatabaseStorage.conversations st1
  = DatabaseStorage.conversations st ++ [conv].
Hypothesis Hcps :
  DatabaseStorage.conversationParticipants st1
  = DatabaseStorage.conversationParticipants st ++ rows.
Hypothesis Hrows : map ConversationParticipant.userId rows = [b; a].
Hypothesis Hrowsconv :
  Forall
    (fun p => ConversationParticipant.conversationId p = Conversation.id conv)
    rows.
Hypothesis Hpk : NoDup (map User.id (DatabaseStorage.users st)).
Hypothesis Ha : In a (map User.id (DatabaseStorage.users st)).
Hypothesis Hb : In b (map User.id (DatabaseStorage.users st)).

Local Abbreviation nid := (Conversation.id conv).

Lemma db_created_rows_of_other (c : string) :
  c <> nid ->
  filter (fun p => String.eqb (ConversationParticipant.conversationId p) c)
    (DatabaseStorage.conversationParticipants st1)
  = filter (fun p => String.eqb (ConversationParticipant.conversationId p) c)
      (DatabaseStorage.conversationParticipants st).
Proof.
  intros Hc. rewrite Hcps, filter_app.
  rewrite (filter_none _ rows); [apply app_nil_r|].
  intros x Hx. rewrite Forall_forall in Hrowsconv.
  rewrite (Hrowsconv x Hx). apply String.eqb_neq. intros E. apply Hc.
  now rewrite E.
Qed.

Lemma db_created_rows_of_new :
  filter (fun p => String.eqb (ConversationParticipant.conversationId p) nid)
    (DatabaseStorage.conversationParticipants st1)
  = rows.
Proof.
  rewrite Hcps, filter_app.
  rewrite (filter_none _ (DatabaseStorage.conversationParticipants st)).
  - simpl. apply filter_all. intros x Hx.
    rewrite Forall_forall in Hrowsconv.
    rewrite (Hrowsconv x Hx). apply String.eqb_refl.
  - intros x Hx. apply String.eqb_neq. intros E.
    destruct Hunused as [_ Hu]. apply Hu. rewrite <- E.
    now apply in_map.
Qed.

Lemma db_created_getConversationById_other (c : string) :
  c <> nid ->
  DatabaseStorage.getConversationById st1 c
  = DatabaseStorage.getConversationById st c.
Proof.
  intros Hc. unfold DatabaseStorage.getConversationById.
  rewrite Hconvs, find_app.
  destruct (find _ (DatabaseStorage.conversations st)); [reflexivity|].
  simpl.
  assert (E : String.eqb nid c = false)
    by (apply String.eqb_neq; congruence).
  now rewrite E.
Qed.

Lemma db_created_getConversationById_new :
  DatabaseStorage.getConversationById st1 nid = Some conv.
Proof.
  unfold DatabaseStorage.getConversationById. rewrite Hconvs, find_app.
  destruct (find _ (DatabaseStorage.conversations st)) as [x|] eqn:E.
  - apply find_some in E. destruct E as [Hin E].
    apply String.eqb_eq in E. destruct Hunused as [Hu _].
    exfalso. apply Hu. rewrite <- E. now apply in_map.
  - simpl. now rewrite String.eqb_refl.
Qed.

Lemma db_created_participants_other (c : string) :
  c <> nid ->
  DatabaseStorage.getConversationParticipants st1 c
  = DatabaseStorage.getConversationParticipants st c.
Proof.
  intros Hc. unfold DatabaseStorage.getConversationParticipants.
  now rewrite (db_created_rows_of_other Hc), Husers.
Qed.

Lemma db_created_firstPrivate_old (ids : list string) :
  ~ In nid ids ->
  DatabaseStorage.firstPrivate st1 ids = DatabaseStorage.firstPrivate st ids.
Proof.
  induction ids as [|c r IH]; simpl; intros Hn; [reflexivity|].
  assert (Hc : c <> nid) by (intros E; apply Hn; now left).
  rewrite (db_created_getConversationById_other Hc).
  rewrite (db_created_participants_other Hc).
  rewrite IH by tauto. reflexivity.
Qed.

Lemma NoDup_map_filter (A : Type) (f : A -> string) (p : A -> bool)
    (l : list A) :
  NoDup (map f l) -> NoDup (map f (filter p l)).
Proof.
  induction l as [|x r IH]; simpl; intros Hn; [constructor|].
  inversion Hn as [|? ? Hx Hr]; subst.
  destruct (p x); simpl; [|now apply IH].
  constructor; [|now apply IH].
  intros Hin. apply Hx. apply in_map_iff in Hin.
  destruct Hin as (y & Ey & Hy). apply filter_In in Hy.
  apply in_map_iff. exists y. tauto.
Qed.

Lemma db_created_participants_new :
  length (DatabaseStorage.getConversationParticipants st1 nid) = 2%nat.
Proof.
  unfold DatabaseStorage.getConversationParticipants.
  rewrite db_created_rows_of_new, Hrows, Husers.
  set (sel := filter (fun u => JsArray.includes (User.id u) [b; a])
                (DatabaseStorage.users st)).
  assert (Hn : NoDup (map User.id sel)) by now apply NoDup_map_filter.
  assert (Hin : forall x, In x (map User.id sel) <-> In x [b; a]).
  { intros x. unfold sel. split.
    - intros H. apply in_map_iff in H. destruct H as (y & <- & Hy).
      apply filter_In in Hy. destruct Hy as [_ Hy]. now apply includes_In.
    - intros H. assert (Hx : In x (map User.id (DatabaseStorage.users st)))
        by (destruct H as [<-|[<-|[]]]; assumption).
      apply in_map_iff in Hx. destruct Hx as (y & <- & Hy).
      apply in_map. apply filter_In. split; [exact Hy|].
      now apply includes_In. }
  assert (Hba : NoDup [b; a]).
  { constructor; [simpl; intuition congruence|].
    constructor; [tauto | constructor]. }
  rewrite <- (length_map User.id sel).
  change 2%nat with (length [b; a]).
  apply Nat.le_antisymm.
  - apply (NoDup_incl_length Hn). intros x Hx. now apply Hin.
  - apply (NoDup_incl_length Hba). intros x Hx. now apply Hin.
Qed.

Lemma db_created_commonConvIds :
  DatabaseStorage.commonConvIds st1 a b
  = DatabaseStorage.commonConvIds st a b ++ [nid].
Proof.
  unfold DatabaseStorage.commonConvIds. rewrite Hcps, !filter_app, !map_app.
  assert (Hra : filter
                  (fun p => String.eqb (ConversationParticipant.userId p) a)
                  rows
                = match rows with [_; ra] => [ra] | _ => [] end
                /\ filter
                     (fun p => String.eqb (ConversationParticipant.userId p) b)
                     rows
                   = match rows with [rb; _] => [rb] | _ => [] end).
  { destruct rows as [|rb [|ra [|z t]]]; simpl in Hrows; try discriminate.
    injection Hrows as Eb Ea. simpl. rewrite Ea, Eb, !String.eqb_refl.
    assert (E1 : String.eqb b a = false) by (apply String.eqb_neq; congruence).
    assert (E2 : String.eqb a b = false) by (apply String.eqb_neq; congruence).
    now rewrite E1, E2. }
  destruct Hra as [Era Erb]. rewrite Era, Erb.
  destruct rows as [|rb [|ra [|z t]]]; simpl in Hrows; try discriminate.
  inversion Hrowsconv as [|? ? Hcb Hr]; subst.
  inversion Hr as [|? ? Hca _]; subst.
  simpl map. rewrite Hca, Hcb. rewrite filter_app. f_equal.
  - apply filter_ext_in. intros c Hc.
    unfold JsArray.includes. rewrite existsb_app. simpl.
    assert (E : String.eqb c nid = false).
    { apply String.eqb_neq. intros E. destruct Hunused as [_ Hu]. apply Hu.
      rewrite <- E. apply in_map_iff in Hc.
      destruct Hc as (p & Ep & Hp). apply filter_In in Hp.
      apply in_map_iff. exists p. tauto. }
    now rewrite E, !orb_false_r.
  - simpl. unfold JsArray.includes. rewrite existsb_app. simpl.
    now rewrite String.eqb_refl, orb_true_r.
Qed.

Lemma db_firstPrivate_app (s : DatabaseStorage.State) (l1 l2 : list string) :
  DatabaseStorage.firstPrivate s (l1 ++ l2)
  = match DatabaseStorage.firstPrivate s l1 with
    | Some c => Some c
    | None => DatabaseStorage.firstPrivate s l2
    end.
Proof.
  induction l1 as [|c r IH]; simpl; [reflexivity|].
  destruct (DatabaseStorage.getConversationById s c) as [x|]; [|exact IH].
  destruct (negb _ && _); [reflexivity | exact IH].
Qed.

Lemma db_created_found_again :
  DatabaseStorage.firstPrivate st (DatabaseStorage.commonConvIds st a b)
  = None ->
  DatabaseStorage.firstPrivate st1 (DatabaseStorage.commonConvIds st1 a b)
  = Some conv.
Proof.
  intros Hnone. rewrite db_created_commonConvIds, db_firstPrivate_app.
  rewrite db_created_firstPrivate_old.
  - rewrite Hnone. simpl. rewrite db_created_getConversationById_new.
    rewrite Hgroup, db_created_participants_new. reflexivity.
  - intros Hin. unfold DatabaseStorage.commonConvIds in Hin.
    apply filter_In in Hin. destruct Hin as [Hin _].
    apply in_map_iff in Hin. destruct Hin as (p & Ep & Hp).
    apply filter_In in Hp. destruct Hunused as [_ Hu]. apply Hu.
    rewrite <- Ep. apply in_map. tauto.
Qed.

Lemma db_created_members (u : string) :
  DatabaseStorage.isUserInConversation st1 u nid = true <-> u = a \/ u = b.
Proof.
  rewrite db_isUserInConversation_iff. split.
  - intros (p & Hin & Hu & Hc).
    assert (Hp : In p rows).
    { rewrite <- db_created_rows_of_new. apply filter_In. split; [exact Hin|].
      now apply String.eqb_eq. }
    assert (Hu' : In u [b; a]) by (rewrite <- Hrows, <- Hu; now apply in_map).
    simpl in Hu'. intuition congruence.
  - intros Hu.
    assert (Hu' : In u (map ConversationParticipant.userId rows))
      by (rewrite Hrows; simpl; intuition congruence).
    apply in_map_iff in Hu'. destruct Hu' as (p & Ep & Hp).
    exists p. rewrite Hcps. rewrite Forall_forall in Hrowsconv.
    repeat split; [apply in_or_app; now right | exact Ep | now apply Hrowsconv].
Qed.

End DbCreated.

Lemma db_rows_userIds (st : DatabaseStorage.State) (u c : string) :
  DatabaseStorage.isUserInConversation st u c = true
  <-> In u
        (map ConversationParticipant.userId
           (filter
              (fun p =>
                 String.eqb (ConversationParticipant.conversationId p) c)
              (DatabaseStorage.conversationParticipants st))).
Proof.
  rewrite db_isUserInConversation_iff. split.
  - intros (p & Hin & Hu & Hc). apply in_map_iff. exists p.
    split; [exact Hu|]. apply filter_In. split; [exact Hin|].
    now apply String.eqb_eq.
  - intros H. apply in_map_iff in H. destruct H as (p & Hu & Hp).
    apply filter_In in Hp. destruct Hp as [Hin Hc].
    apply String.eqb_eq in Hc. now exists p.
Qed.

(** A conversation [DatabaseStorage.findOrCreatePrivateConversation]
    finds has the two users, and nobody else, as members. *)
Lemma db_found_members (st : DatabaseStorage.State) (a b : string)
    (conv : Conversation.t) :
  a <> b ->
  dbConstraints st ->
  DatabaseStorage.firstPrivate st (DatabaseStorage.commonConvIds st a b)
  = Some conv ->
  forall u,
    DatabaseStorage.isUserInConversation st u (Conversation.id conv) = true
    <-> u = a \/ u = b.
Proof.
  intros Hab [Hpk Hfk] Hf u.
  apply db_firstPrivate_some in Hf. destruct Hf as (Hc & _ & _ & Hlen).
  apply db_commonConvIds_In in Hc. destruct Hc as [Ha Hb].
  split; [|intros [->| ->]; assumption].
  intros Hu.
  destruct (string_dec u a) as [|Hua]; [now left|].
  destruct (string_dec u b) as [|Hub]; [now right|].
  exfalso.
  apply db_rows_userIds in Ha, Hb, Hu.
  unfold DatabaseStorage.getConversationParticipants in Hlen.
  set (userIds :=
         map ConversationParticipant.userId
           (filter
              (fun p =>
                 String.eqb (ConversationParticipant.conversationId p)
                   (Conversation.id conv))
              (DatabaseStorage.conversationParticipants st))) in *.
  assert (Hsel : length
                   (filter (fun x => JsArray.includes (User.id x) userIds)
                      (DatabaseStorage.users st)) = 2%nat).
  { destruct userIds; [destruct Ha | exact Hlen]. }
  clear Hlen.
  assert (Hstored : forall x, In x userIds ->
            In x (map User.id
                    (filter (fun y => JsArray.includes (User.id y) userIds)
                       (DatabaseStorage.users st)))).
  { intros x Hx.
    assert (Hxu : In x (map User.id (DatabaseStorage.users st))).
    { unfold userIds in Hx. apply in_map_iff in Hx.
      destruct Hx as (p & <- & Hp). apply filter_In in Hp.
      rewrite Forall_forall in Hfk. apply Hfk. tauto. }
    apply in_map_iff in Hxu. destruct Hxu as (y & <- & Hy).
    apply in_map. apply filter_In. split; [exact Hy|].
    now apply includes_In. }
  assert (Hthree : NoDup [a; b; u]).
  { repeat constructor; simpl; intuition congruence. }
  pose proof (NoDup_incl_length Hthree
                (l' := map User.id
                         (filter
                            (fun y => JsArray.includes (User.id y) userIds)
                            (DatabaseStorage.users st)))) as Hle.
  rewrite length_map, Hsel in Hle. simpl in Hle.
  assert (3 <= 2)%nat; [|lia].
  apply Hle. intros x [<-|[<-|[<-|[]]]]; now apply Hstored.
Qed.

Lemma unique_pair (a b : string) :
  a <> b -> JsArray.unique ([b] ++ [a]) = [b; a].
Proof.
  intros Hab. unfold JsArray.unique. simpl.
  assert (E : String.eqb a b = false) by now apply String.eqb_neq.
  now rewrite E.
Qed.

(** [DatabaseStorage.findOrCreatePrivateConversation], called twice. *)
Lemma db_findOrCreate_twice (st : DatabaseStorage.State) (a b : string)
    (e1 e2 : Env) :
  a <> b ->
  dbConstraints st ->
  In a (map User.id (DatabaseStorage.users st)) ->
  In b (map User.id (DatabaseStorage.users st)) ->
  dbUnused st (uuid e1 0%nat) ->
  let '(c1, st1) := DatabaseStorage.findOrCreatePrivateConversation st a b e1 in
  let '(c2, st2) :=
    DatabaseStorage.findOrCreatePrivateConversation st1 a b e2 in
  Conversation.id c2 = Conversation.id c1
  /\ st2 = st1
  /\ Conversation.isGroup c1 = false
  /\ forall u,
       DatabaseStorage.isUserInConversation st1 u (Conversation.id c1) = true
       <-> u = a \/ u = b.
Proof.
  intros Hab Hcons Ha Hb Hfresh.
  unfold DatabaseStorage.findOrCreatePrivateConversation at 1.
  destruct (DatabaseStorage.firstPrivate st _) as [c1|] eqn:Ef.
  - unfold DatabaseStorage.findOrCreatePrivateConversation. rewrite Ef.
    repeat split.
    + now apply db_firstPrivate_some in Ef.
    + now apply (db_found_members Hab Hcons Ef).
    + now apply (db_found_members Hab Hcons Ef).
  - pose proof (db_createConversation_rows st
                  (CreateConversationRequest.mk [b] false None) a e1) as Hr.
    assert (Hid : Conversation.id
                    (fst (DatabaseStorage.createConversation st
                            (CreateConversationRequest.mk [b] false None)
                            a e1))
                  = uuid e1 0%nat) by reflexivity.
    assert (Hg : Conversation.isGroup
                   (fst (DatabaseStorage.createConversation st
                           (CreateConversationRequest.mk [b] false None)
                           a e1))
                 = false) by reflexivity.
    destruct (DatabaseStorage.createConversation st _ a e1) as [c1 st1].
    simpl in Hid, Hg.
    destruct Hr as (rows & Hcps & Hids & Hconv & Hcs & Hus & _ & _).
    change (map ConversationParticipant.userId rows
            = JsArray.unique ([b] ++ [a])) in Hids.
    rewrite (unique_pair Hab) in Hids.
    rewrite <- Hid in Hfresh. destruct Hcons as [Hpk _].
    pose proof (db_created_found_again st1 c1 Hab Hfresh Hg Hus Hcs Hcps
                  Hids Hconv Hpk Ha Hb Ef) as Hagain.
    unfold DatabaseStorage.findOrCreatePrivateConversation. rewrite Hagain.
    repeat split; try assumption.
    + now apply (db_created_members st1 c1 Hfresh Hcps Hids Hconv).
    + now apply (db_created_members st1 c1 Hfresh Hcps Hids Hconv).
Qed.

(** C3. For distinct users A and B, two calls of
    [findOrCreatePrivateConversation(A, B)] in sequence return
    conversations with the same id (the second call finds what the first
    found or created and changes nothing); that conversation is not a
    group and its participants are exactly A and B.  The uuid a first
    call may draw for a new conversation is one not in use; for the
    relational backend A and B are stored users and the tables satisfy
    the key constraints of the schema.  In both storage
    implementations. *)
Theorem find_or_create_private_conversation_twice
    (m : MemStorage.State) (d : DatabaseStorage.State) (a b : string)
    (e1 e2 : Env) :
  a <> b ->
  memUnused m (uuid e1 0%nat) ->
  dbUnused d (uuid e1 0%nat) ->
  dbConstraints d ->
  In a (map User.id (DatabaseStorage.users d)) ->
  In b (map User.id (DatabaseStorage.users d)) ->
  (let '(c1, m1) := MemStorage.findOrCreatePrivateConversation m a b e1 in
   let '(c2, m2) := MemStorage.findOrCreatePrivateConversation m1 a b e2 in
   Conversation.id c2 = Conversation.id c1
   /\ m2 = m1
   /\ Conversation.isGroup c1 = false
   /\ forall u,
        MemStorage.isUserInConversation m1 u (Conversation.id c1) = true
        <-> u = a \/ u = b)
  /\ (let '(c1, d1) :=
        DatabaseStorage.findOrCreatePrivateConversation d a b e1 in
      let '(c2, d2) :=
        DatabaseStorage.findOrCreatePrivateConversation d1 a b e2 in
      Conversation.id c2 = Conversation.id c1
      /\ d2 = d1
      /\ Conversation.isGroup c1 = false
      /\ forall u,
           DatabaseStorage.isUserInConversation d1 u (Conversation.id c1)
           = true
           <-> u = a \/ u = b).
Proof.
  intros Hab Hm Hd Hcons Ha Hb. split.
  - now apply mem_findOrCreate_twice.
  - now apply db_findOrCreate_twice.
Qed.

Lemma find_or_create_private_conversation_twice_witness :
  Conversation.id
    (fst (MemStorage.findOrCreatePrivateConversation
            (snd (MemStorage.findOrCreatePrivateConversation
                    Scenario.Mem.registered "alice" "bob"
                    (Scenario.env 2000 "c-")))
            "alice" "bob" (Scenario.env 2500 "d-")))
  = "c-0"
  /\ Conversation.id
       (fst (DatabaseStorage.findOrCreatePrivateConversation
               (snd (DatabaseStorage.findOrCreatePrivateConversation
                       Scenario.Db.registered "alice" "bob"
                       (Scenario.env 2000 "c-")))
               "alice" "bob" (Scenario.env 2500 "d-")))
     = "c-0".
Proof.
  assert (Hab : "alice" <> "bob") by discriminate.
  assert (Hm : memUnused Scenario.Mem.registered
                 (uuid (Scenario.env 2000 "c-") 0%nat))
    by (repeat split; simpl; tauto).
  assert (Hd : dbUnused Scenario.Db.registered
                 (uuid (Scenario.env 2000 "c-") 0%nat))
    by (repeat split; simpl; tauto).
  assert (Hcons : dbConstraints Scenario.Db.registered).
  { split; [|constructor].
    repeat constructor; simpl; intuition discriminate. }
  assert (Ha : In "alice" (map User.id (DatabaseStorage.users
                                           Scenario.Db.registered)))
    by (simpl; tauto).
  assert (Hb : In "bob" (map User.id (DatabaseStorage.users
                                         Scenario.Db.registered)))
    by (simpl; tauto).
  destruct (@find_or_create_private_conversation_twice
              Scenario.Mem.registered Scenario.Db.registered "alice" "bob"
              (Scenario.env 2000 "c-") (Scenario.env 2500 "d-")
              Hab Hm Hd Hcons Ha Hb) as [H1 H2].
  split; [exact (proj1 H1) | exact (proj1 H2)].
Defined.

(** ** The typing indicator (C9) *)

Section MapDelete.
Context {V : Type}.

Lemma get_delete_other (k k' : string) (m : JsMap.t V) :
  k <> k' -> JsMap.get k (JsMap.delete k' m) = JsMap.get k m.
Proof.
  intros Hne. induction m as [|[k0 v0] r IH]; simpl; [reflexivity|].
  destruct (String.eqb k' k0) eqn:E0; simpl.
  - apply String.eqb_eq in E0. subst k0.
    apply String.eqb_neq in Hne. now rewrite Hne.
  - now rewrite IH.
Qed.

Lemma get_some_key (k : string) (v : V) (m : JsMap.t V) :
  JsMap.get k m = Some v -> In k (JsMap.keys m).
Proof.
  intros H. destruct (in_dec string_dec k (JsMap.keys m)) as [|Hn];
    [assumption|].
  apply get_none_not_key in Hn. congruence.
Qed.

Lemma keys_delete_incl (k k' : string) (m : JsMap.t V) :
  In k (JsMap.keys (JsMap.delete k' m)) -> In k (JsMap.keys m).
Proof.
  unfold JsMap.keys. induction m as [|[k0 v0] r IH]; simpl; [tauto|].
  destruct (String.eqb k' k0); simpl; tauto.
Qed.

Lemma keys_delete_NoDup (k : string) (m : JsMap.t V) :
  NoDup (JsMap.keys m) -> NoDup (JsMap.keys (JsMap.delete k m)).
Proof.
  unfold JsMap.keys. induction m as [|[k0 v0] r IH]; simpl; intros Hn;
    [constructor|].
  inversion Hn as [|? ? Hk Hr]; subst.
  destruct (String.eqb k k0); simpl; [exact Hr|].
  constructor; [|now apply IH].
  intros Hin. apply Hk. now apply (keys_delete_incl k0 k r).
Qed.

Lemma get_delete_same (k : string) (m : JsMap.t V) :
  NoDup (JsMap.keys m) -> JsMap.get k (JsMap.delete k m) = None.
Proof.
  unfold JsMap.keys. induction m as [|[k0 v0] r IH]; simpl; intros Hn;
    [reflexivity|].
  inversion Hn as [|? ? Hk Hr]; subst.
  destruct (String.eqb k k0) eqn:E; simpl.
  - apply String.eqb_eq in E. subst k0. now apply get_none_not_key.
  - rewrite E. now apply IH.
Qed.

Lemma get_delete_some (k k' : string) (v : V) (m : JsMap.t V) :
  NoDup (JsMap.keys m) ->
  JsMap.get k (JsMap.delete k' m) = Some v ->
  k <> k' /\ JsMap.get k m = Some v.
Proof.
  intros Hn H. destruct (string_dec k k') as [->|Hne].
  - rewrite get_delete_same in H by exact Hn. discriminate.
  - split; [exact Hne|]. now rewrite get_delete_other in H.
Qed.

Lemma keys_set_NoDup (k : string) (v : V) (m : JsMap.t V) :
  NoDup (JsMap.keys m) -> NoDup (JsMap.keys (JsMap.set k v m)).
Proof.
  unfold JsMap.keys. induction m as [|[k0 v0] r IH]; simpl; intros Hn.
  - repeat constructor. tauto.
  - inversion Hn as [|? ? Hk Hr]; subst.
    destruct (String.eqb k k0) eqn:E; simpl; [exact Hn|].
    constructor; [|now apply IH].
    intros Hin. apply Hk. clear IH Hn Hr Hk.
    apply String.eqb_neq in E.
    induction r as [|[k1 v1] t IHt]; simpl in *.
    + destruct Hin as [Hin|[]]. congruence.
    + destruct (String.eqb k k1); simpl in *; tauto.
Qed.

End MapDelete.

Lemma NoDup_map_fst_filter (A B : Type) (p : A * B -> bool)
    (l : list (A * B)) :
  NoDup (map fst l) -> NoDup (map fst (filter p l)).
Proof.
  induction l as [|x r IH]; simpl; intros Hn; [constructor|].
  inversion Hn as [|? ? Hx Hr]; subst.
  destruct (p x); simpl; [|now apply IH].
  constructor; [|now apply IH].
  intros Hin. apply Hx. apply in_map_iff in Hin.
  destruct Hin as (y & Ey & Hy). apply filter_In in Hy.
  apply in_map_iff. exists y. tauto.
Qed.

Lemma NoDup_map_fst_same (A B : Type) (l : list (A * B)) (a : A) (b b' : B) :
  NoDup (map fst l) -> In (a, b) l -> In (a, b') l -> b = b'.
Proof.
  induction l as [|[x y] r IH]; simpl; intros Hn H1 H2; [tauto|].
  inversion Hn as [|? ? Hx Hr]; subst.
  destruct H1 as [H1|H1], H2 as [H2|H2].
  - congruence.
  - injection H1 as -> ->. exfalso. apply Hx.
    apply in_map_iff. now exists (a, b').
  - injection H2 as -> ->. exfalso. apply Hx.
    apply in_map_iff. now exists (a, b).
  - now apply IH.
Qed.

Lemma filter_filter_implied (A : Type) (p q : A -> bool) (l : list A) :
  (forall x, In x l -> p x = true -> q x = true) ->
  filter p (filter q l) = filter p l.
Proof.
  induction l as [|x r IH]; simpl; intros H; [reflexivity|].
  destruct (p x) eqn:Ep.
  - rewrite (H x (or_introl eq_refl) Ep). simpl. rewrite Ep. f_equal.
    apply IH. intros; apply H; [now right | assumption].
  - destruct (q x); simpl; rewrite ?Ep; apply IH;
      intros; apply H; [now right | assumption | now right | assumption].
Qed.

Module SocketsFacts.
Import Sockets.

Lemma Inv_init : Inv init.
Proof.
  constructor; simpl; try constructor; intros; try tauto; discriminate.
Qed.

(** *** Cancelling *)

Lemma cancel_pending (k : string) (g : State) :
  pending (cancel k g)
  = match JsMap.get k (typingTimeouts g) with
    | Some h => filter (fun x => negb (Nat.eqb (fst x) h)) (pending g)
    | None => pending g
    end.
Proof. unfold cancel. now destruct (JsMap.get k (typingTimeouts g)). Qed.

Lemma cancel_map (k : string) (g : State) :
  Inv g ->
  JsMap.get k (typingTimeouts (cancel k g)) = None
  /\ forall k', k' <> k ->
       JsMap.get k' (typingTimeouts (cancel k g))
       = JsMap.get k' (typingTimeouts g).
Proof.
  intros I. unfold cancel.
  destruct (JsMap.get k (typingTimeouts g)) as [h|] eqn:E; simpl.
  - split; [apply get_delete_same, (inv_keys I)|].
    intros k' Hne. now apply get_delete_other.
  - split; [exact E | reflexivity].
Qed.

Lemma Inv_cancel (k : string) (g : State) : Inv g -> Inv (cancel k g).
Proof.
  intros I. unfold cancel.
  destruct (JsMap.get k (typingTimeouts g)) as [h|] eqn:E; [|exact I].
  constructor; simpl.
  - intros h' tm Hin. apply filter_In in Hin. destruct Hin as [Hin Hh].
    simpl in Hh. apply negb_true_iff, Nat.eqb_neq in Hh.
    pose proof (inv_registered I _ _ Hin) as Hreg.
    rewrite get_delete_other; [exact Hreg|].
    intros Ek. rewrite Ek in Hreg. congruence.
  - intros k' h' H. apply get_delete_some in H; [|apply (inv_keys I)].
    apply (inv_below I k'). tauto.
  - intros k1 k2 h' H1 H2.
    apply get_delete_some in H1; [|apply (inv_keys I)].
    apply get_delete_some in H2; [|apply (inv_keys I)].
    apply (@inv_injective _ I k1 k2 h'); tauto.
  - apply keys_delete_NoDup, (inv_keys I).
  - apply NoDup_map_fst_filter, (inv_handles I).
Qed.

Lemma pendingFor_cancel_same (k : string) (g : State) :
  Inv g -> pendingFor k (cancel k g) = [].
Proof.
  intros I. unfold pendingFor. rewrite cancel_pending.
  apply filter_none. intros [h tm] Hin. simpl.
  apply String.eqb_neq. intros Ek.
  destruct (JsMap.get k (typingTimeouts g)) as [h0|] eqn:E.
  - apply filter_In in Hin. destruct Hin as [Hin Hh]. simpl in Hh.
    apply negb_true_iff, Nat.eqb_neq in Hh.
    pose proof (inv_registered I _ _ Hin) as Hreg.
    rewrite Ek in Hreg. congruence.
  - pose proof (inv_registered I _ _ Hin) as Hreg.
    rewrite Ek in Hreg. congruence.
Qed.

Lemma pendingFor_cancel_other (k k' : string) (g : State) :
  Inv g -> k' <> k -> pendingFor k (cancel k' g) = pendingFor k g.
Proof.
  intros I Hne. unfold pendingFor. rewrite cancel_pending.
  destruct (JsMap.get k' (typingTimeouts g)) as [h0|] eqn:E; [|reflexivity].
  apply filter_filter_implied. intros [h tm] Hin Hk. simpl in *.
  apply String.eqb_eq in Hk.
  apply negb_true_iff, Nat.eqb_neq. intros ->.
  pose proof (inv_registered I _ _ Hin) as Hreg.
  apply Hne. apply (@inv_injective _ I k' k h0); congruence.
Qed.

(** *** Arming *)

Lemma Inv_arm (tm : Timeout) (g : State) :
  Inv g ->
  JsMap.get (timeoutKey tm) (typingTimeouts g) = None ->
  Inv (arm tm g).
Proof.
  intros I Hnone. unfold arm, setTimeout. simpl.
  assert (Hold : forall h tm', In (h, tm') (pending g) ->
            timeoutKey tm' <> timeoutKey tm /\ (h < nextHandle g)%nat).
  { intros h tm' Hin. pose proof (inv_registered I _ _ Hin) as Hreg.
    split; [intros E; rewrite E in Hreg; congruence|].
    now apply (inv_below I (timeoutKey tm')). }
  constructor; simpl.
  - intros h tm' Hin. rewrite get_set.
    apply in_app_or in Hin. destruct Hin as [Hin|[Hin|[]]].
    + destruct (Hold _ _ Hin) as [Hk _].
      apply String.eqb_neq in Hk. rewrite Hk.
      now apply (inv_registered I).
    + injection Hin as <- <-. now rewrite String.eqb_refl.
  - intros k h. rewrite get_set.
    destruct (String.eqb k (timeoutKey tm)).
    + intros [= <-]. lia.
    + intros H. apply (inv_below I) in H. lia.
  - intros k1 k2 h. rewrite !get_set.
    destruct (String.eqb k1 (timeoutKey tm)) eqn:E1;
      destruct (String.eqb k2 (timeoutKey tm)) eqn:E2.
    + apply String.eqb_eq in E1, E2. congruence.
    + intros [= <-] H. apply (inv_below I) in H. lia.
    + intros H [= <-]. apply (inv_below I) in H. lia.
    + apply (@inv_injective _ I).
  - apply keys_set_NoDup, (inv_keys I).
  - rewrite map_app. simpl. apply NoDup_app.
    + apply (inv_handles I).
    + repeat constructor. tauto.
    + intros h Hin [<-|[]]. apply in_map_iff in Hin.
      destruct Hin as ([h' tm'] & Eh & Hin). simpl in Eh. subst h'.
      destruct (Hold _ _ Hin). lia.
Qed.

Lemma pendingFor_arm (k : string) (tm : Timeout) (g : State) :
  pendingFor k (arm tm g)
  = pendingFor k g
    ++ (if String.eqb (timeoutKey tm) k then [(nextHandle g, tm)] else []).
Proof.
  unfold pendingFor, arm, setTimeout. simpl. now rewrite filter_app.
Qed.

(** *** Timers firing *)

Lemma callbacks_spec (l : list (nat * Timeout)) (g : State) :
  callbacks l g
  = (with_typingTimeouts
       (deleteKeys (map (fun x => timeoutKey (snd x)) l) (typingTimeouts g))
       g,
     map (fun x => expiry (snd x)) l).
Proof.
  revert g. induction l as [|[h tm] r IH]; intros g; simpl.
  - now destruct g.
  - rewrite IH. reflexivity.
Qed.

Lemma get_deleteKeys_other (ks : list string) (k : string)
    (m : JsMap.t nat) :
  ~ In k ks -> JsMap.get k (deleteKeys ks m) = JsMap.get k m.
Proof.
  revert m. induction ks as [|k0 r IH]; intros m Hn; simpl; [reflexivity|].
  rewrite IH by (simpl in Hn; tauto).
  apply get_delete_other. simpl in Hn. intuition congruence.
Qed.

Lemma deleteKeys_NoDup (ks : list string) (m : JsMap.t nat) :
  NoDup (JsMap.keys m) -> NoDup (JsMap.keys (deleteKeys ks m)).
Proof.
  revert m. induction ks as [|k0 r IH]; intros m Hn; simpl; [exact Hn|].
  apply IH. now apply keys_delete_NoDup.
Qed.

Lemma get_deleteKeys_some (ks : list string) (k : string) (h : nat)
    (m : JsMap.t nat) :
  NoDup (JsMap.keys m) ->
  JsMap.get k (deleteKeys ks m) = Some h -> JsMap.get k m = Some h.
Proof.
  revert m. induction ks as [|k0 r IH]; intros m Hn; simpl; [tauto|].
  intros H. apply IH in H; [|now apply keys_delete_NoDup].
  now apply get_delete_some in H.
Qed.

Lemma advance_spec (t : Date) (g : State) :
  advance t g
  = (mkState
       (filter (fun x => negb (due (snd x) <=? t)) (pending g))
       (nextHandle g)
       (deleteKeys
          (map (fun x => timeoutKey (snd x))
             (filter (fun x => due (snd x) <=? t) (pending g)))
          (typingTimeouts g)),
     map (fun x => expiry (snd x))
       (filter (fun x => due (snd x) <=? t) (pending g))).
Proof. unfold advance. now rewrite callbacks_spec. Qed.

Lemma Inv_advance (t : Date) (g : State) : Inv g -> Inv (fst (advance t g)).
Proof.
  intros I. rewrite advance_spec. simpl. constructor; simpl.
  - intros h tm Hin. apply filter_In in Hin. destruct Hin as [Hin Hdue].
    simpl in Hdue. rewrite get_deleteKeys_other.
    + now apply (inv_registered I).
    + intros Hk. apply in_map_iff in Hk.
      destruct Hk as ([h2 tm2] & Ek & Hin2). simpl in Ek.
      apply filter_In in Hin2. destruct Hin2 as [Hin2 Hdue2]. simpl in Hdue2.
      pose proof (inv_registered I _ _ Hin) as R1.
      pose proof (inv_registered I _ _ Hin2) as R2.
      rewrite Ek, R1 in R2. injection R2 as <-.
      pose proof (@NoDup_map_fst_same _ _ _ _ _ _ (inv_handles I) Hin Hin2) as E.
      subst tm2. rewrite Hdue2 in Hdue. discriminate.
  - intros k h H. apply get_deleteKeys_some in H; [|apply (inv_keys I)].
    now apply (inv_below I k).
  - intros k1 k2 h H1 H2.
    apply get_deleteKeys_some in H1; [|apply (inv_keys I)].
    apply get_deleteKeys_some in H2; [|apply (inv_keys I)].
    now apply (@inv_injective _ I k1 k2 h).
  - apply deleteKeys_NoDup, (inv_keys I).
  - apply NoDup_map_fst_filter, (inv_handles I).
Qed.

Lemma filter_comm (A : Type) (p q : A -> bool) (l : list A) :
  filter p (filter q l) = filter q (filter p l).
Proof.
  induction l as [|x r IH]; simpl; [reflexivity|].
  destruct (p x) eqn:Ep, (q x) eqn:Eq; simpl; rewrite ?Ep, ?Eq, IH;
    reflexivity.
Qed.

Lemma pendingFor_advance (k : string) (t : Date) (g : State) :
  pendingFor k (fst (advance t g))
  = filter (fun x => negb (due (snd x) <=? t)) (pendingFor k g).
Proof.
  rewrite advance_spec. unfold pendingFor. simpl. apply filter_comm.
Qed.

Lemma filter_map_swap (A B : Type) (f : A -> B) (p : B -> bool)
    (l : list A) :
  filter p (map f l) = map f (filter (fun x => p (f x)) l).
Proof.
  induction l as [|x r IH]; simpl; [reflexivity|].
  destruct (p (f x)); simpl; now rewrite IH.
Qed.

Lemma expiries_advance (k : string) (t : Date) (g : State) :
  filter (isExpiry k) (snd (advance t g))
  = map (fun x => expiry (snd x))
      (filter (fun x => due (snd x) <=? t) (pendingFor k g)).
Proof.
  rewrite advance_spec. simpl. rewrite filter_map_swap. f_equal.
  unfold pendingFor. apply filter_comm.
Qed.

(** *** The handler and the run *)

Section Run.
Context {S : Type} {storage : IStorage.t S}.

Lemma onTyping_cases (st : S) (sock u : string) (data : TypingData.t)
    (t : Date) (g : State) :
  onTyping st sock u data t g = (g, [])
  \/ exists user,
       IStorage.isUserInConversation st u (TypingData.conversationId data)
       = true
       /\ IStorage.getUserById st u = Some user
       /\ let key := timeoutKeyOf u (TypingData.conversationId data) in
          let emitted :=
            mkEmission relayed sock (roomOf (TypingData.conversationId data))
              (statusOf (TypingData.conversationId data) user
                 (TypingData.isTyping data)) in
          onTyping st sock u data t g
          = (if TypingData.isTyping data
             then arm (mkTimeout (t + 3000) sock
                         (TypingData.conversationId data) user key)
                    (cancel key g)
             else cancel key g,
             [emitted]).
Proof.
  unfold onTyping.
  destruct (IStorage.isUserInConversation st u _) eqn:Ein; simpl;
    [|now left].
  destruct (IStorage.getUserById st u) as [user|] eqn:Eu; [|now left].
  right. exists user. repeat split.
  now destruct (TypingData.isTyping data).
Qed.

Lemma Inv_onTyping (st : S) (sock u : string) (data : TypingData.t)
    (t : Date) (g : State) :
  Inv g -> Inv (fst (onTyping st sock u data t g)).
Proof.
  intros I.
  destruct (onTyping_cases st sock u data t g) as [E|(user & _ & _ & E)];
    rewrite E; simpl; [exact I|].
  destruct (TypingData.isTyping data); [|now apply Inv_cancel].
  apply Inv_arm; [now apply Inv_cancel|]. simpl.
  now apply cancel_map.
Qed.

Lemma onTyping_no_expiry (k : string) (st : S) (sock u : string)
    (data : TypingData.t) (t : Date) (g : State) :
  filter (isExpiry k) (snd (onTyping st sock u data t g)) = [].
Proof.
  destruct (onTyping_cases st sock u data t g) as [E|(user & _ & _ & E)];
    rewrite E; reflexivity.
Qed.

Lemma pendingFor_onTyping_other (k : string) (st : S) (sock u : string)
    (data : TypingData.t) (t : Date) (g : State) :
  Inv g ->
  timeoutKeyOf u (TypingData.conversationId data) <> k ->
  pendingFor k (fst (onTyping st sock u data t g)) = pendingFor k g.
Proof.
  intros I Hne.
  destruct (onTyping_cases st sock u data t g) as [E|(user & _ & _ & E)];
    rewrite E; simpl; [reflexivity|].
  destruct (TypingData.isTyping data).
  - rewrite pendingFor_arm. simpl.
    apply String.eqb_neq in Hne. rewrite Hne, app_nil_r.
    apply pendingFor_cancel_other; [exact I|].
    now apply String.eqb_neq.
  - now apply pendingFor_cancel_other.
Qed.

Lemma nextHandle_cancel (k : string) (g : State) :
  nextHandle (cancel k g) = nextHandle g.
Proof. unfold cancel. now destruct (JsMap.get k (typingTimeouts g)). Qed.

Lemma pendingFor_onTyping_same (st : S) (sock u c : string) (flag : bool)
    (user : User.t) (t : Date) (g : State) :
  Inv g ->
  IStorage.isUserInConversation st u c = true ->
  IStorage.getUserById st u = Some user ->
  pendingFor (timeoutKeyOf u c)
    (fst (onTyping st sock u (TypingData.mk c flag) t g))
  = if flag
    then [(nextHandle g,
           mkTimeout (t + 3000) sock c user (timeoutKeyOf u c))]
    else [].
Proof.
  intros I Hin Hu. unfold onTyping. simpl. rewrite Hin, Hu. simpl.
  destruct flag; simpl.
  - rewrite pendingFor_arm, pendingFor_cancel_same by exact I.
    simpl. now rewrite String.eqb_refl, nextHandle_cancel.
  - now apply pendingFor_cancel_same.
Qed.

Lemma Inv_handle (i : Input) (t : Date) (g : State) :
  Inv g -> Inv (fst (handle i t g)).
Proof. destruct i; simpl; [apply Inv_onTyping | tauto]. Qed.

Lemma run_cons (g : State) (t : Date) (i : Input)
    (rest : list (Date * Input)) :
  run g ((t, i) :: rest)
  = (fst (run (fst (handle i t (fst (advance t g)))) rest),
     snd (advance t g)
     ++ snd (handle i t (fst (advance t g)))
     ++ snd (run (fst (handle i t (fst (advance t g)))) rest)).
Proof.
  simpl. destruct (advance t g) as [g1 o1]. simpl.
  destruct (handle i t g1) as [g2 o2]. simpl.
  now destruct (run g2 rest).
Qed.

Lemma run_app (l1 l2 : list (Date * Input)) (g : State) :
  run g (l1 ++ l2)
  = (fst (run (fst (run g l1)) l2),
     snd (run g l1) ++ snd (run (fst (run g l1)) l2)).
Proof.
  revert g. induction l1 as [|[t i] r IH]; intros g.
  - simpl. now destruct (run g l2).
  - rewrite <- app_comm_cons, !run_cons, IH. simpl.
    now rewrite !app_assoc.
Qed.

Lemma Inv_run (tr : list (Date * Input)) (g : State) :
  Inv g -> Inv (fst (run g tr)).
Proof.
  revert g. induction tr as [|[t i] r IH]; intros g I; [exact I|].
  rewrite run_cons. simpl. apply IH, Inv_handle, Inv_advance, I.
Qed.

(** An input that is not a typing event under the key [k] leaves the
    timers of [k] alone and emits no expiry. *)
Lemma handle_other_key (k : string) (i : Input) (t : Date) (g : State) :
  Inv g ->
  keyOfInput i <> Some k ->
  pendingFor k (fst (handle i t g)) = pendingFor k g
  /\ filter (isExpiry k) (snd (handle i t g)) = [].
Proof.
  intros I Hk. destruct i as [st sock u data|]; simpl; [|tauto].
  split; [|apply onTyping_no_expiry].
  apply pendingFor_onTyping_other; [exact I|].
  simpl in Hk. congruence.
Qed.

(** While no timer is armed under [k] and no typing event arrives under
    [k], no expiry is emitted for [k]. *)
Lemma run_quiet (k : string) (tr : list (Date * Input)) (g : State) :
  Inv g ->
  pendingFor k g = [] ->
  (forall x, In x tr -> keyOfInput (snd x) <> Some k) ->
  filter (isExpiry k) (snd (run g tr)) = []
  /\ pendingFor k (fst (run g tr)) = [].
Proof.
  revert g. induction tr as [|[t i] r IH]; intros g I Hp Hk; [now split|].
  rewrite run_cons. simpl.
  pose proof (Inv_advance t I) as I1.
  assert (Hp1 : pendingFor k (fst (advance t g)) = [])
    by (rewrite pendingFor_advance, Hp; reflexivity).
  assert (Ho1 : filter (isExpiry k) (snd (advance t g)) = [])
    by (rewrite expiries_advance, Hp; reflexivity).
  destruct (@handle_other_key k i t (fst (advance t g)) I1
              (Hk (t, i) (or_introl eq_refl))) as [Hp2 Ho2].
  rewrite Hp1 in Hp2.
  destruct (IH _ (Inv_handle i t I1) Hp2
              (fun x Hx => Hk x (or_intror Hx))) as [Ho3 Hp3].
  split; [|exact Hp3].
  now rewrite !filter_app, Ho1, Ho2, Ho3.
Qed.

(** A timer armed under [k] fires once, when the first input of a time
    not before it is due arrives, provided no typing event arrives under
    [k]. *)
Lemma run_armed (k : string) (h : nat) (tm : Timeout)
    (tr : list (Date * Input)) (g : State) :
  Inv g ->
  pendingFor k g = [(h, tm)] ->
  (forall x, In x tr -> keyOfInput (snd x) <> Some k) ->
  filter (isExpiry k) (snd (run g tr))
  = if existsb (fun x => due tm <=? fst x) tr then [expiry tm] else [].
Proof.
  revert g. induction tr as [|[t i] r IH]; intros g I Hp Hk; [reflexivity|].
  rewrite run_cons. simpl.
  pose proof (Inv_advance t I) as I1.
  pose proof (pendingFor_advance k t g) as Hp1.
  pose proof (expiries_advance k t g) as Ho1.
  rewrite Hp in Hp1, Ho1. simpl in Hp1, Ho1.
  destruct (@handle_other_key k i t (fst (advance t g)) I1
              (Hk (t, i) (or_introl eq_refl))) as [Hp2 Ho2].
  rewrite !filter_app, Ho1, Ho2. simpl.
  destruct (due tm <=? t); simpl in *.
  - rewrite Hp1 in Hp2.
    destruct (@run_quiet k r _ (Inv_handle i t I1) Hp2
                (fun x Hx => Hk x (or_intror Hx))) as [Ho3 _].
    now rewrite Ho3.
  - rewrite Hp1 in Hp2.
    apply (IH _ (Inv_handle i t I1) Hp2 (fun x Hx => Hk x (or_intror Hx))).
Qed.

End Run.

(** For user ids without [":"], the timer key tells the user and the
    conversation. *)
Lemma timeoutKeyOf_inj (u u' c c' : string) :
  noColon u = true -> noColon u' = true ->
  timeoutKeyOf u c = timeoutKeyOf u' c' -> u = u' /\ c = c'.
Proof.
  unfold timeoutKeyOf. revert u'.
  induction u as [|x r IH]; intros [|x' r']; simpl; intros Hu Hu' E.
  - injection E as E. now split.
  - injection E as Ex E. subst x'. now rewrite Ascii.eqb_refl in Hu'.
  - injection E as Ex E. subst x. now rewrite Ascii.eqb_refl in Hu.
  - injection E as Ex E. subst x'.
    apply andb_true_iff in Hu, Hu'.
    destruct (IH r' (proj2 Hu) (proj2 Hu') E) as [-> ->]. now split.
Qed.

End SocketsFacts.

(** C9. A participant sends [typing(conversationId, isTyping)] at time
    [t] (after any earlier traffic [before]); afterwards no typing event
    arrives under the timer key of that user and conversation.  If the
    event said [isTyping = true], the callback of the timer emits
    [isTyping = false] for that user, to the room of the conversation
    except the sender's socket, exactly once, as soon as an input of a
    time not before [t + 3000] is reached, and not before.  If the event
    said [isTyping = false], the pending timer is cancelled and no such
    emission follows. *)
Theorem typing_expires_once_unless_cancelled
    (S : Type) (storage : IStorage.t S)
    (before after : list (Date * Sockets.Input)) (st : S)
    (socketId userId conversationId : string) (user : User.t) (t : Date) :
  IStorage.isUserInConversation st userId conversationId = true ->
  IStorage.getUserById st userId = Some user ->
  (forall x, In x after ->
     Sockets.keyOfInput (snd x)
     <> Some (Sockets.timeoutKeyOf userId conversationId)) ->
  let key := Sockets.timeoutKeyOf userId conversationId in
  let typed isTyping :=
    fst (Sockets.run Sockets.init
           (before
            ++ [(t, Sockets.typing st socketId userId
                      (TypingData.mk conversationId isTyping))])) in
  filter (Sockets.isExpiry key) (snd (Sockets.run (typed true) after))
  = (if existsb (fun x => t + 3000 <=? fst x) after
     then [Sockets.mkEmission (Sockets.expired key) socketId
             (Sockets.roomOf conversationId)
             (TypingStatus.mk conversationId (User.id user)
                (User.username user) (User.displayName user) false)]
     else [])
  /\ filter (Sockets.isExpiry key) (snd (Sockets.run (typed false) after))
     = [].
Proof.
  intros Hin Hu Hquiet key typed.
  set (g0 := fst (Sockets.advance t (fst (Sockets.run Sockets.init before)))).
  assert (I0 : Sockets.Inv g0).
  { apply SocketsFacts.Inv_advance, SocketsFacts.Inv_run,
      SocketsFacts.Inv_init. }
  assert (Etyped : forall flag,
            typed flag
            = fst (Sockets.onTyping st socketId userId
                     (TypingData.mk conversationId flag) t g0)).
  { intros flag. unfold typed. rewrite SocketsFacts.run_app. cbn [fst].
    rewrite SocketsFacts.run_cons. reflexivity. }
  split.
  - rewrite Etyped.
    rewrite (@SocketsFacts.run_armed S storage key (Sockets.nextHandle g0)
               (Sockets.mkTimeout (t + 3000) socketId conversationId user key)).
    + reflexivity.
    + now apply SocketsFacts.Inv_onTyping.
    + now apply (@SocketsFacts.pendingFor_onTyping_same S storage st socketId
                   userId conversationId true user t g0).
    + exact Hquiet.
  - rewrite Etyped.
    apply (@SocketsFacts.run_quiet S storage key).
    + now apply SocketsFacts.Inv_onTyping.
    + now apply (@SocketsFacts.pendingFor_onTyping_same S storage st socketId
                   userId conversationId false user t g0).
    + exact Hquiet.
Qed.

Lemma typing_expires_once_unless_cancelled_witness :
  let bobTypes :=
    Sockets.typing Scenario.Mem.chatting "socket-b" "bob"
      (TypingData.mk "c-0" true) in
  let after := [(11000, bobTypes); (12999, Sockets.idle); (13000, Sockets.idle);
                (20000, bobTypes); (30000, Sockets.idle)] in
  let aliceTyped isTyping :=
    fst (Sockets.run Sockets.init
           [(10000,
             Sockets.typing Scenario.Mem.chatting "socket-a" "alice"
               (TypingData.mk "c-0" isTyping))]) in
  Sockets.expiredCount "alice:c-0" (snd (Sockets.run (aliceTyped true) after))
  = 1%nat
  /\ Sockets.expiredCount "alice:c-0"
       (snd (Sockets.run (aliceTyped false) after))
     = 0%nat.
Proof.
  intros bobTypes after aliceTyped.
  assert (Hquiet : forall x, In x after ->
            Sockets.keyOfInput (snd x)
            <> Some (Sockets.timeoutKeyOf "alice" "c-0")).
  { intros x Hx. simpl in Hx.
    destruct Hx as [<-|[<-|[<-|[<-|[<-|[]]]]]]; simpl; discriminate. }
  destruct (@typing_expires_once_unless_cancelled MemStorage.State
              MemStorage_IStorage [] after Scenario.Mem.chatting "socket-a"
              "alice" "c-0" Scenario.alice 10000 eq_refl eq_refl Hquiet)
    as [H1 H2].
  unfold Sockets.expiredCount. split.
  - exact (f_equal (@length _) H1).
  - exact (f_equal (@length _) H2).
Defined.

(** ** The hypotheses above are kept by the operations *)

(** With a clock that does not run backwards, no stored message is later
    than the clock: [createMessage], the one operation that adds a
    message, stamps it with the clock reading. *)
Lemma mem_createMessage_not_after (st : MemStorage.State)
    (data : InsertMessage.t) (e : Env) (t : Date) :
  (forall c x, In x (MemView.messagesOf st c) -> Message.createdAt x <= t) ->
  t <= now e ->
  forall c x,
    In x (MemView.messagesOf (snd (MemStorage.createMessage st data e)) c) ->
    Message.createdAt x <= now e.
Proof.
  intros Hold Hle c x.
  pose proof (mem_createMessage_result st data e) as H.
  destruct (MemStorage.createMessage st data e) as [sent st'].
  simpl in *. destruct H as (Emsg & Happ & Hother & _).
  destruct (string_dec c (InsertMessage.conversationId data)) as [->|Hc].
  - rewrite Happ. intros Hin. apply in_app_or in Hin.
    destruct Hin as [Hin|[<-|[]]].
    + specialize (Hold _ _ Hin). lia.
    + rewrite Emsg. simpl. lia.
  - rewrite (Hother c Hc). intros Hin. specialize (Hold _ _ Hin). lia.
Qed.

Lemma db_createMessage_not_after (st : DatabaseStorage.State)
    (data : InsertMessage.t) (e : Env) (t : Date) :
  (forall x, In x (DatabaseStorage.messages st) -> Message.createdAt x <= t) ->
  t <= now e ->
  forall x,
    In x (DatabaseStorage.messages
            (snd (DatabaseStorage.createMessage st data e))) ->
    Message.createdAt x <= now e.
Proof.
  intros Hold Hle x. simpl. intros Hin. apply in_app_or in Hin.
  destruct Hin as [Hin|[<-|[]]].
  - specialize (Hold _ Hin). lia.
  - simpl. lia.
Qed.

Lemma StronglySorted_snoc (A : Type) (R : A -> A -> Prop) (l : list A)
    (x : A) :
  StronglySorted R l -> (forall y, In y l -> R y x) ->
  StronglySorted R (l ++ [x]).
Proof.
  induction l as [|a r IH]; simpl; intros Hs Hx.
  - repeat constructor.
  - inversion Hs as [|? ? Hr Ha]; subst. constructor.
    + apply IH; [exact Hr | intros; apply Hx; now right].
    + rewrite Forall_forall in *. intros y Hy. apply in_app_or in Hy.
      destruct Hy as [Hy|[<-|[]]]; [now apply Ha | apply Hx; now left].
Qed.

(** With such a clock the list [MemStorage] keeps for a conversation
    stays in timestamp order. *)
Lemma mem_createMessage_sorted (st : MemStorage.State)
    (data : InsertMessage.t) (e : Env) :
  (forall c, StronglySorted Spec.earlier (MemView.messagesOf st c)) ->
  (forall c x, In x (MemView.messagesOf st c) ->
     Message.createdAt x <= now e) ->
  forall c,
    StronglySorted Spec.earlier
      (MemView.messagesOf (snd (MemStorage.createMessage st data e)) c).
Proof.
  intros Hs Hle c.
  pose proof (mem_createMessage_result st data e) as H.
  destruct (MemStorage.createMessage st data e) as [sent st'].
  simpl in *. destruct H as (Emsg & Happ & Hother & _).
  destruct (string_dec c (InsertMessage.conversationId data)) as [->|Hc].
  - rewrite Happ. apply StronglySorted_snoc; [apply Hs|].
    intros y Hy. unfold Spec.earlier. rewrite Emsg. simpl.
    now apply (Hle (InsertMessage.conversationId data)).
  - rewrite (Hother c Hc). apply Hs.
Qed.

Section KeyedById.
Context {V : Type} (id : V -> string).

Lemma keyedById_set (v : V) (m : JsMap.t V) :
  keyedById id m -> keyedById id (JsMap.set (id v) v m).
Proof.
  unfold keyedById. induction m as [|[k0 v0] r IH]; simpl; intros H.
  - now repeat constructor.
  - inversion H as [|? ? Hk Hr]; subst. simpl in Hk.
    destruct (String.eqb (id v) k0) eqn:E.
    + apply String.eqb_eq in E. constructor; [now simpl | exact Hr].
    + constructor; [exact Hk | now apply IH].
Qed.

Lemma keyedById_mutate (k : string) (f : V -> V) (m : JsMap.t V) :
  (forall v, id (f v) = id v) ->
  keyedById id m -> keyedById id (JsMap.mutate k f m).
Proof.
  intros Hf. unfold keyedById.
  induction m as [|[k0 v0] r IH]; simpl; intros H; [constructor|].
  inversion H as [|? ? Hk Hr]; subst. simpl in Hk.
  destruct (String.eqb k k0).
  - constructor; [simpl; now rewrite Hf | exact Hr].
  - constructor; [exact Hk | now apply IH].
Qed.

Lemma keyedById_mutate_found (p : V -> bool) (f : V -> V) (m : JsMap.t V) :
  (forall v, id (f v) = id v) ->
  keyedById id m -> keyedById id (JsMap.mutate_found p f m).
Proof.
  intros Hf. unfold keyedById.
  induction m as [|[k0 v0] r IH]; simpl; intros H; [constructor|].
  inversion H as [|? ? Hk Hr]; subst. simpl in Hk.
  destruct (p v0).
  - constructor; [simpl; now rewrite Hf | exact Hr].
  - constructor; [exact Hk | now apply IH].
Qed.

End KeyedById.

(** The friend requests of [MemStorage] stay stored under their ids. *)
Lemma mem_friendRequests_keyed (st : MemStorage.State) (s r : string)
    (e : Env) (requestId : string) (status : UpdateStatus) :
  keyedById FriendRequest.id (MemStorage.friendRequests st) ->
  keyedById FriendRequest.id
    (MemStorage.friendRequests (snd (MemStorage.sendFriendRequest st s r e)))
  /\ keyedById FriendRequest.id
       (MemStorage.friendRequests
          (MemStorage.updateFriendRequestStatus st requestId status)).
Proof.
  intros Hk. split.
  - unfold MemStorage.sendFriendRequest.
    destruct (find _ _) as [existing|].
    + destruct (FriendRequest.status existing); simpl; try exact Hk.
      apply (@keyedById_set _ FriendRequest.id
               (FriendRequest.reopened s r (now e) existing)).
      now apply keyedById_mutate_found.
    + simpl.
      apply (@keyedById_set _ FriendRequest.id
               (FriendRequest.mk (uuid e 0%nat) s r pending (now e))).
      exact Hk.
  - simpl. now apply keyedById_mutate.
Qed.

(** * Further properties of the storage, the routes and the gateway *)

(** ** Friendship *)

Lemma friendPair_sym (a b : string) (r : FriendRequest.t) :
  (String.eqb (FriendRequest.senderId r) a
   && String.eqb (FriendRequest.receiverId r) b
   || String.eqb (FriendRequest.senderId r) b
      && String.eqb (FriendRequest.receiverId r) a)
  = (String.eqb (FriendRequest.senderId r) b
     && String.eqb (FriendRequest.receiverId r) a
     || String.eqb (FriendRequest.senderId r) a
        && String.eqb (FriendRequest.receiverId r) b).
Proof. apply orb_comm. Qed.

Lemma betweenPair_sym (a b : string) (r : FriendRequest.t) :
  betweenPair a b r = betweenPair b a r.
Proof. unfold betweenPair. apply orb_comm. Qed.

Lemma existsb_ext_all (A : Type) (p q : A -> bool) (l : list A) :
  (forall x, p x = q x) -> existsb p l = existsb q l.
Proof.
  intros H. induction l as [|x r IH]; simpl; [reflexivity|].
  now rewrite H, IH.
Qed.

Lemma find_ext_all (A : Type) (p q : A -> bool) (l : list A) :
  (forall x, p x = q x) -> find p l = find q l.
Proof. intros H. apply find_ext_in. intros; apply H. Qed.

(** X1. [areFriends] does not depend on the order of its two users, in
    both storage implementations. *)
Theorem are_friends_symmetric
    (m : MemStorage.State) (d : DatabaseStorage.State) (a b : string) :
  MemStorage.areFriends m a b = MemStorage.areFriends m b a
  /\ DatabaseStorage.areFriends d a b = DatabaseStorage.areFriends d b a.
Proof.
  split.
  - unfold MemStorage.areFriends. apply existsb_ext_all.
    intros x. now rewrite friendPair_sym.
  - unfold DatabaseStorage.areFriends.
    rewrite (find_ext_all _
               (fun r =>
                  RequestStatus_eqb (FriendRequest.status r) accepted
                  && (String.eqb (FriendRequest.senderId r) b
                      && String.eqb (FriendRequest.receiverId r) a
                      || String.eqb (FriendRequest.senderId r) a
                         && String.eqb (FriendRequest.receiverId r) b)));
      [reflexivity|].
    intros x. now rewrite friendPair_sym.
Qed.

Lemma get_some_in_values (V : Type) (k : string) (v : V) (m : JsMap.t V) :
  JsMap.get k m = Some v -> In v (JsMap.values m).
Proof.
  unfold JsMap.values. induction m as [|[k0 v0] r IH]; simpl; [discriminate|].
  destruct (String.eqb k k0); [intros [= ->]; now left | intros H; right; auto].
Qed.

Lemma mem_areFriends_of_accepted (st : MemStorage.State)
    (r : FriendRequest.t) :
  In r (JsMap.values (MemStorage.friendRequests st)) ->
  FriendRequest.status r = accepted ->
  MemStorage.areFriends st (FriendRequest.senderId r)
    (FriendRequest.receiverId r) = true.
Proof.
  intros Hin Hs. unfold MemStorage.areFriends. apply existsb_exists.
  exists r. split; [exact Hin|]. now rewrite Hs, !String.eqb_refl.
Qed.

Lemma db_areFriends_of_accepted (st : DatabaseStorage.State)
    (r : FriendRequest.t) :
  In r (DatabaseStorage.friendRequests st) ->
  FriendRequest.status r = accepted ->
  DatabaseStorage.areFriends st (FriendRequest.senderId r)
    (FriendRequest.receiverId r) = true.
Proof.
  intros Hin Hs. unfold DatabaseStorage.areFriends.
  destruct (find _ _) eqn:E; [reflexivity|].
  apply (find_none _ _ E) in Hin.
  now rewrite Hs, !String.eqb_refl in Hin.
Qed.

(** The friend requests after the update-request handler ran for the
    receiver with [accepted]: those after the status was written. *)
Lemma mem_accept_requests (m : MemStorage.State) (requestId : string)
    (e1 e2 : Env) (r : FriendRequest.t) :
  MemStorage.getFriendRequestById m requestId = Some r ->
  MemStorage.friendRequests
    (snd (fst (Routes.updateRequest m (FriendRequest.receiverId r) requestId
                 to_accepted e1 e2)))
  = MemStorage.friendRequests
      (MemStorage.updateFriendRequestStatus m requestId to_accepted).
Proof.
  intros Hm. unfold Routes.updateRequest.
  change (IStorage.getFriendRequestById m requestId)
    with (MemStorage.getFriendRequestById m requestId).
  rewrite Hm, String.eqb_refl. simpl negb. cbv iota.
  change (IStorage.updateFriendRequestStatus m requestId to_accepted)
    with (MemStorage.updateFriendRequestStatus m requestId to_accepted).
  set (m1 := MemStorage.updateFriendRequestStatus m requestId to_accepted).
  change (IStorage.findOrCreatePrivateConversation m1
            (FriendRequest.receiverId r) (FriendRequest.senderId r) e1)
    with (MemStorage.findOrCreatePrivateConversation m1
            (FriendRequest.receiverId r) (FriendRequest.senderId r) e1).
  pose proof (mem_findOrCreate_result m1 (FriendRequest.receiverId r)
                (FriendRequest.senderId r) e1) as Hf.
  destruct (MemStorage.findOrCreatePrivateConversation m1 _ _ e1)
    as [conv m2].
  destruct Hf as (_ & _ & _ & _ & _ & Hreqs & _).
  simpl. now rewrite Hreqs.
Qed.

Lemma db_accept_requests (d : DatabaseStorage.State) (requestId : string)
    (e1 e2 : Env) (r : FriendRequest.t) :
  DatabaseStorage.getFriendRequestById d requestId = Some r ->
  DatabaseStorage.friendRequests
    (snd (fst (Routes.updateRequest d (FriendRequest.receiverId r) requestId
                 to_accepted e1 e2)))
  = DatabaseStorage.friendRequests
      (DatabaseStorage.updateFriendRequestStatus d requestId to_accepted).
Proof.
  intros Hd. unfold Routes.updateRequest.
  change (IStorage.getFriendRequestById d requestId)
    with (DatabaseStorage.getFriendRequestById d requestId).
  rewrite Hd, String.eqb_refl. simpl negb. cbv iota.
  change (IStorage.updateFriendRequestStatus d requestId to_accepted)
    with (DatabaseStorage.updateFriendRequestStatus d requestId to_accepted).
  set (d1 := DatabaseStorage.updateFriendRequestStatus d requestId
               to_accepted).
  change (IStorage.findOrCreatePrivateConversation d1
            (FriendRequest.receiverId r) (FriendRequest.senderId r) e1)
    with (DatabaseStorage.findOrCreatePrivateConversation d1
            (FriendRequest.receiverId r) (FriendRequest.senderId r) e1).
  pose proof (db_findOrCreate_result d1 (FriendRequest.receiverId r)
                (FriendRequest.senderId r) e1) as Hf.
  destruct (DatabaseStorage.findOrCreatePrivateConversation d1 _ _ e1)
    as [conv d2].
  destruct Hf as (_ & _ & _ & _ & _ & Hreqs & _).
  simpl. now rewrite Hreqs.
Qed.

(** X2. Once the receiver of a friend request has accepted it through
    the update-request handler, [areFriends] holds of sender and
    receiver, asked either way round; in both storage implementations. *)
Theorem accepted_request_makes_friends
    (m : MemStorage.State) (d : DatabaseStorage.State) (requestId : string)
    (e1 e2 : Env) (rm rd : FriendRequest.t) :
  MemStorage.getFriendRequestById m requestId = Some rm ->
  DatabaseStorage.getFriendRequestById d requestId = Some rd ->
  (let m' :=
     snd (fst (Routes.updateRequest m (FriendRequest.receiverId rm) requestId
                 to_accepted e1 e2)) in
   MemStorage.areFriends m' (FriendRequest.senderId rm)
     (FriendRequest.receiverId rm) = true
   /\ MemStorage.areFriends m' (FriendRequest.receiverId rm)
        (FriendRequest.senderId rm) = true)
  /\ (let d' :=
        snd (fst (Routes.updateRequest d (FriendRequest.receiverId rd)
                    requestId to_accepted e1 e2)) in
      DatabaseStorage.areFriends d' (FriendRequest.senderId rd)
        (FriendRequest.receiverId rd) = true
      /\ DatabaseStorage.areFriends d' (FriendRequest.receiverId rd)
           (FriendRequest.senderId rd) = true).
Proof.
  intros Hm Hd.
  assert (Am : MemStorage.areFriends
                 (snd (fst (Routes.updateRequest m
                              (FriendRequest.receiverId rm) requestId
                              to_accepted e1 e2)))
                 (FriendRequest.senderId rm) (FriendRequest.receiverId rm)
               = true).
  { pose proof (mem_accept_status _ _ Hm) as Hs.
    unfold MemStorage.getFriendRequestById in Hs.
    apply get_some_in_values in Hs.
    rewrite <- (@mem_accept_requests m requestId e1 e2 rm Hm) in Hs.
    apply (mem_areFriends_of_accepted _ _ Hs). reflexivity. }
  assert (Ad : DatabaseStorage.areFriends
                 (snd (fst (Routes.updateRequest d
                              (FriendRequest.receiverId rd) requestId
                              to_accepted e1 e2)))
                 (FriendRequest.senderId rd) (FriendRequest.receiverId rd)
               = true).
  { pose proof (db_accept_status _ _ Hd) as Hs.
    unfold DatabaseStorage.getFriendRequestById in Hs.
    apply find_some in Hs. destruct Hs as [Hs _].
    rewrite <- (@db_accept_requests d requestId e1 e2 rd Hd) in Hs.
    apply (db_areFriends_of_accepted _ _ Hs). reflexivity. }
  repeat split; try assumption.
  - rewrite (proj1 (are_friends_symmetric _ d _ _)). exact Am.
  - rewrite (proj2 (are_friends_symmetric m _ _ _)). exact Ad.
Qed.

Lemma accepted_request_makes_friends_witness :
  MemStorage.areFriends Scenario.Mem.befriended "alice" "bob" = true
  /\ DatabaseStorage.areFriends Scenario.Db.befriended "bob" "alice" = true.
Proof.
  destruct (@accepted_request_makes_friends Scenario.Mem.requested
              Scenario.Db.requested "r-0" (Scenario.env 2000 "c-")
              (Scenario.env 2001 "m-")
              (FriendRequest.mk "r-0" "alice" "bob" pending 1000)
              (FriendRequest.mk "r-0" "alice" "bob" pending 1000)
              eq_refl eq_refl) as [[H1 _] [_ H2]].
  split; [exact H1 | exact H2].
Defined.

Lemma betweenPair_reopened (s r : string) (t : Date) (x : FriendRequest.t) :
  betweenPair s r (FriendRequest.reopened s r t x) = true.
Proof. unfold betweenPair. simpl. now rewrite !String.eqb_refl. Qed.

Lemma betweenPair_new (i s r : string) (p : RequestStatus) (t : Date) :
  betweenPair s r (FriendRequest.mk i s r p t) = true.
Proof. unfold betweenPair. simpl. now rewrite !String.eqb_refl. Qed.

Lemma find_values_set_new (V : Type) (p : V -> bool) (k : string) (v : V)
    (m : JsMap.t V) :
  find p (JsMap.values m) = None -> p v = true ->
  find p (JsMap.values (JsMap.set k v m)) = Some v.
Proof.
  unfold JsMap.values. intros Hn Hv.
  induction m as [|[k0 v0] r IH]; simpl in *.
  - now rewrite Hv.
  - destruct (p v0) eqn:E0; [discriminate|].
    destruct (String.eqb k k0); simpl.
    + now rewrite Hv.
    + rewrite E0. now apply IH.
Qed.

Lemma find_values_set_found (V : Type) (p : V -> bool) (f : V -> V)
    (k : string) (x : V) (m : JsMap.t V) :
  find p (JsMap.values m) = Some x -> p (f x) = true ->
  find p (JsMap.values (JsMap.set k (f x) (JsMap.mutate_found p f m)))
  = Some (f x).
Proof.
  unfold JsMap.values. intros Hf Hx.
  induction m as [|[k0 v0] r IH]; simpl in *; [discriminate|].
  destruct (p v0) eqn:E0.
  - injection Hf as ->. simpl.
    destruct (String.eqb k k0); simpl; now rewrite Hx.
  - simpl. destruct (String.eqb k k0); simpl.
    + now rewrite Hx.
    + rewrite E0. now apply IH.
Qed.

Lemma db_find_reopened (s r : string) (t : Date) (x : FriendRequest.t)
    (rows : list FriendRequest.t) :
  find (betweenPair s r) rows = Some x ->
  find (betweenPair s r)
    (fst (DatabaseStorage.reopenById (FriendRequest.id x) s r t rows))
  = Some (FriendRequest.reopened s r t x).
Proof.
  unfold DatabaseStorage.reopenById. simpl.
  induction rows as [|y l IH]; simpl; [discriminate|].
  destruct (betweenPair s r y) eqn:Ey.
  - intros [= ->]. rewrite String.eqb_refl, betweenPair_reopened.
    reflexivity.
  - intros Hf.
    destruct (String.eqb (FriendRequest.id y) (FriendRequest.id x)) eqn:E.
    + rewrite betweenPair_reopened. apply String.eqb_eq in E.
      unfold FriendRequest.reopened. now rewrite E.
    + rewrite Ey. now apply IH.
Qed.

Lemma mem_sendFriendRequest_again (st : MemStorage.State) (s r : string)
    (e1 : Env) :
  let '(req, st1) := MemStorage.sendFriendRequest st s r e1 in
  find (betweenPair s r) (JsMap.values (MemStorage.friendRequests st1))
  = Some req
  /\ FriendRequest.status req <> rejected.
Proof.
  unfold MemStorage.sendFriendRequest.
  destruct (find _ _) as [x|] eqn:Ef.
  - destruct (FriendRequest.status x) eqn:Es; simpl.
    + rewrite Ef, Es. split; [reflexivity | discriminate].
    + rewrite Ef, Es. split; [reflexivity | discriminate].
    + split; [|discriminate].
      apply (find_values_set_found _ (FriendRequest.reopened s r (now e1))
               (FriendRequest.id x) _ Ef).
      apply betweenPair_reopened.
  - simpl. split; [|discriminate].
    apply find_values_set_new; [exact Ef | apply betweenPair_new].
Qed.

Lemma db_sendFriendRequest_again (st : DatabaseStorage.State) (s r : string)
    (e1 : Env) :
  let '(req, st1) := DatabaseStorage.sendFriendRequest st s r e1 in
  find (betweenPair s r) (DatabaseStorage.friendRequests st1) = Some req
  /\ FriendRequest.status req <> rejected.
Proof.
  unfold DatabaseStorage.sendFriendRequest.
  destruct (find _ _) as [x|] eqn:Ef.
  - destruct (FriendRequest.status x) eqn:Es; simpl.
    + rewrite Ef, Es. split; [reflexivity | discriminate].
    + rewrite Ef, Es. split; [reflexivity | discriminate].
    + pose proof (db_find_reopened s r (now e1) _ Ef) as Hfind.
      pose proof (db_reopen_returned s r (now e1)
                    (DatabaseStorage.friendRequests st) x) as Hret.
      unfold DatabaseStorage.reopenById in Hfind, Hret.
      cbn [fst snd] in Hfind, Hret.
      rewrite Hret. split; [exact Hfind | discriminate].
  - simpl. split; [|discriminate].
    rewrite find_app, Ef. simpl. now rewrite betweenPair_new.
Qed.

Lemma mem_sendFriendRequest_found (st : MemStorage.State) (s r : string)
    (e : Env) (x : FriendRequest.t) :
  find (betweenPair s r) (JsMap.values (MemStorage.friendRequests st))
  = Some x ->
  FriendRequest.status x <> rejected ->
  MemStorage.sendFriendRequest st s r e = (x, st).
Proof.
  intros Hf Hs. unfold MemStorage.sendFriendRequest. rewrite Hf.
  destruct (FriendRequest.status x); congruence.
Qed.

Lemma db_sendFriendRequest_found (st : DatabaseStorage.State) (s r : string)
    (e : Env) (x : FriendRequest.t) :
  find (betweenPair s r) (DatabaseStorage.friendRequests st) = Some x ->
  FriendRequest.status x <> rejected ->
  DatabaseStorage.sendFriendRequest st s r e = (x, st).
Proof.
  intros Hf Hs. unfold DatabaseStorage.sendFriendRequest. rewrite Hf.
  destruct (FriendRequest.status x); congruence.
Qed.

(** X3. Sending a friend request a second time, from either of the two
    users, returns the record the first call returned and writes
    nothing: [sendFriendRequest] after [sendFriendRequest] is a read.  In
    both storage implementations; in the relational one the two users are
    stored, as the foreign keys of [friend_requests] ask, and the table
    holds a record id once and at most one record between two users, so
    that the record the lookup finds does not depend on the order of the
    rows. *)
Theorem send_friend_request_twice
    (m : MemStorage.State) (d : DatabaseStorage.State) (s r : string)
    (e1 e2 : Env)
    (Hsender : DatabaseStorage.getUserById d s <> None)
    (Hreceiver : DatabaseStorage.getUserById d r <> None)
    (Hrequests : dbRequestsWellFormed d) :
  (let '(req, m1) := MemStorage.sendFriendRequest m s r e1 in
   MemStorage.sendFriendRequest m1 s r e2 = (req, m1)
   /\ MemStorage.sendFriendRequest m1 r s e2 = (req, m1))
  /\ (let '(req, d1) := DatabaseStorage.sendFriendRequest d s r e1 in
      DatabaseStorage.sendFriendRequest d1 s r e2 = (req, d1)
      /\ DatabaseStorage.sendFriendRequest d1 r s e2 = (req, d1)).
Proof.
  split.
  - pose proof (mem_sendFriendRequest_again m s r e1) as H.
    destruct (MemStorage.sendFriendRequest m s r e1) as [req m1].
    destruct H as [Hf Hs]. split.
    + now apply mem_sendFriendRequest_found.
    + apply mem_sendFriendRequest_found; [|exact Hs].
      rewrite <- Hf. apply find_ext_all. intros x. apply betweenPair_sym.
  - pose proof (db_sendFriendRequest_again d s r e1) as H.
    destruct (DatabaseStorage.sendFriendRequest d s r e1) as [req d1].
    destruct H as [Hf Hs]. split.
    + now apply db_sendFriendRequest_found.
    + apply db_sendFriendRequest_found; [|exact Hs].
      rewrite <- Hf. apply find_ext_all. intros x. apply betweenPair_sym.
Qed.

Lemma send_friend_request_twice_witness :
  MemStorage.sendFriendRequest Scenario.Mem.requested "bob" "alice"
    (Scenario.env 1500 "s-")
  = MemStorage.sendFriendRequest Scenario.Mem.registered "alice" "bob"
      (Scenario.env 1000 "r-")
  /\ DatabaseStorage.sendFriendRequest Scenario.Db.requested "bob" "alice"
       (Scenario.env 1500 "s-")
     = DatabaseStorage.sendFriendRequest Scenario.Db.registered "alice" "bob"
         (Scenario.env 1000 "r-").
Proof.
  assert (Hs : DatabaseStorage.getUserById Scenario.Db.registered "alice"
               <> None) by discriminate.
  assert (Hr : DatabaseStorage.getUserById Scenario.Db.registered "bob"
               <> None) by discriminate.
  assert (Hw : dbRequestsWellFormed Scenario.Db.registered).
  { split; [constructor | intros a b; simpl; lia]. }
  pose proof (@send_friend_request_twice Scenario.Mem.registered
                Scenario.Db.registered "alice" "bob"
                (Scenario.env 1000 "r-") (Scenario.env 1500 "s-") Hs Hr Hw)
    as [Hm Hd].
  unfold Scenario.Mem.requested, Scenario.Db.requested.
  destruct (MemStorage.sendFriendRequest Scenario.Mem.registered "alice"
              "bob" (Scenario.env 1000 "r-")) as [rm m1].
  destruct (DatabaseStorage.sendFriendRequest Scenario.Db.registered "alice"
              "bob" (Scenario.env 1000 "r-")) as [rd d1].
  split; [exact (proj2 Hm) | exact (proj2 Hd)].
Defined.

(** ** Unread counts and watermarks *)

Lemma mem_unread_of_membership (st : MemStorage.State) (u c : string)
    (p : ConversationParticipant.t) (w : Date) :
  MemView.membership st u c = Some p ->
  ConversationParticipant.lastReadAt p = Some w ->
  MemStorage.getUnreadCount st u c
  = length (filter (fun x => w <? Message.createdAt x)
              (MemView.messagesOf st c)).
Proof.
  unfold MemView.membership, MemView.participantsOf, MemView.messagesOf,
    MemStorage.getUnreadCount.
  intros -> ->. reflexivity.
Qed.

Lemma db_unread_of_membership (utcOffset : Date -> Z)
    (st : DatabaseStorage.State) (u c : string)
    (p : ConversationParticipant.t) (w : Date) :
  DbView.membership st u c = Some p ->
  ConversationParticipant.lastReadAt p = Some w ->
  DatabaseStorage.getUnreadCount utcOffset st u c
  = length (filter
              (fun x =>
                 PgDriver.timestampOfParam utcOffset w <? Message.createdAt x)
              (DbView.messagesOf st c)).
Proof.
  unfold DbView.membership, DbView.messagesOf,
    DatabaseStorage.getUnreadCount.
  intros -> ->. now rewrite filter_filter_and.
Qed.

Lemma mem_createMessage_unread_other (st : MemStorage.State)
    (data : InsertMessage.t) (e : Env) (u c : string) :
  c <> InsertMessage.conversationId data ->
  MemStorage.getUnreadCount (snd (MemStorage.createMessage st data e)) u c
  = MemStorage.getUnreadCount st u c.
Proof.
  intros Hc. unfold MemStorage.getUnreadCount, MemStorage.createMessage.
  simpl. rewrite get_or_nil_set.
  apply String.eqb_neq in Hc. now rewrite Hc.
Qed.

Lemma db_createMessage_unread_other (utcOffset : Date -> Z)
    (st : DatabaseStorage.State) (data : InsertMessage.t) (e : Env)
    (u c : string) :
  c <> InsertMessage.conversationId data ->
  DatabaseStorage.getUnreadCount utcOffset
    (snd (DatabaseStorage.createMessage st data e)) u c
  = DatabaseStorage.getUnreadCount utcOffset st u c.
Proof.
  intros Hc. unfold DatabaseStorage.getUnreadCount,
    DatabaseStorage.createMessage. simpl.
  destruct (find _ _) as [p|]; [|reflexivity].
  rewrite filter_app, length_app. simpl.
  apply String.eqb_neq in Hc. rewrite String.eqb_sym in Hc.
  rewrite Hc. simpl. apply Nat.add_0_r.
Qed.

Lemma mem_new_message_unread (m : MemStorage.State)
    (data : InsertMessage.t) (e : Env) (u : string)
    (pm : ConversationParticipant.t) (wm : Date) :
  MemView.membership m u (InsertMessage.conversationId data) = Some pm ->
  ConversationParticipant.lastReadAt pm = Some wm ->
  wm < now e ->
  MemStorage.getUnreadCount (snd (MemStorage.createMessage m data e)) u
    (InsertMessage.conversationId data)
  = S (MemStorage.getUnreadCount m u (InsertMessage.conversationId data)).
Proof.
  intros Hpm Hwm Hlm.
  rewrite (mem_unread_of_membership m u _ Hpm Hwm).
  pose proof (mem_createMessage_result m data e) as H.
  destruct (MemStorage.createMessage m data e) as [sent m'].
  cbn [snd]. destruct H as (Emsg & Happ & _ & Hp & _).
  assert (Hpm' : MemView.membership m' u (InsertMessage.conversationId data)
                 = Some pm).
  { unfold MemView.membership, MemView.participantsOf in *.
    now rewrite Hp. }
  rewrite (mem_unread_of_membership m' u _ Hpm' Hwm), Happ.
  rewrite filter_app, length_app. simpl. rewrite Emsg. simpl.
  apply Z.ltb_lt in Hlm. rewrite Hlm. simpl. lia.
Qed.

Lemma db_new_message_unread (utcOffset : Date -> Z)
    (d : DatabaseStorage.State) (data : InsertMessage.t) (e : Env)
    (u : string) (pd : ConversationParticipant.t) (wd : Date) :
  DbView.membership d u (InsertMessage.conversationId data) = Some pd ->
  ConversationParticipant.lastReadAt pd = Some wd ->
  PgDriver.timestampOfParam utcOffset wd < now e ->
  DatabaseStorage.getUnreadCount utcOffset
    (snd (DatabaseStorage.createMessage d data e)) u
    (InsertMessage.conversationId data)
  = S (DatabaseStorage.getUnreadCount utcOffset d u
         (InsertMessage.conversationId data)).
Proof.
  intros Hpd Hwd Hld.
  rewrite (db_unread_of_membership utcOffset d u _ Hpd Hwd).
  assert (Hpd' : DbView.membership
                   (snd (DatabaseStorage.createMessage d data e)) u
                   (InsertMessage.conversationId data)
                 = Some pd) by exact Hpd.
  rewrite (db_unread_of_membership utcOffset _ u _ Hpd' Hwd).
  unfold DbView.messagesOf. simpl.
  rewrite !filter_app, length_app. simpl.
  rewrite String.eqb_refl. simpl.
  apply Z.ltb_lt in Hld. rewrite Hld. simpl. lia.
Qed.

Lemma find_head_filter (A : Type) (p : A -> bool) (l : list A) (x : A)
    (rest : list A) :
  filter p l = x :: rest -> find p l = Some x.
Proof.
  induction l as [|a r IH]; simpl; [discriminate|].
  destruct (p a); [now intros [= ->] | exact IH].
Qed.

(** X4. A message stored at a clock reading later than a member's
    watermark raises that member's unread count of the conversation by
    exactly one (the sender's own count too, when the sender is that
    member), and leaves the unread counts of every other conversation as
    they were.  In both storage implementations; [DatabaseStorage]
    compares the clock reading with the local wall clock of the
    watermark, in the time zone of the process (the watermark itself in
    UTC); the member has one membership row there, and the conversation
    and the sender, if the message names one, are stored, as the foreign
    keys of [messages] ask. *)
Theorem new_message_raises_unread_count_by_one
    (m : MemStorage.State) (d : DatabaseStorage.State)
    (utcOffset : Date -> Z) (data : InsertMessage.t) (e : Env) (u : string)
    (pm pd : ConversationParticipant.t) (wm wd : Date)
    (Hpm : MemView.membership m u (InsertMessage.conversationId data)
           = Some pm)
    (Hwm : ConversationParticipant.lastReadAt pm = Some wm)
    (Hlm : wm < now e)
    (Hpd : DbView.memberships d u (InsertMessage.conversationId data)
           = [pd])
    (Hwd : ConversationParticipant.lastReadAt pd = Some wd)
    (Hld : PgDriver.timestampOfParam utcOffset wd < now e)
    (Hconversation :
       DatabaseStorage.getConversationById d
         (InsertMessage.conversationId data)
       <> None)
    (Hsender : forall s,
       InsertMessage.senderId data = Some s ->
       DatabaseStorage.getUserById d s <> None) :
  (MemStorage.getUnreadCount (snd (MemStorage.createMessage m data e)) u
     (InsertMessage.conversationId data)
   = S (MemStorage.getUnreadCount m u (InsertMessage.conversationId data))
   /\ forall u' c, c <> InsertMessage.conversationId data ->
        MemStorage.getUnreadCount (snd (MemStorage.createMessage m data e))
          u' c
        = MemStorage.getUnreadCount m u' c)
  /\ (DatabaseStorage.getUnreadCount utcOffset
        (snd (DatabaseStorage.createMessage d data e)) u
        (InsertMessage.conversationId data)
      = S (DatabaseStorage.getUnreadCount utcOffset d u
             (InsertMessage.conversationId data))
      /\ forall u' c, c <> InsertMessage.conversationId data ->
           DatabaseStorage.getUnreadCount utcOffset
             (snd (DatabaseStorage.createMessage d data e)) u' c
           = DatabaseStorage.getUnreadCount utcOffset d u' c).
Proof.
  split; split.
  - now apply (@mem_new_message_unread m data e u pm wm).
  - intros u' c Hc. now apply mem_createMessage_unread_other.
  - apply (@db_new_message_unread utcOffset d data e u pd wd);
      try assumption.
    exact (find_head_filter _ _ Hpd).
  - intros u' c Hc. now apply db_createMessage_unread_other.
Qed.

Lemma new_message_raises_unread_count_by_one_witness :
  MemStorage.getUnreadCount
    (snd (MemStorage.createMessage Scenario.Mem.chatting
            (Scenario.hi "alice" "hello?") (Scenario.env 3700000 "p-")))
    "bob" "c-0"
  = S (MemStorage.getUnreadCount Scenario.Mem.chatting "bob" "c-0")
  /\ DatabaseStorage.getUnreadCount (PgDriver.fixedZone 60)
       (snd (DatabaseStorage.createMessage Scenario.Db.chatting
               (Scenario.hi "alice" "hello?")
               (Scenario.env 3700000 "p-")))
       "bob" "c-0"
     = S (DatabaseStorage.getUnreadCount (PgDriver.fixedZone 60)
            Scenario.Db.chatting "bob" "c-0").
Proof.
  assert (Hconversation :
            DatabaseStorage.getConversationById Scenario.Db.chatting
              (InsertMessage.conversationId (Scenario.hi "alice" "hello?"))
            <> None) by discriminate.
  assert (Hsender : forall s,
            InsertMessage.senderId (Scenario.hi "alice" "hello?") = Some s ->
            DatabaseStorage.getUserById Scenario.Db.chatting s <> None).
  { intros s [= <-]. discriminate. }
  destruct (@new_message_raises_unread_count_by_one
              Scenario.Mem.chatting Scenario.Db.chatting
              (PgDriver.fixedZone 60)
              (Scenario.hi "alice" "hello?") (Scenario.env 3700000 "p-")
              "bob"
              (ConversationParticipant.mk "c-1" "c-0" "bob" 2000 (Some 2000))
              (ConversationParticipant.mk "c-2" "c-0" "bob" 2000 (Some 2000))
              2000 2000 eq_refl eq_refl eq_refl eq_refl eq_refl eq_refl
              Hconversation Hsender)
    as [[Hm _] [Hd _]].
  split; [exact Hm | exact Hd].
Defined.

Lemma update_first_twice (A : Type) (p : A -> bool) (f g : A -> A)
    (l : list A) :
  (forall x, p (f x) = p x) ->
  JsArray.update_first p g (JsArray.update_first p f l)
  = JsArray.update_first p (fun x => g (f x)) l.
Proof.
  intros Hp. induction l as [|a r IH]; simpl; [reflexivity|].
  destruct (p a) eqn:E; simpl.
  - now rewrite Hp, E.
  - now rewrite E, IH.
Qed.

Lemma update_first_ext (A : Type) (p : A -> bool) (f g : A -> A)
    (l : list A) :
  (forall x, f x = g x) ->
  JsArray.update_first p f l = JsArray.update_first p g l.
Proof.
  intros H. induction l as [|a r IH]; simpl; [reflexivity|].
  now rewrite H, IH.
Qed.

Lemma mutate_twice (V : Type) (k : string) (f g : V -> V) (m : JsMap.t V) :
  JsMap.mutate k g (JsMap.mutate k f m)
  = JsMap.mutate k (fun x => g (f x)) m.
Proof.
  induction m as [|[k0 v0] r IH]; simpl; [reflexivity|].
  destruct (String.eqb k k0) eqn:E; simpl; rewrite E.
  - reflexivity.
  - now rewrite IH.
Qed.

Lemma mutate_ext (V : Type) (k : string) (f g : V -> V) (m : JsMap.t V) :
  (forall x, f x = g x) -> JsMap.mutate k f m = JsMap.mutate k g m.
Proof.
  intros H. induction m as [|[k0 v0] r IH]; simpl; [reflexivity|].
  now rewrite H, IH.
Qed.

(** X5. Of two [markConversationAsRead] calls by the same user on the
    same conversation only the later one shows: the store after both is
    the store after the second alone.  In both storage
    implementations. *)
Theorem mark_read_twice_keeps_the_later
    (m : MemStorage.State) (d : DatabaseStorage.State) (u c : string)
    (t1 t2 : Date) :
  MemStorage.markConversationAsRead
    (MemStorage.markConversationAsRead m u c t1) u c t2
  = MemStorage.markConversationAsRead m u c t2
  /\ DatabaseStorage.markConversationAsRead
       (DatabaseStorage.markConversationAsRead d u c t1) u c t2
     = DatabaseStorage.markConversationAsRead d u c t2.
Proof.
  split.
  - unfold MemStorage.markConversationAsRead,
      MemStorage.with_conversationParticipants. simpl. f_equal.
    rewrite mutate_twice. apply mutate_ext. intros l.
    rewrite update_first_twice by reflexivity.
    apply update_first_ext. intros [i cv us j r]. reflexivity.
  - unfold DatabaseStorage.markConversationAsRead,
      DatabaseStorage.with_conversationParticipants. simpl. f_equal.
    rewrite map_map. apply map_ext. intros p.
    destruct (DatabaseStorage.membershipOf u c p) eqn:E.
    + change (DatabaseStorage.membershipOf u c
                (ConversationParticipant.with_lastReadAt (Some t1) p))
        with (DatabaseStorage.membershipOf u c p).
      rewrite E. now destruct p.
    + now rewrite E.
Qed.

Lemma update_first_none (A : Type) (p : A -> bool) (f : A -> A)
    (l : list A) :
  existsb p l = false -> JsArray.update_first p f l = l.
Proof.
  induction l as [|a r IH]; simpl; [reflexivity|].
  destruct (p a); simpl; [discriminate|]. intros H. now rewrite IH.
Qed.

Lemma mutate_fixed (V : Type) (k : string) (f : V -> V) (m : JsMap.t V) :
  (forall v, JsMap.get k m = Some v -> f v = v) -> JsMap.mutate k f m = m.
Proof.
  induction m as [|[k0 v0] r IH]; simpl; [reflexivity|].
  destruct (String.eqb k k0) eqn:E; intros H.
  - now rewrite H.
  - now rewrite IH.
Qed.

(** X6. [markConversationAsRead] by a user who is not a participant of
    the conversation writes nothing: the store is left exactly as it
    was.  In both storage implementations. *)
Theorem mark_read_by_outsider_changes_nothing
    (m : MemStorage.State) (d : DatabaseStorage.State) (u c : string)
    (t : Date)
    (Hm : MemStorage.isUserInConversation m u c = false)
    (Hd : DatabaseStorage.isUserInConversation d u c = false) :
  MemStorage.markConversationAsRead m u c t = m
  /\ DatabaseStorage.markConversationAsRead d u c t = d.
Proof.
  split.
  - unfold MemStorage.markConversationAsRead,
      MemStorage.with_conversationParticipants.
    rewrite mutate_fixed; [now destruct m|].
    intros l Hl. apply update_first_none.
    unfold MemStorage.isUserInConversation, JsMap.get_or_nil in Hm.
    now rewrite Hl in Hm.
  - unfold DatabaseStorage.markConversationAsRead,
      DatabaseStorage.with_conversationParticipants.
    replace (map _ (DatabaseStorage.conversationParticipants d))
      with (DatabaseStorage.conversationParticipants d); [now destruct d|].
    unfold DatabaseStorage.isUserInConversation in Hd.
    induction (DatabaseStorage.conversationParticipants d) as [|p r IH];
      simpl in *; [reflexivity|].
    destruct (DatabaseStorage.membershipOf u c p); [discriminate|].
    now rewrite <- IH.
Qed.

Lemma mark_read_by_outsider_changes_nothing_witness :
  MemStorage.markConversationAsRead Scenario.Mem.chatting "carol" "c-0" 9000
  = Scenario.Mem.chatting
  /\ DatabaseStorage.markConversationAsRead Scenario.Db.chatting "carol"
       "c-0" 9000
     = Scenario.Db.chatting.
Proof.
  apply (@mark_read_by_outsider_changes_nothing Scenario.Mem.chatting
           Scenario.Db.chatting "carol" "c-0" 9000); reflexivity.
Defined.

(** ** Accounts *)

Lemma find_none_not_in_map (A : Type) (f : A -> string) (k : string)
    (l : list A) :
  find (fun x => String.eqb (f x) k) l = None -> ~ In k (map f l).
Proof.
  induction l as [|a r IH]; simpl; [tauto|].
  destruct (String.eqb (f a) k) eqn:E; [discriminate|].
  apply String.eqb_neq in E. intros H [Ha|Hr]; [congruence | now apply IH].
Qed.

Lemma in_values_set_inv (V : Type) (k : string) (v x : V) (m : JsMap.t V) :
  In x (JsMap.values (JsMap.set k v m)) -> x = v \/ In x (JsMap.values m).
Proof.
  unfold JsMap.values. induction m as [|[k0 v0] r IH]; simpl.
  - intros [<-|[]]. now left.
  - destruct (String.eqb k k0); simpl.
    + intros [<-|H]; [now left | right; now right].
    + intros [<-|H]; [right; now left|].
      destruct (IH H) as [->|H']; [now left | right; now right].
Qed.

Lemma values_set_NoDup (V : Type) (f : V -> string) (k : string) (v : V)
    (m : JsMap.t V) :
  NoDup (map f (JsMap.values m)) ->
  ~ In (f v) (map f (JsMap.values m)) ->
  NoDup (map f (JsMap.values (JsMap.set k v m))).
Proof.
  unfold JsMap.values.
  induction m as [|[k0 v0] r IH]; simpl; intros Hn Hv.
  - constructor; [tauto | constructor].
  - inversion Hn as [|? ? H0 Hr]; subst.
    destruct (String.eqb k k0); simpl.
    + constructor; [tauto | exact Hr].
    + constructor.
      * intros Hin. apply in_map_iff in Hin. destruct Hin as [x [Ex Hx]].
        apply in_map_iff in Hx. destruct Hx as [[k1 v1] [E1 H1]].
        simpl in E1. subst x.
        assert (H2 : In v1 (JsMap.values (JsMap.set k v r))).
        { unfold JsMap.values. apply in_map_iff. now exists (k1, v1). }
        apply in_values_set_inv in H2. destruct H2 as [->|H2].
        -- apply Hv. now left.
        -- apply H0. rewrite <- Ex. apply in_map. exact H2.
      * apply IH; [exact Hr | tauto].
Qed.

(** The bodies [api.auth.register.input] accepts. *)
Lemma register_input_accepted (input : RegisterRequest.t) :
  (3 <= String.length (RegisterRequest.username input) <= 30)%nat ->
  (6 <= String.length (RegisterRequest.password input))%nat ->
  (1 <= String.length (RegisterRequest.displayName input) <= 50)%nat ->
  ApiInput.register input = [].
Proof.
  intros Hu Hp Hn. unfold ApiInput.register, Zod.min, Zod.max.
  repeat match goal with
         | |- context [(?a <? ?b)%nat] =>
             destruct (Nat.ltb_spec a b); [lia|]
         end.
  reflexivity.
Qed.

(** The bodies [api.auth.register.input] refuses are refused by the
    route, with status 400 and nothing written. *)
Lemma register_input_refused (S : Type) (storage : IStorageRest.t S)
    (bcryptHash generateToken : string -> string) (st : S)
    (input : RegisterRequest.t) (avatarColor : string) (e : Env)
    (issue : ZodIssue.t) (issues : list ZodIssue.t) :
  ApiInput.register input = issue :: issues ->
  Api.register bcryptHash generateToken st input avatarColor e
  = (Api.failure 400 (ZodIssue.message issue) (Some (ZodIssue.path issue)),
     st).
Proof. intros H. unfold Api.register. now rewrite H. Qed.

(** X7. Registering a body the schema accepts (a username of 3 to 30
    characters, a password of at least 6, a display name of 1 to 50)
    under a username that is not taken answers 201 with the new account,
    and a login with the same username and password on the resulting
    store answers 200 with that same account; the password is stored
    hashed, and [bcrypt.compare] is asked to accept a password against
    its own hash.  In both storage implementations. *)
Theorem register_then_login
    (bcryptHash : string -> string) (bcryptCompare : string -> string -> bool)
    (tokenAtRegister tokenAtLogin : string -> string)
    (m : MemStorage.State) (d : DatabaseStorage.State)
    (input : RegisterRequest.t) (avatarColor : string) (e : Env)
    (Husername :
       (3 <= String.length (RegisterRequest.username input) <= 30)%nat)
    (Hpassword : (6 <= String.length (RegisterRequest.password input))%nat)
    (HdisplayName :
       (1 <= String.length (RegisterRequest.displayName input) <= 50)%nat)
    (Hbcrypt : bcryptCompare (RegisterRequest.password input)
                 (bcryptHash (RegisterRequest.password input)) = true)
    (Hm : MemStorage.getUserByUsername m (RegisterRequest.username input)
          = None)
    (Hd : DatabaseStorage.getUserByUsername d (RegisterRequest.username input)
          = None) :
  let user :=
    User.mk (uuid e 0%nat) (RegisterRequest.username input)
      (bcryptHash (RegisterRequest.password input))
      (RegisterRequest.displayName input) avatarColor false (Some (now e))
      (now e) in
  let credentials :=
    LoginRequest.mk (RegisterRequest.username input)
      (RegisterRequest.password input) in
  (let '(answer, m') :=
     Api.register bcryptHash tokenAtRegister m input avatarColor e in
   answer
   = Api.reply 201 (Api.authResponse (tokenAtRegister (User.id user)) user)
   /\ Api.login bcryptCompare tokenAtLogin m' credentials
      = Api.reply 200 (Api.authResponse (tokenAtLogin (User.id user)) user))
  /\ (let '(answer, d') :=
        Api.register bcryptHash tokenAtRegister d input avatarColor e in
      answer
      = Api.reply 201 (Api.authResponse (tokenAtRegister (User.id user)) user)
      /\ Api.login bcryptCompare tokenAtLogin d' credentials
         = Api.reply 200
             (Api.authResponse (tokenAtLogin (User.id user)) user)).
Proof.
  intros user credentials.
  pose proof (register_input_accepted input Husername Hpassword HdisplayName)
    as Hvalid.
  split.
  - unfold Api.register. rewrite Hvalid. simpl. rewrite Hm. simpl.
    split; [reflexivity|].
    unfold Api.login. simpl. unfold MemStorage.getUserByUsername. simpl.
    rewrite (@find_values_set_new _ _ (uuid e 0%nat) user
               (MemStorage.users m)).
    + simpl. now rewrite Hbcrypt.
    + exact Hm.
    + simpl. apply String.eqb_refl.
  - unfold Api.register. rewrite Hvalid. simpl. rewrite Hd. simpl.
    split; [reflexivity|].
    unfold Api.login. simpl. unfold DatabaseStorage.getUserByUsername.
    simpl. unfold DatabaseStorage.getUserByUsername in Hd.
    rewrite find_app, Hd. simpl. rewrite String.eqb_refl. simpl.
    now rewrite Hbcrypt.
Qed.

Lemma register_then_login_witness :
  Api.login (fun p h => String.eqb h (String.append "$2b$" p))
    (String.append "login:")
    (snd (Api.register (String.append "$2b$") (String.append "jwt:")
            Scenario.Mem.registered
            (RegisterRequest.mk "dave" "secret" "Dave") "#10b981"
            (Scenario.env 500 "u-")))
    (LoginRequest.mk "dave" "secret")
  = Api.reply 200 (AuthResponse.mk "login:u-0" "u-0" "dave" "Dave" "#10b981")
  /\ Api.login (fun p h => String.eqb h (String.append "$2b$" p))
       (String.append "login:")
       (snd (Api.register (String.append "$2b$") (String.append "jwt:")
               Scenario.Db.registered
               (RegisterRequest.mk "dave" "secret" "Dave") "#10b981"
               (Scenario.env 500 "u-")))
       (LoginRequest.mk "dave" "secret")
     = Api.reply 200
         (AuthResponse.mk "login:u-0" "u-0" "dave" "Dave" "#10b981").
Proof.
  assert (Husername : (3 <= String.length "dave" <= 30)%nat)
    by (simpl; lia).
  assert (Hpassword : (6 <= String.length "secret")%nat) by (simpl; lia).
  assert (HdisplayName : (1 <= String.length "Dave" <= 50)%nat)
    by (simpl; lia).
  pose proof (@register_then_login (String.append "$2b$")
                (fun p h => String.eqb h (String.append "$2b$" p))
                (String.append "jwt:") (String.append "login:")
                Scenario.Mem.registered Scenario.Db.registered
                (RegisterRequest.mk "dave" "secret" "Dave") "#10b981"
                (Scenario.env 500 "u-") Husername Hpassword HdisplayName
                eq_refl eq_refl eq_refl) as [Hm Hd].
  split; [exact (proj2 Hm) | exact (proj2 Hd)].
Defined.

(** X8. Registration never gives two accounts one username: when the
    usernames of the stored users are pairwise distinct they still are
    after any [register] request, accepted or refused.  In both storage
    implementations. *)
Theorem register_keeps_usernames_distinct
    (bcryptHash generateToken : string -> string)
    (m : MemStorage.State) (d : DatabaseStorage.State)
    (input : RegisterRequest.t) (avatarColor : string) (e : Env)
    (Hm : NoDup (map User.username (MemStorage.getAllUsers m)))
    (Hd : NoDup (map User.username (DatabaseStorage.getAllUsers d))) :
  NoDup
    (map User.username
       (MemStorage.getAllUsers
          (snd (Api.register bcryptHash generateToken m input avatarColor
                  e))))
  /\ NoDup
       (map User.username
          (DatabaseStorage.getAllUsers
             (snd (Api.register bcryptHash generateToken d input avatarColor
                     e)))).
Proof.
  split.
  - unfold Api.register.
    destruct (ApiInput.register input) as [|issue issues]; [|exact Hm].
    simpl.
    destruct (MemStorage.getUserByUsername m _) as [u|] eqn:E;
      [exact Hm|].
    simpl. unfold MemStorage.getAllUsers in *. simpl.
    apply values_set_NoDup; [exact Hm|]. simpl.
    now apply find_none_not_in_map.
  - unfold Api.register.
    destruct (ApiInput.register input) as [|issue issues]; [|exact Hd].
    simpl.
    destruct (DatabaseStorage.getUserByUsername d _) as [u|] eqn:E;
      [exact Hd|].
    simpl. unfold DatabaseStorage.getAllUsers in *. simpl.
    rewrite map_app. simpl. apply NoDup_app; repeat split.
    + exact Hd.
    + constructor; [tauto | constructor].
    + intros x Hx [<-|[]]. revert Hx. now apply find_none_not_in_map.
Qed.

Lemma register_keeps_usernames_distinct_witness :
  NoDup
    (map User.username
       (MemStorage.getAllUsers
          (snd (Api.register (String.append "$2b$") (String.append "jwt:")
                  Scenario.Mem.registered
                  (RegisterRequest.mk "dave" "secret" "Dave") "#10b981"
                  (Scenario.env 500 "u-")))))
  /\ NoDup
       (map User.username
          (DatabaseStorage.getAllUsers
             (snd (Api.register (String.append "$2b$") (String.append "jwt:")
                     Scenario.Db.registered
                     (RegisterRequest.mk "dave" "secret" "Dave") "#10b981"
                     (Scenario.env 500 "u-"))))).
Proof.
  assert (H : NoDup ["alice"; "bob"; "carol"]).
  { repeat constructor; simpl; intuition discriminate. }
  exact (@register_keeps_usernames_distinct (String.append "$2b$")
           (String.append "jwt:") Scenario.Mem.registered
           Scenario.Db.registered (RegisterRequest.mk "dave" "secret" "Dave")
           "#10b981" (Scenario.env 500 "u-") H H).
Defined.

(** [searchUsers] answers with the first element of this selection, when
    there is one. *)
Lemma mem_searchUsers_hd (trim : string -> string) (st : MemStorage.State)
    (query excludeUserId : string) :
  MemStorage.searchUsers trim st query excludeUserId
  = if String.eqb (trim query) EmptyString then []
    else firstn 1
           (filter
              (fun u =>
                 negb (String.eqb (User.id u) excludeUserId)
                 && String.eqb (User.username u) (trim query))
              (MemStorage.getAllUsers st)).
Proof.
  unfold MemStorage.searchUsers, MemStorage.getAllUsers, truthy.
  destruct (String.eqb (trim query) EmptyString); simpl; [reflexivity|].
  induction (JsMap.values (MemStorage.users st)) as [|u r IH]; simpl;
    [reflexivity|].
  destruct (negb (String.eqb (User.id u) excludeUserId)
            && String.eqb (User.username u) (trim query));
    [reflexivity | exact IH].
Qed.

Lemma db_searchUsers_hd (trim : string -> string)
    (st : DatabaseStorage.State) (query excludeUserId : string) :
  DatabaseStorage.searchUsers trim st query excludeUserId
  = if String.eqb (trim query) EmptyString then []
    else firstn 1
           (filter
              (fun u =>
                 negb (String.eqb (User.id u) excludeUserId)
                 && String.eqb (User.username u) (trim query))
              (DatabaseStorage.getAllUsers st)).
Proof.
  unfold DatabaseStorage.searchUsers, DatabaseStorage.getAllUsers, truthy.
  now destruct (String.eqb (trim query) EmptyString).
Qed.

Section SearchUsers.
Variable trim : string -> string.
Variables (all : list User.t) (query excludeUserId : string).

Local Abbreviation answer :=
  (if String.eqb (trim query) EmptyString then []
   else firstn 1
          (filter
             (fun u =>
                negb (String.eqb (User.id u) excludeUserId)
                && String.eqb (User.username u) (trim query))
             all)).

Lemma searchUsers_sound (u : User.t) :
  In u answer ->
  In u all /\ User.username u = trim query /\ User.id u <> excludeUserId
  /\ trim query <> EmptyString.
Proof.
  destruct (String.eqb (trim query) EmptyString) eqn:Eq; [intros []|].
  intros Hin.
  assert (Hf : In u (filter
                       (fun u =>
                          negb (String.eqb (User.id u) excludeUserId)
                          && String.eqb (User.username u) (trim query))
                       all)).
  { destruct (filter _ all) as [|x l]; [exact Hin|].
    destruct Hin as [<-|[]]. now left. }
  apply filter_In in Hf. destruct Hf as [Hall Hp].
  apply andb_true_iff in Hp. destruct Hp as [Hid Hname].
  apply negb_true_iff, String.eqb_neq in Hid.
  apply String.eqb_eq in Hname. apply String.eqb_neq in Eq. tauto.
Qed.

Lemma searchUsers_short : (length answer <= 1)%nat.
Proof.
  destruct (String.eqb (trim query) EmptyString); simpl; [lia|].
  destruct (filter _ all); simpl; lia.
Qed.

Lemma searchUsers_complete (u : User.t) :
  In u all -> User.username u = trim query -> User.id u <> excludeUserId ->
  trim query <> EmptyString ->
  answer <> [].
Proof.
  intros Hall Hname Hid Hq. apply String.eqb_neq in Hq. rewrite Hq.
  assert (Hf : In u (filter
                       (fun u =>
                          negb (String.eqb (User.id u) excludeUserId)
                          && String.eqb (User.username u) (trim query))
                       all)).
  { apply filter_In. split; [exact Hall|].
    apply andb_true_iff. split.
    - now apply negb_true_iff, String.eqb_neq.
    - now apply String.eqb_eq. }
  destruct (filter _ all) as [|x l]; [destruct Hf | discriminate].
Qed.

End SearchUsers.

(** X9. [searchUsers] is an exact-match lookup: it returns at most one
    user; a user it returns is stored, carries the trimmed query as
    username and is not the excluded user; and it returns a user
    whenever the trimmed query is not empty and some stored user other
    than the excluded one carries it as username.  In both storage
    implementations. *)
Theorem search_users_is_exact_match
    (trim : string -> string) (m : MemStorage.State)
    (d : DatabaseStorage.State) (query excludeUserId : string) :
  ((length (MemStorage.searchUsers trim m query excludeUserId) <= 1)%nat
   /\ (forall u,
         In u (MemStorage.searchUsers trim m query excludeUserId) ->
         In u (MemStorage.getAllUsers m)
         /\ User.username u = trim query /\ User.id u <> excludeUserId
         /\ trim query <> EmptyString)
   /\ (forall u,
         In u (MemStorage.getAllUsers m) ->
         User.username u = trim query -> User.id u <> excludeUserId ->
         trim query <> EmptyString ->
         MemStorage.searchUsers trim m query excludeUserId <> []))
  /\ ((length (DatabaseStorage.searchUsers trim d query excludeUserId)
       <= 1)%nat
      /\ (forall u,
            In u (DatabaseStorage.searchUsers trim d query excludeUserId) ->
            In u (DatabaseStorage.getAllUsers d)
            /\ User.username u = trim query /\ User.id u <> excludeUserId
            /\ trim query <> EmptyString)
      /\ (forall u,
            In u (DatabaseStorage.getAllUsers d) ->
            User.username u = trim query -> User.id u <> excludeUserId ->
            trim query <> EmptyString ->
            DatabaseStorage.searchUsers trim d query excludeUserId <> [])).
Proof.
  split.
  - rewrite mem_searchUsers_hd. split; [|split].
    + apply searchUsers_short.
    + intros u. apply searchUsers_sound.
    + intros u. apply searchUsers_complete.
  - rewrite db_searchUsers_hd. split; [|split].
    + apply searchUsers_short.
    + intros u. apply searchUsers_sound.
    + intros u. apply searchUsers_complete.
Qed.

(** ** Sorted listings *)

Section SortByFacts.
Context {A : Type} (before : A -> A -> bool).

Lemma insertBy_perm (m : A) (l : list A) :
  Permutation (JsArray.insertBy before m l) (m :: l).
Proof.
  induction l as [|x r IH]; simpl; [reflexivity|].
  destruct (before m x); [reflexivity|].
  rewrite IH. apply perm_swap.
Qed.

Lemma sortBy_perm (l : list A) : Permutation (JsArray.sortBy before l) l.
Proof.
  induction l as [|m r IH]; simpl; [reflexivity|].
  rewrite insertBy_perm. now constructor.
Qed.

Lemma In_sortBy (x : A) (l : list A) :
  In x (JsArray.sortBy before l) <-> In x l.
Proof.
  split; apply Permutation_in;
    [apply sortBy_perm | symmetry; apply sortBy_perm].
Qed.

Hypothesis before_total : forall a b, before a b = false -> before b a = true.
Hypothesis before_trans :
  forall a b c, before a b = true -> before b c = true -> before a c = true.

Lemma insertBy_sorted (m : A) (l : list A) :
  StronglySorted (fun a b => before a b = true) l ->
  StronglySorted (fun a b => before a b = true) (JsArray.insertBy before m l).
Proof.
  induction l as [|x r IH]; simpl; intros Hs.
  - repeat constructor.
  - inversion Hs as [|? ? Hr Hx]; subst.
    destruct (before m x) eqn:E.
    + constructor; [exact Hs|]. constructor; [exact E|].
      rewrite Forall_forall in *. intros y Hy.
      apply before_trans with x; [exact E | now apply Hx].
    + constructor; [now apply IH|].
      rewrite Forall_forall in *. intros y Hy.
      apply (Permutation_in _ (insertBy_perm m r)) in Hy.
      destruct Hy as [<-|Hy]; [now apply before_total | now apply Hx].
Qed.

Lemma sortBy_sorted (l : list A) :
  StronglySorted (fun a b => before a b = true) (JsArray.sortBy before l).
Proof.
  induction l as [|m r IH]; simpl; [constructor|].
  now apply insertBy_sorted.
Qed.

End SortByFacts.

Section DefinedFacts.
Context {A B : Type} (f : A -> option B).

Lemma In_defined_map (y : B) (l : list A) :
  In y (JsArray.defined (map f l)) <-> exists x, In x l /\ f x = Some y.
Proof.
  induction l as [|a r IH]; simpl.
  - split; [intros [] | intros [x [[] _]]].
  - destruct (f a) as [b|] eqn:E; simpl; rewrite ?IH; split.
    + intros [<-|[x [Hx Ex]]]; [exists a; tauto | exists x; tauto].
    + intros [x [[<-|Hx] Ex]]; [left; congruence | right; now exists x].
    + intros [x [Hx Ex]]. exists x. tauto.
    + intros [x [[<-|Hx] Ex]]; [congruence | now exists x].
Qed.

Lemma defined_map_sorted (R : A -> A -> Prop) (R' : B -> B -> Prop)
    (l : list A) :
  (forall x y a b, f x = Some a -> f y = Some b -> R x y -> R' a b) ->
  StronglySorted R l -> StronglySorted R' (JsArray.defined (map f l)).
Proof.
  intros HR. induction l as [|a r IH]; simpl; intros Hs; [constructor|].
  inversion Hs as [|? ? Hr Ha]; subst.
  destruct (f a) as [b|] eqn:E; [|now apply IH].
  constructor; [now apply IH|].
  rewrite Forall_forall in *. intros y Hy.
  apply In_defined_map in Hy. destruct Hy as [x [Hx Ex]].
  apply (HR a x b y E Ex). now apply Ha.
Qed.

End DefinedFacts.

Section FriendRequestListing.
Variable getUserById : string -> option User.t.
Variable stored : list FriendRequest.t.
Variable userId : string.

Local Abbreviation listing :=
  (JsArray.defined
     (map
        (fun req =>
           match getUserById (FriendRequest.senderId req) with
           | Some sender => Some (FriendRequestWithSender.mk req sender)
           | None => None
           end)
        (JsArray.sortBy
           (fun a b =>
              FriendRequest.createdAt b <=? FriendRequest.createdAt a)
           (filter
              (fun r =>
                 String.eqb (FriendRequest.receiverId r) userId
                 && RequestStatus_eqb (FriendRequest.status r) pending)
              stored)))).

Lemma listing_In (rw : FriendRequestWithSender.t) :
  In rw listing
  <-> In (FriendRequestWithSender.request rw) stored
      /\ FriendRequest.receiverId (FriendRequestWithSender.request rw) = userId
      /\ FriendRequest.status (FriendRequestWithSender.request rw) = pending
      /\ getUserById
           (FriendRequest.senderId (FriendRequestWithSender.request rw))
         = Some (FriendRequestWithSender.sender rw).
Proof.
  rewrite In_defined_map. split.
  - intros [x [Hx Ex]]. apply In_sortBy, filter_In in Hx.
    destruct Hx as [Hin Hp]. apply andb_true_iff in Hp.
    destruct Hp as [Hr Hs]. apply String.eqb_eq in Hr.
    destruct (getUserById (FriendRequest.senderId x)) as [s|] eqn:Es;
      [|discriminate].
    injection Ex as <-. simpl. repeat split; try assumption.
    now destruct (FriendRequest.status x).
  - intros (Hin & Hr & Hs & Hu). exists (FriendRequestWithSender.request rw).
    split.
    + apply In_sortBy, filter_In. split; [exact Hin|].
      rewrite Hr, Hs, String.eqb_refl. reflexivity.
    + rewrite Hu. now destruct rw.
Qed.

Lemma listing_sorted :
  StronglySorted
    (fun a b =>
       FriendRequest.createdAt (FriendRequestWithSender.request b)
       <= FriendRequest.createdAt (FriendRequestWithSender.request a))
    listing.
Proof.
  apply (@defined_map_sorted _ _ _
           (fun a b =>
              (FriendRequest.createdAt b <=? FriendRequest.createdAt a)
              = true)).
  - intros x y a b Ex Ey H.
    destruct (getUserById (FriendRequest.senderId x)); [|discriminate].
    destruct (getUserById (FriendRequest.senderId y)); [|discriminate].
    injection Ex as <-. injection Ey as <-. simpl. now apply Z.leb_le.
  - apply (@sortBy_sorted _
             (fun a b =>
                FriendRequest.createdAt b <=? FriendRequest.createdAt a)).
    + intros a b H. apply Z.leb_gt in H. apply Z.leb_le. lia.
    + intros a b c H1 H2. apply Z.leb_le in H1, H2. apply Z.leb_le. lia.
Qed.

End FriendRequestListing.

(** X10. [getFriendRequests(U)] lists exactly the stored requests that
    are addressed to U, are pending, and whose sender is a stored user,
    each with that sender, the most recent first.  In both storage
    implementations. *)
Theorem friend_requests_listing
    (m : MemStorage.State) (d : DatabaseStorage.State) (userId : string) :
  ((forall rw,
      In rw (MemStorage.getFriendRequests m userId)
      <-> In (FriendRequestWithSender.request rw)
            (JsMap.values (MemStorage.friendRequests m))
          /\ FriendRequest.receiverId (FriendRequestWithSender.request rw)
             = userId
          /\ FriendRequest.status (FriendRequestWithSender.request rw)
             = pending
          /\ MemStorage.getUserById m
               (FriendRequest.senderId (FriendRequestWithSender.request rw))
             = Some (FriendRequestWithSender.sender rw))
   /\ StronglySorted
        (fun a b =>
           FriendRequest.createdAt (FriendRequestWithSender.request b)
           <= FriendRequest.createdAt (FriendRequestWithSender.request a))
        (MemStorage.getFriendRequests m userId))
  /\ ((forall rw,
         In rw (DatabaseStorage.getFriendRequests d userId)
         <-> In (FriendRequestWithSender.request rw)
               (DatabaseStorage.friendRequests d)
             /\ FriendRequest.receiverId (FriendRequestWithSender.request rw)
                = userId
             /\ FriendRequest.status (FriendRequestWithSender.request rw)
                = pending
             /\ DatabaseStorage.getUserById d
                  (FriendRequest.senderId
                     (FriendRequestWithSender.request rw))
                = Some (FriendRequestWithSender.sender rw))
      /\ StronglySorted
           (fun a b =>
              FriendRequest.createdAt (FriendRequestWithSender.request b)
              <= FriendRequest.createdAt (FriendRequestWithSender.request a))
           (DatabaseStorage.getFriendRequests d userId)).
Proof.
  split; split.
  - intros rw. apply listing_In.
  - apply listing_sorted.
  - intros rw. apply listing_In.
  - apply listing_sorted.
Qed.

(** ** One friend request per pair *)

Section MapCounts.
Context {V : Type}.

Lemma keys_mutate (k : string) (f : V -> V) (m : JsMap.t V) :
  JsMap.keys (JsMap.mutate k f m) = JsMap.keys m.
Proof.
  unfold JsMap.keys. induction m as [|[k0 v0] r IH]; simpl; [reflexivity|].
  destruct (String.eqb k k0); simpl; [reflexivity | now rewrite IH].
Qed.

Lemma set_same (k : string) (v : V) (m : JsMap.t V) :
  JsMap.get k m = Some v -> JsMap.set k v m = m.
Proof.
  induction m as [|[k0 v0] r IH]; simpl; [discriminate|].
  destruct (String.eqb k k0) eqn:E.
  - intros [= ->]. apply String.eqb_eq in E. now subst.
  - intros H. now rewrite IH.
Qed.

Lemma count_set (q : V -> bool) (k : string) (v : V) (m : JsMap.t V) :
  (length (filter q (JsMap.values (JsMap.set k v m)))
   <= length (filter q (JsMap.values m)) + (if q v then 1 else 0))%nat.
Proof.
  unfold JsMap.values. induction m as [|[k0 v0] r IH]; simpl.
  - destruct (q v); simpl; lia.
  - destruct (String.eqb k k0); simpl.
    + destruct (q v), (q v0); simpl; lia.
    + destruct (q v0); simpl; lia.
Qed.

Lemma count_mutate_found (p q : V -> bool) (f : V -> V) (m : JsMap.t V) :
  (forall x, p x = true -> q (f x) = q x) ->
  length (filter q (JsMap.values (JsMap.mutate_found p f m)))
  = length (filter q (JsMap.values m)).
Proof.
  intros H. unfold JsMap.values.
  induction m as [|[k0 v0] r IH]; simpl; [reflexivity|].
  destruct (p v0) eqn:E; simpl.
  - rewrite (H _ E). now destruct (q v0).
  - destruct (q v0); simpl; now rewrite IH.
Qed.

Lemma count_mutate (q : V -> bool) (k : string) (f : V -> V)
    (m : JsMap.t V) :
  (forall x, q (f x) = q x) ->
  length (filter q (JsMap.values (JsMap.mutate k f m)))
  = length (filter q (JsMap.values m)).
Proof.
  intros H. unfold JsMap.values.
  induction m as [|[k0 v0] r IH]; simpl; [reflexivity|].
  destruct (String.eqb k k0); simpl.
  - rewrite H. now destruct (q v0).
  - destruct (q v0); simpl; now rewrite IH.
Qed.

Lemma get_mutate_found (id : V -> string) (p : V -> bool) (f : V -> V)
    (m : JsMap.t V) (x : V) :
  keyedById id m -> NoDup (JsMap.keys m) ->
  find p (JsMap.values m) = Some x ->
  JsMap.get (id x) (JsMap.mutate_found p f m) = Some (f x).
Proof.
  unfold keyedById, JsMap.keys, JsMap.values.
  induction m as [|[k0 v0] r IH]; simpl; intros Hk Hn Hf; [discriminate|].
  inversion Hk as [|? ? H0 Hr]; subst. simpl in H0.
  inversion Hn as [|? ? Hnot Hn']; subst.
  destruct (p v0) eqn:E.
  - injection Hf as <-. simpl. now rewrite String.eqb_refl.
  - simpl.
    assert (Hin : In (id x) (map fst r)).
    { apply (@found_value_key V id p r x Hr Hf). }
    destruct (String.eqb (id x) (id v0)) eqn:E0.
    + apply String.eqb_eq in E0. rewrite E0 in Hin. contradiction.
    + now apply IH.
Qed.

End MapCounts.

Lemma count_map (A : Type) (q : A -> bool) (g : A -> A) (l : list A) :
  (forall x, In x l -> q (g x) = q x) ->
  length (filter q (map g l)) = length (filter q l).
Proof.
  induction l as [|a r IH]; simpl; intros H; [reflexivity|].
  rewrite (H a) by now left.
  destruct (q a); simpl; rewrite IH; auto.
Qed.

Lemma NoDup_map_eq (A : Type) (f : A -> string) (l : list A) (x y : A) :
  NoDup (map f l) -> In x l -> In y l -> f x = f y -> x = y.
Proof.
  induction l as [|a r IH]; simpl; intros Hn Hx Hy E; [contradiction|].
  inversion Hn as [|? ? Ha Hr]; subst.
  destruct Hx as [->|Hx], Hy as [->|Hy].
  - reflexivity.
  - exfalso. apply Ha. rewrite E. now apply in_map.
  - exfalso. apply Ha. rewrite <- E. now apply in_map.
  - now apply IH.
Qed.

(** Two pairs that one record lies between are the same pair. *)
Lemma betweenPair_same_pair (a b s r : string) (x y : FriendRequest.t) :
  betweenPair a b x = true -> betweenPair s r x = true ->
  betweenPair a b y = betweenPair s r y.
Proof.
  unfold betweenPair. intros H1 H2.
  apply orb_true_iff in H1, H2.
  repeat match goal with
         | H : _ \/ _ |- _ => destruct H
         | H : _ && _ = true |- _ => apply andb_true_iff in H; destruct H
         | H : String.eqb _ _ = true |- _ => apply String.eqb_eq in H
         end; subst; try reflexivity; apply orb_comm.
Qed.

Lemma betweenPair_reopened_same (a b s r : string) (t : Date)
    (x : FriendRequest.t) :
  betweenPair s r x = true ->
  betweenPair a b (FriendRequest.reopened s r t x) = betweenPair a b x.
Proof.
  intros H. unfold betweenPair in *. simpl.
  apply orb_true_iff in H.
  repeat match goal with
         | H : _ \/ _ |- _ => destruct H
         | H : _ && _ = true |- _ => apply andb_true_iff in H; destruct H
         | H : String.eqb _ _ = true |- _ => apply String.eqb_eq in H
         end; subst; try reflexivity;
    repeat match goal with
           | |- context [String.eqb ?u ?v] => destruct (String.eqb u v)
           end; reflexivity.
Qed.

Lemma filter_find_none (A : Type) (p : A -> bool) (l : list A) :
  find p l = None -> filter p l = [].
Proof.
  intros H. apply filter_none. intros x Hx.
  apply (find_none _ _ H _ Hx).
Qed.

Lemma mem_sendFriendRequest_wellFormed (m : MemStorage.State)
    (s r : string) (e : Env) :
  memRequestsWellFormed m ->
  memRequestsWellFormed (snd (MemStorage.sendFriendRequest m s r e)).
Proof.
  intros (Hk & Hn & H1). split; [|split].
  - apply (@mem_friendRequests_keyed m s r e EmptyString to_accepted Hk).
  - unfold MemStorage.sendFriendRequest.
    destruct (find _ _) as [x|].
    + destruct (FriendRequest.status x); simpl; try exact Hn.
      apply keys_set_NoDup. now rewrite keys_mutate_found.
    + simpl. now apply keys_set_NoDup.
  - unfold MemStorage.sendFriendRequest.
    destruct (find _ _) as [x|] eqn:Ef.
    + destruct (FriendRequest.status x); simpl; try exact H1.
      rewrite set_same.
      * intros a b. rewrite count_mutate_found; [apply H1|].
        intros y Hy. now apply betweenPair_reopened_same.
      * apply (@get_mutate_found _ FriendRequest.id (betweenPair s r)
                 (FriendRequest.reopened s r (now e))
                 (MemStorage.friendRequests m) x Hk Hn Ef).
    + simpl. intros a b.
      set (req := FriendRequest.mk (uuid e 0%nat) s r pending (now e)).
      pose proof (count_set (betweenPair a b) (uuid e 0%nat) req
                    (MemStorage.friendRequests m)) as Hc.
      destruct (betweenPair a b req) eqn:Eq.
      * assert (Hnone : filter (betweenPair a b)
                          (JsMap.values (MemStorage.friendRequests m)) = []).
        { rewrite <- (filter_find_none _ _ Ef). apply filter_ext.
          intros y. apply (betweenPair_same_pair a b s r req y Eq).
          apply betweenPair_new. }
        rewrite Hnone in Hc. simpl in Hc. exact Hc.
      * specialize (H1 a b). lia.
Qed.

Lemma db_sendFriendRequest_wellFormed (d : DatabaseStorage.State)
    (s r : string) (e : Env) :
  ~ In (uuid e 0%nat)
      (map FriendRequest.id (DatabaseStorage.friendRequests d)) ->
  dbRequestsWellFormed d ->
  dbRequestsWellFormed (snd (DatabaseStorage.sendFriendRequest d s r e)).
Proof.
  intros Hfresh (Hn & H1). unfold DatabaseStorage.sendFriendRequest.
  destruct (find _ _) as [x|] eqn:Ef.
  - destruct (FriendRequest.status x); simpl; try (split; assumption).
    split; simpl.
    + rewrite map_map.
      erewrite map_ext; [exact Hn|].
      intros y. now destruct (String.eqb _ _).
    + intros a b. rewrite count_map; [apply H1|].
      intros y Hy.
      destruct (String.eqb (FriendRequest.id y) (FriendRequest.id x)) eqn:E;
        [|reflexivity].
      apply String.eqb_eq in E.
      apply find_some in Ef. destruct Ef as [Hx Hp].
      rewrite (NoDup_map_eq FriendRequest.id _ y x Hn Hy Hx E).
      now apply betweenPair_reopened_same.
  - split; simpl.
    + rewrite map_app. simpl. apply NoDup_app; repeat split.
      * exact Hn.
      * constructor; [tauto | constructor].
      * intros y Hy [<-|[]]. contradiction.
    + intros a b. rewrite filter_app, length_app. simpl.
      set (req := FriendRequest.mk (uuid e 0%nat) s r pending (now e)).
      destruct (betweenPair a b req) eqn:Eq; simpl.
      * assert (Hnone : filter (betweenPair a b)
                          (DatabaseStorage.friendRequests d) = []).
        { rewrite <- (filter_find_none _ _ Ef). apply filter_ext.
          intros y. apply (betweenPair_same_pair a b s r req y Eq).
          apply betweenPair_new. }
        rewrite Hnone. simpl. lia.
      * specialize (H1 a b). lia.
Qed.

(** X11. The store never comes to hold two friend requests between the
    same two users: a well-formed collection of requests (at most one
    record per pair, in either direction) is still well formed after
    [sendFriendRequest] and after [updateFriendRequestStatus].  In both
    storage implementations; in the relational one the id drawn for a
    new row is not in the table. *)
Theorem one_friend_request_per_pair
    (m : MemStorage.State) (d : DatabaseStorage.State) (s r : string)
    (e : Env) (requestId : string) (status : UpdateStatus)
    (Hm : memRequestsWellFormed m)
    (Hd : dbRequestsWellFormed d)
    (Hfresh : ~ In (uuid e 0%nat)
                  (map FriendRequest.id (DatabaseStorage.friendRequests d))) :
  (memRequestsWellFormed (snd (MemStorage.sendFriendRequest m s r e))
   /\ memRequestsWellFormed
        (MemStorage.updateFriendRequestStatus m requestId status))
  /\ (dbRequestsWellFormed (snd (DatabaseStorage.sendFriendRequest d s r e))
      /\ dbRequestsWellFormed
           (DatabaseStorage.updateFriendRequestStatus d requestId status)).
Proof.
  split; split.
  - now apply mem_sendFriendRequest_wellFormed.
  - destruct Hm as (Hk & Hn & H1). split; [|split].
    + apply (@mem_friendRequests_keyed m s r e requestId status Hk).
    + simpl. now rewrite keys_mutate.
    + simpl. intros a b. rewrite count_mutate; [apply H1|].
      intros x. reflexivity.
  - now apply db_sendFriendRequest_wellFormed.
  - destruct Hd as (Hn & H1). split; simpl.
    + rewrite map_map. erewrite map_ext; [exact Hn|].
      intros y. now destruct (String.eqb _ _).
    + intros a b. rewrite count_map; [apply H1|].
      intros y _. now destruct (String.eqb _ _).
Qed.

Lemma one_friend_request_per_pair_witness :
  memRequestsWellFormed
    (snd (MemStorage.sendFriendRequest Scenario.Mem.requested "carol" "bob"
            (Scenario.env 1500 "s-")))
  /\ dbRequestsWellFormed
       (snd (DatabaseStorage.sendFriendRequest Scenario.Db.requested "carol"
               "bob" (Scenario.env 1500 "s-"))).
Proof.
  assert (Hone : onePerPair
                   [FriendRequest.mk "r-0" "alice" "bob" pending 1000]).
  { intros a b. simpl. destruct (betweenPair a b _); simpl; lia. }
  assert (Hm : memRequestsWellFormed Scenario.Mem.requested).
  { split; [|split].
    - repeat constructor.
    - repeat constructor. simpl. tauto.
    - exact Hone. }
  assert (Hd : dbRequestsWellFormed Scenario.Db.requested).
  { split; [|exact Hone]. repeat constructor. simpl. tauto. }
  assert (Hfresh : ~ In (uuid (Scenario.env 1500 "s-") 0%nat)
                       (map FriendRequest.id
                          (DatabaseStorage.friendRequests
                             Scenario.Db.requested))).
  { simpl. intros [H|[]]. discriminate. }
  destruct (@one_friend_request_per_pair Scenario.Mem.requested
              Scenario.Db.requested "carol" "bob" (Scenario.env 1500 "s-")
              "r-0" to_accepted Hm Hd Hfresh) as [[H1 _] [H2 _]].
  split; [exact H1 | exact H2].
Defined.

Lemma status_of_not_pending (s : UpdateStatus) : status_of s <> pending.
Proof. destruct s; discriminate. Qed.

Lemma in_values_key (V : Type) (id : V -> string) (m : JsMap.t V) (x : V) :
  keyedById id m -> In x (JsMap.values m) -> In (id x) (JsMap.keys m).
Proof.
  unfold keyedById, JsMap.values, JsMap.keys. intros Hk Hin.
  apply in_map_iff in Hin. destruct Hin as [[k v] [E Hin]].
  simpl in E. subst v. rewrite Forall_forall in Hk.
  specialize (Hk _ Hin). simpl in Hk. rewrite <- Hk.
  apply in_map_iff. now exists (k, x).
Qed.

Lemma mem_pending_after_answer (k : string) (s : UpdateStatus)
    (m : JsMap.t FriendRequest.t) (x : FriendRequest.t) :
  keyedById FriendRequest.id m -> NoDup (JsMap.keys m) ->
  (In x (JsMap.values
           (JsMap.mutate k (FriendRequest.with_status (status_of s)) m))
   /\ FriendRequest.status x = pending)
  <-> (In x (JsMap.values m) /\ FriendRequest.status x = pending
       /\ FriendRequest.id x <> k).
Proof.
  induction m as [|[k0 v0] r IH]; simpl; intros Hk Hn; [tauto|].
  inversion Hk as [|? ? H0 Hr]; subst. simpl in H0. subst k0.
  assert (Hn' : NoDup (JsMap.keys r)) by now inversion Hn.
  assert (Hfresh : ~ In (FriendRequest.id v0) (JsMap.keys r))
    by now inversion Hn.
  specialize (IH Hr Hn').
  destruct (String.eqb k (FriendRequest.id v0)) eqn:E; simpl.
  - apply String.eqb_eq in E. subst k. split.
    + intros [[<-|Hin] Hp].
      * simpl in Hp. now apply status_of_not_pending in Hp.
      * repeat split; [now right | exact Hp|].
        intros Heq. apply Hfresh. rewrite <- Heq.
        now apply in_values_key.
    + intros ([<-|Hin] & Hp & Hne); [congruence|]. split; [now right|].
      exact Hp.
  - apply String.eqb_neq in E. split.
    + intros [[<-|Hin] Hp].
      * repeat split; [now left | exact Hp | congruence].
      * destruct (proj1 IH (conj Hin Hp)) as (H1 & H2 & H3).
        repeat split; [now right | exact H2 | exact H3].
    + intros ([<-|Hin] & Hp & Hne).
      * split; [now left | exact Hp].
      * destruct (proj2 IH (conj Hin (conj Hp Hne))) as [H1 H2].
        split; [now right | exact H2].
Qed.

Lemma db_pending_after_answer (k : string) (s : UpdateStatus)
    (rows : list FriendRequest.t) (x : FriendRequest.t) :
  (In x
     (map
        (fun r =>
           if String.eqb (FriendRequest.id r) k
           then FriendRequest.with_status (status_of s) r
           else r)
        rows)
   /\ FriendRequest.status x = pending)
  <-> (In x rows /\ FriendRequest.status x = pending
       /\ FriendRequest.id x <> k).
Proof.
  rewrite in_map_iff. split.
  - intros [[y [E Hy]] Hp].
    destruct (String.eqb (FriendRequest.id y) k) eqn:Ek.
    + subst x. simpl in Hp. now apply status_of_not_pending in Hp.
    + subst x. apply String.eqb_neq in Ek. tauto.
  - intros (Hin & Hp & Hne). split; [|exact Hp]. exists x.
    apply String.eqb_neq in Hne. now rewrite Hne.
Qed.

(** X12. Answering a friend request, with either answer, takes it out of
    its receiver's listing and changes nothing else in anyone's listing:
    after [updateFriendRequestStatus(id, status)], [getFriendRequests]
    lists what it listed before except the request [id].  In both
    storage implementations; the [Map] of the in-memory one holds a key
    once and stores a request under its id. *)
Theorem answered_request_leaves_the_listing
    (m : MemStorage.State) (d : DatabaseStorage.State)
    (requestId : string) (status : UpdateStatus)
    (Hk : keyedById FriendRequest.id (MemStorage.friendRequests m))
    (Hn : NoDup (JsMap.keys (MemStorage.friendRequests m))) :
  (forall userId rw,
     In rw
       (MemStorage.getFriendRequests
          (MemStorage.updateFriendRequestStatus m requestId status) userId)
     <-> In rw (MemStorage.getFriendRequests m userId)
         /\ FriendRequest.id (FriendRequestWithSender.request rw)
            <> requestId)
  /\ (forall userId rw,
        In rw
          (DatabaseStorage.getFriendRequests
             (DatabaseStorage.updateFriendRequestStatus d requestId status)
             userId)
        <-> In rw (DatabaseStorage.getFriendRequests d userId)
            /\ FriendRequest.id (FriendRequestWithSender.request rw)
               <> requestId).
Proof.
  split; intros userId rw.
  - pose proof (listing_In
                  (MemStorage.getUserById
                     (MemStorage.updateFriendRequestStatus m requestId
                        status))
                  (JsMap.values
                     (MemStorage.friendRequests
                        (MemStorage.updateFriendRequestStatus m requestId
                           status)))
                  userId rw) as Hafter.
    pose proof (listing_In (MemStorage.getUserById m)
                  (JsMap.values (MemStorage.friendRequests m)) userId rw)
      as Hbefore.
    pose proof (mem_pending_after_answer requestId status
                  (FriendRequestWithSender.request rw) Hk Hn) as Hcore.
    unfold MemStorage.getFriendRequests.
    rewrite Hafter, Hbefore. simpl in *.
    change (MemStorage.getUserById
              (MemStorage.updateFriendRequestStatus m requestId status))
      with (MemStorage.getUserById m).
    tauto.
  - pose proof (listing_In
                  (DatabaseStorage.getUserById
                     (DatabaseStorage.updateFriendRequestStatus d requestId
                        status))
                  (DatabaseStorage.friendRequests
                     (DatabaseStorage.updateFriendRequestStatus d requestId
                        status))
                  userId rw) as Hafter.
    pose proof (listing_In (DatabaseStorage.getUserById d)
                  (DatabaseStorage.friendRequests d) userId rw) as Hbefore.
    pose proof (db_pending_after_answer requestId status
                  (DatabaseStorage.friendRequests d)
                  (FriendRequestWithSender.request rw)) as Hcore.
    unfold DatabaseStorage.getFriendRequests.
    rewrite Hafter, Hbefore. simpl in *.
    change (DatabaseStorage.getUserById
              (DatabaseStorage.updateFriendRequestStatus d requestId status))
      with (DatabaseStorage.getUserById d).
    tauto.
Qed.

Lemma answered_request_leaves_the_listing_witness :
  (forall rw,
     In rw
       (MemStorage.getFriendRequests
          (MemStorage.updateFriendRequestStatus Scenario.Mem.requested "r-0"
             to_rejected)
          "bob")
     <-> In rw (MemStorage.getFriendRequests Scenario.Mem.requested "bob")
         /\ FriendRequest.id (FriendRequestWithSender.request rw) <> "r-0")
  /\ MemStorage.getFriendRequests Scenario.Mem.requested "bob"
     = [FriendRequestWithSender.mk
          (FriendRequest.mk "r-0" "alice" "bob" pending 1000)
          Scenario.alice].
Proof.
  split; [|reflexivity].
  assert (Hk : keyedById FriendRequest.id
                 (MemStorage.friendRequests Scenario.Mem.requested))
    by repeat constructor.
  assert (Hn : NoDup
                 (JsMap.keys
                    (MemStorage.friendRequests Scenario.Mem.requested))).
  { repeat constructor. simpl. tauto. }
  exact (proj1 (@answered_request_leaves_the_listing Scenario.Mem.requested
                  Scenario.Db.requested "r-0" to_rejected Hk Hn) "bob").
Defined.

(** ** The friend-status route *)

Lemma find_existsb (A : Type) (p : A -> bool) (l : list A) :
  match find p l with Some _ => true | None => false end = existsb p l.
Proof.
  induction l as [|a r IH]; simpl; [reflexivity|].
  now destruct (p a).
Qed.

Lemma find_filter (A : Type) (p q : A -> bool) (l : list A) :
  find q (filter p l) = find (fun x => p x && q x) l.
Proof.
  induction l as [|a r IH]; simpl; [reflexivity|].
  destruct (p a); simpl; [|exact IH].
  now destruct (q a).
Qed.

Lemma find_unique (A : Type) (p : A -> bool) (l : list A) (x : A) :
  In x l -> p x = true -> (forall y, In y l -> p y = true -> y = x) ->
  find p l = Some x.
Proof.
  intros Hin Hp Hu. destruct (find p l) as [y|] eqn:E.
  - apply find_some in E. destruct E as [Hy Hpy]. f_equal. now apply Hu.
  - now rewrite (find_none _ _ E _ Hin) in Hp.
Qed.

Lemma find_absent (A : Type) (p : A -> bool) (l : list A) :
  (forall y, In y l -> p y = false) -> find p l = None.
Proof.
  intros H. destruct (find p l) as [y|] eqn:E; [|reflexivity].
  apply find_some in E. destruct E as [Hy Hp]. now rewrite H in Hp.
Qed.

Lemma filter_first_unique (A : Type) (p : A -> bool) (l : list A) (x : A)
    (rest : list A) :
  filter p l = x :: rest -> (length (filter p l) <= 1)%nat ->
  In x l /\ p x = true /\ forall y, In y l -> p y = true -> y = x.
Proof.
  intros E Hlen.
  assert (Hx : In x (filter p l)) by (rewrite E; now left).
  apply filter_In in Hx. destruct Hx as [Hin Hp].
  repeat split; try assumption.
  intros y Hy Hpy.
  assert (Hy' : In y (filter p l)) by now apply filter_In.
  rewrite E in Hy', Hlen. simpl in Hlen.
  destruct rest; [|simpl in Hlen; lia].
  destruct Hy' as [<-|[]]. reflexivity.
Qed.

Lemma betweenPair_ends (a b : string) (x : FriendRequest.t) :
  betweenPair a b x = true ->
  (FriendRequest.senderId x = a /\ FriendRequest.receiverId x = b)
  \/ (FriendRequest.senderId x = b /\ FriendRequest.receiverId x = a).
Proof.
  unfold betweenPair. intros H. apply orb_true_iff in H.
  destruct H as [H|H]; apply andb_true_iff in H; destruct H as [H1 H2];
    apply String.eqb_eq in H1, H2; tauto.
Qed.

Lemma betweenPair_own (x : FriendRequest.t) :
  betweenPair (FriendRequest.senderId x) (FriendRequest.receiverId x) x
  = true.
Proof. unfold betweenPair. now rewrite !String.eqb_refl. Qed.

Section FriendStatus.
Context {S : Type} {rest : IStorageRest.t S}.
Variable st : S.
Variable requests : list FriendRequest.t.
Variable resolve : string -> option User.t.

Hypothesis areFriends_spec :
  forall u v,
    IStorageRest.areFriends st u v
    = existsb
        (fun r =>
           RequestStatus_eqb (FriendRequest.status r) accepted
           && betweenPair u v r)
        requests.
Hypothesis sent_spec :
  forall u,
    IStorageRest.getSentFriendRequests st u
    = filter (fun r => String.eqb (FriendRequest.senderId r) u) requests.
Hypothesis listing_spec :
  forall u rw,
    In rw (IStorageRest.getFriendRequests st u)
    <-> In (FriendRequestWithSender.request rw) requests
        /\ FriendRequest.receiverId (FriendRequestWithSender.request rw) = u
        /\ FriendRequest.status (FriendRequestWithSender.request rw) = pending
        /\ resolve
             (FriendRequest.senderId (FriendRequestWithSender.request rw))
           = Some (FriendRequestWithSender.sender rw).
Hypothesis senders_stored :
  forall x, In x requests -> resolve (FriendRequest.senderId x) <> None.

Lemma areFriends_false (u v : string) :
  (forall y, In y requests -> betweenPair u v y = true ->
     FriendRequest.status y <> accepted) ->
  IStorageRest.areFriends st u v = false.
Proof.
  intros H. rewrite areFriends_spec.
  destruct (existsb _ requests) eqn:E; [|reflexivity].
  apply existsb_exists in E. destruct E as [y [Hy Hp]].
  apply andb_true_iff in Hp. destruct Hp as [Hs Hb].
  exfalso. apply (H y Hy Hb). now destruct (FriendRequest.status y).
Qed.

Lemma areFriends_true (u v : string) (x : FriendRequest.t) :
  In x requests -> betweenPair u v x = true ->
  FriendRequest.status x = accepted ->
  IStorageRest.areFriends st u v = true.
Proof.
  intros Hin Hb Hs. rewrite areFriends_spec. apply existsb_exists.
  exists x. split; [exact Hin|]. now rewrite Hs, Hb.
Qed.

Lemma sent_some (u v : string) (x : FriendRequest.t) :
  In x requests ->
  FriendRequest.senderId x = u -> FriendRequest.receiverId x = v ->
  (forall y, In y requests -> betweenPair u v y = true -> y = x) ->
  find (fun r => String.eqb (FriendRequest.receiverId r) v)
    (IStorageRest.getSentFriendRequests st u)
  = Some x.
Proof.
  intros Hin Hs Hr Hu. rewrite sent_spec, find_filter.
  apply find_unique; [exact Hin | |].
  - now rewrite Hs, Hr, !String.eqb_refl.
  - intros y Hy Hp. apply Hu; [exact Hy|].
    unfold betweenPair. now rewrite Hp.
Qed.

Lemma sent_none (u v : string) :
  (forall y, In y requests ->
     ~ (FriendRequest.senderId y = u /\ FriendRequest.receiverId y = v)) ->
  find (fun r => String.eqb (FriendRequest.receiverId r) v)
    (IStorageRest.getSentFriendRequests st u)
  = None.
Proof.
  intros H. rewrite sent_spec, find_filter. apply find_absent.
  intros y Hy. apply andb_false_iff.
  destruct (String.eqb (FriendRequest.senderId y) u) eqn:E1; [|now left].
  destruct (String.eqb (FriendRequest.receiverId y) v) eqn:E2; [|now right].
  apply String.eqb_eq in E1, E2. exfalso. now apply (H y Hy).
Qed.

Lemma received_some (u v : string) (x : FriendRequest.t) :
  In x requests ->
  FriendRequest.senderId x = v -> FriendRequest.receiverId x = u ->
  FriendRequest.status x = pending ->
  (forall y, In y requests -> betweenPair u v y = true -> y = x) ->
  exists rw,
    find
      (fun r =>
         String.eqb
           (FriendRequest.senderId (FriendRequestWithSender.request r)) v
         && RequestStatus_eqb
              (FriendRequest.status (FriendRequestWithSender.request r))
              pending)
      (IStorageRest.getFriendRequests st u)
    = Some rw
    /\ FriendRequestWithSender.request rw = x.
Proof.
  intros Hin Hs Hr Hp Hu.
  destruct (resolve (FriendRequest.senderId x)) as [w|] eqn:Ew;
    [|now apply senders_stored in Ew].
  destruct (find _ (IStorageRest.getFriendRequests st u)) as [rw|] eqn:E.
  - exists rw. split; [reflexivity|].
    apply find_some in E. destruct E as [Hrw Hq].
    apply listing_spec in Hrw. destruct Hrw as (H1 & H2 & H3 & H4).
    apply andb_true_iff in Hq. destruct Hq as [Hq _].
    apply String.eqb_eq in Hq. apply Hu; [exact H1|].
    unfold betweenPair. rewrite H2, Hq, !String.eqb_refl.
    apply orb_true_r.
  - exfalso.
    assert (Hrw : In (FriendRequestWithSender.mk x w)
                    (IStorageRest.getFriendRequests st u)).
    { apply listing_spec. simpl. tauto. }
    pose proof (find_none _ _ E _ Hrw) as Hq. simpl in Hq.
    now rewrite Hs, Hp, String.eqb_refl in Hq.
Qed.

Lemma received_none (u v : string) :
  (forall y, In y requests ->
     ~ (FriendRequest.senderId y = v /\ FriendRequest.receiverId y = u
        /\ FriendRequest.status y = pending)) ->
  find
    (fun r =>
       String.eqb
         (FriendRequest.senderId (FriendRequestWithSender.request r)) v
       && RequestStatus_eqb
            (FriendRequest.status (FriendRequestWithSender.request r))
            pending)
    (IStorageRest.getFriendRequests st u)
  = None.
Proof.
  intros H. apply find_absent. intros rw Hrw.
  apply listing_spec in Hrw. destruct Hrw as (H1 & H2 & H3 & H4).
  apply andb_false_iff. left. apply String.eqb_neq. intros Hq.
  now apply (H _ H1).
Qed.

Variables a b : string.
Hypothesis distinct : a <> b.
Hypothesis one : (length (filter (betweenPair a b) requests) <= 1)%nat.

Lemma views_without_record (u v : string) :
  (forall y, In y requests -> betweenPair u v y = false) ->
  Api.friendStatus st u v = Api.reply 200 (Api.mkStatus Api.statusNone None).
Proof.
  intros Hnone. unfold Api.friendStatus.
  rewrite areFriends_false, sent_none, received_none; [reflexivity| | |].
  - intros y Hy [H1 [H2 _]]. specialize (Hnone y Hy).
    unfold betweenPair in Hnone.
    rewrite H1, H2, !String.eqb_refl in Hnone.
    now rewrite orb_true_r in Hnone.
  - intros y Hy [H1 H2]. specialize (Hnone y Hy).
    unfold betweenPair in Hnone.
    now rewrite H1, H2, !String.eqb_refl in Hnone.
  - intros y Hy Hb. now rewrite (Hnone y Hy) in Hb.
Qed.

Lemma views_of_sender (x : FriendRequest.t) :
  In x requests -> FriendRequest.senderId x <> FriendRequest.receiverId x ->
  (forall y, In y requests ->
     betweenPair (FriendRequest.senderId x) (FriendRequest.receiverId x) y
     = true -> y = x) ->
  Api.friendStatus st (FriendRequest.senderId x) (FriendRequest.receiverId x)
  = match FriendRequest.status x with
    | pending =>
        Api.reply 200
          (Api.mkStatus Api.statusPending (Some (FriendRequest.id x)))
    | accepted => Api.reply 200 (Api.mkStatus Api.statusAccepted None)
    | rejected => Api.reply 200 (Api.mkStatus Api.statusNone None)
    end.
Proof.
  intros Hin Hne Hu. unfold Api.friendStatus.
  destruct (FriendRequest.status x) eqn:Es.
  - rewrite areFriends_false.
    + now rewrite (sent_some Hin eq_refl eq_refl Hu), Es.
    + intros y Hy Hb. rewrite (Hu y Hy Hb). congruence.
  - now rewrite (@areFriends_true _ _ x Hin (betweenPair_own x) Es).
  - rewrite areFriends_false.
    + now rewrite (sent_some Hin eq_refl eq_refl Hu), Es.
    + intros y Hy Hb. rewrite (Hu y Hy Hb). congruence.
Qed.

Lemma views_of_receiver (x : FriendRequest.t) :
  In x requests -> FriendRequest.senderId x <> FriendRequest.receiverId x ->
  (forall y, In y requests ->
     betweenPair (FriendRequest.senderId x) (FriendRequest.receiverId x) y
     = true -> y = x) ->
  Api.friendStatus st (FriendRequest.receiverId x) (FriendRequest.senderId x)
  = match FriendRequest.status x with
    | pending =>
        Api.reply 200
          (Api.mkStatus Api.statusReceived (Some (FriendRequest.id x)))
    | accepted => Api.reply 200 (Api.mkStatus Api.statusAccepted None)
    | rejected => Api.reply 200 (Api.mkStatus Api.statusNone None)
    end.
Proof.
  intros Hin Hne Hu.
  assert (Hu' : forall y, In y requests ->
                  betweenPair (FriendRequest.receiverId x)
                    (FriendRequest.senderId x) y = true -> y = x).
  { intros y Hy Hb. apply Hu; [exact Hy|]. now rewrite betweenPair_sym. }
  assert (Hsent :
            find
              (fun r =>
                 String.eqb (FriendRequest.receiverId r)
                   (FriendRequest.senderId x))
              (IStorageRest.getSentFriendRequests st
                 (FriendRequest.receiverId x))
            = None).
  { apply sent_none. intros y Hy [H1 H2].
    assert (Hyx : y = x).
    { apply Hu; [exact Hy|]. unfold betweenPair.
      rewrite H1, H2, !String.eqb_refl. apply orb_true_r. }
    subst y. congruence. }
  unfold Api.friendStatus. rewrite Hsent.
  destruct (FriendRequest.status x) eqn:Es.
  - rewrite areFriends_false.
    + destruct (received_some Hin eq_refl eq_refl Es Hu') as [rw [E Erw]].
      now rewrite E, Erw.
    + intros y Hy Hb. rewrite (Hu' y Hy Hb). congruence.
  - rewrite (@areFriends_true _ _ x Hin); [reflexivity | | exact Es].
    rewrite betweenPair_sym. apply betweenPair_own.
  - rewrite areFriends_false.
    + rewrite received_none; [reflexivity|].
      intros y Hy (H1 & H2 & H3).
      assert (Hyx : y = x).
      { apply Hu; [exact Hy|]. unfold betweenPair.
        now rewrite H1, H2, !String.eqb_refl. }
      subst y. congruence.
    + intros y Hy Hb. rewrite (Hu' y Hy Hb). congruence.
Qed.

Lemma statusViews_hold : statusViews (Api.friendStatus st) requests a b.
Proof.
  unfold statusViews.
  destruct (filter (betweenPair a b) requests) as [|x l] eqn:Ef.
  - assert (Hnone : forall y, In y requests -> betweenPair a b y = false).
    { intros y Hy. destruct (betweenPair a b y) eqn:E; [|reflexivity].
      assert (Hin : In y (filter (betweenPair a b) requests))
        by now apply filter_In.
      now rewrite Ef in Hin. }
    split; apply views_without_record; [exact Hnone|].
    intros y Hy. rewrite betweenPair_sym. now apply Hnone.
  - rewrite <- Ef in one.
    destruct (filter_first_unique _ _ Ef one) as (Hin & Hb & Hu).
    assert (Hpair : forall y,
               betweenPair (FriendRequest.senderId x)
                 (FriendRequest.receiverId x) y
               = betweenPair a b y).
    { intros y.
      apply (betweenPair_same_pair _ _ a b x y (betweenPair_own x) Hb). }
    assert (Hu' : forall y, In y requests ->
                    betweenPair (FriendRequest.senderId x)
                      (FriendRequest.receiverId x) y = true -> y = x).
    { intros y Hy Hy'. apply Hu; [exact Hy|]. now rewrite <- Hpair. }
    assert (Hne : FriendRequest.senderId x <> FriendRequest.receiverId x).
    { destruct (betweenPair_ends _ _ _ Hb) as [[-> ->]|[-> ->]]; congruence. }
    pose proof (views_of_sender Hin Hne Hu') as Hs.
    pose proof (views_of_receiver Hin Hne Hu') as Hr.
    destruct (betweenPair_ends _ _ _ Hb) as [[Ea Eb]|[Ea Eb]];
      rewrite Ea, Eb in Hs, Hr;
      destruct (FriendRequest.status x); rewrite ?Ea, ?Eb; tauto.
Qed.

End FriendStatus.

(** X13. What the friend-status route tells the two users of a pair is
    fixed by the one record between them: without a record, or with a
    rejected one, both are told [none]; with an accepted one both are
    told [accepted]; with a pending one the sender is told [pending] and
    the receiver [received], with the same request id.  For two distinct
    users, in a store that holds at most one record for the pair and in
    which the senders of the requests are stored users; in both storage
    implementations. *)
Theorem friend_status_views_agree
    (m : MemStorage.State) (d : DatabaseStorage.State) (a b : string)
    (Hab : a <> b)
    (Hm : onePerPair (JsMap.values (MemStorage.friendRequests m)))
    (Hmu : forall x, In x (JsMap.values (MemStorage.friendRequests m)) ->
             MemStorage.getUserById m (FriendRequest.senderId x) <> None)
    (Hd : onePerPair (DatabaseStorage.friendRequests d))
    (Hdu : forall x, In x (DatabaseStorage.friendRequests d) ->
             DatabaseStorage.getUserById d (FriendRequest.senderId x)
             <> None) :
  statusViews (Api.friendStatus m)
    (JsMap.values (MemStorage.friendRequests m)) a b
  /\ statusViews (Api.friendStatus d) (DatabaseStorage.friendRequests d) a b.
Proof.
  split.
  - apply (@statusViews_hold _ MemStorage_IStorageRest m
             (JsMap.values (MemStorage.friendRequests m))
             (MemStorage.getUserById m)).
    + intros u v. reflexivity.
    + intros u. reflexivity.
    + intros u rw. apply listing_In.
    + exact Hmu.
    + exact Hab.
    + apply Hm.
  - apply (@statusViews_hold _ DatabaseStorage_IStorageRest d
             (DatabaseStorage.friendRequests d)
             (DatabaseStorage.getUserById d)).
    + intros u v. simpl. unfold DatabaseStorage.areFriends.
      apply find_existsb.
    + intros u. reflexivity.
    + intros u rw. apply listing_In.
    + exact Hdu.
    + exact Hab.
    + apply Hd.
Qed.

Lemma friend_status_views_agree_witness :
  (Api.friendStatus Scenario.Mem.requested "alice" "bob"
   = Api.reply 200 (Api.mkStatus Api.statusPending (Some "r-0"))
   /\ Api.friendStatus Scenario.Mem.requested "bob" "alice"
      = Api.reply 200 (Api.mkStatus Api.statusReceived (Some "r-0")))
  /\ (Api.friendStatus Scenario.Db.requested "alice" "bob"
      = Api.reply 200 (Api.mkStatus Api.statusPending (Some "r-0"))
      /\ Api.friendStatus Scenario.Db.requested "bob" "alice"
         = Api.reply 200 (Api.mkStatus Api.statusReceived (Some "r-0"))).
Proof.
  assert (Hab : "alice" <> "bob") by discriminate.
  assert (Hone : onePerPair
                   [FriendRequest.mk "r-0" "alice" "bob" pending 1000]).
  { intros a b. simpl. destruct (betweenPair a b _); simpl; lia. }
  assert (Hmu : forall x,
             In x (JsMap.values
                     (MemStorage.friendRequests Scenario.Mem.requested)) ->
             MemStorage.getUserById Scenario.Mem.requested
               (FriendRequest.senderId x) <> None).
  { intros x [<-|[]]. discriminate. }
  assert (Hdu : forall x,
             In x (DatabaseStorage.friendRequests Scenario.Db.requested) ->
             DatabaseStorage.getUserById Scenario.Db.requested
               (FriendRequest.senderId x) <> None).
  { intros x [<-|[]]. discriminate. }
  exact (@friend_status_views_agree Scenario.Mem.requested
           Scenario.Db.requested "alice" "bob" Hab Hone Hmu Hone Hdu).
Defined.

(** ** Rooms of the gateway *)

Lemma roomOf_inj (c c' : string) :
  Sockets.roomOf c = Sockets.roomOf c' -> c = c'.
Proof. unfold Sockets.roomOf. simpl. congruence. Qed.

Lemma In_JsSet_add (x y : string) (s : list string) :
  In x (JsSet.add y s) <-> x = y \/ In x s.
Proof.
  unfold JsSet.add. destruct (JsArray.includes y s) eqn:E.
  - apply includes_In in E. split; [tauto|]. intros [->|H]; assumption.
  - rewrite in_app_iff. simpl. split; intros [H|H]; auto.
    destruct H as [<-|[]]. now left.
Qed.

Section RoomsFacts.
Context {S : Type} {storage : IStorage.t S}.
Variable st : S.

Local Abbreviation step :=
  (fun rooms (j : string * string * string) =>
     let '(socketId, userId, conversationId) := j in
     Rooms.onJoin st socketId userId conversationId rooms).

Lemma onJoin_room (sock u c sock' c' : string)
    (rooms : JsMap.t (list string)) :
  In sock' (JsMap.get_or_nil (Sockets.roomOf c')
              (Rooms.onJoin st sock u c rooms))
  <-> In sock' (JsMap.get_or_nil (Sockets.roomOf c') rooms)
      \/ (sock' = sock /\ c' = c
          /\ IStorage.isUserInConversation st u c = true).
Proof.
  unfold Rooms.onJoin, Rooms.join.
  destruct (IStorage.isUserInConversation st u c) eqn:E.
  - rewrite get_or_nil_set.
    destruct (String.eqb (Sockets.roomOf c') (Sockets.roomOf c)) eqn:Er.
    + apply String.eqb_eq in Er. apply roomOf_inj in Er. subst c'.
      rewrite In_JsSet_add. tauto.
    + apply String.eqb_neq in Er. split; [tauto|].
      intros [H|(_ & -> & _)]; [exact H | congruence].
  - split; [tauto|]. intros [H|(_ & _ & H)]; [exact H | discriminate].
Qed.

Lemma rooms_from (joins : list (string * string * string))
    (rooms : JsMap.t (list string)) (sock c : string) :
  In sock (JsMap.get_or_nil (Sockets.roomOf c) (fold_left step joins rooms))
  <-> In sock (JsMap.get_or_nil (Sockets.roomOf c) rooms)
      \/ exists u,
           In (sock, u, c) joins
           /\ IStorage.isUserInConversation st u c = true.
Proof.
  revert rooms. induction joins as [|[[s0 u0] c0] r IH]; intros rooms.
  - simpl. split; [tauto|]. intros [H|[u [[] _]]]. exact H.
  - cbn [fold_left]. rewrite IH, onJoin_room. split.
    + intros [[H|(-> & -> & H)]|[u [Hin H]]].
      * now left.
      * right. exists u0. split; [now left | exact H].
      * right. exists u. split; [now right | exact H].
    + intros [H|[u [[E|Hin] H]]].
      * left. now left.
      * injection E as -> -> ->. left. right. tauto.
      * right. now exists u.
Qed.

End RoomsFacts.

(** X14. Over any sequence of [join] events (of sockets that stay
    connected), a socket is in the room of a conversation exactly when
    its user asked to join that conversation while being one of its
    participants: [join] events of other users put nothing in the room.
    For any storage behind the interface. *)
Theorem room_holds_joined_participants
    (S : Type) (storage : IStorage.t S) (st : S)
    (joins : list (string * string * string))
    (socketId conversationId : string) :
  In socketId
    (JsMap.get_or_nil (Sockets.roomOf conversationId) (Rooms.run st joins))
  <-> exists userId,
        In (socketId, userId, conversationId) joins
        /\ IStorage.isUserInConversation st userId conversationId = true.
Proof.
  unfold Rooms.run. rewrite rooms_from. simpl. tauto.
Qed.

(** ** Presence *)

Lemma JsSet_add_not_empty (x : string) (s : list string) :
  JsSet.add x s <> [].
Proof.
  intros E. assert (H : In x (JsSet.add x s)) by (apply In_JsSet_add; tauto).
  now rewrite E in H.
Qed.

Lemma mem_updateUserOnlineStatus_lookup (st : MemStorage.State)
    (u : string) (online : bool) (t : Date) (v : string) :
  MemStorage.getUserById (MemStorage.updateUserOnlineStatus st u online t) v
  = if String.eqb v u
    then option_map (User.with_presence online (Some t))
           (MemStorage.getUserById st v)
    else MemStorage.getUserById st v.
Proof.
  unfold MemStorage.getUserById, MemStorage.updateUserOnlineStatus. simpl.
  apply get_mutate.
Qed.

Lemma db_updateUserOnlineStatus_lookup (st : DatabaseStorage.State)
    (u : string) (online : bool) (t : Date) (v : string) :
  DatabaseStorage.getUserById
    (DatabaseStorage.updateUserOnlineStatus st u online t) v
  = if String.eqb v u
    then option_map (User.with_presence online (Some t))
           (DatabaseStorage.getUserById st v)
    else DatabaseStorage.getUserById st v.
Proof.
  unfold DatabaseStorage.getUserById, DatabaseStorage.updateUserOnlineStatus.
  simpl. induction (DatabaseStorage.users st) as [|x r IH]; simpl.
  - now destruct (String.eqb v u).
  - destruct (String.eqb (User.id x) u) eqn:Eu; simpl.
    + destruct (String.eqb (User.id x) v) eqn:Ev.
      * apply String.eqb_eq in Eu, Ev. subst u.
        rewrite Ev. now rewrite String.eqb_refl.
      * exact IH.
    + destruct (String.eqb (User.id x) v) eqn:Ev; [|exact IH].
      apply String.eqb_eq in Ev. subst v. now rewrite Eu.
Qed.

Section PresenceFacts.
Context {S : Type} {storage : IStorage.t S} {rest : IStorageRest.t S}.

Hypothesis update_lookup :
  forall st u online t v,
    IStorage.getUserById (IStorageRest.updateUserOnlineStatus st u online t) v
    = if String.eqb v u
      then option_map (User.with_presence online (Some t))
             (IStorage.getUserById st v)
      else IStorage.getUserById st v.

Lemma onConnection_consistent (st : S) (u s : string) (t : Date)
    (userSockets : JsMap.t (list string)) :
  presenceConsistent IStorage.getUserById userSockets st ->
  presenceConsistent IStorage.getUserById
    (fst (fst (Presence.onConnection st u s t userSockets)))
    (snd (fst (Presence.onConnection st u s t userSockets))).
Proof.
  intros (Hn & Hne & Hon). unfold Presence.onConnection. cbn [fst snd].
  set (sockets1 := if negb (JsMap.has u userSockets)
                   then JsMap.set u [] userSockets else userSockets).
  assert (Hn1 : NoDup (JsMap.keys sockets1)).
  { unfold sockets1. destruct (negb _); [now apply keys_set_NoDup | exact Hn]. }
  assert (Hother : forall v, v <> u ->
            JsMap.get v sockets1 = JsMap.get v userSockets).
  { intros v Hv. unfold sockets1. destruct (negb _); [|reflexivity].
    rewrite get_set. apply String.eqb_neq in Hv. now rewrite Hv. }
  assert (Hu : JsMap.get u sockets1 <> None).
  { unfold sockets1, JsMap.has.
    destruct (JsMap.get u userSockets) eqn:E; simpl.
    - now rewrite E.
    - now rewrite get_set, String.eqb_refl. }
  split; [|split].
  - now rewrite keys_mutate.
  - intros v x. rewrite get_mutate.
    destruct (String.eqb v u) eqn:E.
    + destruct (JsMap.get v sockets1); simpl; [|discriminate].
      intros [= <-]. apply JsSet_add_not_empty.
    + apply String.eqb_neq in E. rewrite (Hother v E). apply Hne.
  - intros v usr. rewrite update_lookup. unfold JsMap.has.
    rewrite get_mutate. destruct (String.eqb v u) eqn:E.
    + apply String.eqb_eq in E. subst v.
      destruct (JsMap.get u sockets1); [|congruence].
      destruct (IStorage.getUserById st u); simpl; [|discriminate].
      intros [= <-]. simpl. tauto.
    + apply String.eqb_neq in E. rewrite (Hother v E). apply Hon.
Qed.

Lemma onDisconnect_consistent (st : S) (u s : string) (t : Date)
    (userSockets : JsMap.t (list string)) :
  presenceConsistent IStorage.getUserById userSockets st ->
  presenceConsistent IStorage.getUserById
    (fst (fst (Presence.onDisconnect st u s t userSockets)))
    (snd (fst (Presence.onDisconnect st u s t userSockets))).
Proof.
  intros (Hn & Hne & Hon). unfold Presence.onDisconnect.
  destruct (JsMap.get u userSockets) as [set0|] eqn:Eg;
    [|cbn [fst snd]; exact (conj Hn (conj Hne Hon))].
  assert (Hn1 : NoDup
                  (JsMap.keys (JsMap.mutate u (JsSet.delete s) userSockets)))
    by now rewrite keys_mutate.
  destruct (Nat.eqb (length (JsSet.delete s set0)) 0) eqn:El; cbn [fst snd].
  - split; [|split].
    + now apply keys_delete_NoDup.
    + intros v x Hv. apply (@get_delete_some _ v u x _ Hn1) in Hv.
      destruct Hv as [Hvu Hv]. rewrite get_mutate in Hv.
      apply String.eqb_neq in Hvu. rewrite Hvu in Hv. now apply (Hne v).
    + intros v usr. rewrite update_lookup. unfold JsMap.has.
      destruct (String.eqb v u) eqn:E.
      * apply String.eqb_eq in E. subst v.
        rewrite (@get_delete_same _ u _ Hn1).
        destruct (IStorage.getUserById st u); simpl; [|discriminate].
        intros [= <-]. simpl. split; discriminate.
      * apply String.eqb_neq in E.
        rewrite (@get_delete_other _ v u _ E), get_mutate.
        apply String.eqb_neq in E. rewrite E. apply Hon.
  - split; [|split].
    + exact Hn1.
    + intros v x. rewrite get_mutate.
      destruct (String.eqb v u) eqn:E.
      * apply String.eqb_eq in E. subst v. rewrite Eg. simpl.
        intros [= <-]. intros Hnil. now rewrite Hnil in El.
      * apply Hne.
    + intros v usr Hv. rewrite (Hon v usr Hv). unfold JsMap.has.
      rewrite get_mutate. destruct (String.eqb v u); [|reflexivity].
      now destruct (JsMap.get v userSockets).
Qed.

Lemma handle_consistent (i : Presence.Input)
    (userSockets : JsMap.t (list string)) (st : S)
    (out : list PresenceUpdate.t) :
  presenceConsistent IStorage.getUserById userSockets st ->
  presenceConsistent IStorage.getUserById
    (fst (fst (Presence.handle i (userSockets, st, out))))
    (snd (fst (Presence.handle i (userSockets, st, out)))).
Proof.
  intros H. unfold Presence.handle. destruct i as [u s t|u s t].
  - pose proof (@onConnection_consistent st u s t userSockets H) as H'.
    now destruct (Presence.onConnection st u s t userSockets)
      as [[us' st'] o'].
  - pose proof (@onDisconnect_consistent st u s t userSockets H) as H'.
    now destruct (Presence.onDisconnect st u s t userSockets)
      as [[us' st'] o'].
Qed.

Lemma presence_run_consistent (trace : list Presence.Input)
    (userSockets : JsMap.t (list string)) (st : S)
    (out : list PresenceUpdate.t) :
  presenceConsistent IStorage.getUserById userSockets st ->
  presenceConsistent IStorage.getUserById
    (fst (fst (fold_left (fun g i => Presence.handle i g) trace
                 (userSockets, st, out))))
    (snd (fst (fold_left (fun g i => Presence.handle i g) trace
                 (userSockets, st, out)))).
Proof.
  revert userSockets st out.
  induction trace as [|i r IH]; intros userSockets st out H; [exact H|].
  cbn [fold_left].
  pose proof (@handle_consistent i userSockets st out H) as H'.
  destruct (Presence.handle i (userSockets, st, out)) as [[us' st'] o'].
  now apply IH.
Qed.

End PresenceFacts.

(** X15. When the connections and disconnections are handled one after
    the other, starting with no socket and every stored user flagged
    offline, then at every point a stored user is flagged online exactly
    when [userSockets] has sockets for that user, and [userSockets] never
    holds an empty set.  In both storage implementations. *)
Theorem presence_follows_the_sockets
    (m : MemStorage.State) (d : DatabaseStorage.State)
    (trace : list Presence.Input)
    (Hm : forall userId user,
            MemStorage.getUserById m userId = Some user ->
            User.isOnline user = false)
    (Hd : forall userId user,
            DatabaseStorage.getUserById d userId = Some user ->
            User.isOnline user = false) :
  presenceConsistent MemStorage.getUserById
    (fst (fst (Presence.run m trace))) (snd (fst (Presence.run m trace)))
  /\ presenceConsistent DatabaseStorage.getUserById
       (fst (fst (Presence.run d trace))) (snd (fst (Presence.run d trace))).
Proof.
  split.
  - apply (@presence_run_consistent _ MemStorage_IStorage
             MemStorage_IStorageRest mem_updateUserOnlineStatus_lookup).
    split; [constructor|split].
    + discriminate.
    + intros u usr Hu. rewrite (Hm u usr Hu). simpl. tauto.
  - apply (@presence_run_consistent _ DatabaseStorage_IStorage
             DatabaseStorage_IStorageRest db_updateUserOnlineStatus_lookup).
    split; [constructor|split].
    + discriminate.
    + intros u usr Hu. rewrite (Hd u usr Hu). simpl. tauto.
Qed.

Lemma presence_follows_the_sockets_witness :
  let trace :=
    [Presence.connection "alice" "socket-1" 5000;
     Presence.connection "alice" "socket-2" 5100;
     Presence.disconnect "alice" "socket-1" 5200] in
  presenceConsistent MemStorage.getUserById
    (fst (fst (Presence.run Scenario.Mem.registered trace)))
    (snd (fst (Presence.run Scenario.Mem.registered trace)))
  /\ presenceConsistent DatabaseStorage.getUserById
       (fst (fst (Presence.run Scenario.Db.registered trace)))
       (snd (fst (Presence.run Scenario.Db.registered trace))).
Proof.
  apply (@presence_follows_the_sockets Scenario.Mem.registered
           Scenario.Db.registered).
  - intros u usr. unfold MemStorage.getUserById. simpl.
    repeat (destruct (String.eqb u _); [now intros [= <-]|]).
    discriminate.
  - intros u usr H. apply find_some in H. destruct H as [Hin _].
    simpl in Hin. destruct Hin as [<-|[<-|[<-|[]]]]; reflexivity.
Defined.

(** ** The typing timers and their map *)

Lemma filter_at_most_one (A : Type) (f : A -> nat) (p : A -> bool)
    (l : list A) :
  NoDup (map f l) ->
  (forall x y, In x l -> In y l -> p x = true -> p y = true -> f x = f y) ->
  (length (filter p l) <= 1)%nat.
Proof.
  induction l as [|a r IH]; simpl; intros Hn Hf; [lia|].
  inversion Hn as [|? ? Ha Hr]; subst.
  destruct (p a) eqn:E.
  - rewrite filter_none; [simpl; lia|].
    intros y Hy. destruct (p y) eqn:Ey; [|reflexivity].
    exfalso. apply Ha. rewrite (Hf a y); auto. now apply in_map.
  - apply IH; [exact Hr|]. intros x y Hx Hy. apply Hf; now right.
Qed.

Module TimerFacts.
Import Sockets SocketsFacts.

(** Every entry of [typingTimeouts] is the handle of an armed timer of
    its key. *)
Local Abbreviation tracked g :=
  (forall k h,
     JsMap.get k (typingTimeouts g) = Some h ->
     exists tm, In (h, tm) (pending g) /\ timeoutKey tm = k).

Lemma tracked_cancel (k0 : string) (g : State) :
  Inv g -> tracked g -> tracked (cancel k0 g).
Proof.
  intros I T k h. unfold cancel.
  destruct (JsMap.get k0 (typingTimeouts g)) as [h0|] eqn:E0;
    [|apply T].
  simpl. intros Hget.
  apply (@get_delete_some _ k k0 h _ (inv_keys I)) in Hget.
  destruct Hget as [Hne Hget].
  destruct (T k h Hget) as [tm [Hin Hk]]. exists tm. split; [|exact Hk].
  apply filter_In. split; [exact Hin|]. simpl.
  apply negb_true_iff, Nat.eqb_neq. intros ->.
  apply Hne. apply (@inv_injective _ I k k0 h0 Hget E0).
Qed.

Lemma tracked_arm (tm : Timeout) (g : State) :
  tracked g -> tracked (arm tm g).
Proof.
  intros T k h. unfold arm, setTimeout. simpl. rewrite get_set.
  destruct (String.eqb k (timeoutKey tm)) eqn:E.
  - intros [= <-]. apply String.eqb_eq in E. exists tm.
    split; [|now symmetry]. apply in_or_app. right. now left.
  - intros Hget. destruct (T k h Hget) as [tm' [Hin Hk]]. exists tm'.
    split; [|exact Hk]. apply in_or_app. now left.
Qed.

Lemma get_deleteKeys_in (ks : list string) (k : string) (m : JsMap.t nat) :
  NoDup (JsMap.keys m) -> In k ks -> JsMap.get k (deleteKeys ks m) = None.
Proof.
  revert m. induction ks as [|k0 r IH]; intros m Hn; simpl; [tauto|].
  intros [->|Hin].
  - destruct (JsMap.get k (deleteKeys r (JsMap.delete k m))) as [h|] eqn:E;
      [|reflexivity].
    apply get_deleteKeys_some in E; [|now apply keys_delete_NoDup].
    now rewrite (@get_delete_same _ k m Hn) in E.
  - apply IH; [now apply keys_delete_NoDup | exact Hin].
Qed.

Lemma tracked_advance (t : Date) (g : State) :
  Inv g -> tracked g -> tracked (fst (advance t g)).
Proof.
  intros I T k h. rewrite advance_spec. simpl. intros Hget.
  pose proof (@get_deleteKeys_some _ k h _ (inv_keys I) Hget) as Hold.
  destruct (T k h Hold) as [tm [Hin Hk]]. exists tm. split; [|exact Hk].
  apply filter_In. split; [exact Hin|]. simpl.
  destruct (due tm <=? t) eqn:Ed; [|reflexivity]. exfalso.
  rewrite get_deleteKeys_in in Hget; [discriminate | apply (inv_keys I)|].
  apply in_map_iff. exists (h, tm). split; [exact Hk|].
  apply filter_In. now split.
Qed.

Section Run.
Context {S : Type} {storage : IStorage.t S}.

Lemma tracked_handle (i : Input) (t : Date) (g : State) :
  Inv g -> tracked g -> tracked (fst (handle i t g)).
Proof.
  intros I T. destruct i as [st sock u data|]; [|exact T].
  cbn [handle].
  destruct (onTyping_cases st sock u data t g) as [E|(user & _ & _ & E)];
    rewrite E; cbn [fst]; [exact T|].
  destruct (TypingData.isTyping data).
  - apply tracked_arm. now apply tracked_cancel.
  - now apply tracked_cancel.
Qed.

Lemma tracked_run (tr : list (Date * Input)) (g : State) :
  Inv g -> tracked g -> tracked (fst (run g tr)).
Proof.
  revert g. induction tr as [|[t i] r IH]; intros g I T; [exact T|].
  rewrite run_cons. cbn [fst]. apply IH.
  - apply Inv_handle, Inv_advance, I.
  - apply tracked_handle; [apply Inv_advance, I|].
    now apply tracked_advance.
Qed.

End Run.

End TimerFacts.

(** X16. However the typing events arrive, the map [typingTimeouts]
    mirrors the armed timers: for every key at most one timer is armed,
    and the map has the key exactly when a timer armed under it has
    neither fired nor been cleared.  For any storage behind the
    interface. *)
Theorem typing_timers_mirror_the_map
    (S : Type) (storage : IStorage.t S)
    (trace : list (Date * @Sockets.Input S)) (key : string) :
  let g := fst (Sockets.run Sockets.init trace) in
  (length (Sockets.pendingFor key g) <= 1)%nat
  /\ (JsMap.has key (Sockets.typingTimeouts g) = true
      <-> Sockets.pendingFor key g <> []).
Proof.
  intros g.
  assert (I : Sockets.Inv g) by apply SocketsFacts.Inv_run,
    SocketsFacts.Inv_init.
  assert (T : forall k h,
            JsMap.get k (Sockets.typingTimeouts g) = Some h ->
            exists tm,
              In (h, tm) (Sockets.pending g) /\ Sockets.timeoutKey tm = k).
  { apply TimerFacts.tracked_run; [apply SocketsFacts.Inv_init|].
    intros k h. discriminate. }
  split.
  - unfold Sockets.pendingFor. apply (@filter_at_most_one _ fst).
    + apply (Sockets.inv_handles I).
    + intros [h1 tm1] [h2 tm2] H1 H2 E1 E2. simpl in *.
      apply String.eqb_eq in E1, E2.
      pose proof (@Sockets.inv_registered _ I h1 tm1 H1) as G1.
      pose proof (@Sockets.inv_registered _ I h2 tm2 H2) as G2.
      rewrite E1 in G1. rewrite E2 in G2. congruence.
  - unfold JsMap.has, Sockets.pendingFor. split.
    + destruct (JsMap.get key (Sockets.typingTimeouts g)) as [h|] eqn:E;
        [|discriminate].
      intros _. destruct (T key h E) as [tm [Hin Hk]].
      intros Hnil.
      assert (Hf : In (h, tm)
                     (filter
                        (fun x =>
                           String.eqb (Sockets.timeoutKey (snd x)) key)
                        (Sockets.pending g))).
      { apply filter_In. split; [exact Hin|]. simpl.
        now apply String.eqb_eq. }
      now rewrite Hnil in Hf.
    + intros Hne.
      destruct (filter _ (Sockets.pending g)) as [|[h tm] l] eqn:E;
        [congruence|].
      assert (Hf : In (h, tm)
                     (filter
                        (fun x =>
                           String.eqb (Sockets.timeoutKey (snd x)) key)
                        (Sockets.pending g))) by (rewrite E; now left).
      apply filter_In in Hf. destruct Hf as [Hin Hk]. simpl in Hk.
      apply String.eqb_eq in Hk.
      pose proof (@Sockets.inv_registered _ I h tm Hin) as G.
      rewrite Hk in G. now rewrite G.
Qed.

(** ** Who may write and read *)

Lemma mem_senders_extend (st st' : MemStorage.State) :
  (forall c, MemView.messagesOf st' c = MemView.messagesOf st c) ->
  (forall s c, MemStorage.isUserInConversation st s c = true ->
     MemStorage.isUserInConversation st' s c = true) ->
  memSendersParticipate st -> memSendersParticipate st'.
Proof.
  intros Hmsg Hmono H c msg Hin Hsys. rewrite Hmsg in Hin.
  destruct (H c msg Hin Hsys) as [s [Hs Hp]]. exists s. auto.
Qed.

Lemma db_senders_extend (st st' : DatabaseStorage.State) :
  DatabaseStorage.messages st' = DatabaseStorage.messages st ->
  (forall s c, DatabaseStorage.isUserInConversation st s c = true ->
     DatabaseStorage.isUserInConversation st' s c = true) ->
  dbSendersParticipate st -> dbSendersParticipate st'.
Proof.
  intros Hmsg Hmono H msg Hin Hsys. rewrite Hmsg in Hin.
  destruct (H msg Hin Hsys) as [s [Hs Hp]]. exists s. auto.
Qed.

Lemma mem_addParticipant_mono (st : MemStorage.State)
    (cid u rid : string) (t : Date) (s c : string) :
  MemStorage.isUserInConversation st s c = true ->
  MemStorage.isUserInConversation (MemStorage.addParticipant st cid u rid t)
    s c = true.
Proof.
  unfold MemStorage.isUserInConversation.
  fold (MemView.participantsOf st c).
  fold (MemView.participantsOf (MemStorage.addParticipant st cid u rid t) c).
  rewrite mem_addParticipant_participantsOf.
  destruct (String.eqb c cid) eqn:E; [|tauto].
  apply String.eqb_eq in E. subst c. rewrite existsb_app. intros ->.
  reflexivity.
Qed.

Lemma mem_addParticipants_mono (ids : list string) (st : MemStorage.State)
    (cid : string) (e : Env) (k : nat) (s c : string) :
  MemStorage.isUserInConversation st s c = true ->
  MemStorage.isUserInConversation
    (MemStorage.addParticipants st cid ids e k) s c = true.
Proof.
  revert st k. induction ids as [|u r IH]; intros st k H; [exact H|].
  simpl. apply IH. now apply mem_addParticipant_mono.
Qed.

Lemma mem_createConversation_mono (st : MemStorage.State)
    (data : CreateConversationRequest.t) (creator : string) (e : Env) :
  (forall c,
     MemView.messagesOf (snd (MemStorage.createConversation st data creator e))
       c
     = MemView.messagesOf st c)
  /\ (forall s c, MemStorage.isUserInConversation st s c = true ->
        MemStorage.isUserInConversation
          (snd (MemStorage.createConversation st data creator e)) s c
        = true).
Proof.
  unfold MemStorage.createConversation. cbn [snd]. split.
  - intros c. unfold MemView.messagesOf.
    match goal with
    | |- context [MemStorage.addParticipants ?s0 ?c0 ?i ?e0 ?k] =>
        destruct (mem_addParticipants_fields i s0 c0 e0 k) as (_ & _ & H & _)
    end.
    now rewrite H.
  - intros s c H. apply mem_addParticipants_mono.
    apply mem_addParticipant_mono. exact H.
Qed.

Lemma mem_findOrCreate_mono (st : MemStorage.State) (u1 u2 : string)
    (e : Env) :
  (forall c,
     MemView.messagesOf
       (snd (MemStorage.findOrCreatePrivateConversation st u1 u2 e)) c
     = MemView.messagesOf st c)
  /\ (forall s c, MemStorage.isUserInConversation st s c = true ->
        MemStorage.isUserInConversation
          (snd (MemStorage.findOrCreatePrivateConversation st u1 u2 e)) s c
        = true).
Proof.
  unfold MemStorage.findOrCreatePrivateConversation.
  destruct (find _ _); [now split|]. apply mem_createConversation_mono.
Qed.

Lemma db_isUserInConversation_app (st : DatabaseStorage.State)
    (rows : list ConversationParticipant.t) (s c : string) :
  DatabaseStorage.isUserInConversation st s c = true ->
  match
    find (DatabaseStorage.membershipOf s c)
      (DatabaseStorage.conversationParticipants st ++ rows)
  with
  | Some _ => true
  | None => false
  end = true.
Proof.
  unfold DatabaseStorage.isUserInConversation. rewrite find_app.
  now destruct (find _ (DatabaseStorage.conversationParticipants st)).
Qed.

Lemma db_createConversation_mono (st : DatabaseStorage.State)
    (data : CreateConversationRequest.t) (creator : string) (e : Env) :
  DatabaseStorage.messages
    (snd (DatabaseStorage.createConversation st data creator e))
  = DatabaseStorage.messages st
  /\ (forall s c, DatabaseStorage.isUserInConversation st s c = true ->
        DatabaseStorage.isUserInConversation
          (snd (DatabaseStorage.createConversation st data creator e)) s c
        = true).
Proof.
  pose proof (db_createConversation_rows st data creator e) as H.
  destruct (DatabaseStorage.createConversation st data creator e)
    as [conv st'].
  destruct H as (rows & Hrows & _ & _ & _ & _ & Hmsg & _). cbn [snd].
  split; [exact Hmsg|].
  intros s c Hin. unfold DatabaseStorage.isUserInConversation at 1.
  rewrite Hrows. now apply db_isUserInConversation_app.
Qed.

Lemma db_findOrCreate_mono (st : DatabaseStorage.State) (u1 u2 : string)
    (e : Env) :
  DatabaseStorage.messages
    (snd (DatabaseStorage.findOrCreatePrivateConversation st u1 u2 e))
  = DatabaseStorage.messages st
  /\ (forall s c, DatabaseStorage.isUserInConversation st s c = true ->
        DatabaseStorage.isUserInConversation
          (snd (DatabaseStorage.findOrCreatePrivateConversation st u1 u2 e))
          s c
        = true).
Proof.
  unfold DatabaseStorage.findOrCreatePrivateConversation.
  destruct (DatabaseStorage.firstPrivate _ _); [now split|].
  apply db_createConversation_mono.
Qed.

Lemma mem_createMessage_senders (st : MemStorage.State)
    (data : InsertMessage.t) (e : Env) :
  (InsertMessage.isSystem data = false ->
   exists s,
     InsertMessage.senderId data = Some s
     /\ MemStorage.isUserInConversation st s
          (InsertMessage.conversationId data)
        = true) ->
  memSendersParticipate st ->
  memSendersParticipate (snd (MemStorage.createMessage st data e)).
Proof.
  intros Hnew H c msg.
  pose proof (mem_createMessage_result st data e) as R.
  destruct (MemStorage.createMessage st data e) as [sent st'].
  cbn [snd]. destruct R as (Emsg & Happ & Hother & Hp & _).
  assert (Hsame : forall s c',
            MemStorage.isUserInConversation st' s c'
            = MemStorage.isUserInConversation st s c').
  { intros s c'. unfold MemStorage.isUserInConversation. now rewrite Hp. }
  destruct (string_dec c (InsertMessage.conversationId data)) as [->|Hc].
  - rewrite Happ. intros Hin Hsys. apply in_app_or in Hin.
    destruct Hin as [Hin|[<-|[]]].
    + destruct (H _ msg Hin Hsys) as [s [Hs Hpart]].
      exists s. now rewrite Hsame.
    + rewrite Emsg in *. simpl in *.
      destruct (Hnew Hsys) as [s [Hs Hpart]]. exists s. now rewrite Hsame.
  - rewrite (Hother c Hc). intros Hin Hsys.
    destruct (H _ msg Hin Hsys) as [s [Hs Hpart]].
    exists s. now rewrite Hsame.
Qed.

Lemma db_createMessage_senders (st : DatabaseStorage.State)
    (data : InsertMessage.t) (e : Env) :
  (InsertMessage.isSystem data = false ->
   exists s,
     InsertMessage.senderId data = Some s
     /\ DatabaseStorage.isUserInConversation st s
          (InsertMessage.conversationId data)
        = true) ->
  dbSendersParticipate st ->
  dbSendersParticipate (snd (DatabaseStorage.createMessage st data e)).
Proof.
  intros Hnew H msg. simpl. intros Hin Hsys. apply in_app_or in Hin.
  destruct Hin as [Hin|[<-|[]]].
  - exact (H msg Hin Hsys).
  - simpl in *. exact (Hnew Hsys).
Qed.

(** X17. No message is stored for a user who is not in the conversation:
    the two routes that store messages, sending a message and accepting
    a friend request, keep it true that every stored message other than
    a system message names a sender who is a participant of its
    conversation.  In both storage implementations. *)
Theorem stored_senders_are_participants
    (m : MemStorage.State) (d : DatabaseStorage.State)
    (userId : string) (input : SendMessageRequest.t) (e : Env)
    (requestId : string) (status : UpdateStatus) (e1 e2 : Env)
    (Hm : memSendersParticipate m)
    (Hd : dbSendersParticipate d) :
  (memSendersParticipate (snd (fst (Api.sendMessage m userId input e)))
   /\ memSendersParticipate
        (snd (fst (Routes.updateRequest m userId requestId status e1 e2))))
  /\ (dbSendersParticipate (snd (fst (Api.sendMessage d userId input e)))
      /\ dbSendersParticipate
           (snd (fst (Routes.updateRequest d userId requestId status e1
                        e2)))).
Proof.
  split; split.
  - unfold Api.sendMessage.
    destruct (ApiInput.sendMessage input) as [|issue issues]; [|exact Hm].
    cbn.
    destruct (MemStorage.isUserInConversation m userId _) eqn:Ein;
      [|exact Hm].
    cbn. apply (@mem_createMessage_senders m
                  (InsertMessage.mk (SendMessageRequest.conversationId input)
                     (Some userId) (SendMessageRequest.content input) false)
                  e); [|exact Hm].
    intros _. exists userId. now split.
  - unfold Routes.updateRequest. cbn.
    destruct (MemStorage.getFriendRequestById m requestId) as [req|];
      [|exact Hm].
    destruct (negb _); [exact Hm|]. cbn [fst snd].
    assert (H1 : memSendersParticipate
                   (MemStorage.updateFriendRequestStatus m requestId status))
      by exact Hm.
    destruct status; [|exact H1].
    pose proof (mem_findOrCreate_mono
                  (MemStorage.updateFriendRequestStatus m requestId
                     to_accepted)
                  (FriendRequest.receiverId req) (FriendRequest.senderId req)
                  e1) as [Hmsg Hmono].
    destruct (MemStorage.findOrCreatePrivateConversation _ _ _ _)
      as [conv st'].
    cbn [snd] in *.
    apply (@mem_createMessage_senders st'
             (InsertMessage.mk (Conversation.id conv) None Routes.friendsNow
                true)
             e2).
    + discriminate.
    + exact (@mem_senders_extend _ st' Hmsg Hmono H1).
  - unfold Api.sendMessage.
    destruct (ApiInput.sendMessage input) as [|issue issues]; [|exact Hd].
    cbn.
    destruct (DatabaseStorage.isUserInConversation d userId _) eqn:Ein;
      [|exact Hd].
    cbn. apply (@db_createMessage_senders d
                  (InsertMessage.mk (SendMessageRequest.conversationId input)
                     (Some userId) (SendMessageRequest.content input) false)
                  e); [|exact Hd].
    intros _. exists userId. now split.
  - unfold Routes.updateRequest. cbn.
    destruct (DatabaseStorage.getFriendRequestById d requestId) as [req|];
      [|exact Hd].
    destruct (negb _); [exact Hd|]. cbn [fst snd].
    assert (H1 : dbSendersParticipate
                   (DatabaseStorage.updateFriendRequestStatus d requestId
                      status))
      by exact Hd.
    destruct status; [|exact H1].
    pose proof (db_findOrCreate_mono
                  (DatabaseStorage.updateFriendRequestStatus d requestId
                     to_accepted)
                  (FriendRequest.receiverId req) (FriendRequest.senderId req)
                  e1) as [Hmsg Hmono].
    destruct (DatabaseStorage.findOrCreatePrivateConversation _ _ _ _)
      as [conv st'].
    cbn [snd] in *.
    apply (@db_createMessage_senders st'
             (InsertMessage.mk (Conversation.id conv) None Routes.friendsNow
                true)
             e2).
    + discriminate.
    + exact (@db_senders_extend _ st' Hmsg Hmono H1).
Qed.

Lemma stored_senders_are_participants_witness :
  memSendersParticipate
    (snd (fst (Api.sendMessage Scenario.Mem.chatting "bob"
                 (SendMessageRequest.mk "c-0" "here")
                 (Scenario.env 5000 "p-"))))
  /\ dbSendersParticipate
       (snd (fst (Api.sendMessage Scenario.Db.chatting "bob"
                    (SendMessageRequest.mk "c-0" "here")
                    (Scenario.env 5000 "p-")))).
Proof.
  assert (Hm : memSendersParticipate Scenario.Mem.chatting).
  { intros c msg Hin Hsys.
    unfold MemView.messagesOf, JsMap.get_or_nil in Hin. simpl in Hin.
    destruct (String.eqb c (Scenario.uuids "c-" 0)) eqn:E; simpl in Hin;
      [|contradiction].
    apply String.eqb_eq in E. subst c.
    destruct Hin as [<-|[<-|[<-|[]]]]; try discriminate;
      exists "alice"; split; reflexivity. }
  assert (Hd : dbSendersParticipate Scenario.Db.chatting).
  { intros msg Hin Hsys. simpl in Hin.
    destruct Hin as [<-|[<-|[<-|[]]]]; try discriminate;
      exists "alice"; split; reflexivity. }
  destruct (@stored_senders_are_participants Scenario.Mem.chatting
              Scenario.Db.chatting "bob" (SendMessageRequest.mk "c-0" "here")
              (Scenario.env 5000 "p-") "r-0" to_accepted
              (Scenario.env 6000 "q-") (Scenario.env 6001 "s-") Hm Hd)
    as [[H1 _] [H2 _]].
  split; [exact H1 | exact H2].
Defined.

Lemma attachSenders_length (g : string -> option User.t)
    (l : list Message.t) :
  (length (attachSenders g l) <= length l)%nat.
Proof.
  rewrite <- (length_map MessageWithSender.message),
    attachSenders_messages.
  apply filter_length_le.
Qed.

Lemma attachSenders_In (g : string -> option User.t) (l : list Message.t)
    (x : MessageWithSender.t) :
  In x (attachSenders g l) -> In (MessageWithSender.message x) l.
Proof.
  intros Hin. apply (in_map MessageWithSender.message) in Hin.
  rewrite attachSenders_messages in Hin. now apply filter_In in Hin.
Qed.

Lemma slice_length (A : Type) (limit : Z) (l : list A) :
  0 < limit -> (length (JsArray.slice (- limit) l) <= Z.to_nat limit)%nat.
Proof.
  intros H. unfold JsArray.slice.
  assert (E : (- limit <? 0) = true) by (apply Z.ltb_lt; lia).
  rewrite E, length_skipn. lia.
Qed.

Lemma In_skipn (A : Type) (k : nat) (l : list A) (x : A) :
  In x (skipn k l) -> In x l.
Proof.
  intros H. rewrite <- (firstn_skipn k l). apply in_or_app. now right.
Qed.

Lemma In_firstn (A : Type) (k : nat) (l : list A) (x : A) :
  In x (firstn k l) -> In x l.
Proof.
  intros H. rewrite <- (firstn_skipn k l). apply in_or_app. now left.
Qed.

(** X18. The messages route serves participants only, and never more
    than a hundred messages: it answers either 403, and then the caller
    is not a participant of the conversation, or 200 to a participant
    with at most 100 messages, every one of them a stored message of
    that conversation.  In both storage implementations. *)
Theorem messages_route_serves_participants
    (m : MemStorage.State) (d : DatabaseStorage.State)
    (userId conversationId : string) :
  match Api.getMessages m userId conversationId with
  | Api.reply code body =>
      code = 200
      /\ MemStorage.isUserInConversation m userId conversationId = true
      /\ (length body <= 100)%nat
      /\ forall x, In x body ->
           In (MessageWithSender.message x)
             (MemView.messagesOf m conversationId)
  | Api.failure code _ _ =>
      code = 403
      /\ MemStorage.isUserInConversation m userId conversationId = false
  end
  /\ match Api.getMessages d userId conversationId with
     | Api.reply code body =>
         code = 200
         /\ DatabaseStorage.isUserInConversation d userId conversationId
            = true
         /\ (length body <= 100)%nat
         /\ forall x, In x body ->
              In (MessageWithSender.message x)
                (DbView.messagesOf d conversationId)
     | Api.failure code _ _ =>
         code = 403
         /\ DatabaseStorage.isUserInConversation d userId conversationId
            = false
     end.
Proof.
  split.
  - unfold Api.getMessages. cbn.
    destruct (MemStorage.isUserInConversation m userId conversationId);
      cbn; [|now split].
    unfold MemStorage.getMessagesByConversationId.
    repeat split.
    + etransitivity; [apply attachSenders_length|].
      apply (@slice_length _ 100). lia.
    + intros x Hx. apply attachSenders_In in Hx.
      unfold JsArray.slice in Hx. now apply In_skipn in Hx.
  - unfold Api.getMessages. cbn.
    destruct (DatabaseStorage.isUserInConversation d userId conversationId);
      cbn; [|now split].
    unfold DatabaseStorage.getMessagesByConversationId. cbn.
    repeat split.
    + etransitivity; [apply attachSenders_length|].
      rewrite length_rev. apply firstn_le_length.
    + intros x Hx. apply attachSenders_In in Hx.
      apply in_rev, In_firstn in Hx.
      apply (Permutation_in _ (orderByDesc_perm _)) in Hx. exact Hx.
Qed.

(** ** Members of a new conversation *)

Lemma mem_createConversation_id (st : MemStorage.State)
    (data : CreateConversationRequest.t) (creator : string) (e : Env) :
  Conversation.id (fst (MemStorage.createConversation st data creator e))
  = uuid e 0%nat.
Proof. reflexivity. Qed.

Lemma db_createConversation_id (st : DatabaseStorage.State)
    (data : CreateConversationRequest.t) (creator : string) (e : Env) :
  Conversation.id (fst (DatabaseStorage.createConversation st data creator e))
  = uuid e 0%nat.
Proof. reflexivity. Qed.

(** X19. [createConversation] makes participants of the new conversation
    exactly the creator and the listed users, and changes the membership
    of no other conversation, whether or not the creator or a user is
    listed twice.  In both storage implementations, for an id that is
    not in use; in the relational one the creator and the listed users
    are stored users, as the foreign key of the memberships asks. *)
Theorem created_conversation_members
    (m : MemStorage.State) (d : DatabaseStorage.State)
    (data : CreateConversationRequest.t) (creator : string) (e : Env)
    (Hm : MemView.participantsOf m (uuid e 0%nat) = [])
    (Hunused : dbUnused d (uuid e 0%nat))
    (Hcreator : DatabaseStorage.getUserById d creator <> None)
    (Hlisted : forall u,
       In u (CreateConversationRequest.participantIds data) ->
       DatabaseStorage.getUserById d u <> None) :
  ((forall u,
      MemStorage.isUserInConversation
        (snd (MemStorage.createConversation m data creator e)) u
        (Conversation.id
           (fst (MemStorage.createConversation m data creator e)))
      = true
      <-> u = creator \/ In u (CreateConversationRequest.participantIds data))
   /\ forall u c,
        c <> Conversation.id
               (fst (MemStorage.createConversation m data creator e)) ->
        MemStorage.isUserInConversation
          (snd (MemStorage.createConversation m data creator e)) u c
        = MemStorage.isUserInConversation m u c)
  /\ ((forall u,
         DatabaseStorage.isUserInConversation
           (snd (DatabaseStorage.createConversation d data creator e)) u
           (Conversation.id
              (fst (DatabaseStorage.createConversation d data creator e)))
         = true
         <-> u = creator
             \/ In u (CreateConversationRequest.participantIds data))
      /\ forall u c,
           c <> Conversation.id
                  (fst (DatabaseStorage.createConversation d data creator
                          e)) ->
           DatabaseStorage.isUserInConversation
             (snd (DatabaseStorage.createConversation d data creator e)) u c
           = DatabaseStorage.isUserInConversation d u c).
Proof.
  destruct Hunused as [_ Hd]. split; split.
  - intros u. rewrite mem_isUserInConversation_In.
    pose proof (mem_createConversation_userIds m data creator e) as H.
    destruct (MemStorage.createConversation m data creator e) as [conv m'].
    cbn [fst snd]. rewrite H, Hm. simpl. intuition congruence.
  - intros u c Hc. rewrite mem_createConversation_id in Hc.
    unfold MemStorage.isUserInConversation, MemStorage.createConversation.
    cbn [snd Conversation.id].
    match goal with
    | |- context [MemStorage.addParticipants ?s0 ?c0 ?i ?e0 ?k] =>
        fold (MemView.participantsOf
                (MemStorage.addParticipants s0 c0 i e0 k) c);
        rewrite (@mem_addParticipants_other i s0 c0 c e0 k Hc)
    end.
    rewrite mem_addParticipant_participantsOf.
    apply String.eqb_neq in Hc. now rewrite Hc.
  - intros u. rewrite db_isUserInConversation_iff.
    pose proof (db_createConversation_rows d data creator e) as H.
    rewrite db_createConversation_id.
    destruct (DatabaseStorage.createConversation d data creator e)
      as [conv d'] eqn:Ec.
    assert (Eid : Conversation.id conv = uuid e 0%nat).
    { unfold DatabaseStorage.createConversation in Ec.
      now injection Ec as <- _. }
    destruct H as (rows & Hrows & Hids & Hconv & _). cbn [snd].
    rewrite Hrows. split.
    + intros (p & Hin & Hu & Hc). apply in_app_or in Hin.
      destruct Hin as [Hin|Hin].
      * exfalso. apply Hd. rewrite <- Hc. now apply in_map.
      * assert (Hl : In u (JsArray.unique
                             (CreateConversationRequest.participantIds data
                              ++ [creator]))).
        { rewrite <- Hids, <- Hu. now apply in_map. }
        apply unique_spec, in_app_or in Hl.
        destruct Hl as [Hl|[<-|[]]]; tauto.
    + intros Hu.
      assert (Hl : In u (map ConversationParticipant.userId rows)).
      { rewrite Hids. apply unique_spec, in_or_app. simpl.
        destruct Hu as [->|Hu]; tauto. }
      apply in_map_iff in Hl. destruct Hl as [p [Ep Hp]].
      exists p. split; [apply in_or_app; now right|]. split; [exact Ep|].
      rewrite Forall_forall in Hconv. rewrite (Hconv p Hp). exact Eid.
  - intros u c Hc. rewrite db_createConversation_id in Hc.
    pose proof (db_createConversation_rows d data creator e) as H.
    destruct (DatabaseStorage.createConversation d data creator e)
      as [conv d'] eqn:Ec.
    assert (Eid : Conversation.id conv = uuid e 0%nat).
    { unfold DatabaseStorage.createConversation in Ec.
      now injection Ec as <- _. }
    destruct H as (rows & Hrows & _ & Hconv & _). cbn [snd].
    unfold DatabaseStorage.isUserInConversation. rewrite Hrows, find_app.
    destruct (find _ (DatabaseStorage.conversationParticipants d));
      [reflexivity|].
    rewrite find_absent; [reflexivity|].
    intros p Hp. rewrite Forall_forall in Hconv.
    unfold DatabaseStorage.membershipOf. rewrite (Hconv p Hp), Eid.
    apply andb_false_iff. right. apply String.eqb_neq. congruence.
Qed.

Lemma created_conversation_members_witness :
  let data :=
    CreateConversationRequest.mk ["bob"; "carol"; "alice"] true
      (Some "Team") in
  let e := Scenario.env 5000 "g-" in
  (forall u,
     MemStorage.isUserInConversation
       (snd (MemStorage.createConversation Scenario.Mem.chatting data "alice"
               e))
       u "g-0"
     = true
     <-> u = "alice" \/ In u ["bob"; "carol"; "alice"])
  /\ (forall u,
        DatabaseStorage.isUserInConversation
          (snd (DatabaseStorage.createConversation Scenario.Db.chatting data
                  "alice" e))
          u "g-0"
        = true
        <-> u = "alice" \/ In u ["bob"; "carol"; "alice"]).
Proof.
  intros data e.
  assert (Hd : dbUnused Scenario.Db.chatting (uuid e 0%nat)).
  { split; simpl.
    - intros [H|[]]; discriminate.
    - intros [H|[H|[]]]; discriminate. }
  assert (Hcreator : DatabaseStorage.getUserById Scenario.Db.chatting "alice"
                     <> None) by discriminate.
  assert (Hlisted : forall u,
            In u (CreateConversationRequest.participantIds data) ->
            DatabaseStorage.getUserById Scenario.Db.chatting u <> None).
  { intros u [<-|[<-|[<-|[]]]]; discriminate. }
  destruct (@created_conversation_members Scenario.Mem.chatting
              Scenario.Db.chatting data "alice" e eq_refl Hd Hcreator
              Hlisted)
    as [[H1 _] [H2 _]].
  split; [exact H1 | exact H2].
Defined.

(** ** Presence and accounts *)

Lemma find_values_mutate (V : Type) (p : V -> bool) (k : string)
    (f : V -> V) (m : JsMap.t V) :
  (forall x, p (f x) = p x) ->
  find p (JsMap.values (JsMap.mutate k f m)) = find p (JsMap.values m)
  \/ find p (JsMap.values (JsMap.mutate k f m))
     = option_map f (find p (JsMap.values m)).
Proof.
  intros Hp. unfold JsMap.values.
  induction m as [|[k0 v0] r IH]; simpl; [now left|].
  destruct (String.eqb k k0); simpl.
  - rewrite Hp. destruct (p v0); [now right | now left].
  - destruct (p v0); [now left | exact IH].
Qed.

Lemma mem_getUserByUsername_presence (st : MemStorage.State)
    (u : string) (online : bool) (t : Date) (n : string) :
  MemStorage.getUserByUsername
    (MemStorage.updateUserOnlineStatus st u online t) n
  = MemStorage.getUserByUsername st n
  \/ MemStorage.getUserByUsername
       (MemStorage.updateUserOnlineStatus st u online t) n
     = option_map (User.with_presence online (Some t))
         (MemStorage.getUserByUsername st n).
Proof.
  unfold MemStorage.getUserByUsername, MemStorage.updateUserOnlineStatus.
  simpl. now apply find_values_mutate.
Qed.

Lemma db_getUserByUsername_presence (st : DatabaseStorage.State)
    (u : string) (online : bool) (t : Date) (n : string) :
  DatabaseStorage.getUserByUsername
    (DatabaseStorage.updateUserOnlineStatus st u online t) n
  = option_map
      (fun x =>
         if String.eqb (User.id x) u
         then User.with_presence online (Some t) x
         else x)
      (DatabaseStorage.getUserByUsername st n).
Proof.
  unfold DatabaseStorage.getUserByUsername,
    DatabaseStorage.updateUserOnlineStatus. simpl.
  apply find_map_preserving.
  intros x. now destruct (String.eqb (User.id x) u).
Qed.

(** X20. Presence updates never touch what a login reads: after
    [updateUserOnlineStatus], for any user and flag, every login request
    is answered as it was before.  In both storage implementations. *)
Theorem presence_update_keeps_logins
    (bcryptCompare : string -> string -> bool)
    (generateToken : string -> string)
    (m : MemStorage.State) (d : DatabaseStorage.State)
    (userId : string) (isOnline : bool) (now : Date)
    (input : LoginRequest.t) :
  Api.login bcryptCompare generateToken
    (MemStorage.updateUserOnlineStatus m userId isOnline now) input
  = Api.login bcryptCompare generateToken m input
  /\ Api.login bcryptCompare generateToken
       (DatabaseStorage.updateUserOnlineStatus d userId isOnline now) input
     = Api.login bcryptCompare generateToken d input.
Proof.
  split.
  - unfold Api.login, IStorageRest.getUserByUsername,
      MemStorage_IStorageRest.
    destruct (mem_getUserByUsername_presence m userId isOnline now
                (LoginRequest.username input)) as [E|E]; rewrite E;
      [reflexivity|].
    now destruct (MemStorage.getUserByUsername m _).
  - unfold Api.login, IStorageRest.getUserByUsername,
      DatabaseStorage_IStorageRest.
    rewrite db_getUserByUsername_presence.
    destruct (DatabaseStorage.getUserByUsername d _) as [u|]; [|reflexivity].
    simpl. now destruct (String.eqb (User.id u) userId).
Qed.

(** ** The conversation list *)

Lemma StronglySorted_weaken (A : Type) (R R' : A -> A -> Prop) (l : list A) :
  (forall a b, R a b -> R' a b) -> StronglySorted R l -> StronglySorted R' l.
Proof.
  intros H. induction 1 as [|a l Hs IH Ha]; constructor; [exact IH|].
  rewrite Forall_forall in *. auto.
Qed.

Lemma StronglySorted_map (A B : Type) (f : A -> B) (R : B -> B -> Prop)
    (l : list A) :
  StronglySorted (fun a b => R (f a) (f b)) l -> StronglySorted R (map f l).
Proof.
  induction 1 as [|a l Hs IH Ha]; simpl; constructor; [exact IH|].
  rewrite Forall_forall in *. intros y Hy.
  apply in_map_iff in Hy. destruct Hy as [x [<- Hx]]. auto.
Qed.

Lemma In_get (V : Type) (k : string) (v : V) (m : JsMap.t V) :
  NoDup (JsMap.keys m) -> (In (k, v) m <-> JsMap.get k m = Some v).
Proof.
  unfold JsMap.keys. induction m as [|[k0 v0] r IH]; simpl; intros Hn.
  - split; [tauto | discriminate].
  - inversion Hn as [|? ? H0 Hr]; subst.
    destruct (String.eqb k k0) eqn:E.
    + apply String.eqb_eq in E. subst k0. split.
      * intros [[= ->]|Hin]; [reflexivity|].
        exfalso. apply H0. apply in_map_iff. now exists (k, v).
      * intros [= ->]. now left.
    + apply String.eqb_neq in E. rewrite <- (IH Hr). split.
      * intros [[= ? ?]|Hin]; [congruence | exact Hin].
      * tauto.
Qed.

Lemma moreRecent_total (a b : Conversation.t) :
  DatabaseStorage.moreRecent a b = false ->
  DatabaseStorage.moreRecent b a = true.
Proof.
  unfold DatabaseStorage.moreRecent.
  destruct (Conversation.lastMessageAt a), (Conversation.lastMessageAt b);
    try discriminate; try reflexivity.
  intros H. apply Z.leb_gt in H. apply Z.leb_le. lia.
Qed.

Lemma moreRecent_trans (a b c : Conversation.t) :
  DatabaseStorage.moreRecent a b = true ->
  DatabaseStorage.moreRecent b c = true ->
  DatabaseStorage.moreRecent a c = true.
Proof.
  unfold DatabaseStorage.moreRecent.
  destruct (Conversation.lastMessageAt a), (Conversation.lastMessageAt b),
    (Conversation.lastMessageAt c); try discriminate; try reflexivity.
  intros H1 H2. apply Z.leb_le in H1, H2. apply Z.leb_le. lia.
Qed.

Lemma mem_conversations_In (st : MemStorage.State) (userId : string)
    (cd : ConversationWithDetails.t) :
  NoDup (JsMap.keys (MemStorage.conversationParticipants st)) ->
  In cd (MemStorage.getConversationsByUserId st userId)
  <-> exists id conv,
        MemStorage.isUserInConversation st userId id = true
        /\ MemStorage.getConversationById st id = Some conv
        /\ cd
           = ConversationWithDetails.mk conv
               (MemStorage.getConversationParticipants st id)
               (MemStorage.lastMessageWithSender st
                  (MemView.messagesOf st id))
               (MemStorage.getUnreadCount st userId id).
Proof.
  intros Hn. unfold MemStorage.getConversationsByUserId.
  rewrite In_sortBy, in_flat_map. split.
  - intros [id [Hid Hcd]]. apply in_map_iff in Hid.
    destruct Hid as [[k ps] [Ek Hin]]. simpl in Ek. subst k.
    apply filter_In in Hin. destruct Hin as [Hin Hex]. simpl in Hex.
    apply (In_get _ _ _ Hn) in Hin.
    destruct (JsMap.get id (MemStorage.conversations st)) as [conv|] eqn:Ec;
      [|destruct Hcd].
    destruct Hcd as [<-|[]]. exists id, conv. repeat split.
    + unfold MemStorage.isUserInConversation, JsMap.get_or_nil.
      now rewrite Hin.
    + exact Ec.
  - intros (id & conv & Hp & Hc & ->). exists id. split.
    + unfold MemStorage.isUserInConversation, JsMap.get_or_nil in Hp.
      destruct (JsMap.get id (MemStorage.conversationParticipants st))
        as [ps|] eqn:Eg; [|discriminate].
      apply in_map_iff. exists (id, ps). split; [reflexivity|].
      apply filter_In. split; [|exact Hp]. now apply (In_get _ _ _ Hn).
    + unfold MemStorage.getConversationById in Hc. rewrite Hc. now left.
Qed.

Lemma db_conversations_In (utcOffset : Date -> Z)
    (st : DatabaseStorage.State) (userId : string)
    (cd : ConversationWithDetails.t) :
  In cd (DatabaseStorage.getConversationsByUserId utcOffset st userId)
  <-> exists conv,
        In conv (DatabaseStorage.conversations st)
        /\ DatabaseStorage.isUserInConversation st userId
             (Conversation.id conv)
           = true
        /\ cd
           = ConversationWithDetails.mk conv
               (DatabaseStorage.getConversationParticipants st
                  (Conversation.id conv))
               (DatabaseStorage.lastMessageOf st (Conversation.id conv))
               (DatabaseStorage.getUnreadCount utcOffset st userId
                  (Conversation.id conv)).
Proof.
  unfold DatabaseStorage.getConversationsByUserId.
  set (ids := map ConversationParticipant.conversationId
                (filter
                   (fun p =>
                      String.eqb (ConversationParticipant.userId p) userId)
                   (DatabaseStorage.conversationParticipants st))).
  assert (Hids : forall c,
            In c ids
            <-> DatabaseStorage.isUserInConversation st userId c = true).
  { intros c. rewrite db_isUserInConversation_iff. unfold ids.
    rewrite in_map_iff. split.
    - intros [p [Ec Hp]]. apply filter_In in Hp. destruct Hp as [Hin Hu].
      apply String.eqb_eq in Hu. now exists p.
    - intros (p & Hin & Hu & Hc). exists p. split; [exact Hc|].
      apply filter_In. split; [exact Hin|]. now apply String.eqb_eq. }
  assert (Hmain :
            In cd
              (map
                 (fun conv =>
                    ConversationWithDetails.mk conv
                      (DatabaseStorage.getConversationParticipants st
                         (Conversation.id conv))
                      (DatabaseStorage.lastMessageOf st (Conversation.id conv))
                      (DatabaseStorage.getUnreadCount utcOffset st userId
                         (Conversation.id conv)))
                 (JsArray.sortBy DatabaseStorage.moreRecent
                    (filter
                       (fun c => JsArray.includes (Conversation.id c) ids)
                       (DatabaseStorage.conversations st))))
            <-> exists conv,
                  In conv (DatabaseStorage.conversations st)
                  /\ DatabaseStorage.isUserInConversation st userId
                       (Conversation.id conv)
                     = true
                  /\ cd
                     = ConversationWithDetails.mk conv
                         (DatabaseStorage.getConversationParticipants st
                            (Conversation.id conv))
                         (DatabaseStorage.lastMessageOf st
                            (Conversation.id conv))
                         (DatabaseStorage.getUnreadCount utcOffset st userId
                            (Conversation.id conv))).
  { rewrite in_map_iff. split.
    - intros [conv [E Hin]]. apply In_sortBy, filter_In in Hin.
      destruct Hin as [Hin Hinc]. apply includes_In, Hids in Hinc.
      exists conv. now repeat split.
    - intros (conv & Hin & Hp & ->). exists conv. split; [reflexivity|].
      apply In_sortBy, filter_In. split; [exact Hin|].
      now apply includes_In, Hids. }
  destruct ids as [|i l] eqn:E; [|exact Hmain].
  split; [intros []|].
  intros (conv & _ & Hp & _). apply Hids in Hp. destruct Hp.
Qed.

Lemma mem_conversations_sorted (st : MemStorage.State) (userId : string) :
  StronglySorted
    (fun a b =>
       MemStorage.lastActivity (ConversationWithDetails.conversation b)
       <= MemStorage.lastActivity (ConversationWithDetails.conversation a))
    (MemStorage.getConversationsByUserId st userId).
Proof.
  unfold MemStorage.getConversationsByUserId.
  eapply StronglySorted_weaken; [|apply sortBy_sorted].
  - intros a b H. simpl in H. now apply Z.leb_le.
  - intros a b H. apply Z.leb_gt in H. apply Z.leb_le. lia.
  - intros a b c H1 H2. apply Z.leb_le in H1, H2. apply Z.leb_le. lia.
Qed.

Lemma db_conversations_sorted (utcOffset : Date -> Z)
    (st : DatabaseStorage.State) (userId : string) :
  StronglySorted
    (fun a b =>
       DatabaseStorage.moreRecent (ConversationWithDetails.conversation a)
         (ConversationWithDetails.conversation b)
       = true)
    (DatabaseStorage.getConversationsByUserId utcOffset st userId).
Proof.
  unfold DatabaseStorage.getConversationsByUserId.
  destruct (map ConversationParticipant.conversationId _); [constructor|].
  apply StronglySorted_map. simpl.
  apply (@sortBy_sorted _ DatabaseStorage.moreRecent).
  - apply moreRecent_total.
  - apply moreRecent_trans.
Qed.

(** X21. [getConversationsByUserId(U)] lists exactly the stored
    conversations U is a participant of, each with its participants, its
    last message and U's unread count of it, ordered by last activity,
    the most recent first.  In both storage implementations, whatever
    the time zone of the process; the [Map] of memberships of the
    in-memory one holds a key once. *)
Theorem conversation_list_of_a_user
    (m : MemStorage.State) (d : DatabaseStorage.State)
    (utcOffset : Date -> Z) (userId : string)
    (Hm : NoDup (JsMap.keys (MemStorage.conversationParticipants m))) :
  ((forall cd,
      In cd (MemStorage.getConversationsByUserId m userId)
      <-> exists id conv,
            MemStorage.isUserInConversation m userId id = true
            /\ MemStorage.getConversationById m id = Some conv
            /\ cd
               = ConversationWithDetails.mk conv
                   (MemStorage.getConversationParticipants m id)
                   (MemStorage.lastMessageWithSender m
                      (MemView.messagesOf m id))
                   (MemStorage.getUnreadCount m userId id))
   /\ StronglySorted
        (fun a b =>
           MemStorage.lastActivity (ConversationWithDetails.conversation b)
           <= MemStorage.lastActivity
                (ConversationWithDetails.conversation a))
        (MemStorage.getConversationsByUserId m userId))
  /\ ((forall cd,
         In cd (DatabaseStorage.getConversationsByUserId utcOffset d userId)
         <-> exists conv,
               In conv (DatabaseStorage.conversations d)
               /\ DatabaseStorage.isUserInConversation d userId
                    (Conversation.id conv)
                  = true
               /\ cd
                  = ConversationWithDetails.mk conv
                      (DatabaseStorage.getConversationParticipants d
                         (Conversation.id conv))
                      (DatabaseStorage.lastMessageOf d (Conversation.id conv))
                      (DatabaseStorage.getUnreadCount utcOffset d userId
                         (Conversation.id conv)))
      /\ StronglySorted
           (fun a b =>
              DatabaseStorage.moreRecent
                (ConversationWithDetails.conversation a)
                (ConversationWithDetails.conversation b)
              = true)
           (DatabaseStorage.getConversationsByUserId utcOffset d userId)).
Proof.
  split; split.
  - intros cd. now apply mem_conversations_In.
  - apply mem_conversations_sorted.
  - intros cd. apply db_conversations_In.
  - apply db_conversations_sorted.
Qed.

Lemma conversation_list_of_a_user_witness :
  StronglySorted
    (fun a b =>
       MemStorage.lastActivity (ConversationWithDetails.conversation b)
       <= MemStorage.lastActivity (ConversationWithDetails.conversation a))
    (MemStorage.getConversationsByUserId Scenario.Mem.chatting "bob")
  /\ StronglySorted
       (fun a b =>
          DatabaseStorage.moreRecent (ConversationWithDetails.conversation a)
            (ConversationWithDetails.conversation b)
          = true)
       (DatabaseStorage.getConversationsByUserId PgDriver.utc
          Scenario.Db.chatting "bob").
Proof.
  assert (Hm : NoDup
                 (JsMap.keys
                    (MemStorage.conversationParticipants
                       Scenario.Mem.chatting))).
  { repeat constructor. simpl. tauto. }
  destruct (@conversation_list_of_a_user Scenario.Mem.chatting
              Scenario.Db.chatting PgDriver.utc "bob" Hm)
    as [[_ H1] [_ H2]].
  split; [exact H1 | exact H2].
Defined.

(** ** A new message and the conversation list *)

Lemma sorted_head (A : Type) (R : A -> A -> Prop) (l : list A) (x : A) :
  StronglySorted R l -> In x l ->
  (forall y, In y l -> y = x \/ ~ R y x) ->
  exists rest, l = x :: rest.
Proof.
  intros Hs Hin Hx. destruct l as [|h t]; [destruct Hin|].
  destruct Hin as [->|Hin]; [now exists t|].
  destruct (Hx h (or_introl eq_refl)) as [->|Hh]; [now exists t|].
  exfalso. inversion Hs as [|? ? _ Hall]; subst.
  rewrite Forall_forall in Hall. apply Hh. now apply Hall.
Qed.

Lemma lastOf_snoc (A : Type) (l : list A) (x : A) :
  JsArray.lastOf (l ++ [x]) = Some x.
Proof.
  induction l as [|a r IH]; simpl; [reflexivity|].
  rewrite IH. now destruct (r ++ [x]) eqn:E; [destruct r|].
Qed.

Lemma orderByDesc_snoc (l : list Message.t) (m : Message.t) :
  (forall x, In x l -> Message.createdAt x < Message.createdAt m) ->
  orderByDesc (l ++ [m]) = m :: orderByDesc l.
Proof.
  induction l as [|a r IH]; simpl; intros H; [reflexivity|].
  rewrite IH by (intros x Hx; apply H; now right). simpl.
  assert (E : (Message.createdAt m <=? Message.createdAt a) = false).
  { apply Z.leb_gt. apply H. now left. }
  now rewrite E.
Qed.

Lemma mem_new_message_on_top (m : MemStorage.State)
    (data : InsertMessage.t) (e : Env) (u s : string)
    (conv : Conversation.t) (sender : User.t) :
  NoDup (JsMap.keys (MemStorage.conversationParticipants m)) ->
  MemStorage.isUserInConversation m u (InsertMessage.conversationId data)
  = true ->
  MemStorage.getConversationById m (InsertMessage.conversationId data)
  = Some conv ->
  (forall id conv',
     MemStorage.getConversationById m id = Some conv' ->
     MemStorage.lastActivity conv' < now e) ->
  InsertMessage.isSystem data = false ->
  InsertMessage.senderId data = Some s -> truthy s = true ->
  MemStorage.getUserById m s = Some sender ->
  exists rest,
    MemStorage.getConversationsByUserId
      (snd (MemStorage.createMessage m data e)) u
    = ConversationWithDetails.mk
        (Conversation.with_lastMessageAt (Some (now e)) conv)
        (MemStorage.getConversationParticipants m
           (InsertMessage.conversationId data))
        (Some (fst (MemStorage.createMessage m data e)))
        (MemStorage.getUnreadCount (snd (MemStorage.createMessage m data e))
           u (InsertMessage.conversationId data))
      :: rest.
Proof.
  intros Hn Hu Hc Hlate Hsys Hsender Hs Hsm.
  set (c := InsertMessage.conversationId data) in *.
  set (m' := snd (MemStorage.createMessage m data e)).
  set (msg := Message.mk (uuid e 0%nat) c (Some s)
                (InsertMessage.content data) false (now e)).
  assert (Hn' : NoDup (JsMap.keys (MemStorage.conversationParticipants m')))
    by exact Hn.
  assert (Hconv : forall id,
            MemStorage.getConversationById m' id
            = if String.eqb id c
              then option_map
                     (Conversation.with_lastMessageAt (Some (now e)))
                     (MemStorage.getConversationById m id)
              else MemStorage.getConversationById m id).
  { intros id. unfold MemStorage.getConversationById, m'. simpl.
    apply get_mutate. }
  assert (Hmsgs : MemView.messagesOf m' c = MemView.messagesOf m c ++ [msg]).
  { unfold MemView.messagesOf, m', msg. simpl.
    rewrite get_or_nil_set, String.eqb_refl. fold c.
    now rewrite Hsender, Hsys. }
  assert (Hsent : fst (MemStorage.createMessage m data e)
                  = MessageWithSender.mk msg (Some sender)).
  { unfold MemStorage.createMessage, msg. simpl. fold c.
    rewrite Hsender, Hsys. unfold createdSender. simpl. rewrite Hs.
    change (MemStorage.getUserById _ s) with (MemStorage.getUserById m s).
    now rewrite Hsm. }
  assert (Hlast : MemStorage.lastMessageWithSender m'
                    (MemView.messagesOf m' c)
                  = Some (MessageWithSender.mk msg (Some sender))).
  { rewrite Hmsgs. unfold MemStorage.lastMessageWithSender.
    rewrite lastOf_snoc. simpl. rewrite Hs.
    change (MemStorage.getUserById m' s) with (MemStorage.getUserById m s).
    now rewrite Hsm. }
  rewrite Hsent.
  apply (@sorted_head _
           (fun a b =>
              MemStorage.lastActivity (ConversationWithDetails.conversation b)
              <= MemStorage.lastActivity
                   (ConversationWithDetails.conversation a))).
  - apply mem_conversations_sorted.
  - apply (mem_conversations_In m' u _ Hn').
    exists c, (Conversation.with_lastMessageAt (Some (now e)) conv).
    split; [exact Hu|]. split.
    + now rewrite Hconv, String.eqb_refl, Hc.
    + now rewrite Hlast.
  - intros y Hy. apply (mem_conversations_In m' u _ Hn') in Hy.
    destruct Hy as (id & conv' & _ & Hget & ->).
    rewrite Hconv in Hget. destruct (String.eqb id c) eqn:E.
    + left. apply String.eqb_eq in E. subst id. rewrite Hc in Hget.
      injection Hget as <-. now rewrite Hlast.
    + right. change (~ now e <= MemStorage.lastActivity conv').
      specialize (Hlate id conv' Hget). lia.
Qed.

Lemma db_new_message_on_top (utcOffset : Date -> Z)
    (d : DatabaseStorage.State) (data : InsertMessage.t) (e : Env)
    (u s : string) (conv : Conversation.t) (sender : User.t) :
  NoDup (map Conversation.id (DatabaseStorage.conversations d)) ->
  DatabaseStorage.isUserInConversation d u (InsertMessage.conversationId data)
  = true ->
  In conv (DatabaseStorage.conversations d) ->
  Conversation.id conv = InsertMessage.conversationId data ->
  (forall conv',
     In conv' (DatabaseStorage.conversations d) ->
     exists t, Conversation.lastMessageAt conv' = Some t /\ t < now e) ->
  (forall x,
     In x (DbView.messagesOf d (InsertMessage.conversationId data)) ->
     Message.createdAt x < now e) ->
  InsertMessage.isSystem data = false ->
  InsertMessage.senderId data = Some s -> truthy s = true ->
  DatabaseStorage.getUserById d s = Some sender ->
  exists rest,
    DatabaseStorage.getConversationsByUserId utcOffset
      (snd (DatabaseStorage.createMessage d data e)) u
    = ConversationWithDetails.mk
        (Conversation.with_lastMessageAt (Some (now e)) conv)
        (DatabaseStorage.getConversationParticipants d
           (InsertMessage.conversationId data))
        (Some (fst (DatabaseStorage.createMessage d data e)))
        (DatabaseStorage.getUnreadCount utcOffset
           (snd (DatabaseStorage.createMessage d data e)) u
           (InsertMessage.conversationId data))
      :: rest.
Proof.
  intros Hn Hu Hc Hid Hlate Hold Hsys Hsender Hs Hsd.
  set (c := InsertMessage.conversationId data) in *.
  set (d' := snd (DatabaseStorage.createMessage d data e)).
  set (msg := Message.mk (uuid e 0%nat) c (Some s)
                (InsertMessage.content data) false (now e)).
  set (conv1 := Conversation.with_lastMessageAt (Some (now e)) conv).
  assert (Hid1 : Conversation.id conv1 = c) by exact Hid.
  assert (Hsent : fst (DatabaseStorage.createMessage d data e)
                  = MessageWithSender.mk msg (Some sender)).
  { unfold DatabaseStorage.createMessage, msg. simpl. fold c.
    rewrite Hsender, Hsys. unfold createdSender. simpl. rewrite Hs.
    change (DatabaseStorage.getUserById _ s)
      with (DatabaseStorage.getUserById d s).
    now rewrite Hsd. }
  assert (Hlast : DatabaseStorage.lastMessageOf d' c
                  = Some (MessageWithSender.mk msg (Some sender))).
  { unfold DatabaseStorage.lastMessageOf, d'. simpl. fold c.
    rewrite filter_app. simpl. rewrite String.eqb_refl.
    fold (DbView.messagesOf d c). rewrite Hsender, Hsys. fold msg.
    rewrite orderByDesc_snoc by exact Hold. simpl. rewrite Hs.
    change (DatabaseStorage.getUserById _ s)
      with (DatabaseStorage.getUserById d s).
    now rewrite Hsd. }
  assert (Hconvs : DatabaseStorage.conversations d'
                   = map
                       (fun x =>
                          if String.eqb (Conversation.id x) c
                          then Conversation.with_lastMessageAt
                                 (Some (now e)) x
                          else x)
                       (DatabaseStorage.conversations d))
    by reflexivity.
  rewrite Hsent.
  apply (@sorted_head _
           (fun a b =>
              DatabaseStorage.moreRecent
                (ConversationWithDetails.conversation a)
                (ConversationWithDetails.conversation b)
              = true)).
  - apply db_conversations_sorted.
  - apply db_conversations_In. exists conv1. split; [|split].
    + rewrite Hconvs. apply in_map_iff. exists conv.
      split; [|exact Hc]. apply String.eqb_eq in Hid. now rewrite Hid.
    + rewrite Hid1. exact Hu.
    + now rewrite Hid1, Hlast.
  - intros y Hy. apply db_conversations_In in Hy.
    destruct Hy as (conv' & Hin & _ & ->).
    rewrite Hconvs in Hin. apply in_map_iff in Hin.
    destruct Hin as [c0 [E0 Hin0]].
    destruct (String.eqb (Conversation.id c0) c) eqn:E.
    + left. apply String.eqb_eq in E.
      assert (Ec : c0 = conv).
      { apply (NoDup_map_eq Conversation.id _ c0 conv Hn Hin0 Hc).
        congruence. }
      subst c0 conv'. fold conv1. now rewrite Hid1, Hlast.
    + right. subst conv'. simpl.
      destruct (Hlate c0 Hin0) as [t [Et Ht]].
      unfold DatabaseStorage.moreRecent. rewrite Et. simpl.
      intros H. apply Z.leb_le in H. lia.
Qed.

(** X22. A message sent later than every last activity puts its
    conversation at the head of each participant's conversation list,
    carrying the new [lastMessageAt], the message itself as last message
    and the participant's unread count.  For a message of a stored user;
    in both storage implementations (the in-memory [Map] of memberships
    holds a key once; in the relational one conversation ids are unique,
    no [lastMessageAt] is null and the messages of the conversation are
    older than the new one), whatever the time zone of the process. *)
Theorem new_message_tops_the_conversation_list
    (m : MemStorage.State) (d : DatabaseStorage.State)
    (utcOffset : Date -> Z) (data : InsertMessage.t) (e : Env)
    (userId senderId : string)
    (convm convd : Conversation.t) (senderm senderd : User.t)
    (Hsys : InsertMessage.isSystem data = false)
    (Hsender : InsertMessage.senderId data = Some senderId)
    (Hid : truthy senderId = true)
    (Hmk : NoDup (JsMap.keys (MemStorage.conversationParticipants m)))
    (Hmu : MemStorage.isUserInConversation m userId
             (InsertMessage.conversationId data) = true)
    (Hmc : MemStorage.getConversationById m
             (InsertMessage.conversationId data) = Some convm)
    (Hml : forall id conv',
             MemStorage.getConversationById m id = Some conv' ->
             MemStorage.lastActivity conv' < now e)
    (Hms : MemStorage.getUserById m senderId = Some senderm)
    (Hdk : NoDup (map Conversation.id (DatabaseStorage.conversations d)))
    (Hdu : DatabaseStorage.isUserInConversation d userId
             (InsertMessage.conversationId data) = true)
    (Hdc : In convd (DatabaseStorage.conversations d))
    (Hdi : Conversation.id convd = InsertMessage.conversationId data)
    (Hdl : forall conv',
             In conv' (DatabaseStorage.conversations d) ->
             exists t, Conversation.lastMessageAt conv' = Some t /\ t < now e)
    (Hdo : forall x,
             In x (DbView.messagesOf d (InsertMessage.conversationId data)) ->
             Message.createdAt x < now e)
    (Hds : DatabaseStorage.getUserById d senderId = Some senderd) :
  (exists rest,
     MemStorage.getConversationsByUserId
       (snd (MemStorage.createMessage m data e)) userId
     = ConversationWithDetails.mk
         (Conversation.with_lastMessageAt (Some (now e)) convm)
         (MemStorage.getConversationParticipants m
            (InsertMessage.conversationId data))
         (Some (fst (MemStorage.createMessage m data e)))
         (MemStorage.getUnreadCount (snd (MemStorage.createMessage m data e))
            userId (InsertMessage.conversationId data))
       :: rest)
  /\ (exists rest,
        DatabaseStorage.getConversationsByUserId utcOffset
          (snd (DatabaseStorage.createMessage d data e)) userId
        = ConversationWithDetails.mk
            (Conversation.with_lastMessageAt (Some (now e)) convd)
            (DatabaseStorage.getConversationParticipants d
               (InsertMessage.conversationId data))
            (Some (fst (DatabaseStorage.createMessage d data e)))
            (DatabaseStorage.getUnreadCount utcOffset
               (snd (DatabaseStorage.createMessage d data e)) userId
               (InsertMessage.conversationId data))
          :: rest).
Proof.
  split.
  - exact (@mem_new_message_on_top m data e userId senderId convm senderm
             Hmk Hmu Hmc Hml Hsys Hsender Hid Hms).
  - exact (@db_new_message_on_top utcOffset d data e userId senderId convd
             senderd Hdk Hdu Hdc Hdi Hdl Hdo Hsys Hsender Hid Hds).
Qed.

Lemma new_message_tops_the_conversation_list_witness :
  let team :=
    CreateConversationRequest.mk ["bob"; "carol"] true (Some "Team") in
  let m :=
    snd (MemStorage.createConversation Scenario.Mem.chatting team "alice"
           (Scenario.env 4500 "g-")) in
  let d :=
    snd (DatabaseStorage.createConversation Scenario.Db.chatting team "alice"
           (Scenario.env 4500 "g-")) in
  let e := Scenario.env 5000 "p-" in
  (map (fun cd => Conversation.id (ConversationWithDetails.conversation cd))
     (MemStorage.getConversationsByUserId m "alice")
   = ["g-0"; "c-0"]
   /\ exists rest,
        map
          (fun cd => Conversation.id (ConversationWithDetails.conversation cd))
          (MemStorage.getConversationsByUserId
             (snd (MemStorage.createMessage m (Scenario.hi "bob" "here") e))
             "alice")
        = "c-0" :: rest)
  /\ (map
        (fun cd => Conversation.id (ConversationWithDetails.conversation cd))
        (DatabaseStorage.getConversationsByUserId PgDriver.utc d "alice")
      = ["g-0"; "c-0"]
      /\ exists rest,
           map
             (fun cd =>
                Conversation.id (ConversationWithDetails.conversation cd))
             (DatabaseStorage.getConversationsByUserId PgDriver.utc
                (snd (DatabaseStorage.createMessage d
                        (Scenario.hi "bob" "here") e))
                "alice")
           = "c-0" :: rest).
Proof.
  intros team m d e.
  assert (Hmk : NoDup (JsMap.keys (MemStorage.conversationParticipants m))).
  { repeat constructor; simpl; intuition discriminate. }
  assert (Hml : forall id conv',
            MemStorage.getConversationById m id = Some conv' ->
            MemStorage.lastActivity conv' < now e).
  { intros id conv'. unfold MemStorage.getConversationById. simpl.
    repeat (destruct (String.eqb id _);
            [intros [= <-]; reflexivity|]).
    discriminate. }
  assert (Hdk : NoDup (map Conversation.id (DatabaseStorage.conversations d))).
  { repeat constructor; simpl; intuition discriminate. }
  assert (Hdl : forall conv',
            In conv' (DatabaseStorage.conversations d) ->
            exists t, Conversation.lastMessageAt conv' = Some t /\ t < now e).
  { intros conv' [<-|[<-|[]]]; eexists; split; reflexivity. }
  assert (Hdo : forall x,
            In x (DbView.messagesOf d "c-0") -> Message.createdAt x < now e).
  { intros x [<-|[<-|[<-|[]]]]; reflexivity. }
  destruct (@new_message_tops_the_conversation_list m d PgDriver.utc
              (Scenario.hi "bob" "here") e "alice" "bob"
              (Conversation.mk "c-0" None false 2000 (Some 4000))
              (Conversation.mk "c-0" None false 2000 (Some 4000))
              Scenario.bob Scenario.bob eq_refl eq_refl eq_refl Hmk eq_refl
              eq_refl Hml eq_refl Hdk eq_refl (or_introl eq_refl) eq_refl Hdl
              Hdo eq_refl)
    as [[rm Hm] [rd Hd]].
  split; (split; [reflexivity|]).
  - exists (map
              (fun cd =>
                 Conversation.id (ConversationWithDetails.conversation cd))
              rm).
    now rewrite Hm.
  - exists (map
              (fun cd =>
                 Conversation.id (ConversationWithDetails.conversation cd))
              rd).
    now rewrite Hd.
Defined.

(** ** No request to oneself *)

Lemma in_values_mutate_found (V : Type) (p : V -> bool) (f : V -> V)
    (m : JsMap.t V) (x : V) :
  In x (JsMap.values (JsMap.mutate_found p f m)) ->
  In x (JsMap.values m) \/ exists y, In y (JsMap.values m) /\ x = f y.
Proof.
  unfold JsMap.values. induction m as [|[k0 v0] r IH]; simpl; [tauto|].
  destruct (p v0); simpl.
  - intros [<-|H]; [right; exists v0; tauto | left; tauto].
  - intros [<-|H]; [left; tauto|].
    destruct (IH H) as [H'|[y [Hy E]]]; [left; tauto|].
    right. exists y. tauto.
Qed.

(** X23. The send-request route never stores a friend request from a
    user to that same user: a request addressed to the caller is
    answered 400 with nothing written and nothing emitted, and when no
    stored request has its sender as receiver, none has after the route
    has run.  In both storage implementations. *)
Theorem no_friend_request_to_oneself
    (m : MemStorage.State) (d : DatabaseStorage.State)
    (userId receiverId : string) (e : Env)
    (Hm : forall x, In x (JsMap.values (MemStorage.friendRequests m)) ->
            FriendRequest.senderId x <> FriendRequest.receiverId x)
    (Hd : forall x, In x (DatabaseStorage.friendRequests d) ->
            FriendRequest.senderId x <> FriendRequest.receiverId x) :
  (Api.sendRequest m userId userId e
   = (Api.failure 400 "Cannot send friend request to yourself" None, m, [])
   /\ forall x,
        In x
          (JsMap.values
             (MemStorage.friendRequests
                (snd (fst (Api.sendRequest m userId receiverId e))))) ->
        FriendRequest.senderId x <> FriendRequest.receiverId x)
  /\ (Api.sendRequest d userId userId e
      = (Api.failure 400 "Cannot send friend request to yourself" None, d, [])
      /\ forall x,
           In x
             (DatabaseStorage.friendRequests
                (snd (fst (Api.sendRequest d userId receiverId e)))) ->
           FriendRequest.senderId x <> FriendRequest.receiverId x).
Proof.
  split; split.
  - unfold Api.sendRequest. now rewrite String.eqb_refl.
  - unfold Api.sendRequest.
    destruct (String.eqb receiverId userId) eqn:E; [exact Hm|].
    apply String.eqb_neq in E.
    unfold IStorageRest.sendFriendRequest, MemStorage_IStorageRest,
      MemStorage.sendFriendRequest.
    destruct (find _ _) as [existing|].
    + destruct (FriendRequest.status existing); cbn [fst snd]; try exact Hm.
      intros x Hx. simpl in Hx. apply in_values_set_inv in Hx.
      destruct Hx as [->|Hx]; [simpl; congruence|].
      apply in_values_mutate_found in Hx.
      destruct Hx as [Hx|[y [_ ->]]]; [now apply Hm | simpl; congruence].
    + cbn [fst snd]. intros x Hx. simpl in Hx.
      apply in_values_set_inv in Hx.
      destruct Hx as [->|Hx]; [simpl; congruence | now apply Hm].
  - unfold Api.sendRequest. now rewrite String.eqb_refl.
  - unfold Api.sendRequest.
    destruct (String.eqb receiverId userId) eqn:E; [exact Hd|].
    apply String.eqb_neq in E.
    unfold IStorageRest.sendFriendRequest, DatabaseStorage_IStorageRest,
      DatabaseStorage.sendFriendRequest.
    destruct (find _ _) as [existing|].
    + destruct (FriendRequest.status existing); cbn [fst snd]; try exact Hd.
      intros x Hx. simpl in Hx. apply in_map_iff in Hx.
      destruct Hx as [y [Ey Hy]].
      destruct (String.eqb (FriendRequest.id y) (FriendRequest.id existing));
        subst x; [simpl; congruence | now apply Hd].
    + cbn [fst snd]. intros x Hx. simpl in Hx. apply in_app_or in Hx.
      destruct Hx as [Hx|[<-|[]]]; [now apply Hd | simpl; congruence].
Qed.

Lemma no_friend_request_to_oneself_witness :
  Api.sendRequest Scenario.Mem.turnedDown "alice" "alice"
    (Scenario.env 1500 "s-")
  = (Api.failure 400 "Cannot send friend request to yourself" None,
     Scenario.Mem.turnedDown, [])
  /\ Api.sendRequest Scenario.Db.turnedDown "alice" "alice"
       (Scenario.env 1500 "s-")
     = (Api.failure 400 "Cannot send friend request to yourself" None,
        Scenario.Db.turnedDown, []).
Proof.
  assert (Hm : forall x,
            In x (JsMap.values
                    (MemStorage.friendRequests Scenario.Mem.turnedDown)) ->
            FriendRequest.senderId x <> FriendRequest.receiverId x).
  { intros x [<-|[]]. discriminate. }
  assert (Hd : forall x,
            In x (DatabaseStorage.friendRequests Scenario.Db.turnedDown) ->
            FriendRequest.senderId x <> FriendRequest.receiverId x).
  { intros x [<-|[]]. discriminate. }
  destruct (@no_friend_request_to_oneself Scenario.Mem.turnedDown
              Scenario.Db.turnedDown "alice" "bob" (Scenario.env 1500 "s-")
              Hm Hd) as [[H1 _] [H2 _]].
  split; [exact H1 | exact H2].
Defined.

(** ** Edges of the unread count and of the message window *)

(** X24. A membership row without a watermark is read differently by
    the two implementations: [MemStorage.getUnreadCount] falls back on
    the epoch and counts every message of the conversation with a
    positive timestamp, [DatabaseStorage.getUnreadCount] compares with
    NULL and counts none, whatever the time zone of the process. *)
Theorem unread_count_without_watermark
    (m : MemStorage.State) (d : DatabaseStorage.State)
    (utcOffset : Date -> Z) (u c : string)
    (pm pd : ConversationParticipant.t)
    (Hm : MemView.membership m u c = Some pm)
    (Hwm : ConversationParticipant.lastReadAt pm = None)
    (Hd : DbView.membership d u c = Some pd)
    (Hwd : ConversationParticipant.lastReadAt pd = None) :
  MemStorage.getUnreadCount m u c
  = length
      (filter (fun x => 0 <? Message.createdAt x) (MemView.messagesOf m c))
  /\ DatabaseStorage.getUnreadCount utcOffset d u c = 0%nat.
Proof.
  split.
  - unfold MemStorage.getUnreadCount.
    unfold MemView.membership, MemView.participantsOf in Hm.
    now rewrite Hm, Hwm.
  - unfold DatabaseStorage.getUnreadCount.
    unfold DbView.membership in Hd. rewrite Hd, Hwd.
    rewrite filter_none; [reflexivity|].
    intros x _. unfold DatabaseStorage.newerThan. apply andb_false_r.
Qed.

Lemma unread_count_without_watermark_witness :
  let row := ConversationParticipant.mk "p-1" "c-0" "bob" 100 None in
  let msg := Message.mk "m-1" "c-0" (Some "alice") "hi" false 200 in
  MemStorage.getUnreadCount
    (MemStorage.mkState [] [] [("c-0", [row])] [("c-0", [msg])] []) "bob"
    "c-0"
  = 1%nat
  /\ DatabaseStorage.getUnreadCount (PgDriver.fixedZone (-300))
       (DatabaseStorage.mkState [] [] [row] [msg] []) "bob" "c-0"
     = 0%nat.
Proof.
  intros row msg.
  exact (@unread_count_without_watermark
           (MemStorage.mkState [] [] [("c-0", [row])] [("c-0", [msg])] [])
           (DatabaseStorage.mkState [] [] [row] [msg] [])
           (PgDriver.fixedZone (-300)) "bob" "c-0" row row
           eq_refl eq_refl eq_refl eq_refl).
Defined.

(** X25. Outside the positive limits [MemStorage]'s
    [getMessagesByConversationId] does not return a window of the newest
    messages: with [limit = 0] it returns the whole conversation
    ([slice(-0)] is [slice(0)]), and with a negative limit it drops the
    [-limit] oldest messages and returns the rest. *)
Theorem mem_messages_outside_positive_limits
    (m : MemStorage.State) (c : string) :
  MemStorage.getMessagesByConversationId m c 0
  = attachSenders (MemStorage.getUserById m) (MemView.messagesOf m c)
  /\ forall limit, limit < 0 ->
       MemStorage.getMessagesByConversationId m c limit
       = attachSenders (MemStorage.getUserById m)
           (skipn (Z.to_nat (- limit)) (MemView.messagesOf m c)).
Proof.
  split.
  - unfold MemStorage.getMessagesByConversationId, JsArray.slice.
    fold (MemView.messagesOf m c). simpl.
    rewrite Z.min_l by lia. reflexivity.
  - intros limit Hl.
    unfold MemStorage.getMessagesByConversationId, JsArray.slice.
    fold (MemView.messagesOf m c).
    assert (E : (- limit <? 0) = false) by (apply Z.ltb_ge; lia).
    rewrite E. f_equal.
    destruct (Z_le_gt_dec (- limit)
                (Z.of_nat (length (MemView.messagesOf m c)))) as [H|H].
    + now rewrite Z.min_l.
    + rewrite Z.min_r by lia. rewrite Nat2Z.id.
      rewrite !skipn_all2; [reflexivity | lia | lia].
Qed.

(** ** Who the typing notices are about *)

Module TypingFacts.
Import Sockets SocketsFacts.

Section Run.
Context {S : Type} {storage : IStorage.t S}.

(** A typing event of the trace [I], sent over the socket [sock] by a
    user who was then a participant of [c] and stored as [user]. *)
Local Abbreviation caused I sock c user :=
  (exists t st u data,
     In (t, typing st sock u data) I
     /\ IStorage.isUserInConversation st u c = true
     /\ TypingData.conversationId data = c%string
     /\ IStorage.getUserById st u = Some user).

Local Abbreviation about I em :=
  (exists c user flag,
     caused I (fromSocket em) c user
     /\ room em = roomOf c
     /\ payload em = statusOf c user flag).

Lemma pending_cancel_incl (k : string) (g : State) (x : nat * Timeout) :
  In x (pending (cancel k g)) -> In x (pending g).
Proof.
  rewrite cancel_pending.
  destruct (JsMap.get k (typingTimeouts g)); [|tauto].
  intros H. now apply filter_In in H.
Qed.

Lemma run_about (tr : list (Date * Input)) :
  forall (g : State) (I : list (Date * Input)),
    (forall h tm, In (h, tm) (pending g) ->
       caused I (socketId tm) (conversationId tm) (user tm)) ->
    (forall x, In x tr -> In x I) ->
    forall em, In em (snd (run g tr)) -> about I em.
Proof.
  induction tr as [|[t i] r IH]; intros g I Hg Hincl em Hem;
    [destruct Hem|].
  rewrite run_cons in Hem. cbn [snd] in Hem.
  assert (Hg1 : forall h tm,
            In (h, tm) (pending (fst (advance t g))) ->
            caused I (socketId tm) (conversationId tm) (user tm)).
  { intros h tm. rewrite advance_spec. simpl. intros H.
    apply filter_In in H. now apply (Hg h tm). }
  apply in_app_or in Hem. destruct Hem as [Hem|Hem].
  - rewrite advance_spec in Hem. simpl in Hem.
    apply in_map_iff in Hem. destruct Hem as [[h tm] [<- Hin]].
    apply filter_In in Hin. destruct Hin as [Hin _].
    exists (conversationId tm), (user tm), false.
    split; [exact (Hg h tm Hin)|]. split; reflexivity.
  - set (g1 := fst (advance t g)) in *.
    destruct i as [st sock u data|].
    + cbn [handle] in Hem.
      destruct (onTyping_cases st sock u data t g1)
        as [E|(usr & Hp & Hu & E)]; rewrite E in Hem; cbn [fst snd] in Hem.
      * simpl in Hem.
        apply (IH g1 I); [exact Hg1 | | exact Hem].
        intros x Hx. apply Hincl. now right.
      * assert (Hc : caused I sock (TypingData.conversationId data) usr).
        { exists t, st, u, data. repeat split; try assumption.
          apply Hincl. now left. }
        apply in_app_or in Hem. destruct Hem as [[<-|[]]|Hem].
        -- exists (TypingData.conversationId data), usr,
             (TypingData.isTyping data).
           split; [exact Hc|]. split; reflexivity.
        -- apply (IH _ I) in Hem; [exact Hem| |].
           ++ intros h tm.
              destruct (TypingData.isTyping data).
              ** unfold arm, setTimeout. simpl. intros Hin.
                 apply in_app_or in Hin. destruct Hin as [Hin|[[= <- <-]|[]]].
                 --- apply pending_cancel_incl in Hin. now apply (Hg1 h tm).
                 --- exact Hc.
              ** intros Hin. apply pending_cancel_incl in Hin.
                 now apply (Hg1 h tm).
           ++ intros x Hx. apply Hincl. now right.
    + cbn [handle fst snd] in Hem. simpl in Hem.
      apply (IH g1 I); [exact Hg1 | | exact Hem].
      intros x Hx. apply Hincl. now right.
Qed.

End Run.

End TypingFacts.

(** X26. A typing notice is only ever sent for a participant: every
    emission of the gateway, relayed or sent by an expired timer, goes
    to the room of a conversation, away from the socket of a typing
    event sent for that conversation by a user who was then one of its
    participants, and carries that user.  For any storage behind the
    interface. *)
Theorem typing_notices_come_from_participants
    (S : Type) (storage : IStorage.t S)
    (trace : list (Date * @Sockets.Input S)) (em : Sockets.Emission) :
  In em (snd (Sockets.run Sockets.init trace)) ->
  exists conversationId user flag t st userId data,
    In (t, Sockets.typing st (Sockets.fromSocket em) userId data) trace
    /\ TypingData.conversationId data = conversationId
    /\ IStorage.isUserInConversation st userId conversationId = true
    /\ IStorage.getUserById st userId = Some user
    /\ Sockets.room em = Sockets.roomOf conversationId
    /\ Sockets.payload em = Sockets.statusOf conversationId user flag.
Proof.
  intros Hem.
  destruct (@TypingFacts.run_about S storage trace Sockets.init trace)
    with (em := em) as (c & user & flag & Hc & Hroom & Hpay).
  - intros h tm [].
  - tauto.
  - exact Hem.
  - destruct Hc as (t & st & u & data & H1 & H3 & H2 & H4).
    exists c, user, flag, t, st, u, data. tauto.
Qed.

Lemma typing_notices_come_from_participants_witness :
  let trace :=
    [(10000,
      Sockets.typing Scenario.Mem.chatting "socket-a" "alice"
        (TypingData.mk "c-0" true))] in
  let em :=
    Sockets.mkEmission Sockets.relayed "socket-a" (Sockets.roomOf "c-0")
      (Sockets.statusOf "c-0" Scenario.alice true) in
  In em (snd (Sockets.run Sockets.init trace))
  /\ exists conversationId user flag t st userId data,
       In (t, Sockets.typing st (Sockets.fromSocket em) userId data) trace
       /\ TypingData.conversationId data = conversationId
       /\ IStorage.isUserInConversation st userId conversationId = true
       /\ IStorage.getUserById st userId = Some user
       /\ Sockets.room em = Sockets.roomOf conversationId
       /\ Sockets.payload em = Sockets.statusOf conversationId user flag.
Proof.
  intros trace em.
  assert (Hin : In em (snd (Sockets.run Sockets.init trace)))
    by (left; reflexivity).
  split; [exact Hin|].
  exact (@typing_notices_come_from_participants MemStorage.State
           MemStorage_IStorage trace em Hin).
Defined.

(** ** The storage file *)

Lemma fold_set_fresh (A V : Type) (key : A -> string) (val : A -> V)
    (l : list A) :
  forall acc : JsMap.t V,
    NoDup (JsMap.keys acc ++ map key l) ->
    fold_left (fun m x => JsMap.set (key x) (val x) m) l acc
    = acc ++ map (fun x => (key x, val x)) l.
Proof.
  induction l as [|a r IH]; intros acc Hn; simpl.
  - now rewrite app_nil_r.
  - assert (Hfresh : ~ In (key a) (JsMap.keys acc)).
    { intros Hin. apply NoDup_remove_2 in Hn. apply Hn.
      apply in_or_app. now left. }
    rewrite (@set_fresh _ (key a) (val a) acc Hfresh), IH.
    + now rewrite <- app_assoc.
    + unfold JsMap.keys in *. rewrite map_app, <- app_assoc. exact Hn.
Qed.

Lemma keys_of_values (V : Type) (id : V -> string) (m : JsMap.t V) :
  keyedById id m -> map id (JsMap.values m) = JsMap.keys m.
Proof.
  unfold keyedById, JsMap.values, JsMap.keys.
  induction 1 as [|[k v] r Hk Hr IH]; simpl; [reflexivity|].
  simpl in Hk. now rewrite IH, Hk.
Qed.

Lemma reload_by_id (V : Type) (id : V -> string) (f : V -> V)
    (m : JsMap.t V) :
  keyedOnce id m ->
  fold_left (fun acc x => JsMap.set (id x) (f x) acc) (JsMap.values m) []
  = map (fun kv => (fst kv, f (snd kv))) m.
Proof.
  intros [Hk Hn]. rewrite fold_set_fresh.
  - simpl. unfold JsMap.values. rewrite map_map.
    unfold keyedById in Hk. rewrite Forall_forall in Hk.
    apply map_ext_in. intros [k v] Hin.
    pose proof (Hk _ Hin) as E. simpl in E. simpl. now rewrite E.
  - simpl. now rewrite keys_of_values.
Qed.

Lemma reload_entries (V : Type) (f : V -> V) (m : JsMap.t V) :
  NoDup (JsMap.keys m) ->
  fold_left (fun acc entry => JsMap.set (fst entry) (f (snd entry)) acc) m []
  = map (fun kv => (fst kv, f (snd kv))) m.
Proof.
  intros Hn.
  now rewrite (@fold_set_fresh _ _ fst (fun entry => f (snd entry)) m []).
Qed.

Lemma map_entries_id (V : Type) (f : V -> V) (m : JsMap.t V) :
  (forall v, In v (JsMap.values m) -> f v = v) ->
  map (fun kv => (fst kv, f (snd kv))) m = m.
Proof.
  unfold JsMap.values. intros H.
  induction m as [|[k v] r IH]; simpl; [reflexivity|].
  rewrite H by now left. rewrite IH; [reflexivity|].
  intros x Hx. apply H. now right.
Qed.

Lemma reviveConversation_id (c : Conversation.t) :
  StorageFile.reviveConversation c = c.
Proof. destruct c as [i n g t [l|]]; reflexivity. Qed.

Lemma reviveParticipant_id (p : ConversationParticipant.t) :
  StorageFile.reviveParticipant p = p.
Proof. destruct p as [i c u j [l|]]; reflexivity. Qed.

Lemma reviveUser_id (u : User.t) :
  User.lastSeen u <> None -> StorageFile.reviveUser u = u.
Proof.
  destruct u as [i n p d a o [l|] c]; simpl; intros H;
    [reflexivity | congruence].
Qed.

(** An object whose keys are not array indices lists its entries in the
    order they were added. *)
Lemma ordered_without_indices (V : Type) (added : list (string * V)) :
  Forall (fun k => JsObject.isArrayIndex k = false) (JsMap.keys added) ->
  JsObject.ordered added = added.
Proof.
  intros H. unfold JsMap.keys in H. rewrite Forall_map, Forall_forall in H.
  unfold JsObject.ordered.
  rewrite filter_none by exact H. simpl.
  apply filter_all. intros x Hx. now rewrite (H x Hx).
Qed.

Lemma fromEntries_without_indices (V : Type) (m : JsMap.t V) :
  NoDup (JsMap.keys m) ->
  Forall (fun k => JsObject.isArrayIndex k = false) (JsMap.keys m) ->
  JsObject.fromEntries m = m.
Proof.
  intros Hn Hk. unfold JsObject.fromEntries.
  rewrite (@fold_set_fresh _ _ fst snd m []) by exact Hn. simpl.
  assert (E : map (fun x : string * V => (fst x, snd x)) m = m).
  { rewrite <- (map_id m) at 2. apply map_ext. now intros [k v]. }
  rewrite E. now apply ordered_without_indices.
Qed.

(** The keys that are array indices come back first, in ascending
    order: messages stored under "b", "10" and "2", in that order, are
    read back under "2", "10" and "b". *)
Example storage_file_orders_array_indices :
  JsMap.keys
    (MemStorage.messages
       (StorageFile.load
          (StorageFile.save
             (MemStorage.mkState [] [] []
                [("b", []); ("10", []); ("2", [])] []))))
  = ["2"; "10"; "b"].
Proof. reflexivity. Qed.

(** X27. Writing the maps of [MemStorage] to the storage file and
    reading the file back gives the same maps again, in the same order,
    except that a user without [lastSeen] comes back with the epoch as
    [lastSeen]; when every user has a [lastSeen] the store read back is
    the store written.  For maps that hold a key once and store users,
    conversations and friend requests under their ids, and where no key
    of the memberships and of the messages is an array index (a decimal
    number below [2^32 - 1]; the keys are conversation ids, and what
    [randomUUID] returns is not such a number). *)
Theorem storage_file_round_trip
    (m : MemStorage.State)
    (Hu : keyedOnce User.id (MemStorage.users m))
    (Hc : keyedOnce Conversation.id (MemStorage.conversations m))
    (Hp : NoDup (JsMap.keys (MemStorage.conversationParticipants m)))
    (Hpk : Forall (fun k => JsObject.isArrayIndex k = false)
             (JsMap.keys (MemStorage.conversationParticipants m)))
    (Hm : NoDup (JsMap.keys (MemStorage.messages m)))
    (Hmk : Forall (fun k => JsObject.isArrayIndex k = false)
             (JsMap.keys (MemStorage.messages m)))
    (Hr : keyedOnce FriendRequest.id (MemStorage.friendRequests m)) :
  StorageFile.load (StorageFile.save m)
  = MemStorage.with_users
      (map (fun kv => (fst kv, StorageFile.reviveUser (snd kv)))
         (MemStorage.users m))
      m
  /\ ((forall u, In u (JsMap.values (MemStorage.users m)) ->
         User.lastSeen u <> None) ->
      StorageFile.load (StorageFile.save m) = m).
Proof.
  assert (Hload : StorageFile.load (StorageFile.save m)
                  = MemStorage.with_users
                      (map
                         (fun kv => (fst kv, StorageFile.reviveUser (snd kv)))
                         (MemStorage.users m))
                      m).
  { unfold StorageFile.load, StorageFile.save, MemStorage.with_users.
    cbn [StorageFile.users StorageFile.conversations
         StorageFile.conversationParticipants StorageFile.messages
         StorageFile.friendRequests].
    rewrite (@fromEntries_without_indices _ _ Hp Hpk).
    rewrite (@fromEntries_without_indices _ _ Hm Hmk).
    rewrite (reload_by_id StorageFile.reviveUser Hu).
    rewrite (reload_by_id StorageFile.reviveConversation Hc).
    rewrite (reload_by_id (fun r => r) Hr).
    rewrite (@reload_entries _ (map StorageFile.reviveParticipant) _ Hp).
    rewrite (@reload_entries _ (fun l => l) _ Hm).
    rewrite (map_entries_id StorageFile.reviveConversation)
      by (intros; apply reviveConversation_id).
    rewrite (map_entries_id (fun r : FriendRequest.t => r)) by reflexivity.
    rewrite (map_entries_id (map StorageFile.reviveParticipant)).
    - rewrite (map_entries_id (fun l : list Message.t => l)) by reflexivity.
      reflexivity.
    - intros l _. rewrite <- (map_id l) at 2. apply map_ext.
      apply reviveParticipant_id. }
  split; [exact Hload|].
  intros Hseen. rewrite Hload. unfold MemStorage.with_users.
  rewrite (map_entries_id StorageFile.reviveUser).
  - now destruct m.
  - intros u Hin. apply reviveUser_id. now apply Hseen.
Qed.

Lemma storage_file_round_trip_witness :
  StorageFile.load (StorageFile.save Scenario.Mem.chatting)
  = Scenario.Mem.chatting.
Proof.
  assert (Hu : keyedOnce User.id (MemStorage.users Scenario.Mem.chatting)).
  { split; repeat constructor; simpl; intuition discriminate. }
  assert (Hc : keyedOnce Conversation.id
                 (MemStorage.conversations Scenario.Mem.chatting)).
  { split; repeat constructor; simpl; intuition discriminate. }
  assert (Hp : NoDup
                 (JsMap.keys
                    (MemStorage.conversationParticipants
                       Scenario.Mem.chatting))).
  { repeat constructor; simpl; intuition discriminate. }
  assert (Hpk : Forall (fun k => JsObject.isArrayIndex k = false)
                  (JsMap.keys
                     (MemStorage.conversationParticipants
                        Scenario.Mem.chatting))).
  { repeat constructor. }
  assert (Hm : NoDup (JsMap.keys (MemStorage.messages Scenario.Mem.chatting))).
  { repeat constructor; simpl; intuition discriminate. }
  assert (Hmk : Forall (fun k => JsObject.isArrayIndex k = false)
                  (JsMap.keys (MemStorage.messages Scenario.Mem.chatting))).
  { repeat constructor. }
  assert (Hr : keyedOnce FriendRequest.id
                 (MemStorage.friendRequests Scenario.Mem.chatting)).
  { split; repeat constructor; simpl; intuition discriminate. }
  apply (proj2 (@storage_file_round_trip Scenario.Mem.chatting Hu Hc Hp Hpk
                  Hm Hmk Hr)).
  intros u [<-|[<-|[<-|[]]]]; discriminate.
Defined.

(** ** Reading, then one more message *)

Lemma existsb_update_first (A : Type) (p q : A -> bool) (f : A -> A)
    (l : list A) :
  (forall x, q (f x) = q x) ->
  existsb q (JsArray.update_first p f l) = existsb q l.
Proof.
  intros H. induction l as [|a r IH]; simpl; [reflexivity|].
  destruct (p a); simpl; [now rewrite H | now rewrite IH].
Qed.

Lemma mem_markRead_members (st : MemStorage.State) (u c : string) (t : Date)
    (u' c' : string) :
  MemStorage.isUserInConversation
    (MemStorage.markConversationAsRead st u c t) u' c'
  = MemStorage.isUserInConversation st u' c'.
Proof.
  unfold MemStorage.isUserInConversation.
  fold (MemView.participantsOf (MemStorage.markConversationAsRead st u c t)
          c').
  fold (MemView.participantsOf st c').
  rewrite mem_participants_after_markRead.
  destruct (String.eqb c' c); [|reflexivity].
  now apply existsb_update_first.
Qed.

Lemma db_markRead_members (st : DatabaseStorage.State) (u c : string)
    (t : Date) (u' c' : string) :
  DatabaseStorage.isUserInConversation
    (DatabaseStorage.markConversationAsRead st u c t) u' c'
  = DatabaseStorage.isUserInConversation st u' c'.
Proof.
  unfold DatabaseStorage.isUserInConversation,
    DatabaseStorage.markConversationAsRead. simpl.
  rewrite find_map_preserving.
  - now destruct (find _ (DatabaseStorage.conversationParticipants st)).
  - intros x. now destruct (DatabaseStorage.membershipOf u c x).
Qed.

(** The bodies [api.messages.send.input] accepts. *)
Lemma sendMessage_input_accepted (input : SendMessageRequest.t) :
  (1 <= String.length (SendMessageRequest.content input))%nat ->
  ApiInput.sendMessage input = [].
Proof.
  intros H. unfold ApiInput.sendMessage, Zod.min.
  destruct (Nat.ltb_spec (String.length (SendMessageRequest.content input))
              1); [lia | reflexivity].
Qed.

(** X28. Through the routes: when a participant has marked a
    conversation read at a time no message of it is later than, and a
    participant then sends one message, of at least one character, at a
    later time, the reader's unread count of the conversation is exactly
    one.  In both storage implementations; [DatabaseStorage] compares
    the stored messages and the time of the new one with the local wall
    clock of the time of reading, in the time zone of the process (the
    time of reading itself in UTC), and its sender and conversation are
    stored, as the foreign keys of [messages] ask. *)
Theorem read_then_one_message
    (m : MemStorage.State) (d : DatabaseStorage.State)
    (utcOffset : Date -> Z) (reader sender c content : string) (t : Date)
    (e : Env)
    (Hcontent : (1 <= String.length content)%nat)
    (Hlater : t < now e)
    (Hmr : MemStorage.isUserInConversation m reader c = true)
    (Hms : MemStorage.isUserInConversation m sender c = true)
    (Hmt : forall x, In x (MemView.messagesOf m c) ->
             Message.createdAt x <= t)
    (Hdlater : PgDriver.timestampOfParam utcOffset t < now e)
    (Hdr : DatabaseStorage.isUserInConversation d reader c = true)
    (Hds : DatabaseStorage.isUserInConversation d sender c = true)
    (Hdt : forall x, In x (DbView.messagesOf d c) ->
             Message.createdAt x <= PgDriver.timestampOfParam utcOffset t)
    (Hdu : DatabaseStorage.getUserById d sender <> None)
    (Hdc : DatabaseStorage.getConversationById d c <> None) :
  MemStorage.getUnreadCount
    (snd (fst (Api.sendMessage (snd (Api.markRead m reader c t)) sender
                 (SendMessageRequest.mk c content) e)))
    reader c
  = 1%nat
  /\ DatabaseStorage.getUnreadCount utcOffset
       (snd (fst (Api.sendMessage (snd (Api.markRead d reader c t)) sender
                    (SendMessageRequest.mk c content) e)))
       reader c
     = 1%nat.
Proof.
  pose proof (sendMessage_input_accepted (SendMessageRequest.mk c content)
                Hcontent) as Hvalid.
  split.
  - unfold Api.markRead, IStorage.isUserInConversation, MemStorage_IStorage,
      IStorageRest.markConversationAsRead, MemStorage_IStorageRest.
    rewrite Hmr. cbn [negb snd].
    set (m1 := MemStorage.markConversationAsRead m reader c t).
    unfold Api.sendMessage, IStorage.isUserInConversation,
      IStorage.createMessage.
    rewrite Hvalid.
    cbn [SendMessageRequest.conversationId SendMessageRequest.content].
    unfold m1 at 1. rewrite mem_markRead_members, Hms. cbn [negb].
    set (data := InsertMessage.mk c (Some sender) content false).
    pose proof (mem_markRead_watermark m reader c t Hmr) as Hw. fold m1 in Hw.
    destruct (MemView.membership m1 reader c) as [p|] eqn:Ep;
      [|discriminate].
    injection Hw as Hw.
    pose proof (@mem_new_message_unread m1 data e reader p t Ep Hw Hlater)
      as Hnew.
    change (InsertMessage.conversationId data) with c in Hnew.
    destruct (MemStorage.createMessage m1 data e) as [sent m2].
    cbn [fst snd] in *. rewrite Hnew. f_equal.
    now apply mem_markRead_unread.
  - unfold Api.markRead, IStorage.isUserInConversation,
      DatabaseStorage_IStorage, IStorageRest.markConversationAsRead,
      DatabaseStorage_IStorageRest.
    rewrite Hdr. cbn [negb snd].
    set (d1 := DatabaseStorage.markConversationAsRead d reader c t).
    unfold Api.sendMessage, IStorage.isUserInConversation,
      IStorage.createMessage.
    rewrite Hvalid.
    cbn [SendMessageRequest.conversationId SendMessageRequest.content].
    unfold d1 at 1. rewrite db_markRead_members, Hds. cbn [negb].
    set (data := InsertMessage.mk c (Some sender) content false).
    pose proof (db_markRead_watermark d reader c t Hdr) as Hw. fold d1 in Hw.
    destruct (DbView.membership d1 reader c) as [p|] eqn:Ep;
      [|discriminate].
    injection Hw as Hw.
    pose proof (@db_new_message_unread utcOffset d1 data e reader p t Ep Hw
                  Hdlater)
      as Hnew.
    change (InsertMessage.conversationId data) with c in Hnew.
    destruct (DatabaseStorage.createMessage d1 data e) as [sent d2].
    cbn [fst snd] in *. rewrite Hnew. f_equal.
    now apply db_markRead_unread.
Qed.

Lemma read_then_one_message_witness :
  MemStorage.getUnreadCount
    (snd (fst (Api.sendMessage
                 (snd (Api.markRead Scenario.Mem.chatting "bob" "c-0" 4500))
                 "alice" (SendMessageRequest.mk "c-0" "still there?")
                 (Scenario.env 3700000 "p-"))))
    "bob" "c-0"
  = 1%nat
  /\ DatabaseStorage.getUnreadCount (PgDriver.fixedZone 60)
       (snd (fst (Api.sendMessage
                    (snd (Api.markRead Scenario.Db.chatting "bob" "c-0" 4500))
                    "alice" (SendMessageRequest.mk "c-0" "still there?")
                    (Scenario.env 3700000 "p-"))))
       "bob" "c-0"
     = 1%nat.
Proof.
  apply (@read_then_one_message Scenario.Mem.chatting Scenario.Db.chatting
           (PgDriver.fixedZone 60) "bob" "alice" "c-0" "still there?" 4500
           (Scenario.env 3700000 "p-"));
    try reflexivity; try discriminate.
  - simpl; lia.
  - intros x [<-|[<-|[<-|[]]]]; simpl; lia.
  - intros x [<-|[<-|[<-|[]]]]; vm_compute; discriminate.
Defined.

(** ** The route that opens conversations *)

Lemma mem_creator_is_member (st : MemStorage.State)
    (data : CreateConversationRequest.t) (creator : string) (e : Env) :
  MemStorage.isUserInConversation
    (snd (MemStorage.createConversation st data creator e)) creator
    (Conversation.id (fst (MemStorage.createConversation st data creator e)))
  = true.
Proof.
  apply mem_isUserInConversation_In.
  pose proof (mem_createConversation_userIds st data creator e) as H.
  destruct (MemStorage.createConversation st data creator e) as [conv st'].
  cbn [fst snd]. rewrite H. apply in_or_app. right. now left.
Qed.

Lemma db_creator_is_member (st : DatabaseStorage.State)
    (data : CreateConversationRequest.t) (creator : string) (e : Env) :
  DatabaseStorage.isUserInConversation
    (snd (DatabaseStorage.createConversation st data creator e)) creator
    (Conversation.id
       (fst (DatabaseStorage.createConversation st data creator e)))
  = true.
Proof.
  apply db_isUserInConversation_iff.
  pose proof (db_createConversation_rows st data creator e) as H.
  destruct (DatabaseStorage.createConversation st data creator e)
    as [conv st'].
  cbn [fst snd]. destruct H as (rows & Hrows & Hids & Hconv & _).
  assert (Hin : In creator (map ConversationParticipant.userId rows)).
  { rewrite Hids. apply unique_spec, in_or_app. right. now left. }
  apply in_map_iff in Hin. destruct Hin as [p [Hp Hpin]].
  exists p. rewrite Hrows. rewrite Forall_forall in Hconv.
  repeat split; [apply in_or_app; now right | exact Hp | now apply Hconv].
Qed.

(** X29. When the storage does not throw, the route that opens a
    conversation answers 201 or 403.  It refuses only a direct chat with
    a user who is not a friend of the caller, and then writes and emits
    nothing.  In the conversation it answers with, the caller is a
    participant, and the participants it lists are those the storage
    lists; a direct chat it answers with is with a friend, is not a
    group, and has the friend as participant.  In both storage
    implementations; in the relational one the caller and the listed
    users are stored users and the id drawn is not in use, as the keys of
    the tables ask (otherwise the insert throws and the route answers
    500). *)
Theorem conversation_route_admits_the_caller
    (m : MemStorage.State) (d : DatabaseStorage.State) (userId : string)
    (input : CreateConversationRequest.t) (e : Env)
    (Hcaller : DatabaseStorage.getUserById d userId <> None)
    (Hlisted : forall u,
       In u (CreateConversationRequest.participantIds input) ->
       DatabaseStorage.getUserById d u <> None)
    (Hunused : dbUnused d (uuid e 0%nat)) :
  (let '(answer, m', events) := Api.createConversation m userId input e in
   match answer with
   | Api.reply code body =>
       let id :=
         Conversation.id (ConversationWithDetails.conversation body) in
       code = 201
       /\ MemStorage.isUserInConversation m' userId id = true
       /\ ConversationWithDetails.participants body
          = MemStorage.getConversationParticipants m' id
       /\ (CreateConversationRequest.isGroup input = false ->
           forall other,
             CreateConversationRequest.participantIds input = [other] ->
             MemStorage.areFriends m userId other = true
             /\ Conversation.isGroup
                  (ConversationWithDetails.conversation body)
                = false
             /\ MemStorage.isUserInConversation m' other id = true
             /\ events = [])
   | Api.failure code _ _ =>
       code = 403 /\ m' = m /\ events = []
       /\ CreateConversationRequest.isGroup input = false
       /\ exists other,
            CreateConversationRequest.participantIds input = [other]
            /\ MemStorage.areFriends m userId other = false
   end)
  /\ (let '(answer, d', events) := Api.createConversation d userId input e in
      match answer with
      | Api.reply code body =>
          let id :=
            Conversation.id (ConversationWithDetails.conversation body) in
          code = 201
          /\ DatabaseStorage.isUserInConversation d' userId id = true
          /\ ConversationWithDetails.participants body
             = DatabaseStorage.getConversationParticipants d' id
          /\ (CreateConversationRequest.isGroup input = false ->
              forall other,
                CreateConversationRequest.participantIds input = [other] ->
                DatabaseStorage.areFriends d userId other = true
                /\ Conversation.isGroup
                     (ConversationWithDetails.conversation body)
                   = false
                /\ DatabaseStorage.isUserInConversation d' other id = true
                /\ events = [])
      | Api.failure code _ _ =>
          code = 403 /\ d' = d /\ events = []
          /\ CreateConversationRequest.isGroup input = false
          /\ exists other,
               CreateConversationRequest.participantIds input = [other]
               /\ DatabaseStorage.areFriends d userId other = false
      end).
Proof.
  split.
  - unfold Api.createConversation.
    assert (Hgroup :
              let '(conversation, m') :=
                IStorageRest.createConversation m input userId e in
              MemStorage.isUserInConversation m' userId
                (Conversation.id conversation) = true).
    { pose proof (mem_creator_is_member m input userId e) as H.
      unfold IStorageRest.createConversation, MemStorage_IStorageRest.
      now destruct (MemStorage.createConversation m input userId e). }
    destruct (CreateConversationRequest.isGroup input) eqn:Eg;
      [|destruct (CreateConversationRequest.participantIds input)
          as [|other [|other2 rest]] eqn:Ep].
    + destruct (IStorageRest.createConversation m input userId e)
        as [conv m']. cbn. repeat split; try assumption; discriminate.
    + destruct (IStorageRest.createConversation m input userId e)
        as [conv m']. cbn. repeat split; try assumption; discriminate.
    + destruct (IStorageRest.areFriends m userId other) eqn:Ef; cbn.
      * pose proof (mem_findOrCreate_result m userId other e) as H.
        cbn. destruct (MemStorage.findOrCreatePrivateConversation m userId
                         other e) as [conv m'].
        destruct H as (Hg & _ & H1 & H2 & _). cbn.
        repeat split; try assumption.
        all: match goal with
             | H : [_] = [_] |- _ => injection H as <-
             end; try assumption; reflexivity.
      * repeat split. exists other. split; [reflexivity | exact Ef].
    + destruct (IStorageRest.createConversation m input userId e)
        as [conv m']. cbn. repeat split; try assumption; discriminate.
  - unfold Api.createConversation.
    assert (Hgroup :
              let '(conversation, d') :=
                IStorageRest.createConversation d input userId e in
              DatabaseStorage.isUserInConversation d' userId
                (Conversation.id conversation) = true).
    { pose proof (db_creator_is_member d input userId e) as H.
      unfold IStorageRest.createConversation, DatabaseStorage_IStorageRest.
      now destruct (DatabaseStorage.createConversation d input userId e). }
    destruct (CreateConversationRequest.isGroup input) eqn:Eg;
      [|destruct (CreateConversationRequest.participantIds input)
          as [|other [|other2 rest]] eqn:Ep].
    + destruct (IStorageRest.createConversation d input userId e)
        as [conv d']. cbn. repeat split; try assumption; discriminate.
    + destruct (IStorageRest.createConversation d input userId e)
        as [conv d']. cbn. repeat split; try assumption; discriminate.
    + destruct (IStorageRest.areFriends d userId other) eqn:Ef; cbn.
      * pose proof (db_findOrCreate_result d userId other e) as H.
        cbn. destruct (DatabaseStorage.findOrCreatePrivateConversation d
                         userId other e) as [conv d'].
        destruct H as (Hg & _ & H1 & H2 & _). cbn.
        repeat split; try assumption.
        all: match goal with
             | H : [_] = [_] |- _ => injection H as <-
             end; try assumption; reflexivity.
      * repeat split. exists other. split; [reflexivity | exact Ef].
    + destruct (IStorageRest.createConversation d input userId e)
        as [conv d']. cbn. repeat split; try assumption; discriminate.
Qed.

Lemma conversation_route_admits_the_caller_witness :
  let team :=
    CreateConversationRequest.mk ["bob"; "carol"] true (Some "Team") in
  let e := Scenario.env 5000 "g-" in
  (exists body,
     fst (fst (Api.createConversation Scenario.Mem.chatting "alice" team e))
     = Api.reply 201 body)
  /\ (exists body,
        fst (fst (Api.createConversation Scenario.Db.chatting "alice" team
                    e))
        = Api.reply 201 body).
Proof.
  intros team e.
  assert (Hcaller : DatabaseStorage.getUserById Scenario.Db.chatting "alice"
                    <> None) by discriminate.
  assert (Hlisted : forall u,
            In u (CreateConversationRequest.participantIds team) ->
            DatabaseStorage.getUserById Scenario.Db.chatting u <> None).
  { intros u [<-|[<-|[]]]; discriminate. }
  assert (Hunused : dbUnused Scenario.Db.chatting (uuid e 0%nat)).
  { split; simpl.
    - intros [H|[]]; discriminate.
    - intros [H|[H|[]]]; discriminate. }
  pose proof (@conversation_route_admits_the_caller Scenario.Mem.chatting
                Scenario.Db.chatting "alice" team e Hcaller Hlisted Hunused)
    as [Hm Hd].
  split.
  - destruct (Api.createConversation Scenario.Mem.chatting "alice" team e)
      as [[[code body|code message field] m'] events].
    + destruct Hm as [-> _]. now exists body.
    + destruct Hm as (_ & _ & _ & Hg & _). discriminate Hg.
  - destruct (Api.createConversation Scenario.Db.chatting "alice" team e)
      as [[[code body|code message field] d'] events].
    + destruct Hd as [-> _]. now exists body.
    + destruct Hd as (_ & _ & _ & Hg & _). discriminate Hg.
Defined.

(** ** Seeding *)

Lemma values_nil (V : Type) (m : JsMap.t V) : JsMap.values m = [] -> m = [].
Proof. destruct m; [reflexivity | discriminate]. Qed.

Lemma mem_seed_users (bcryptHash : string -> string)
    (m : MemStorage.State) (es : nat -> Env) :
  MemStorage.getAllUsers m = [] ->
  let hashed := bcryptHash "demo123" in
  let alice :=
    User.mk (uuid (es 0%nat) 0%nat) "alice" hashed "Alice Johnson" "#3b82f6"
      false (Some (now (es 0%nat))) (now (es 0%nat)) in
  let bob :=
    User.mk (uuid (es 1%nat) 0%nat) "bob" hashed "Bob Smith" "#8b5cf6" false
      (Some (now (es 1%nat))) (now (es 1%nat)) in
  let charlie :=
    User.mk (uuid (es 2%nat) 0%nat) "charlie" hashed "Charlie Davis"
      "#ec4899" false (Some (now (es 2%nat))) (now (es 2%nat)) in
  MemStorage.users (Seed.seedDatabase MemStorage.getAllUsers bcryptHash m es)
  = JsMap.set (User.id charlie) charlie
      (JsMap.set (User.id bob) bob (JsMap.set (User.id alice) alice [])).
Proof.
  intros E hashed alice bob charlie.
  unfold Seed.seedDatabase. rewrite E.
  unfold MemStorage.getAllUsers in E. apply values_nil in E.
  cbn [IStorageRest.createUser MemStorage_IStorageRest MemStorage.createUser].
  fold hashed. fold alice. fold bob. fold charlie.
  match goal with
  | |- context [IStorage.findOrCreatePrivateConversation ?s ?a ?b ?e] =>
      pose proof (mem_findOrCreate_result s a b e) as H;
      change (IStorage.findOrCreatePrivateConversation s a b e)
        with (MemStorage.findOrCreatePrivateConversation s a b e);
      destruct (MemStorage.findOrCreatePrivateConversation s a b e)
        as [conv st4]
  end.
  destruct H as (_ & _ & _ & _ & _ & _ & Hu).
  cbn. rewrite Hu. cbn. now rewrite E.
Qed.

Lemma db_seed_users (bcryptHash : string -> string)
    (d : DatabaseStorage.State) (es : nat -> Env) :
  DatabaseStorage.getAllUsers d = [] ->
  let hashed := bcryptHash "demo123" in
  let alice :=
    User.mk (uuid (es 0%nat) 0%nat) "alice" hashed "Alice Johnson" "#3b82f6"
      false (Some (now (es 0%nat))) (now (es 0%nat)) in
  let bob :=
    User.mk (uuid (es 1%nat) 0%nat) "bob" hashed "Bob Smith" "#8b5cf6" false
      (Some (now (es 1%nat))) (now (es 1%nat)) in
  let charlie :=
    User.mk (uuid (es 2%nat) 0%nat) "charlie" hashed "Charlie Davis"
      "#ec4899" false (Some (now (es 2%nat))) (now (es 2%nat)) in
  DatabaseStorage.users
    (Seed.seedDatabase DatabaseStorage.getAllUsers bcryptHash d es)
  = [alice; bob; charlie].
Proof.
  intros E hashed alice bob charlie.
  unfold Seed.seedDatabase. rewrite E.
  unfold DatabaseStorage.getAllUsers in E.
  cbn [IStorageRest.createUser DatabaseStorage_IStorageRest
       DatabaseStorage.createUser].
  fold hashed. fold alice. fold bob. fold charlie.
  match goal with
  | |- context [IStorage.findOrCreatePrivateConversation ?s ?a ?b ?e] =>
      pose proof (db_findOrCreate_result s a b e) as H;
      change (IStorage.findOrCreatePrivateConversation s a b e)
        with (DatabaseStorage.findOrCreatePrivateConversation s a b e);
      destruct (DatabaseStorage.findOrCreatePrivateConversation s a b e)
        as [conv st4]
  end.
  destruct H as (_ & _ & _ & _ & _ & _ & Hu).
  cbn [IStorage.createMessage DatabaseStorage_IStorage
       DatabaseStorage.createMessage].
  match goal with
  | |- context [IStorageRest.createConversation ?s ?i ?u ?e] =>
      pose proof (db_createConversation_rows s i u e) as H;
      change (IStorageRest.createConversation s i u e)
        with (DatabaseStorage.createConversation s i u e);
      destruct (DatabaseStorage.createConversation s i u e) as [group st7]
  end.
  destruct H as (rows & _ & _ & _ & _ & Hu7 & _).
  cbn. rewrite Hu7. cbn. rewrite Hu. cbn. now rewrite E.
Qed.

Lemma values_set_not_nil (V : Type) (k : string) (v : V) (m : JsMap.t V) :
  JsMap.values (JsMap.set k v m) <> [].
Proof.
  destruct m as [|[k0 v0] r]; simpl; [discriminate|].
  destruct (String.eqb k k0); discriminate.
Qed.

Lemma mem_seed_twice (bcryptHash : string -> string) (m : MemStorage.State)
    (es es' : nat -> Env) :
  Seed.seedDatabase MemStorage.getAllUsers bcryptHash
    (Seed.seedDatabase MemStorage.getAllUsers bcryptHash m es) es'
  = Seed.seedDatabase MemStorage.getAllUsers bcryptHash m es.
Proof.
  destruct (MemStorage.getAllUsers m) as [|u l] eqn:E.
  - pose proof (mem_seed_users bcryptHash m es E) as Hu. simpl in Hu.
    remember (Seed.seedDatabase MemStorage.getAllUsers bcryptHash m es)
      as seeded.
    unfold Seed.seedDatabase.
    destruct (MemStorage.getAllUsers seeded) as [|u l] eqn:E2;
      [|reflexivity].
    unfold MemStorage.getAllUsers in E2. rewrite Hu in E2.
    now apply values_set_not_nil in E2.
  - assert (Hs : forall es0,
              Seed.seedDatabase MemStorage.getAllUsers bcryptHash m es0 = m)
      by (intros es0; unfold Seed.seedDatabase; now rewrite E).
    now rewrite !Hs.
Qed.

Lemma db_seed_twice (bcryptHash : string -> string)
    (d : DatabaseStorage.State) (es es' : nat -> Env) :
  Seed.seedDatabase DatabaseStorage.getAllUsers bcryptHash
    (Seed.seedDatabase DatabaseStorage.getAllUsers bcryptHash d es) es'
  = Seed.seedDatabase DatabaseStorage.getAllUsers bcryptHash d es.
Proof.
  destruct (DatabaseStorage.getAllUsers d) as [|u l] eqn:E.
  - pose proof (db_seed_users bcryptHash d es E) as Hu. simpl in Hu.
    remember (Seed.seedDatabase DatabaseStorage.getAllUsers bcryptHash d es)
      as seeded.
    unfold Seed.seedDatabase. unfold DatabaseStorage.getAllUsers.
    now rewrite Hu.
  - assert (Hs : forall es0,
              Seed.seedDatabase DatabaseStorage.getAllUsers bcryptHash d es0
              = d)
      by (intros es0; unfold Seed.seedDatabase; now rewrite E).
    now rewrite !Hs.
Qed.

(** X30. Seeding is done once: [seedDatabase] on a store it has already
    seeded, or on any store that holds users, changes nothing.  After it
    has seeded a store without users, each of the demo accounts alice,
    bob and charlie logs in with the password demo123 (the three ids
    drawn being distinct, and [bcrypt.compare] accepting a password
    against its own hash).  In both storage implementations. *)
Theorem seeding_is_done_once
    (bcryptHash : string -> string) (bcryptCompare : string -> string -> bool)
    (generateToken : string -> string)
    (m : MemStorage.State) (d : DatabaseStorage.State) (es es' : nat -> Env)
    (Hbcrypt : bcryptCompare "demo123" (bcryptHash "demo123") = true) :
  (Seed.seedDatabase MemStorage.getAllUsers bcryptHash
     (Seed.seedDatabase MemStorage.getAllUsers bcryptHash m es) es'
   = Seed.seedDatabase MemStorage.getAllUsers bcryptHash m es
   /\ (MemStorage.getAllUsers m = [] ->
       NoDup [uuid (es 0%nat) 0%nat; uuid (es 1%nat) 0%nat;
              uuid (es 2%nat) 0%nat] ->
       forall name, In name ["alice"; "bob"; "charlie"] ->
       exists body,
         Api.login bcryptCompare generateToken
           (Seed.seedDatabase MemStorage.getAllUsers bcryptHash m es)
           (LoginRequest.mk name "demo123")
         = Api.reply 200 body
         /\ AuthResponse.username body = name))
  /\ (Seed.seedDatabase DatabaseStorage.getAllUsers bcryptHash
        (Seed.seedDatabase DatabaseStorage.getAllUsers bcryptHash d es) es'
      = Seed.seedDatabase DatabaseStorage.getAllUsers bcryptHash d es
      /\ (DatabaseStorage.getAllUsers d = [] ->
          NoDup [uuid (es 0%nat) 0%nat; uuid (es 1%nat) 0%nat;
                 uuid (es 2%nat) 0%nat] ->
          forall name, In name ["alice"; "bob"; "charlie"] ->
          exists body,
            Api.login bcryptCompare generateToken
              (Seed.seedDatabase DatabaseStorage.getAllUsers bcryptHash d es)
              (LoginRequest.mk name "demo123")
            = Api.reply 200 body
            /\ AuthResponse.username body = name)).
Proof.
  split; split.
  - apply mem_seed_twice.
  - intros E Hn name Hname.
    pose proof (mem_seed_users bcryptHash m es E) as Hu. simpl in Hu.
    assert (H01 : String.eqb (uuid (es 1%nat) 0%nat) (uuid (es 0%nat) 0%nat)
                  = false).
    { apply String.eqb_neq. intros Heq. inversion Hn as [|? ? H _]; subst.
      apply H. rewrite Heq. now left. }
    assert (H02 : String.eqb (uuid (es 2%nat) 0%nat) (uuid (es 0%nat) 0%nat)
                  = false).
    { apply String.eqb_neq. intros Heq. inversion Hn as [|? ? H _]; subst.
      apply H. rewrite Heq. right. now left. }
    assert (H12 : String.eqb (uuid (es 2%nat) 0%nat) (uuid (es 1%nat) 0%nat)
                  = false).
    { apply String.eqb_neq. intros Heq. inversion Hn as [|? ? _ Hn']; subst.
      inversion Hn' as [|? ? H _]; subst. apply H. rewrite Heq. now left. }
    rewrite H01 in Hu. simpl in Hu. rewrite H02, H12 in Hu.
    unfold Api.login.
    cbn [IStorageRest.getUserByUsername MemStorage_IStorageRest].
    unfold MemStorage.getUserByUsername. rewrite Hu.
    destruct Hname as [<-|[<-|[<-|[]]]]; simpl; rewrite Hbcrypt; simpl;
      eexists; split; reflexivity.
  - apply db_seed_twice.
  - intros E Hn name Hname.
    pose proof (db_seed_users bcryptHash d es E) as Hu. simpl in Hu.
    unfold Api.login.
    cbn [IStorageRest.getUserByUsername DatabaseStorage_IStorageRest].
    unfold DatabaseStorage.getUserByUsername. rewrite Hu.
    destruct Hname as [<-|[<-|[<-|[]]]]; simpl; rewrite Hbcrypt; simpl;
      eexists; split; reflexivity.
Qed.

Lemma seeding_is_done_once_witness :
  let hash := String.append "$2b$" in
  let compare := fun p h => String.eqb h (String.append "$2b$" p) in
  let es := fun k => Scenario.env (Z.of_nat k) (Scenario.uuids "u" k) in
  exists body,
    Api.login compare (String.append "jwt:")
      (Seed.seedDatabase MemStorage.getAllUsers hash MemStorage.empty es)
      (LoginRequest.mk "bob" "demo123")
    = Api.reply 200 body
    /\ AuthResponse.username body = "bob".
Proof.
  intros hash compare es.
  apply (proj2 (proj1 (@seeding_is_done_once hash compare
                         (String.append "jwt:") MemStorage.empty
                         DatabaseStorage.empty es es eq_refl))).
  - reflexivity.
  - repeat constructor; simpl; intuition discriminate.
  - right. now left.
Defined.
